(** * DNS reconciliation scripts: a shallow embedding and its properties

    The Python scripts [update_dns.py], [enforce_standard.py],
    [update_pages_dns.py] and [export_zone_dns_summary.py] talk to a DNS
    provider over HTTP.  The provider is an external collaborator; it is
    modelled here as an in-memory zone (a list of records in provider order)
    with bounded pages, an acceptance policy for mutations and a schedule of
    injected failures.  Every script function is embedded as a function of a
    small state-and-exception monad over that world. *)

From Stdlib Require Import Ascii String DecimalString List ZArith Bool Arith Lia.
Import ListNotations.
Local Open Scope string_scope.
Local Open Scope list_scope.

Set Implicit Arguments.

(* ------------------------------------------------------------------ *)
(** ** Records, payloads and requests *)

(** A DNS record as returned by the provider (a JSON object in the source;
    keys that may be missing are options, read with [dict.get]). *)
Record DnsRecord := mkRecord {
  r_id : string;
  r_type : string;
  r_name : string;
  r_content : string;
  r_ttl : Z;
  r_priority : option Z;
  r_proxied : option bool;
  r_comment : option string
}.

(** The JSON body of a create or update request. *)
Record Payload := mkPayload {
  p_type : string;
  p_name : string;
  p_content : string;
  p_ttl : Z;
  p_priority : option Z;
  p_proxied : option bool;
  p_comment : option string
}.

(** Query parameters of a record listing. *)
Record Params := mkParams {
  q_type : option string;
  q_name : option string;
  q_per_page : option nat;
  q_page : option nat
}.

Record ZoneInfo := mkZone { z_name : string; z_id : string }.

Inductive Request :=
| GET_zones (name : string)
| GET_zone_list (per_page page : nat)
| GET_dns_records (zone_id : string) (q : Params)
| POST_dns_record (zone_id : string) (p : Payload)
| PATCH_dns_record (zone_id id : string) (p : Payload)
| PUT_dns_record (zone_id id : string) (p : Payload)
| DELETE_dns_record (zone_id id : string).

Definition is_mutating (rq : Request) : bool :=
  match rq with
  | GET_zones _ | GET_zone_list _ _ | GET_dns_records _ _ => false
  | _ => true
  end.

(** What comes back from [requests.get/post/...]: either the call raises a
    transport exception, or there is a response with a status code and a
    JSON body carrying [success], [result] and [result_info.total_pages]. *)
Record Response := mkResponse {
  status_code : Z;
  success : bool;
  res_zones : list ZoneInfo;
  res_records : list DnsRecord;
  res_total_pages : option nat
}.

Inductive Reply :=
| Transport_error
| Http (r : Response).

(** [r.ok] of the requests library. *)
Definition ok (r : Response) : bool := (status_code r <? 400)%Z.

Inductive Fault :=
| Fault_transport
| Fault_http (status : Z).

(** Lines written to standard output, one constructor per [print] of the
    scripts, carrying the interpolated values. *)
Inductive Line :=
| L_enforce_header (zone : string) (dry_run : bool)
| L_rule
| L_ok (ty name : string)
| L_dry_run_would_create (ty name content : string)
| L_creating (ty name content : string)
| L_done
| L_failed
| L_all_in_place
| L_changes_needed (n : nat)
| L_changes_applied (n : nat)
| L_would_delete (what : string) (ids : list string)
| L_deleted (what : string) (ids : list string)
| L_would_create (ty name content : string)
| L_created (ty : string) (r : option DnsRecord)
| L_cname_already (name target : string) (proxied : bool)
| L_cname_would_update (name target : string) (proxied : bool)
| L_cname_updated (r : option DnsRecord)
| L_cname_would_create (name target : string) (proxied : bool)
| L_cname_created (r : option DnsRecord)
| L_zones_header
| L_zone (name id : string)
| L_message (msg : string)
| L_stderr (msg : string)
| L_note.

(* ------------------------------------------------------------------ *)
(** ** The provider *)

Record World := mkWorld {
  w_zone_name : string;
  w_zone_id : string;
  w_recs : list DnsRecord;
  w_next : nat;
  w_page_size : nat;
  w_accept : list DnsRecord -> Request -> bool;
  w_faults : list (option Fault);
  w_calls : list Request;
  w_stdout : list Line
}.

Definition set_recs (w : World) (rs : list DnsRecord) (n : nat) : World :=
  mkWorld (w_zone_name w) (w_zone_id w) rs n (w_page_size w) (w_accept w)
          (w_faults w) (w_calls w) (w_stdout w).

Definition log_call (rq : Request) (w : World) : World :=
  mkWorld (w_zone_name w) (w_zone_id w) (w_recs w) (w_next w) (w_page_size w)
          (w_accept w) (tl (w_faults w)) (w_calls w ++ [rq]) (w_stdout w).

Definition put_line (l : Line) (w : World) : World :=
  mkWorld (w_zone_name w) (w_zone_id w) (w_recs w) (w_next w) (w_page_size w)
          (w_accept w) (w_faults w) (w_calls w) (w_stdout w ++ [l]).

Definition opt_eqb (o : option string) (s : string) : bool :=
  match o with
  | None => true
  | Some t => String.eqb s t
  end.

Definition matches_params (q : Params) (r : DnsRecord) : bool :=
  opt_eqb (q_type q) (r_type r) && opt_eqb (q_name q) (r_name r).

(** Page size in force for a listing: the requested [per_page], bounded by
    the provider's own page size. *)
Definition page_len (w : World) (q : Params) : nat :=
  match q_per_page q with
  | Some k => Nat.min k (w_page_size w)
  | None => w_page_size w
  end.

Definition page_no (q : Params) : nat :=
  match q_page q with
  | Some k => k
  | None => 1
  end.

Definition page_slice (A : Type) (len page : nat) (l : list A) : list A :=
  firstn len (skipn ((page - 1) * len) l).

(** Number of pages, ceil(n / len). *)
Definition pages_of (len n : nat) : nat := (n + len - 1) / len.

Fixpoint nat_digits (fuel n : nat) (acc : string) : string :=
  match fuel with
  | O => acc
  | S fuel' =>
      let d := String (Ascii.ascii_of_nat (48 + n mod 10)) acc in
      if Nat.eqb (n / 10) 0 then d else nat_digits fuel' (n / 10) d
  end.

(** Identifier given to the next created record. *)
Definition fresh_id (w : World) : string :=
  "rec" ++ nat_digits (S (w_next w)) (w_next w) "".

Definition record_of_payload (id : string) (p : Payload) : DnsRecord :=
  mkRecord id (p_type p) (p_name p) (p_content p) (p_ttl p)
           (p_priority p) (p_proxied p) (p_comment p).

Definition or_else (A : Type) (o : option A) (d : option A) : option A :=
  match o with
  | Some _ => o
  | None => d
  end.

(** PATCH overwrites the fields present in the body and keeps the others. *)
Definition patch_record (p : Payload) (r : DnsRecord) : DnsRecord :=
  mkRecord (r_id r) (p_type p) (p_name p) (p_content p) (p_ttl p)
           (or_else (p_priority p) (r_priority r))
           (or_else (p_proxied p) (r_proxied r))
           (or_else (p_comment p) (r_comment r)).

Definition has_id (id : string) (r : DnsRecord) : bool := String.eqb (r_id r) id.

Definition update_by_id (id : string) (f : DnsRecord -> DnsRecord)
  (rs : list DnsRecord) : list DnsRecord :=
  map (fun r => if has_id id r then f r else r) rs.

Definition remove_by_id (id : string) (rs : list DnsRecord) : list DnsRecord :=
  filter (fun r => negb (has_id id r)) rs.

Definition failure (status : Z) : Reply :=
  Http (mkResponse status false [] [] None).

Definition answer (rs : list DnsRecord) : Reply :=
  Http (mkResponse 200 true [] rs None).

Definition reply_of_fault (f : Fault) : Reply :=
  match f with
  | Fault_transport => Transport_error
  | Fault_http status => failure status
  end.

(** The provider's reaction to a request when no failure is injected. *)
Definition handle (rq : Request) (w : World) : Reply * World :=
  match rq with
  | GET_zones name =>
      (Http (mkResponse 200 true
               (if String.eqb name (w_zone_name w)
                then [mkZone (w_zone_name w) (w_zone_id w)] else [])
               [] (Some 1)), w)
  | GET_zone_list per_page page =>
      (Http (mkResponse 200 true
               (page_slice per_page page [mkZone (w_zone_name w) (w_zone_id w)])
               [] (Some (pages_of per_page 1))), w)
  | GET_dns_records zid q =>
      if String.eqb zid (w_zone_id w) then
        let sel := filter (matches_params q) (w_recs w) in
        (Http (mkResponse 200 true []
                 (page_slice (page_len w q) (page_no q) sel)
                 (Some (pages_of (page_len w q) (length sel)))), w)
      else (failure 404, w)
  | POST_dns_record zid p =>
      if String.eqb zid (w_zone_id w) then
        if w_accept w (w_recs w) rq then
          let r := record_of_payload (fresh_id w) p in
          (answer [r], set_recs w (w_recs w ++ [r]) (S (w_next w)))
        else (failure 400, w)
      else (failure 404, w)
  | PATCH_dns_record zid id p =>
      if String.eqb zid (w_zone_id w) && existsb (has_id id) (w_recs w) then
        if w_accept w (w_recs w) rq then
          let rs := update_by_id id (patch_record p) (w_recs w) in
          (answer (filter (has_id id) rs), set_recs w rs (w_next w))
        else (failure 400, w)
      else (failure 404, w)
  | PUT_dns_record zid id p =>
      if String.eqb zid (w_zone_id w) && existsb (has_id id) (w_recs w) then
        if w_accept w (w_recs w) rq then
          let rs := update_by_id id (fun _ => record_of_payload id p) (w_recs w) in
          (answer (filter (has_id id) rs), set_recs w rs (w_next w))
        else (failure 400, w)
      else (failure 404, w)
  | DELETE_dns_record zid id =>
      if String.eqb zid (w_zone_id w) && existsb (has_id id) (w_recs w) then
        if w_accept w (w_recs w) rq then
          (answer [], set_recs w (remove_by_id id (w_recs w)) (w_next w))
        else (failure 400, w)
      else (failure 404, w)
  end.

(** One HTTP exchange: the request is logged, the next entry of the failure
    schedule is consumed, and the provider answers. *)
Definition serve (rq : Request) (w : World) : Reply * World :=
  match w_faults w with
  | Some f :: _ => (reply_of_fault f, log_call rq w)
  | _ => handle rq (log_call rq w)
  end.

(* ------------------------------------------------------------------ *)
(** ** Exceptions and the script monad *)

Inductive ErrMsg :=
| Msg_failed (verb : string) (status : Z)
| Msg_returned_error (verb : string)
| Msg_zone_not_found (domain : string).

Inductive Exn :=
| CloudflareError (m : ErrMsg)
| RequestException
| SystemExit (code : Z)
| OutOfFuel.

Inductive Result (A : Type) :=
| Ok (a : A)
| Raise (e : Exn).
Arguments Ok {A} a.
Arguments Raise {A} e.

Definition M (A : Type) : Type := World -> Result A * World.

Definition ret (A : Type) (a : A) : M A := fun w => (Ok a, w).
Definition raise (A : Type) (e : Exn) : M A := fun w => (Raise e, w).
Arguments raise {A} e.
Definition bind (A B : Type) (m : M A) (k : A -> M B) : M B :=
  fun w =>
    match m w with
    | (Ok a, w1) => k a w1
    | (Raise e, w1) => (Raise e, w1)
    end.
Definition print (l : Line) : M unit := fun w => (Ok tt, put_line l w).
Definition request (rq : Request) : M Reply :=
  fun w => let (rp, w1) := serve rq w in (Ok rp, w1).

Declare Scope script_scope.
Delimit Scope script_scope with script.
Notation "x <- m ;; k" := (bind m (fun x => k))
  (at level 61, m at next level, right associativity) : script_scope.
Notation "m ;;; k" := (bind m (fun _ => k))
  (at level 61, right associativity) : script_scope.
Local Open Scope script_scope.

(** Mutating requests found in a call log. *)
Definition mutations (calls : list Request) : list Request :=
  filter is_mutating calls.

(** The credential ([token]) is passed unchanged to every call of the
    scripts and never inspected; it is left out of the embedding, and a
    rejected credential is one of the injected failures. *)

(* ------------------------------------------------------------------ *)
(** ** enforce_standard.py *)

Module EnforceStandard.

Definition api_get (rq : Request) : M Response :=
  rp <- request rq ;;
  match rp with
  | Transport_error => raise RequestException
  | Http r =>
      if negb (ok r) then raise (CloudflareError (Msg_failed "GET" (status_code r)))
      else if negb (success r) then raise (CloudflareError (Msg_returned_error "GET"))
      else ret r
  end.

Definition api_post (rq : Request) : M Response :=
  rp <- request rq ;;
  match rp with
  | Transport_error => raise RequestException
  | Http r =>
      if negb (ok r) then raise (CloudflareError (Msg_failed "POST" (status_code r)))
      else if negb (success r) then raise (CloudflareError (Msg_returned_error "POST"))
      else ret r
  end.

Definition get_zone_id (domain : string) : M string :=
  data <- api_get (GET_zones domain) ;;
  match res_zones data with
  | [] => raise (CloudflareError (Msg_zone_not_found domain))
  | z :: _ => ret (z_id z)
  end.

(** [result_info.get("total_pages", 1)] *)
Definition total_pages (data : Response) : nat :=
  match res_total_pages data with
  | Some n => n
  | None => 1
  end.

(** The [while True] loop of [get_all_records]; [fuel] bounds the number of
    pages requested. *)
Fixpoint get_all_records_loop (fuel : nat) (zone_id : string) (page : nat)
  (all_records : list DnsRecord) : M (list DnsRecord) :=
  match fuel with
  | O => raise OutOfFuel
  | S fuel' =>
      data <- api_get (GET_dns_records zone_id
                         (mkParams None None (Some 100) (Some page))) ;;
      let all_records := all_records ++ res_records data in
      if Nat.leb (total_pages data) page then ret all_records
      else get_all_records_loop fuel' zone_id (S page) all_records
  end.

Definition get_all_records (fuel : nat) (zone_id : string) : M (list DnsRecord) :=
  get_all_records_loop fuel zone_id 1 [].

(** An entry of the standard set: [priority] and [proxied] may be absent. *)
Record RecordDef := mkDef {
  d_type : string;
  d_name : string;
  d_content : string;
  d_priority : option Z;
  d_proxied : option bool
}.

Definition mem_string (s : string) (l : list string) : bool :=
  existsb (String.eqb s) l.

Definition rec_name_of (zone : string) (record_def : RecordDef) : string :=
  if String.eqb (d_name record_def) "@" then zone
  else d_name record_def ++ "." ++ zone.

(** [record_def.get("priority", 10)] *)
Definition priority_of (record_def : RecordDef) : Z :=
  match d_priority record_def with
  | Some p => p
  | None => 10%Z
  end.

Definition priority_is (r : DnsRecord) (p : Z) : bool :=
  match r_priority r with
  | Some q => Z.eqb q p
  | None => false
  end.

Definition matches_of (zone : string) (record_def : RecordDef)
  (all_records : list DnsRecord) : list DnsRecord :=
  filter (fun r => String.eqb (r_type r) (d_type record_def)
                   && String.eqb (r_name r) (rec_name_of zone record_def))
         all_records.

(** The test of [ensure_record] that decides "already exists". *)
Definition already_exists (zone : string) (record_def : RecordDef)
  (all_records : list DnsRecord) : bool :=
  let rec_type := d_type record_def in
  let rec_content := d_content record_def in
  let matches := matches_of zone record_def all_records in
  if mem_string rec_type ["MX"; "TXT"; "A"] then
    let exact_match := filter (fun r => String.eqb (r_content r) rec_content) matches in
    let exact_match :=
      if String.eqb rec_type "MX"
      then filter (fun r => priority_is r (priority_of record_def)) exact_match
      else exact_match in
    match exact_match with
    | [] => false
    | _ :: _ => true
    end
  else
    match matches with
    | [] => false
    | m :: _ => String.eqb (r_content m) rec_content
    end.

Definition payload_of (zone : string) (record_def : RecordDef) : Payload :=
  let rec_type := d_type record_def in
  mkPayload rec_type (rec_name_of zone record_def) (d_content record_def) 1
    (if String.eqb rec_type "MX" then Some (priority_of record_def) else None)
    (if mem_string rec_type ["A"; "CNAME"]
     then Some (match d_proxied record_def with Some b => b | None => true end)
     else None)
    None.

(** [try: api_post(...) except CloudflareError: print(Failed); raise] *)
Definition post_or_report (rq : Request) : M bool :=
  fun w =>
    match api_post rq w with
    | (Ok _, w1) => (Ok true, put_line L_done w1)
    | (Raise (CloudflareError m), w1) => (Raise (CloudflareError m), put_line L_failed w1)
    | (Raise e, w1) => (Raise e, w1)
    end.

Definition ensure_record (zone_id zone : string) (record_def : RecordDef)
  (all_records : list DnsRecord) (dry_run : bool) : M bool :=
  let rec_type := d_type record_def in
  let rec_content := d_content record_def in
  if already_exists zone record_def all_records then
    print (L_ok rec_type (d_name record_def)) ;;; ret false
  else if dry_run then
    print (L_dry_run_would_create rec_type (d_name record_def) rec_content) ;;;
    ret true
  else
    print (L_creating rec_type (d_name record_def) rec_content) ;;;
    post_or_report (POST_dns_record zone_id (payload_of zone record_def)).

Definition standards (zone : string) : list RecordDef :=
  [ mkDef "MX" "@" "freeforcharity-org.mail.protection.outlook.com" (Some 0%Z) None;
    mkDef "TXT" "@" "v=spf1 include:spf.protection.outlook.com -all" None None;
    mkDef "TXT" "_dmarc" "v=DMARC1; p=none; rua=mailto:dmarc-rua@freeforcharity.org" None None;
    mkDef "A" "@" "185.199.108.153" None (Some false);
    mkDef "A" "@" "185.199.109.153" None (Some false);
    mkDef "A" "@" "185.199.110.153" None (Some false);
    mkDef "A" "@" "185.199.111.153" None (Some false);
    mkDef "CNAME" "www" zone None (Some false) ].

(** The [for std in standards] loop, counting the records that needed a
    change. *)
Fixpoint ensure_all (zone_id zone : string) (stds : list RecordDef)
  (all_records : list DnsRecord) (dry_run : bool) (changes_needed : nat) : M nat :=
  match stds with
  | [] => ret changes_needed
  | std :: rest =>
      changed <- ensure_record zone_id zone std all_records dry_run ;;
      ensure_all zone_id zone rest all_records dry_run
        (if changed then S changes_needed else changes_needed)
  end.

(** Returns the final [changes_needed] (the source prints it). *)
Definition enforce_standard (fuel : nat) (zone : string) (dry_run : bool) : M nat :=
  print (L_enforce_header zone dry_run) ;;;
  print L_rule ;;;
  zone_id <- get_zone_id zone ;;
  all_records <- get_all_records fuel zone_id ;;
  changes_needed <- ensure_all zone_id zone (standards zone) all_records dry_run 0 ;;
  print L_rule ;;;
  (if Nat.eqb changes_needed 0 then print L_all_in_place
   else if dry_run then print (L_changes_needed changes_needed)
   else print (L_changes_applied changes_needed)) ;;;
  ret changes_needed.

(** *** Command line and [main] *)

(** Python truth value of an optional string: neither [None] nor empty. *)
Definition truthy (o : option string) : bool :=
  match o with
  | Some s => negb (String.eqb s "")
  | None => false
  end.

Definition text (o : option string) : string :=
  match o with
  | Some s => s
  | None => ""
  end.

Section Main.

(** [str.strip] *)
Variable strip : string -> string.

Definition retrieve_token (env_dns_only arg_token : option string) : M string :=
  if truthy arg_token then ret (strip (text arg_token))
  else if truthy env_dns_only then ret (strip (text env_dns_only))
  else
    print (L_stderr "Error: Cloudflare API token required") ;;;
    print (L_stderr "Set CLOUDFLARE_API_KEY_DNS_ONLY environment variable or use --token argument") ;;;
    raise (SystemExit 2).

(** [main] with the values of [--zone], [--token] and [--dry-run]. *)
Definition main (fuel : nat) (env_dns_only : option string) (zone : string)
  (token : option string) (dry_run : bool) : M unit :=
  _ <- retrieve_token env_dns_only token ;;
  fun w =>
    match enforce_standard fuel zone dry_run w with
    | (Ok _, w1) => (Ok tt, w1)
    | (Raise (CloudflareError _), w1) =>
        (Raise (SystemExit 1), put_line (L_stderr "Cloudflare API error") w1)
    | (Raise RequestException, w1) =>
        (Raise (SystemExit 1), put_line (L_stderr "Network error") w1)
    | (Raise e, w1) => (Raise e, w1)
    end.

End Main.

End EnforceStandard.

(* ------------------------------------------------------------------ *)
(** ** update_dns.py *)

Module UpdateDns.

Definition check (verb : string) (rp : Reply) : M Response :=
  match rp with
  | Transport_error => raise RequestException
  | Http r =>
      if negb (ok r) then raise (CloudflareError (Msg_failed verb (status_code r)))
      else if negb (success r) then raise (CloudflareError (Msg_returned_error verb))
      else ret r
  end.

Definition api_get (rq : Request) : M Response := rp <- request rq ;; check "GET" rp.
Definition api_patch (rq : Request) : M Response := rp <- request rq ;; check "PATCH" rp.
Definition api_post (rq : Request) : M Response := rp <- request rq ;; check "POST" rp.
Definition api_delete (rq : Request) : M Response := rp <- request rq ;; check "DELETE" rp.

Definition get_zone_id (domain : string) : M string :=
  data <- api_get (GET_zones domain) ;;
  match res_zones data with
  | [] => raise (CloudflareError (Msg_zone_not_found domain))
  | z :: _ => ret (z_id z)
  end.

(** A single request with [type] and [name] filters: no [page] or
    [per_page] parameter is sent and no further page is asked for. *)
Definition get_dns_records (zone_id name record_type : string) : M (list DnsRecord) :=
  data <- api_get (GET_dns_records zone_id
                     (mkParams (Some record_type) (Some name) None None)) ;;
  ret (res_records data).

(** One entry of the ["details"] list of a result. *)
Inductive Detail :=
| D_unchanged (id old_content : string) (proxied : option bool)
| D_dry_run (id : string) (proposed : Payload) (old_content : string)
    (old_proxied : option bool)
| D_updated (id : string) (new_content : option string) (old_content : string)
    (new_proxied old_proxied : option bool).

(** The dictionaries returned by the operations, one constructor per shape. *)
Inductive Outcome :=
| R_would_delete (record_id : string)
| R_deleted (record_id : string)
| R_processed (count : nat) (details : list Detail)
| R_would_create (proposed : Payload)
| R_created (result : option DnsRecord)
| R_exact (id : string).

Definition delete_dns_record (zone_id record_id : string) (dry_run : bool) : M Outcome :=
  if dry_run then ret (R_would_delete record_id)
  else
    _ <- api_delete (DELETE_dns_record zone_id record_id) ;;
    ret (R_deleted record_id).

Definition proxied_is (r : DnsRecord) (b : bool) : bool :=
  match r_proxied r with
  | Some c => Bool.eqb c b
  | None => false
  end.

(** [not needs_ip_change and not needs_proxy_change] (for CNAME:
    [needs_target_change]), the test that leaves a record as it is. *)
Definition unchanged (payload_template : Payload) (rec : DnsRecord) : bool :=
  let needs_content_change :=
    negb (String.eqb (r_content rec) (p_content payload_template)) in
  let needs_proxy_change :=
    negb (match p_proxied payload_template with
          | Some b => proxied_is rec b
          | None => false
          end) in
  negb needs_content_change && negb needs_proxy_change.

(** The [for rec in existing_records] loop shared by the A/AAAA and CNAME
    operations (their bodies differ only in the names of result keys). *)
Fixpoint process_existing (zone_id : string) (payload_template : Payload)
  (dry_run : bool) (existing : list DnsRecord) (results : list Detail)
  : M (list Detail) :=
  match existing with
  | [] => ret results
  | rec :: rest =>
      if unchanged payload_template rec then
        process_existing zone_id payload_template dry_run rest
          (results ++ [D_unchanged (r_id rec) (r_content rec) (r_proxied rec)])
      else if dry_run then
        process_existing zone_id payload_template dry_run rest
          (results ++ [D_dry_run (r_id rec) payload_template (r_content rec) (r_proxied rec)])
      else
        updated <- api_patch (PATCH_dns_record zone_id (r_id rec) payload_template) ;;
        let updated_rec := hd_error (res_records updated) in
        process_existing zone_id payload_template dry_run rest
          (results ++ [D_updated (r_id rec) (option_map r_content updated_rec)
                         (r_content rec)
                         (match updated_rec with Some u => r_proxied u | None => None end)
                         (r_proxied rec)])
  end.

Definition update_or_create (zone_id : string) (payload_template : Payload)
  (dry_run : bool) : M Outcome :=
  existing_records <- get_dns_records zone_id (p_name payload_template)
                        (p_type payload_template) ;;
  match existing_records with
  | _ :: _ =>
      results <- process_existing zone_id payload_template dry_run existing_records [] ;;
      ret (R_processed (length existing_records) results)
  | [] =>
      if dry_run then ret (R_would_create payload_template)
      else
        created <- api_post (POST_dns_record zone_id payload_template) ;;
        ret (R_created (hd_error (res_records created)))
  end.

Definition update_or_create_cname (zone_id name target : string)
  (dry_run proxied : bool) : M Outcome :=
  update_or_create zone_id
    (mkPayload "CNAME" name target 120 None (Some proxied) None) dry_run.

Definition update_or_create_records (zone_id name new_ip : string)
  (dry_run proxied : bool) (record_type : string) : M Outcome :=
  update_or_create zone_id
    (mkPayload record_type name new_ip 120 None (Some proxied) None) dry_run.

Definition priority_is (r : DnsRecord) (p : Z) : bool :=
  match r_priority r with
  | Some q => Z.eqb q p
  | None => false
  end.

(** The search for an exact match: the first record with equal content
    and, for MX, equal priority. *)
Definition find_exact (record_type content : string) (priority : Z)
  (existing_records : list DnsRecord) : option DnsRecord :=
  find (fun rec => String.eqb (r_content rec) content
                   && (negb (String.eqb record_type "MX") || priority_is rec priority))
       existing_records.

Definition update_or_create_mx_txt (zone_id name content : string)
  (dry_run : bool) (record_type : string) (priority : Z) : M Outcome :=
  existing_records <- get_dns_records zone_id name record_type ;;
  let payload_template :=
    mkPayload record_type name content 1
      (if String.eqb record_type "MX" then Some priority else None) None None in
  match find_exact record_type content priority existing_records with
  | Some exact_match => ret (R_exact (r_id exact_match))
  | None =>
      if dry_run then ret (R_would_create payload_template)
      else
        created <- api_post (POST_dns_record zone_id payload_template) ;;
        ret (R_created (hd_error (res_records created)))
  end.

(** *** Command line and [main] *)

(** [--type] is restricted by the parser to these five choices. *)
Inductive RType := A | AAAA | CNAME | MX | TXT.

Definition type_name (t : RType) : string :=
  match t with
  | A => "A" | AAAA => "AAAA" | CNAME => "CNAME" | MX => "MX" | TXT => "TXT"
  end.

Record Args := mkArgs {
  a_zone : string;
  a_name : option string;
  a_type : option RType;
  a_ip : option string;
  a_target : option string;
  a_content : option string;
  a_priority : Z;
  a_record_id : option string;
  a_search : bool;
  a_delete : bool;
  a_token : option string;
  a_dry_run : bool;
  a_proxied : bool;
  a_no_proxy : bool
}.

Definition with_dry_run (b : bool) (a : Args) : Args :=
  mkArgs (a_zone a) (a_name a) (a_type a) (a_ip a) (a_target a) (a_content a)
         (a_priority a) (a_record_id a) (a_search a) (a_delete a) (a_token a)
         b (a_proxied a) (a_no_proxy a).

(** What [retrieve_token] reads besides the arguments. *)
Record Env := mkEnv {
  CLOUDFLARE_API_KEY_DNS_ONLY : option string;
  CLOUDFLARE_API_TOKEN : option string;
  getpass : string
}.

(** Python truth value of an optional string: neither [None] nor empty. *)
Definition truthy (o : option string) : bool :=
  match o with
  | Some s => negb (String.eqb s "")
  | None => false
  end.

Definition text (o : option string) : string :=
  match o with
  | Some s => s
  | None => ""
  end.

Definition is_ip_type (t : option RType) : bool :=
  match t with
  | Some A | Some AAAA => true
  | _ => false
  end.

Definition is_mx_txt (t : option RType) : bool :=
  match t with
  | Some MX | Some TXT => true
  | _ => false
  end.

Definition is_cname (t : option RType) : bool :=
  match t with
  | Some CNAME => true
  | _ => false
  end.

Section Main.

(** Library functions the script calls: [str.strip] and the parsers of the
    [ipaddress] module (true when the literal is accepted). *)
Variable strip : string -> string.
Variable IPv4Address : string -> bool.
Variable IPv6Address : string -> bool.

Definition retrieve_token (env : Env) (arg_token : option string) : string :=
  if truthy arg_token then strip (text arg_token)
  else
    let env_token :=
      if truthy (CLOUDFLARE_API_KEY_DNS_ONLY env) then CLOUDFLARE_API_KEY_DNS_ONLY env
      else CLOUDFLARE_API_TOKEN env in
    if truthy env_token then strip (text env_token)
    else strip (getpass env).

(** [SystemExit] with a message ends the process with status 1. *)
Definition validate_ip (ip : string) (record_type : RType) : M unit :=
  match record_type with
  | A => if IPv4Address ip then ret tt else raise (SystemExit 1)
  | AAAA => if IPv6Address ip then ret tt else raise (SystemExit 1)
  | _ => ret tt
  end.

Definition exit2 (msg : string) : M unit :=
  print (L_stderr msg) ;;; raise (SystemExit 2).

(** The argument checks at the head of [main]. *)
Definition validate_args (args : Args) : M unit :=
  if a_delete args then
    if negb (truthy (a_record_id args)) then exit2 "--record-id required for deletion"
    else ret tt
  else if a_search args then
    if negb (truthy (a_name args)) || match a_type args with None => true | _ => false end
    then exit2 "--name and --type required for search"
    else ret tt
  else
    match a_type args with
    | None => exit2 "--name and --type required for update/create"
    | Some ty =>
        if negb (truthy (a_name args)) then exit2 "--name and --type required for update/create"
        else if is_ip_type (a_type args) && negb (truthy (a_ip args))
        then exit2 ("--ip required for " ++ type_name ty ++ " records")
        else if is_cname (a_type args) && negb (truthy (a_target args))
        then exit2 "--target required for CNAME records"
        else if is_mx_txt (a_type args) && negb (truthy (a_content args))
        then exit2 ("--content required for " ++ type_name ty ++ " records")
        else if is_ip_type (a_type args) then validate_ip (text (a_ip args)) ty
        else ret tt
    end.

Definition full_name_of (args : Args) : option string :=
  match a_name args with
  | Some "@" => Some (a_zone args)
  | Some n => if String.eqb n "" then None else Some (n ++ "." ++ a_zone args)%string
  | None => None
  end.

(** The body of the [try] block; the result dictionary is returned (the
    source prints its fields). *)
Definition main_body (args : Args) (proxied : bool) : M (option Outcome) :=
  zone_id <- get_zone_id (a_zone args) ;;
  let full_name := text (full_name_of args) in
  if a_delete args then
    result <- delete_dns_record zone_id (text (a_record_id args)) (a_dry_run args) ;;
    ret (Some result)
  else if a_search args then
    _ <- get_dns_records zone_id full_name
           (match a_type args with Some t => type_name t | None => "" end) ;;
    ret None
  else
    match a_type args with
    | Some A | Some AAAA =>
        result <- update_or_create_records zone_id full_name (text (a_ip args))
                    (a_dry_run args) proxied
                    (match a_type args with Some t => type_name t | None => "" end) ;;
        ret (Some result)
    | Some CNAME =>
        result <- update_or_create_cname zone_id full_name (text (a_target args))
                    (a_dry_run args) proxied ;;
        ret (Some result)
    | Some MX =>
        result <- update_or_create_mx_txt zone_id full_name (text (a_content args))
                    (a_dry_run args) "MX" (a_priority args) ;;
        ret (Some result)
    | Some TXT =>
        result <- update_or_create_mx_txt zone_id full_name (text (a_content args))
                    (a_dry_run args) "TXT" (a_priority args) ;;
        ret (Some result)
    | None => ret None
    end.

(** [except CloudflareError / requests.RequestException: ... sys.exit(1)] *)
Definition exit1_on_api_error (A : Type) (m : M A) : M A :=
  fun w =>
    match m w with
    | (Raise (CloudflareError e), w1) =>
        (Raise (SystemExit 1), put_line (L_stderr "Cloudflare API error") w1)
    | (Raise RequestException, w1) =>
        (Raise (SystemExit 1), put_line (L_stderr "Network error") w1)
    | other => other
    end.

Definition main (env : Env) (args : Args) : M (option Outcome) :=
  validate_args args ;;;
  (if a_no_proxy args && a_proxied args
   then exit2 "--no-proxy and --proxied are mutually exclusive" else ret tt) ;;;
  let proxied := a_proxied args && negb (a_no_proxy args) in
  let token := retrieve_token env (a_token args) in
  (if String.eqb token "" then exit2 "Cloudflare API token required" else ret tt) ;;;
  exit1_on_api_error (main_body args proxied).

End Main.

End UpdateDns.

(* ------------------------------------------------------------------ *)
(** ** update_pages_dns.py *)

Module UpdatePagesDns.

(** [r.raise_for_status()] raises [requests.HTTPError], a
    [RequestException], before the [success] flag is looked at. *)
Definition api_get (rq : Request) : M Response :=
  rp <- request rq ;;
  match rp with
  | Transport_error => raise RequestException
  | Http r =>
      if negb (ok r) then raise RequestException
      else if negb (success r) then raise (CloudflareError (Msg_returned_error "GET"))
      else ret r
  end.

Definition check (verb : string) (rp : Reply) : M Response :=
  match rp with
  | Transport_error => raise RequestException
  | Http r =>
      if negb (ok r) then raise (CloudflareError (Msg_failed verb (status_code r)))
      else if negb (success r) then raise (CloudflareError (Msg_returned_error verb))
      else ret r
  end.

Definition api_post (rq : Request) : M Response := rp <- request rq ;; check "POST" rp.
Definition api_put (rq : Request) : M Response := rp <- request rq ;; check "PUT" rp.

Definition get_zone_id (domain : string) : M string :=
  data <- api_get (GET_zones domain) ;;
  match res_zones data with
  | [] => raise (CloudflareError (Msg_zone_not_found domain))
  | z :: _ => ret (z_id z)
  end.

Definition get_dns_records (zone_id : string) (name : option string)
  (record_type : option string) : M (list DnsRecord) :=
  data <- api_get (GET_dns_records zone_id (mkParams record_type name None None)) ;;
  ret (res_records data).

Fixpoint delete_records (zone_id : string) (record_ids : list string) : M unit :=
  match record_ids with
  | [] => ret tt
  | rec_id :: rest =>
      rp <- request (DELETE_dns_record zone_id rec_id) ;;
      match rp with
      | Transport_error => raise RequestException
      | Http r =>
          if negb (ok r) || negb (success r)
          then raise (CloudflareError (Msg_failed "DELETE" (status_code r)))
          else delete_records zone_id rest
      end
  end.

(** Both creators return the message that [main] prints. *)
Definition create_a_record (zone_id name ip : string) (ttl : Z) (proxied : bool)
  (comment : option string) : M Line :=
  created <- api_post (POST_dns_record zone_id
                         (mkPayload "A" name ip ttl None (Some proxied) comment)) ;;
  ret (L_created "A" (hd_error (res_records created))).

Definition create_aaaa_record (zone_id name ip6 : string) (ttl : Z) (proxied : bool)
  (comment : option string) : M Line :=
  created <- api_post (POST_dns_record zone_id
                         (mkPayload "AAAA" name ip6 ttl None (Some proxied) comment)) ;;
  ret (L_created "AAAA" (hd_error (res_records created))).

Definition proxied_is (r : DnsRecord) (b : bool) : bool :=
  match r_proxied r with
  | Some c => Bool.eqb c b
  | None => false
  end.

Definition upsert_cname (zone_id name target : string) (proxied : bool) (ttl : Z)
  (dry_run : bool) : M Line :=
  existing <- get_dns_records zone_id (Some name) (Some "CNAME") ;;
  let payload := mkPayload "CNAME" name target ttl None (Some proxied) None in
  match existing with
  | current :: _ =>
      let rec_id := r_id current in
      if String.eqb (r_content current) target && proxied_is current proxied
         && (Z.eqb (r_ttl current) ttl || Z.eqb (r_ttl current) 1)
      then ret (L_cname_already name target proxied)
      else if dry_run then ret (L_cname_would_update name target proxied)
      else
        updated <- api_put (PUT_dns_record zone_id rec_id payload) ;;
        ret (L_cname_updated (hd_error (res_records updated)))
  | [] =>
      if dry_run then ret (L_cname_would_create name target proxied)
      else
        created <- api_post (POST_dns_record zone_id payload) ;;
        ret (L_cname_created (hd_error (res_records created)))
  end.

(** *** [main] *)

Record Args := mkArgs {
  a_domain : string;
  a_pages_host : option string;
  a_token : option string;
  a_dry_run : bool;
  a_replace_apex : bool;
  a_purge_other_cnames : bool;
  a_set_github_a : bool;
  a_set_github_aaaa : bool;
  a_purge_a_and_cname : bool;
  a_set_apex_cname : bool;
  a_list_zones : bool;
  a_set_apex_a : option string;
  a_clear_apex_aaaa : bool;
  a_set_www_cname : option string
}.

Definition truthy (o : option string) : bool :=
  match o with
  | Some s => negb (String.eqb s "")
  | None => false
  end.

Definition text (o : option string) : string :=
  match o with
  | Some s => s
  | None => ""
  end.

Definition ids_of (rs : list DnsRecord) : list string := map r_id rs.

(** The recurring shape
    [if ids: if dry_run: print(...) else: delete_records(...); print(...)]. *)
Definition delete_or_report (dry_run : bool) (zone_id what : string)
  (ids : list string) : M unit :=
  match ids with
  | [] => ret tt
  | _ :: _ =>
      if dry_run then print (L_would_delete what ids)
      else delete_records zone_id ids ;;; print (L_deleted what ids)
  end.

(** [info.get("total_pages") or 1] *)
Definition total_pages_or_1 (data : Response) : nat :=
  match res_total_pages data with
  | Some (S n) => S n
  | _ => 1
  end.

Fixpoint print_all (ls : list Line) : M unit :=
  match ls with
  | [] => ret tt
  | l :: rest => print l ;;; print_all rest
  end.

(** The zone-listing loop of [--list-zones]; [fuel] bounds the pages. *)
Fixpoint list_zones_loop (fuel page : nat) : M unit :=
  match fuel with
  | O => raise OutOfFuel
  | S fuel' =>
      data <- api_get (GET_zone_list 50 page) ;;
      print_all (map (fun z => L_zone (z_name z) (z_id z)) (res_zones data)) ;;;
      if Nat.leb (total_pages_or_1 data) page then ret tt
      else list_zones_loop fuel' (S page)
  end.

Definition www (domain : string) : string := "www." ++ domain.

Definition main_replace_apex (args : Args) (zone_id : string) : M unit :=
  if a_replace_apex args then
    existing_apex_a <- get_dns_records zone_id (Some (a_domain args)) (Some "A") ;;
    existing_apex_aaaa <- get_dns_records zone_id (Some (a_domain args)) (Some "AAAA") ;;
    delete_or_report (a_dry_run args) zone_id "apex A/AAAA records"
      (ids_of (existing_apex_a ++ existing_apex_aaaa))
  else ret tt.

Definition main_apex_cname (args : Args) (zone_id : string) : M unit :=
  if a_set_apex_cname args && negb (a_set_github_a args || a_set_github_aaaa args) then
    if negb (truthy (a_pages_host args)) then raise (SystemExit 1)
    else
      apex_msg <- upsert_cname zone_id (a_domain args) (text (a_pages_host args))
                    false 300 (a_dry_run args) ;;
      print apex_msg
  else ret tt.

Definition main_www (args : Args) (zone_id : string) (host : option string) : M unit :=
  if truthy host then
    www_msg <- upsert_cname zone_id (www (a_domain args)) (text host)
                 false 300 (a_dry_run args) ;;
    print www_msg
  else ret tt.

Definition main_set_apex_a (args : Args) (zone_id : string) : M unit :=
  if truthy (a_set_apex_a args) then
    existing_apex_cname <- get_dns_records zone_id (Some (a_domain args)) (Some "CNAME") ;;
    let cname_ids := ids_of existing_apex_cname in
    existing_apex_a <- get_dns_records zone_id (Some (a_domain args)) (Some "A") ;;
    existing_apex_aaaa <- get_dns_records zone_id (Some (a_domain args)) (Some "AAAA") ;;
    delete_or_report (a_dry_run args) zone_id "apex records"
      (cname_ids ++ ids_of (existing_apex_a ++ existing_apex_aaaa)) ;;;
    if a_dry_run args
    then print (L_would_create "A" (a_domain args) (text (a_set_apex_a args)))
    else
      msg <- create_a_record zone_id (a_domain args) (text (a_set_apex_a args))
               300 false None ;;
      print msg
  else ret tt.

Definition main_clear_apex_aaaa (args : Args) (zone_id : string) : M unit :=
  if a_clear_apex_aaaa args then
    existing_apex_aaaa <- get_dns_records zone_id (Some (a_domain args)) (Some "AAAA") ;;
    delete_or_report (a_dry_run args) zone_id "apex AAAA records"
      (ids_of existing_apex_aaaa)
  else ret tt.

Fixpoint first_label (s : string) : string :=
  match s with
  | EmptyString => EmptyString
  | String c rest =>
      if Ascii.eqb c "."%char then EmptyString else String c (first_label rest)
  end.

Definition not_kept (keep : list string) (rec : DnsRecord) : bool :=
  negb (existsb (String.eqb (r_name rec)) keep).

Definition main_purge_other_cnames (args : Args) (zone_id : string) : M unit :=
  if a_purge_other_cnames args then
    _ <- get_dns_records zone_id (Some (first_label (a_domain args))) (Some "CNAME") ;;
    data <- api_get (GET_dns_records zone_id (mkParams (Some "CNAME") None None None)) ;;
    let keep := [a_domain args; www (a_domain args)] in
    delete_or_report (a_dry_run args) zone_id "other CNAMEs"
      (ids_of (filter (not_kept keep) (res_records data)))
  else ret tt.

Definition main_purge_a_and_cname (args : Args) (zone_id : string) : M unit :=
  if a_purge_a_and_cname args then
    let keep_names :=
      [a_domain args; www (a_domain args); ("staging." ++ a_domain args)%string] in
    a_data <- api_get (GET_dns_records zone_id (mkParams (Some "A") None None None)) ;;
    delete_or_report (a_dry_run args) zone_id "A records"
      (ids_of (filter (not_kept keep_names) (res_records a_data))) ;;;
    cname_data <- api_get (GET_dns_records zone_id (mkParams (Some "CNAME") None None None)) ;;
    delete_or_report (a_dry_run args) zone_id "CNAME records"
      (ids_of (filter (not_kept keep_names) (res_records cname_data)))
  else ret tt.

Definition github_ips : list string :=
  ["185.199.108.153"; "185.199.109.153"; "185.199.110.153"; "185.199.111.153"].

Definition github_ipv6 : list string :=
  ["2606:50c0:8000::153"; "2606:50c0:8001::153";
   "2606:50c0:8002::153"; "2606:50c0:8003::153"].

(** [",".join(contents)], and the comment built from it when not empty. *)
Definition previous_of (existing : list DnsRecord) : string :=
  String.concat "," (map r_content existing).

Definition comment_of (label previous : string) : option string :=
  if String.eqb previous "" then None else Some (label ++ previous)%string.

(** The two [for ip in ...] loops that create the requested records. *)
Fixpoint create_each (dry_run : bool) (zone_id domain ty : string)
  (comment : option string) (ips : list string) : M unit :=
  match ips with
  | [] => ret tt
  | ip :: rest =>
      (if dry_run then print (L_would_create ty domain ip)
       else
         msg <- (if String.eqb ty "A"
                 then create_a_record zone_id domain ip 300 false comment
                 else create_aaaa_record zone_id domain ip 300 false comment) ;;
         print msg) ;;;
      create_each dry_run zone_id domain ty comment rest
  end.

(** Lines 271-316 of [main]: GitHub Pages A/AAAA records at the apex. *)
Definition main_github (args : Args) (zone_id : string) : M unit :=
  if a_set_github_a args || a_set_github_aaaa args then
    existing_apex_cname <- get_dns_records zone_id (Some (a_domain args)) (Some "CNAME") ;;
    let cname_ids := ids_of existing_apex_cname in
    delete_or_report (a_dry_run args) zone_id "apex CNAME" cname_ids ;;;
    existing_apex_a <- get_dns_records zone_id (Some (a_domain args)) (Some "A") ;;
    existing_apex_aaaa <- get_dns_records zone_id (Some (a_domain args)) (Some "AAAA") ;;
    let previous_a := previous_of existing_apex_a in
    let previous_aaaa := previous_of existing_apex_aaaa in
    delete_or_report (a_dry_run args) zone_id "apex A/AAAA"
      (ids_of (existing_apex_a ++ existing_apex_aaaa)) ;;;
    (if a_set_github_a args
     then create_each (a_dry_run args) zone_id (a_domain args) "A"
            (comment_of "Previous apex A: " previous_a) github_ips
     else ret tt) ;;;
    (if a_set_github_aaaa args
     then create_each (a_dry_run args) zone_id (a_domain args) "AAAA"
            (comment_of "Previous apex AAAA: " previous_aaaa) github_ipv6
     else ret tt)
  else ret tt.

Section Main.

Variable strip : string -> string.

Definition retrieve_token (env_dns_only env_api_token : option string)
  (getpass : string) (arg_token : option string) : string :=
  if truthy arg_token then strip (text arg_token)
  else
    let env_token := if truthy env_dns_only then env_dns_only else env_api_token in
    if truthy env_token then strip (text env_token) else strip getpass.

Definition main (fuel : nat) (env_dns_only env_api_token : option string)
  (getpass : string) (args : Args) : M unit :=
  let token := retrieve_token env_dns_only env_api_token getpass (a_token args) in
  if String.eqb token "" then raise (SystemExit 1)
  else if a_list_zones args then
    print L_zones_header ;;; list_zones_loop fuel 1
  else
    zone_id <- get_zone_id (a_domain args) ;;
    main_replace_apex args zone_id ;;;
    main_apex_cname args zone_id ;;;
    main_www args zone_id (a_pages_host args) ;;;
    main_set_apex_a args zone_id ;;;
    main_clear_apex_aaaa args zone_id ;;;
    main_www args zone_id (a_set_www_cname args) ;;;
    main_purge_other_cnames args zone_id ;;;
    main_purge_a_and_cname args zone_id ;;;
    main_github args zone_id ;;;
    print L_note.

End Main.

End UpdatePagesDns.

(* ------------------------------------------------------------------ *)
(** ** export_zone_dns_summary.py *)

Module ExportZoneDnsSummary.

(** Failures of the HTTP exchange end the process: [raise SystemExit(msg)]
    (exit status 1).  A transport exception of [requests.get] is not
    caught here. *)
Definition api_get (rq : Request) : M Response :=
  rp <- request rq ;;
  match rp with
  | Transport_error => raise RequestException
  | Http r =>
      if negb (ok r) then raise (SystemExit 1)
      else if negb (success r) then raise (SystemExit 1)
      else ret r
  end.

Definition get_zone_id_by_name (zone_name : string) : M (option string) :=
  data <- api_get (GET_zones zone_name) ;;
  match res_zones data with
  | [] => ret None
  | z :: _ => ret (Some (z_id z))
  end.

Definition dns_records (zone_id : string) (params : Params) : M (list DnsRecord) :=
  data <- api_get (GET_dns_records zone_id params) ;;
  ret (res_records data).

Definition total_pages_or_1 (data : Response) : nat :=
  match res_total_pages data with
  | Some (S n) => S n
  | _ => 1
  end.

Fixpoint list_all_zones_loop (fuel page : nat) (zones : list ZoneInfo)
  : M (list ZoneInfo) :=
  match fuel with
  | O => raise OutOfFuel
  | S fuel' =>
      data <- api_get (GET_zone_list 50 page) ;;
      let zones := zones ++ res_zones data in
      if Nat.leb (total_pages_or_1 data) page then ret zones
      else list_all_zones_loop fuel' (S page) zones
  end.

Definition list_all_zones (fuel : nat) : M (list ZoneInfo) :=
  list_all_zones_loop fuel 1 [].

(** One line of the CSV file; the cells are text, the counts numbers. *)
Record Row := mkRow {
  zone : string;
  apex_a_ips : string;
  apex_a_ttls : string;
  apex_a_proxied : string;
  apex_aaaa_ips : string;
  apex_aaaa_ttls : string;
  apex_aaaa_proxied : string;
  www_cname_target : string;
  www_cname_ttl : string;
  www_cname_proxied : string;
  other_a_count : nat;
  other_aaaa_count : nat;
  other_cname_count : nat
}.

Definition empty_row (zone_name : string) : Row :=
  mkRow zone_name "" "" "" "" "" "" "" "" "" 0 0 0.

Definition truthy (o : option string) : bool :=
  match o with
  | Some s => negb (String.eqb s "")
  | None => false
  end.

Definition str_of_Z (z : Z) : string := NilZero.string_of_int (Z.to_int z).

Definition bool_text (o : option bool) : string :=
  match o with
  | Some true => "true"
  | _ => "false"
  end.

Definition filter_out (records : list DnsRecord) (names : list string) : list DnsRecord :=
  filter (fun r => negb (existsb (String.eqb (r_name r)) names)) records.

Definition join_content (records : list DnsRecord) : string :=
  String.concat ";" (map r_content records).

Definition join_ttl (records : list DnsRecord) : string :=
  String.concat ";" (map (fun r => str_of_Z (r_ttl r)) records).

Definition join_bool (records : list DnsRecord) : string :=
  String.concat ";" (map (fun r => bool_text (r_proxied r)) records).

Definition collect_zone_summary (zone_name : string)
  (zone_id_override : option string) : M Row :=
  zid <- (if truthy zone_id_override then ret zone_id_override
          else get_zone_id_by_name zone_name) ;;
  match zid with
  | None => ret (empty_row zone_name)
  | Some zid =>
      if String.eqb zid "" then ret (empty_row zone_name)
      else
        let www_name := ("www." ++ zone_name)%string in
        apex_a <- dns_records zid (mkParams (Some "A") (Some zone_name) (Some 100) None) ;;
        apex_aaaa <- dns_records zid (mkParams (Some "AAAA") (Some zone_name) (Some 100) None) ;;
        www_cname <- dns_records zid (mkParams (Some "CNAME") (Some www_name) (Some 1) None) ;;
        other_a <- dns_records zid (mkParams (Some "A") None (Some 100) None) ;;
        other_aaaa <- dns_records zid (mkParams (Some "AAAA") None (Some 100) None) ;;
        other_cname <- dns_records zid (mkParams (Some "CNAME") None (Some 100) None) ;;
        ret (mkRow zone_name
               (join_content apex_a) (join_ttl apex_a) (join_bool apex_a)
               (join_content apex_aaaa) (join_ttl apex_aaaa) (join_bool apex_aaaa)
               (match www_cname with c :: _ => r_content c | [] => "" end)
               (match www_cname with c :: _ => str_of_Z (r_ttl c) | [] => "" end)
               (match www_cname with
                | c :: _ =>
                    match r_proxied c with
                    | Some true => "true"
                    | Some false => "false"
                    | None => ""
                    end
                | [] => ""
                end)
               (length (filter_out other_a [zone_name]))
               (length (filter_out other_aaaa [zone_name]))
               (length (filter_out other_cname [zone_name; www_name])))
  end.

(** [zone_id_map.get(zone_name)] on the dictionary kept as an association
    list, most recent binding first. *)
Definition get (zone_id_map : list (string * string)) (zone_name : string)
  : option string :=
  option_map snd (find (fun kv => String.eqb (fst kv) zone_name) zone_id_map).

(** The [for zone_name in zones] loop of [main] with its two handlers:
    [SystemExit] is raised again, any other [Exception] leaves an empty
    row and the loop goes on. *)
Fixpoint main_rows (zones : list string) (zone_id_map : list (string * string))
  (rows : list Row) : M (list Row) :=
  match zones with
  | [] => ret rows
  | zone_name :: rest =>
      fun w =>
        match collect_zone_summary zone_name (get zone_id_map zone_name) w with
        | (Ok row, w1) => main_rows rest zone_id_map (rows ++ [row]) w1
        | (Raise (SystemExit c), w1) => (Raise (SystemExit c), w1)
        | (Raise OutOfFuel, w1) => (Raise OutOfFuel, w1)
        | (Raise _, w1) =>
            main_rows rest zone_id_map (rows ++ [empty_row zone_name]) w1
        end
  end.

(** [main] after the arguments were read: [zones] and [zone_id_map] are
    what [load_zones] and [load_zone_id_map] returned.  The rows are what
    is written to the CSV file. *)
Definition main (fuel : nat) (all_zones : bool) (zones : list string)
  (zone_id_map : list (string * string)) : M (list Row) :=
  zz <- (if all_zones then
           allzones <- list_all_zones fuel ;;
           let named := filter (fun z => negb (String.eqb (z_name z) "")) allzones in
           ret (map z_name named,
                fold_left (fun m z =>
                             if negb (String.eqb (z_name z) "") && negb (String.eqb (z_id z) "")
                             then (z_name z, z_id z) :: m else m)
                          allzones zone_id_map)
         else ret (zones, zone_id_map)) ;;
  rows <- main_rows (fst zz) (snd zz) [] ;;
  print (L_message "Wrote rows") ;;;
  ret rows.

(** [s.split(sep)] for a separator of one character: the pieces between
    the separators, at least one piece. *)
Fixpoint split (sep : ascii) (s : string) : list string :=
  match s with
  | EmptyString => [EmptyString]
  | String c rest =>
      if Ascii.eqb c sep then EmptyString :: split sep rest
      else
        match split sep rest with
        | piece :: pieces => String c piece :: pieces
        | [] => [String c EmptyString]
        end
  end.

(** The loop of [load_zones] that removes duplicates: [seen] is the set of
    names met so far, [unique] the list built. *)
Fixpoint deduplicate (zones seen unique : list string) : list string :=
  match zones with
  | [] => unique
  | z :: rest =>
      if existsb (String.eqb z) seen then deduplicate rest seen unique
      else deduplicate rest (z :: seen) (unique ++ [z])
  end.

Section LoadZones.

(** [str.strip] *)
Variable strip : string -> string.

(** [[z.strip() for z in pieces if z.strip()]] *)
Definition stripped (pieces : list string) : list string :=
  filter (fun z => negb (String.eqb z "")) (map strip pieces).

(** [zones_file] holds the lines of the file when [--zones-file] names a
    file that exists. *)
Definition load_zones (all_zones : bool) (zones_arg : option string)
  (zones_file : option (list string)) : Result (list string) :=
  if all_zones then Ok []
  else
    let zones :=
      (if truthy zones_arg
       then stripped (split ","%char (match zones_arg with Some s => s | None => "" end))
       else [])
      ++ match zones_file with
         | Some lines => stripped lines
         | None => []
         end in
    match zones with
    | [] => Raise (SystemExit 1)
    | _ :: _ => Ok (deduplicate zones [] [])
    end.

End LoadZones.

End ExportZoneDnsSummary.

(* ------------------------------------------------------------------ *)
(** ** audit_compliance.py *)

Module AuditCompliance.

Definition api_get (rq : Request) : M Response :=
  rp <- request rq ;;
  match rp with
  | Transport_error => raise RequestException
  | Http r =>
      if negb (ok r) then raise (CloudflareError (Msg_failed "GET" (status_code r)))
      else if negb (success r) then raise (CloudflareError (Msg_returned_error "GET"))
      else ret r
  end.

Definition get_zone_id (domain : string) : M string :=
  data <- api_get (GET_zones domain) ;;
  match res_zones data with
  | [] => raise (CloudflareError (Msg_zone_not_found domain))
  | z :: _ => ret (z_id z)
  end.

Definition total_pages (data : Response) : nat :=
  match res_total_pages data with
  | Some n => n
  | None => 1
  end.

Fixpoint get_all_records_loop (fuel : nat) (zone_id : string) (page : nat)
  (all_records : list DnsRecord) : M (list DnsRecord) :=
  match fuel with
  | O => raise OutOfFuel
  | S fuel' =>
      data <- api_get (GET_dns_records zone_id
                         (mkParams None None (Some 100) (Some page))) ;;
      let all_records := all_records ++ res_records data in
      if Nat.leb (total_pages data) page then ret all_records
      else get_all_records_loop fuel' zone_id (S page) all_records
  end.

Definition get_all_records (fuel : nat) (zone_id : string) : M (list DnsRecord) :=
  get_all_records_loop fuel zone_id 1 [].

(** [needle in haystack] on strings. *)
Definition contains (needle haystack : string) : bool :=
  match String.index 0 needle haystack with
  | Some _ => true
  | None => false
  end.

(** [print("=" * 60)] *)
Definition rule : Line := L_message (String.concat "" (repeat "=" 60)).

(** The five checks of [audit_zone], each returning the new value of
    [issues_found].  The texts printed are given without the leading blank
    line and without the mark that opens a result line. *)
Definition check_mx (records : list DnsRecord) (issues_found : nat) : M nat :=
  print (L_message "1. Microsoft 365 MX Record") ;;;
  let mx_records :=
    filter (fun r => String.eqb (r_type r) "MX"
                     && contains "mail.protection.outlook.com" (r_content r))
           records in
  match mx_records with
  | m :: _ =>
      print (L_message ("[OK] M365 MX Record found (" ++ r_content m ++ ")")) ;;;
      ret issues_found
  | [] =>
      print (L_message "[MISSING] M365 MX Record (*.mail.protection.outlook.com)") ;;;
      ret (S issues_found)
  end.

Definition check_spf (records : list DnsRecord) (issues_found : nat) : M nat :=
  print (L_message "2. Microsoft 365 SPF Record") ;;;
  let spf_records :=
    filter (fun r => String.eqb (r_type r) "TXT"
                     && contains "include:spf.protection.outlook.com" (r_content r))
           records in
  match spf_records with
  | _ :: _ => print (L_message "[OK] M365 SPF Record found") ;;; ret issues_found
  | [] =>
      print (L_message "[MISSING] M365 SPF Record (include:spf.protection.outlook.com)") ;;;
      ret (S issues_found)
  end.

Definition check_dmarc (zone : string) (records : list DnsRecord) (issues_found : nat)
  : M nat :=
  print (L_message "3. DMARC Record") ;;;
  let dmarc_records :=
    filter (fun r => String.eqb (r_type r) "TXT"
                     && String.prefix ("_dmarc." ++ zone) (r_name r))
           records in
  match dmarc_records with
  | _ :: _ => print (L_message "[OK] DMARC Record found") ;;; ret issues_found
  | [] =>
      print (L_message ("[MISSING] DMARC Record (_dmarc." ++ zone ++ ")")) ;;;
      ret (S issues_found)
  end.

Definition gh_ips : list string :=
  ["185.199.108.153"; "185.199.109.153"; "185.199.110.153"; "185.199.111.153"].

Definition check_github_a (zone : string) (records : list DnsRecord)
  (issues_found : nat) : M nat :=
  print (L_message "4. GitHub Pages A Records") ;;;
  let apex_a_records :=
    filter (fun r => String.eqb (r_type r) "A" && String.eqb (r_name r) zone) records in
  let apex_ips := map r_content apex_a_records in
  let missing_ips := filter (fun ip => negb (existsb (String.eqb ip) apex_ips)) gh_ips in
  if match missing_ips with [] => true | _ :: _ => false end
     && Nat.leb 4 (length apex_a_records)
  then print (L_message "[OK] GitHub Pages A Records found") ;;; ret issues_found
  else
    print (L_message "[MISSING/PARTIAL] GitHub Pages A Records") ;;;
    match missing_ips with
    | [] => ret tt
    | _ :: _ => print (L_message ("Missing IPs: " ++ String.concat ", " missing_ips))
    end ;;;
    ret (S issues_found).

Definition check_www (zone : string) (records : list DnsRecord) (issues_found : nat)
  : M nat :=
  print (L_message "5. WWW CNAME Record") ;;;
  let www_records :=
    filter (fun r => String.eqb (r_type r) "CNAME"
                     && String.eqb (r_name r) ("www." ++ zone))
           records in
  match www_records with
  | c :: _ =>
      print (L_message ("[OK] WWW CNAME found (" ++ r_content c ++ ")")) ;;;
      ret issues_found
  | [] => print (L_message "[MISSING] WWW CNAME record") ;;; ret (S issues_found)
  end.

(** Returns 0 when all checks pass and 1 otherwise. *)
Definition audit_zone (fuel : nat) (zone : string) : M Z :=
  print (L_message ("Running Compliance Audit for Zone: " ++ zone)) ;;;
  print rule ;;;
  zone_id <- get_zone_id zone ;;
  records <- get_all_records fuel zone_id ;;
  issues_found <- check_mx records 0 ;;
  issues_found <- check_spf records issues_found ;;
  issues_found <- check_dmarc zone records issues_found ;;
  issues_found <- check_github_a zone records issues_found ;;
  issues_found <- check_www zone records issues_found ;;
  print rule ;;;
  if Nat.eqb issues_found 0
  then print (L_message "All compliance checks passed!") ;;; ret 0%Z
  else
    print (L_message (NilZero.string_of_uint (Nat.to_uint issues_found)
                      ++ " compliance issue(s) found")) ;;;
    ret 1%Z.

(** *** Command line and [main] *)

Definition truthy (o : option string) : bool :=
  match o with
  | Some s => negb (String.eqb s "")
  | None => false
  end.

Definition text (o : option string) : string :=
  match o with
  | Some s => s
  | None => ""
  end.

Section Main.

(** [str.strip] *)
Variable strip : string -> string.

Definition retrieve_token (env_dns_only arg_token : option string) : M string :=
  if truthy arg_token then ret (strip (text arg_token))
  else if truthy env_dns_only then ret (strip (text env_dns_only))
  else
    print (L_stderr "Error: Cloudflare API token required") ;;;
    print (L_stderr "Set CLOUDFLARE_API_KEY_DNS_ONLY environment variable or use --token argument") ;;;
    raise (SystemExit 2).

(** [main] with the values of [--zone] and [--token]: [sys.exit(exit_code)]
    ends the process also when the audit passed. *)
Definition main (fuel : nat) (env_dns_only : option string) (zone : string)
  (token : option string) : M unit :=
  _ <- retrieve_token env_dns_only token ;;
  fun w =>
    match audit_zone fuel zone w with
    | (Ok exit_code, w1) => (Raise (SystemExit exit_code), w1)
    | (Raise (CloudflareError _), w1) =>
        (Raise (SystemExit 1), put_line (L_stderr "Cloudflare API error") w1)
    | (Raise RequestException, w1) =>
        (Raise (SystemExit 1), put_line (L_stderr "Network error") w1)
    | (Raise e, w1) => (Raise e, w1)
    end.

End Main.

End AuditCompliance.

(* ------------------------------------------------------------------ *)
(** ** export_zone_a_records.py *)

Module ExportZoneARecords.

Definition api_get (rq : Request) : M Response :=
  rp <- request rq ;;
  match rp with
  | Transport_error => raise RequestException
  | Http r =>
      if negb (ok r) then raise (SystemExit 1)
      else if negb (success r) then raise (SystemExit 1)
      else ret r
  end.

Definition total_pages_or_1 (data : Response) : nat :=
  match res_total_pages data with
  | Some (S n) => S n
  | _ => 1
  end.

Fixpoint list_all_zones_loop (fuel page : nat) (zones : list ZoneInfo)
  : M (list ZoneInfo) :=
  match fuel with
  | O => raise OutOfFuel
  | S fuel' =>
      data <- api_get (GET_zone_list 50 page) ;;
      let zones := zones ++ res_zones data in
      if Nat.leb (total_pages_or_1 data) page then ret zones
      else list_all_zones_loop fuel' (S page) zones
  end.

Definition list_all_zones (fuel : nat) : M (list ZoneInfo) :=
  list_all_zones_loop fuel 1 [].

(** [records[0] if records else None], of a listing of the A records with
    [per_page = 1] and [page = 1]. *)
Definition first_a_record (zone_id : string) : M (option DnsRecord) :=
  data <- api_get (GET_dns_records zone_id
                     (mkParams (Some "A") None (Some 1) (Some 1))) ;;
  ret (hd_error (res_records data)).

(** One line of the CSV file. *)
Record Row := mkRow {
  zone_name : string;
  zone_id : string;
  record_name : string;
  ip : string
}.

(** The [for z in zones] loop of [main]. *)
Fixpoint main_rows (zones : list ZoneInfo) (rows : list Row) : M (list Row) :=
  match zones with
  | [] => ret rows
  | z :: rest =>
      rec <- first_a_record (z_id z) ;;
      main_rows rest
        (rows ++ [match rec with
                  | Some r => mkRow (z_name z) (z_id z) (r_name r) (r_content r)
                  | None => mkRow (z_name z) (z_id z) "" ""
                  end])
  end.

Fixpoint print_rows (rows : list Row) : M unit :=
  match rows with
  | [] => ret tt
  | r :: rest =>
      print (L_message ("- " ++ zone_name r ++ ": " ++ record_name r ++ " -> " ++ ip r)) ;;;
      print_rows rest
  end.

(** [main] once the token was read; the rows are what is written to the
    CSV file. *)
Definition main (fuel : nat) : M (list Row) :=
  zones <- list_all_zones fuel ;;
  rows <- main_rows zones [] ;;
  print (L_message "Wrote rows") ;;;
  print_rows (firstn 10 rows) ;;;
  ret rows.

End ExportZoneARecords.

(* ------------------------------------------------------------------ *)
(** ** admin_dns_agent.py *)

Module AdminDnsAgent.

Definition cf_get (rq : Request) : M Response :=
  rp <- request rq ;;
  match rp with
  | Transport_error => raise RequestException
  | Http r =>
      if negb (ok r) then raise (SystemExit 1)
      else if negb (success r) then raise (SystemExit 1)
      else ret r
  end.

(** Python truth value of an optional string: neither [None] nor empty. *)
Definition truthy (o : option string) : bool :=
  match o with
  | Some s => negb (String.eqb s "")
  | None => false
  end.

Definition text (o : option string) : string :=
  match o with
  | Some s => s
  | None => ""
  end.

Section Main.

(** [str.strip], the executable that [gh()] names, and the status that
    [subprocess.call] returns for a command. *)
Variable strip : string -> string.
Variable gh : string.
Variable call : list string -> Z.

(** [read_all] and [api_token] are the values of the environment variables
    [CLOUDFLARE_API_KEY_READ_ALL] and [CLOUDFLARE_API_TOKEN]; [SystemExit]
    with a message ends the process with status 1. *)
Definition get_cf_token (read_all api_token : option string) : M string :=
  let t := if truthy read_all then read_all else api_token in
  if negb (truthy t) then raise (SystemExit 1)
  else ret (strip (text t)).

(** [print("$", " ".join(cmd)); return subprocess.call(cmd)] *)
Definition run (cmd : list string) : M Z :=
  print (L_message ("$ " ++ String.concat " " cmd)) ;;;
  ret (call cmd).

(** The [try] block of [main]: a [SystemExit] of the lookup is printed and
    the zone is taken as missing.  The printed line stands for the
    exception's message, which also carries the status and the body of the
    reply. *)
Definition zone_exists (domain : string) : M bool :=
  fun w =>
    match cf_get (GET_zones domain) w with
    | (Ok z, w1) => (Ok (match res_zones z with [] => false | _ :: _ => true end), w1)
    | (Raise (SystemExit _), w1) =>
        (Ok false, put_line (L_message "Cloudflare GET /zones failed") w1)
    | (Raise e, w1) => (Raise e, w1)
    end.

(** [main] with the two environment variables and the values of
    [--domain], [--pages-host] and [--apply]. *)
Definition main (read_all api_token : option string) (domain pages_host : string)
  (apply : bool) : M unit :=
  _ <- get_cf_token read_all api_token ;;
  exists_ <- zone_exists domain ;;
  let apply_str := if apply then "true" else "false" in
  if negb exists_ then
    print (L_message ("Zone " ++ domain
                      ++ " not found; triggering zone add workflow (apply="
                      ++ apply_str ++ ")...")) ;;;
    rc <- run [gh; "workflow"; "run"; "cloudflare-zone-add.yml";
               "-F"; ("domain=" ++ domain)%string;
               "-F"; ("apply=" ++ apply_str)%string] ;;
    if negb (Z.eqb rc 0) then raise (SystemExit 1)
    else print (L_message "Dispatched zone add workflow. Approvals may be required.")
  else
    print (L_message ("Zone " ++ domain
                      ++ " exists; triggering DNS update to GitHub Pages (apply="
                      ++ apply_str ++ ")...")) ;;;
    rc <- run [gh; "workflow"; "run"; "cloudflare-dns.yml";
               "-F"; ("domain=" ++ domain)%string;
               "-F"; ("pages_host=" ++ pages_host)%string;
               "-F"; "mode=github-pages-a-aaaa";
               "-F"; ("apply=" ++ apply_str)%string] ;;
    if negb (Z.eqb rc 0) then raise (SystemExit 1)
    else print (L_message "Dispatched DNS update workflow. Approvals may be required.").

End Main.

End AdminDnsAgent.

(* ------------------------------------------------------------------ *)
(** ** Vocabulary of the statements *)

Unset Implicit Arguments.

(** No failure is injected in the rest of the run. *)
Definition quiet (w : World) : Prop := Forall (fun f => f = None) (w_faults w).

(** The requests sent between two worlds of one run. *)
Definition new_calls (w w' : World) : list Request :=
  skipn (length (w_calls w)) (w_calls w').

(** The lines printed between two worlds of one run. *)
Definition new_lines (w w' : World) : list Line :=
  skipn (length (w_stdout w)) (w_stdout w').

(** Records of a given type at a given name, in provider order. *)
Definition records_at (ty name : string) (rs : list DnsRecord) : list DnsRecord :=
  filter (matches_params (mkParams (Some ty) (Some name) None None)) rs.

(** The provider's configuration, which no request changes; and a schedule
    without failures stays without failures. *)
Definition same_config (w w' : World) : Prop :=
  w_zone_name w' = w_zone_name w /\ w_zone_id w' = w_zone_id w
  /\ w_page_size w' = w_page_size w /\ w_accept w' = w_accept w
  /\ (quiet w -> quiet w').

(** A run that only reads: the zone is untouched and every request sent
    is a GET. *)
Definition read_only (w w' : World) : Prop :=
  same_config w w' /\ w_recs w' = w_recs w /\ w_next w' = w_next w
  /\ exists cs, w_calls w' = w_calls w ++ cs /\ mutations cs = [].

Definition is_post (rq : Request) : bool :=
  match rq with
  | POST_dns_record _ _ => true
  | _ => false
  end.

(** A run that only adds: the records present before are all still there,
    unchanged and in the same order, followed by the created ones, and
    every mutating request sent is a POST. *)
Definition additive (w w' : World) : Prop :=
  same_config w w'
  /\ (exists created, w_recs w' = w_recs w ++ created)
  /\ exists cs, w_calls w' = w_calls w ++ cs /\ forallb is_post (mutations cs) = true.

(** [m] takes every world to one related by [R], whatever it returns. *)
Definition keeps (R : World -> World -> Prop) (A : Type) (m : M A) : Prop :=
  forall w, R w (snd (m w)).
Arguments keeps R {A} m.

(** The mutations of a plan: what a mutating request asks for. *)
Inductive Op :=
| Create (p : Payload)
| Update (id : string) (p : Payload)
| Delete (id : string).

Definition op_of_call (rq : Request) : list Op :=
  match rq with
  | POST_dns_record _ p => [Create p]
  | PATCH_dns_record _ id p => [Update id p]
  | PUT_dns_record _ id p => [Update id p]
  | DELETE_dns_record _ id => [Delete id]
  | _ => []
  end.

(** The operations a run asked the provider to carry out, in order. *)
Definition executed (cs : list Request) : list Op := flat_map op_of_call cs.

(** The operations announced by a dry-run result of [update_dns.py]. *)
Definition intended_detail (d : UpdateDns.Detail) : list Op :=
  match d with
  | UpdateDns.D_dry_run id proposed _ _ => [Update id proposed]
  | _ => []
  end.

Definition intended (o : UpdateDns.Outcome) : list Op :=
  match o with
  | UpdateDns.R_would_delete id => [Delete id]
  | UpdateDns.R_processed _ details => flat_map intended_detail details
  | UpdateDns.R_would_create proposed => [Create proposed]
  | _ => []
  end.

(** The operation announced by the dry-run lines of [ensure_record] for the
    entry [record_def]: a "would create" line that names the entry's type,
    name and content stands for the creation of the entry's payload. *)
Definition intended_ensure (zone : string) (record_def : EnforceStandard.RecordDef)
  (ls : list Line) : list Op :=
  flat_map (fun l => match l with
                     | L_dry_run_would_create ty name content =>
                         if String.eqb ty (EnforceStandard.d_type record_def)
                            && String.eqb name (EnforceStandard.d_name record_def)
                            && String.eqb content (EnforceStandard.d_content record_def)
                         then [Create (EnforceStandard.payload_of zone record_def)]
                         else []
                     | _ => []
                     end) ls.

(** The dry-run message of [upsert_cname] that announces an operation. *)
Definition announce (o : Op) : option Line :=
  match o with
  | Create p =>
      Some (L_cname_would_create (p_name p) (p_content p)
              (match p_proxied p with Some b => b | None => false end))
  | Update _ p =>
      Some (L_cname_would_update (p_name p) (p_content p)
              (match p_proxied p with Some b => b | None => false end))
  | Delete _ => None
  end.

(** What a record must look like for [already_exists] to hold. *)
Definition exact_match (zone : string) (record_def : EnforceStandard.RecordDef)
  (r : DnsRecord) : Prop :=
  r_type r = EnforceStandard.d_type record_def
  /\ r_name r = EnforceStandard.rec_name_of zone record_def
  /\ r_content r = EnforceStandard.d_content record_def
  /\ (EnforceStandard.d_type record_def = "MX" ->
      r_priority r = Some (EnforceStandard.priority_of record_def)).

(** The entry a dry run of [update_dns.py] files for one existing record,
    and the records an apply run has to update. *)
Definition dry_detail (payload_template : Payload) (rec : DnsRecord) : UpdateDns.Detail :=
  if UpdateDns.unchanged payload_template rec
  then UpdateDns.D_unchanged (r_id rec) (r_content rec) (r_proxied rec)
  else UpdateDns.D_dry_run (r_id rec) payload_template (r_content rec) (r_proxied rec).

Definition to_update (payload_template : Payload) (existing : list DnsRecord)
  : list DnsRecord :=
  filter (fun rec => negb (UpdateDns.unchanged payload_template rec)) existing.

(** A run that failed did so in a mutating request: the last request it
    sent. *)
Definition failed_in_mutation (w w' : World) : Prop :=
  exists cs rq, w_calls w' = w_calls w ++ cs ++ [rq] /\ is_mutating rq = true.

(** Dry run and apply run of one command on one world: an error of the
    dry run is the error of the apply run, with the same requests sent and
    the same output; when the dry run ends without error, the apply run
    can only fail in a mutating request. *)
Definition errors_agree (A : Type) (w : World) (dry app : Result A * World) : Prop :=
  match fst dry with
  | Raise e => app = dry
  | Ok _ => forall e, fst app = Raise e -> failed_in_mutation w (snd app)
  end.
Arguments errors_agree {A} w dry app.

(** The only failures injected are transport failures. *)
Definition mild (w : World) : Prop :=
  Forall (fun f => f = None \/ f = Some Fault_transport) (w_faults w).

(** A world of the zone [name0] with identifier [zid0] where only transport
    failures are injected. *)
Definition calm (name0 zid0 : string) (w : World) : Prop :=
  mild w /\ w_zone_name w = name0 /\ w_zone_id w = zid0.

(** From every calm world [m] either returns a value in [P] or raises a
    transport exception, and the world stays calm. *)
Definition gentle (name0 zid0 : string) (A : Type) (P : A -> Prop) (m : M A) : Prop :=
  forall w, calm name0 zid0 w ->
    match m w with
    | (Ok a, w') => P a /\ calm name0 zid0 w'
    | (Raise RequestException, w') => calm name0 zid0 w'
    | _ => False
    end.
Arguments gentle name0 zid0 {A} P m.

(** An identifier given on the command line is the zone's identifier. *)
Definition override_ok (zid0 : string) (zone_id_override : option string) : Prop :=
  ExportZoneDnsSummary.truthy zone_id_override = true -> zone_id_override = Some zid0.

(** The row the batch loop files for one zone: the summary when it was
    collected, an empty row when collecting raised. *)
Definition row_of (zone_name : string)
  (run : Result ExportZoneDnsSummary.Row * World) : ExportZoneDnsSummary.Row :=
  match fst run with
  | Ok row => row
  | Raise _ => ExportZoneDnsSummary.empty_row zone_name
  end.

(** A step of a plan of [update_pages_dns.py], as a dry run announces it
    and as an apply run asks for it. *)
Inductive Step :=
| Step_delete (id : string)
| Step_create (ty name content : string).

Definition steps_of_call (rq : Request) : list Step :=
  match rq with
  | DELETE_dns_record _ id => [Step_delete id]
  | POST_dns_record _ p => [Step_create (p_type p) (p_name p) (p_content p)]
  | _ => []
  end.

Definition steps_of_line (l : Line) : list Step :=
  match l with
  | L_would_delete _ ids => map Step_delete ids
  | L_would_create ty name content => [Step_create ty name content]
  | _ => []
  end.

(** The plan a run emits between two worlds: the announcements it printed
    in dry-run mode, the requests it sent in apply mode. *)
Definition plan (dry_run : bool) (w w' : World) : list Step :=
  if dry_run then flat_map steps_of_line (new_lines w w')
  else flat_map steps_of_call (new_calls w w').

(** The zone a plan predicts, step by step (a created record has no
    identifier yet). *)
Definition predict_step (rs : list DnsRecord) (s : Step) : list DnsRecord :=
  match s with
  | Step_delete id => remove_by_id id rs
  | Step_create ty name content =>
      rs ++ [mkRecord "" ty name content 300 None (Some false) None]
  end.

Definition predict (steps : list Step) (rs : list DnsRecord) : list DnsRecord :=
  fold_left predict_step steps rs.

(** [st] is what a run from [w] to [w'] emitted. *)
Definition yields (dry_run : bool) (w w' : World) (st : list Step) : Prop :=
  exists cs ls,
    w_calls w' = w_calls w ++ cs
    /\ w_stdout w' = w_stdout w ++ ls
    /\ st = if dry_run then flat_map steps_of_line ls else flat_map steps_of_call cs.

(** A step that cannot put a CNAME at the apex [domain]: a delete, or the
    creation of an A or AAAA record at the apex. *)
Definition good (domain : string) (s : Step) : Prop :=
  match s with
  | Step_delete _ => True
  | Step_create ty name _ => name = domain /\ (ty = "A" \/ ty = "AAAA")
  end.

(** Whatever [m] emits is made of good steps. *)
Definition tame (dry_run : bool) (domain : string) (A : Type) (m : M A) : Prop :=
  forall w, exists st, yields dry_run w (snd (m w)) st /\ Forall (good domain) st.
Arguments tame dry_run domain {A} m.

(** No CNAME record at the name [domain]. *)
Definition no_apex_cname (domain : string) (rs : list DnsRecord) : Prop :=
  forall r, In r rs -> ~ (r_type r = "CNAME" /\ r_name r = domain).

(** The zone without the records whose identifier is in [ids]. *)
Definition without_ids (ids : list string) (rs : list DnsRecord) : list DnsRecord :=
  filter (fun r => negb (existsb (String.eqb (r_id r)) ids)) rs.

(** The names the purge of A and CNAME records leaves alone, and those the
    purge of CNAME records leaves alone. *)
Definition keep_names (domain : string) : list string :=
  [domain; UpdatePagesDns.www domain; ("staging." ++ domain)%string].

Definition keep_cnames (domain : string) : list string :=
  [domain; UpdatePagesDns.www domain].

(** One round of a purge of [update_pages_dns.py]: list the records of a
    type, delete those whose name is not kept. *)
Definition purge_round (dry_run : bool) (zone_id what ty : string)
  (keep : list string) : M unit :=
  data <- UpdatePagesDns.api_get
            (GET_dns_records zone_id (mkParams (Some ty) None None None)) ;;
  UpdatePagesDns.delete_or_report dry_run zone_id what
    (UpdatePagesDns.ids_of (filter (UpdatePagesDns.not_kept keep) (res_records data))).

(** The exceptions an API call of [update_dns.py] may raise, both caught by
    [main]. *)
Definition api_failure (e : Exn) : Prop :=
  match e with
  | CloudflareError _ | RequestException => True
  | _ => False
  end.

(** [m] ends normally or with one of these two exceptions. *)
Definition guarded (A : Type) (m : M A) : Prop :=
  forall w e, fst (m w) = Raise e -> api_failure e.
Arguments guarded {A} m.

(** What a successful apply run [m false] of an update-or-create operation
    of [update_dns.py] leaves behind: every record of type [ty] at [name]
    has the wanted content and proxied flag, there is at least one, and a
    further run in either mode that meets no failure files every record as
    unchanged, sends no mutating request and leaves the zone as it is. *)
Definition settles (ty name content : string) (proxied : bool)
  (m : bool -> M UpdateDns.Outcome) (w : World) : Prop :=
  forall o, fst (m false w) = Ok o ->
    let w' := snd (m false w) in
    (forall r, In r (records_at ty name (w_recs w')) ->
       r_content r = content /\ r_proxied r = Some proxied)
    /\ records_at ty name (w_recs w') <> []
    /\ (quiet w' ->
        forall dry_run,
          mutations (new_calls w' (snd (m dry_run w'))) = []
          /\ w_recs (snd (m dry_run w')) = w_recs w'
          /\ exists n ds, fst (m dry_run w') = Ok (UpdateDns.R_processed n ds)
                          /\ flat_map intended_detail ds = []).

(** [r] has the type, the name and the content of the entry (and its
    priority, for MX): the boolean form of [exact_match]. *)
Definition is_exact_match (zone : string) (record_def : EnforceStandard.RecordDef)
  (r : DnsRecord) : bool :=
  String.eqb (r_type r) (EnforceStandard.d_type record_def)
  && String.eqb (r_name r) (EnforceStandard.rec_name_of zone record_def)
  && String.eqb (r_content r) (EnforceStandard.d_content record_def)
  && (negb (String.eqb (EnforceStandard.d_type record_def) "MX")
      || match r_priority r with
         | Some q => Z.eqb q (EnforceStandard.priority_of record_def)
         | None => false
         end).

(** The entries of the standard set that no record of the zone matches
    exactly. *)
Definition unmet (zone : string) (all_records : list DnsRecord)
  : list EnforceStandard.RecordDef :=
  filter (fun std => negb (existsb (is_exact_match zone std) all_records))
         (EnforceStandard.standards zone).

(** The [www] entry of the standard set, and the zones where a CNAME at
    [www] points to the zone but another CNAME at [www] is listed before
    it. *)
Definition www_entry (zone : string) : EnforceStandard.RecordDef :=
  EnforceStandard.mkDef "CNAME" "www" zone None (Some false).

Definition www_shadowed (zone : string) (all_records : list DnsRecord) : bool :=
  match records_at "CNAME" ("www." ++ zone) all_records with
  | first :: others =>
      negb (String.eqb (r_content first) zone)
      && existsb (fun r => String.eqb (r_content r) zone) others
  | [] => false
  end.

(** The distinct names of a list, in order of first appearance. *)
Fixpoint first_appearances (l : list string) : list string :=
  match l with
  | [] => []
  | z :: rest => z :: filter (fun y => negb (String.eqb y z)) (first_appearances rest)
  end.

(** Between [w] and [w'] nothing was sent but listings of the records of
    the zone with identifier [zid]. *)
Definition only_listings (zid : string) (w w' : World) : Prop :=
  exists qs, w_calls w' = w_calls w ++ map (GET_dns_records zid) qs.

(** A record at the apex [domain] that stands in the way of a new address
    configuration: an A, AAAA or CNAME record. *)
Definition apex_address (domain : string) (r : DnsRecord) : bool :=
  String.eqb (r_name r) domain
  && (String.eqb (r_type r) "A" || String.eqb (r_type r) "AAAA"
      || String.eqb (r_type r) "CNAME").

(** Every request sent between [w] and [w'] satisfies [P]. *)
Definition sends (P : Request -> Prop) (w w' : World) : Prop :=
  exists cs, w_calls w' = w_calls w ++ cs /\ Forall P cs.

(** A request that does not write a CNAME record at the name [domain]. *)
Definition no_cname_at (domain : string) (rq : Request) : Prop :=
  match rq with
  | POST_dns_record _ p | PATCH_dns_record _ _ p | PUT_dns_record _ _ p =>
      ~ (p_type p = "CNAME" /\ p_name p = domain)
  | _ => True
  end.

(** A request that writes no A record whose address the IPv4 parser
    rejects and no AAAA record whose address the IPv6 parser rejects. *)
Definition writes_valid_address (IPv4Address IPv6Address : string -> bool)
  (rq : Request) : Prop :=
  match rq with
  | POST_dns_record _ p | PATCH_dns_record _ _ p | PUT_dns_record _ _ p =>
      (p_type p = "A" -> IPv4Address (p_content p) = true)
      /\ (p_type p = "AAAA" -> IPv6Address (p_content p) = true)
  | _ => True
  end.

(** What a listing of the records of one type with [per_page = 100]
    returns: the first page, of at most 100 records. *)
Definition first_hundred (w : World) (ty : string) : list DnsRecord :=
  firstn (Nat.min 100 (w_page_size w))
         (filter (matches_params (mkParams (Some ty) None (Some 100) None)) (w_recs w)).

(** The worlds and the replies that the requests [cs], sent one after the
    other from [w], go through. *)
Fixpoint replay (w : World) (cs : list Request) : World :=
  match cs with
  | [] => w
  | c :: rest => replay (snd (serve c w)) rest
  end.

Fixpoint replies (w : World) (cs : list Request) : list Reply :=
  match cs with
  | [] => []
  | c :: rest => fst (serve c w) :: replies (snd (serve c w)) rest
  end.

(** An HTTP reply with an error status, or whose [success] flag is false. *)
Definition refused (rp : Reply) : bool :=
  match rp with
  | Http r => negb (ok r) || negb (success r)
  | Transport_error => false
  end.

(** [m] does nothing but send requests, and it ends the process with
    status 1 at the first reply that is refused, and only then: a result in
    [P] or a transport exception means that no reply was refused. *)
Definition stops_at_refusal (A : Type) (P : A -> Prop) (m : M A) : Prop :=
  forall w, exists cs,
    snd (m w) = replay w cs
    /\ match fst (m w) with
       | Ok a => P a /\ existsb refused (replies w cs) = false
       | Raise RequestException => existsb refused (replies w cs) = false
       | Raise (SystemExit code) =>
           code = 1%Z
           /\ exists before rp,
                replies w cs = before ++ [rp]
                /\ existsb refused before = false /\ refused rp = true
       | Raise _ => False
       end.
Arguments stops_at_refusal {A} P m.

(** From [w], and from every world that a read-only run reaches from [w],
    [m] ends normally or with an API failure: it neither ends the process
    nor runs out of fuel. *)
Definition guarded_from (w : World) (A : Type) (m : M A) : Prop :=
  forall w1 e, read_only w w1 -> fst (m w1) = Raise e -> api_failure e.
Arguments guarded_from w {A} m.

(** The number of pages that [get_all_records] has to ask for, at least
    one. *)
Definition pages_to_read (w : World) : nat :=
  Nat.max 1 (pages_of (Nat.min 100 (w_page_size w)) (length (w_recs w))).

(** The commands a run of [admin_dns_agent.py] passed to [subprocess.call],
    each announced on standard output by a line that starts with a
    dollar sign. *)
Definition commands (ls : list Line) : list string :=
  flat_map (fun l => match l with
                     | L_message msg => if String.prefix "$ " msg then [msg] else []
                     | _ => []
                     end) ls.

(* ------------------------------------------------------------------ *)
(** ** Example zones *)

(** A zone with a single A record at the apex. *)
Definition a1 : DnsRecord :=
  mkRecord "a1" "A" "example.org" "192.0.2.1" 120 None (Some false) None.

Definition one_a_record : World :=
  mkWorld "example.org" "z1" [a1] 1 100 (fun _ _ => true) [] [] [].


(** A provider holding three A records at one name and serving pages of
    two. *)
Definition three_a_records : list DnsRecord :=
  [ mkRecord "a1" "A" "example.org" "192.0.2.1" 1 None (Some false) None;
    mkRecord "a2" "A" "example.org" "192.0.2.2" 1 None (Some false) None;
    mkRecord "a3" "A" "example.org" "192.0.2.3" 1 None (Some false) None ].

Definition small_pages : World :=
  mkWorld "example.org" "z1" three_a_records 3 2 (fun _ _ => true) [] [] [].

(** Eleven records in pages of two: six requests, all records returned. *)
Definition eleven_records : list DnsRecord :=
  map (fun c => mkRecord c "TXT" "example.org" c 1 None None None)
      ["0"; "1"; "2"; "3"; "4"; "5"; "6"; "7"; "8"; "9"; "10"].

(** A zone whose apex is a CNAME to a former host. *)
Definition old_apex_cname : DnsRecord :=
  mkRecord "c1" "CNAME" "example.org" "old-host.github.io" 1 None (Some false) None.

Definition apex_cname_zone : World :=
  mkWorld "example.org" "z1" [old_apex_cname] 1 100 (fun _ _ => true) [] [] [].

Definition apex_a_spec : EnforceStandard.RecordDef :=
  EnforceStandard.mkDef "A" "@" "185.199.108.153" None (Some false).

(** A zone whose [www] name is a CNAME with TTL 1 ("Auto"). *)
Definition www_auto : DnsRecord :=
  mkRecord "c2" "CNAME" "www.example.org" "ffc.github.io" 1 None (Some false) None.

Definition www_auto_zone : World :=
  mkWorld "example.org" "z1" [www_auto] 1 100 (fun _ _ => true) [] [] [].

(** Two A records at one name, of which the first already has the wanted
    address. *)
Definition two_a_records : World :=
  mkWorld "example.org" "z1"
    [ mkRecord "a1" "A" "example.org" "192.0.2.9" 120 None (Some false) None;
      mkRecord "a2" "A" "example.org" "192.0.2.2" 120 None (Some false) None ]
    2 100 (fun _ _ => true) [] [] [].


Definition no_env : UpdateDns.Env := UpdateDns.mkEnv None None "".

(** Command line [--zone example.org --name staging --type A --ip 999.1.1.1]
    and a validator that accepts one address only. *)
Definition bad_ip : UpdateDns.Args :=
  UpdateDns.mkArgs "example.org" (Some "staging") (Some UpdateDns.A)
    (Some "999.1.1.1") None None 10 None false false (Some "token") false false false.

Definition only_192_0_2_1 (ip : string) : bool := String.eqb ip "192.0.2.1".

(** An export of two zones where the identifier given for the first one is
    stale. *)
Definition stale_ids : list (string * string) := [("gone.example", "stale")].

(** A zone whose provider fails the second request at transport level. *)
Definition flaky_zone : World :=
  mkWorld "example.org" "z1" [old_apex_cname] 1 100 (fun _ _ => true)
    [None; Some Fault_transport] [] [].

(** A zone whose [www] name is a CNAME to another host, on a provider that
    accepts every request, and on one that refuses a second CNAME at a
    name. *)
Definition www_elsewhere : DnsRecord :=
  mkRecord "c3" "CNAME" "www.example.org" "old-host.github.io" 1 None (Some false) None.

Definition www_elsewhere_zone : World :=
  mkWorld "example.org" "z1" [www_elsewhere] 1 100 (fun _ _ => true) [] [] [].



(** The zone once the standard records are all in place. *)
Definition empty_zone : World :=
  mkWorld "example.org" "z1" [] 0 100 (fun _ _ => true) [] [] [].

(** Command line [--domain example.org --set-github-a], in apply mode and
    as a dry run. *)
Definition set_github_a : UpdatePagesDns.Args :=
  UpdatePagesDns.mkArgs "example.org" None (Some "token") false false false
    true false false false false None false None.

Definition set_github_a_dry : UpdatePagesDns.Args :=
  UpdatePagesDns.mkArgs "example.org" None (Some "token") true false false
    true false false false false None false None.

(** A zone with records at the apex, at [www] and at [staging], two
    left-overs at other names and a TXT record; and the command lines
    [--domain example.org --purge-a-and-cname] and
    [--domain example.org --purge-other-cnames]. *)
Definition staging_a : DnsRecord :=
  mkRecord "a2" "A" "staging.example.org" "192.0.2.7" 300 None (Some false) None.

Definition cluttered : list DnsRecord :=
  [ mkRecord "a1" "A" "example.org" "185.199.108.153" 300 None (Some false) None;
    mkRecord "c1" "CNAME" "www.example.org" "ffc.github.io" 300 None (Some false) None;
    staging_a;
    mkRecord "a3" "A" "blog.example.org" "192.0.2.8" 300 None (Some false) None;
    mkRecord "c2" "CNAME" "shop.example.org" "shops.example.net" 300 None (Some false) None;
    mkRecord "t1" "TXT" "example.org" "v=spf1 -all" 300 None None None ].

Definition cluttered_zone : World :=
  mkWorld "example.org" "z1" cluttered 6 100 (fun _ _ => true) [] [] [].

Definition purge_a_and_cname : UpdatePagesDns.Args :=
  UpdatePagesDns.mkArgs "example.org" None (Some "token") false false false
    false false true false false None false None.

Definition purge_other_cnames : UpdatePagesDns.Args :=
  UpdatePagesDns.mkArgs "example.org" None (Some "token") false false true
    false false false false false None false None.

(** Command line [--zone example.org --name @ --type A --search]. *)
Definition search_apex_a : UpdateDns.Args :=
  UpdateDns.mkArgs "example.org" (Some "@") (Some UpdateDns.A)
    None None None 10 None true false (Some "token") false false false.

(** Command line [--domain example.org --set-apex-a 192.0.2.10]. *)
Definition set_apex_a : UpdatePagesDns.Args :=
  UpdatePagesDns.mkArgs "example.org" None (Some "token") false false false
    false false false false false (Some "192.0.2.10") false None.

(** Command line [--domain example.org --pages-host ffc.github.io
    --set-apex-cname --set-github-a --set-github-aaaa]. *)
Definition everything_at_once : UpdatePagesDns.Args :=
  UpdatePagesDns.mkArgs "example.org" (Some "ffc.github.io") (Some "token") false
    false false true true false true false None false None.

(** Command lines [--domain example.org --replace-apex] and
    [--domain example.org --clear-apex-aaaa], and a zone with an A and an
    AAAA record at the apex and an A record at [www]. *)
Definition replace_apex : UpdatePagesDns.Args :=
  UpdatePagesDns.mkArgs "example.org" None (Some "token") false true false
    false false false false false None false None.

Definition clear_apex_aaaa : UpdatePagesDns.Args :=
  UpdatePagesDns.mkArgs "example.org" None (Some "token") false false false
    false false false false false None true None.

Definition www_a : DnsRecord :=
  mkRecord "a9" "A" "www.example.org" "192.0.2.1" 300 None (Some false) None.

Definition dual_stack : list DnsRecord :=
  [ mkRecord "a1" "A" "example.org" "192.0.2.1" 300 None (Some false) None;
    www_a;
    mkRecord "q1" "AAAA" "example.org" "2001:db8::1" 300 None (Some false) None ].

Definition dual_stack_zone : World :=
  mkWorld "example.org" "z1" dual_stack 3 100 (fun _ _ => true) [] [] [].

(** A zone whose first A record, in the order of the provider, is not at
    the apex. *)
Definition staging_first : World :=
  mkWorld "example.org" "z1" [www_elsewhere; staging_a; a1] 3 100 (fun _ _ => true)
    [] [] [].

(* ================================================================== *)
(** * Properties *)

(* ------------------------------------------------------------------ *)
(** ** Lists and pages *)

Lemma firstn_plus (A : Type) (a b : nat) (l : list A) :
  firstn (a + b) l = firstn a l ++ firstn b (skipn a l).
Proof.
  revert l; induction a as [|a IH]; intros l; simpl.
  - reflexivity.
  - destruct l as [|x l]; simpl.
    + now rewrite firstn_nil.
    + now rewrite IH.
Qed.

Lemma pages_of_covers (len n page : nat) :
  0 < len -> pages_of len n <= page -> n <= page * len.
Proof.
  unfold pages_of. intros Hlen Hp.
  pose proof (Nat.div_mod_eq (n + len - 1) len) as E.
  pose proof (Nat.mod_upper_bound (n + len - 1) len) as B.
  nia.
Qed.

Lemma page_slice_extends (A : Type) (len page : nat) (l : list A) :
  1 <= page ->
  firstn ((page - 1) * len) l ++ page_slice len page l = firstn (page * len) l.
Proof.
  intros Hp. unfold page_slice.
  rewrite <- firstn_plus. f_equal.
  destruct page as [|p]; [lia|]. simpl. rewrite Nat.sub_0_r. lia.
Qed.

(* ------------------------------------------------------------------ *)
(** ** The provider: reads *)

Lemma quiet_log_call (rq : Request) (w : World) :
  quiet w -> quiet (log_call rq w).
Proof.
  unfold quiet. simpl. intros H.
  destruct (w_faults w) as [|f t]; simpl; [constructor|].
  now inversion H.
Qed.

Lemma request_records_quiet (q : Params) (w : World) :
  quiet w ->
  request (GET_dns_records (w_zone_id w) q) w =
  (Ok (Http (mkResponse 200 true []
               (page_slice (page_len w q) (page_no q)
                  (filter (matches_params q) (w_recs w)))
               (Some (pages_of (page_len w q)
                        (length (filter (matches_params q) (w_recs w))))))),
   log_call (GET_dns_records (w_zone_id w) q) w).
Proof.
  intros Hq. unfold request, serve.
  destruct (w_faults w) as [|[f|] t] eqn:E.
  - simpl. now rewrite String.eqb_refl.
  - unfold quiet in Hq. rewrite E in Hq. inversion Hq; discriminate.
  - simpl. now rewrite String.eqb_refl.
Qed.

Lemma filter_all_params (rs : list DnsRecord) (p n : option nat) :
  filter (matches_params (mkParams None None p n)) rs = rs.
Proof.
  induction rs as [|r rs IH]; simpl; [reflexivity|].
  now rewrite IH.
Qed.

(* ------------------------------------------------------------------ *)
(** ** Listing: pagination *)

Section Pagination.

Import EnforceStandard.

Lemma get_all_records_loop_step (fuel page : nat) (acc : list DnsRecord) (w : World) :
  quiet w ->
  get_all_records_loop (S fuel) (w_zone_id w) page acc w =
  let len := Nat.min 100 (w_page_size w) in
  let rq := GET_dns_records (w_zone_id w) (mkParams None None (Some 100) (Some page)) in
  let acc' := acc ++ page_slice len page (w_recs w) in
  if Nat.leb (pages_of len (length (w_recs w))) page
  then (Ok acc', log_call rq w)
  else get_all_records_loop fuel (w_zone_id w) (S page) acc' (log_call rq w).
Proof.
  intros Hq. cbn [get_all_records_loop].
  unfold bind at 1. unfold api_get. unfold bind at 1.
  rewrite (request_records_quiet _ _ Hq).
  rewrite filter_all_params.
  cbn -[Nat.min Nat.leb pages_of page_slice get_all_records_loop log_call].
  now destruct (Nat.leb _ page).
Qed.

Lemma get_all_records_loop_complete (fuel : nat) :
  forall (page : nat) (acc : list DnsRecord) (w : World),
    quiet w ->
    0 < w_page_size w ->
    1 <= page ->
    acc = firstn ((page - 1) * Nat.min 100 (w_page_size w)) (w_recs w) ->
    pages_of (Nat.min 100 (w_page_size w)) (length (w_recs w)) <= page + fuel ->
    exists w',
      get_all_records_loop (S fuel) (w_zone_id w) page acc w = (Ok (w_recs w), w')
      /\ w_recs w' = w_recs w
      /\ quiet w'
      /\ (exists cs, w_calls w' = w_calls w ++ cs /\ mutations cs = []).
Proof.
  induction fuel as [|fuel IH]; intros page acc w Hq Hps Hp Hacc Hfuel;
    rewrite (get_all_records_loop_step _ _ _ _ Hq); cbv zeta;
    destruct (Nat.leb (pages_of (Nat.min 100 (w_page_size w)) (length (w_recs w))) page)
      eqn:Hlast.
  1, 3: apply Nat.leb_le in Hlast;
    exists (log_call (GET_dns_records (w_zone_id w)
                        (mkParams None None (Some 100) (Some page))) w);
    rewrite Hacc, page_slice_extends by exact Hp;
    rewrite firstn_all2
      by (apply pages_of_covers; [apply Nat.min_glb_lt; lia | exact Hlast]);
    repeat split; [now apply quiet_log_call | eexists; split; [reflexivity | reflexivity]].
  - apply Nat.leb_gt in Hlast. lia.
  - apply Nat.leb_gt in Hlast.
    set (rq := GET_dns_records (w_zone_id w) (mkParams None None (Some 100) (Some page))).
    destruct (IH (S page)
                (acc ++ page_slice (Nat.min 100 (w_page_size w)) page (w_recs w))
                (log_call rq w)) as (w' & Hrun & Hrecs & Hq' & cs & Hcs & Hmut).
    + now apply quiet_log_call.
    + exact Hps.
    + lia.
    + simpl w_recs. simpl w_page_size.
      rewrite Hacc, page_slice_extends by exact Hp.
      f_equal. simpl. lia.
    + simpl w_recs. simpl w_page_size. lia.
    + exists w'. simpl in Hrun, Hrecs, Hcs.
      repeat split; try assumption.
      exists (rq :: cs). split.
      * rewrite Hcs, <- app_assoc. reflexivity.
      * simpl. exact Hmut.
Qed.

End Pagination.

Lemma new_calls_app (w w' : World) (cs : list Request) :
  w_calls w' = w_calls w ++ cs -> new_calls w w' = cs.
Proof.
  intros H. unfold new_calls. rewrite H.
  rewrite skipn_app, skipn_all, Nat.sub_diag. reflexivity.
Qed.

Lemma new_lines_app (w w' : World) (ls : list Line) :
  w_stdout w' = w_stdout w ++ ls -> new_lines w w' = ls.
Proof.
  intros H. unfold new_lines. rewrite H.
  rewrite skipn_app, skipn_all, Nat.sub_diag. reflexivity.
Qed.

Lemma get_dns_records_first_page (w : World) (name ty : string) :
  quiet w ->
  UpdateDns.get_dns_records (w_zone_id w) name ty w =
  (Ok (firstn (w_page_size w) (records_at ty name (w_recs w))),
   log_call (GET_dns_records (w_zone_id w) (mkParams (Some ty) (Some name) None None)) w).
Proof.
  intros Hq. unfold UpdateDns.get_dns_records, UpdateDns.api_get.
  unfold bind. rewrite (request_records_quiet _ _ Hq). reflexivity.
Qed.

(** C2, as stated, fails for the filtered lookup: with three matching
    records and pages of two, [get_dns_records] returns the first two
    records only. *)
Lemma get_dns_records_truncates :
  fst (UpdateDns.get_dns_records "z1" "example.org" "A" small_pages)
  = Ok (firstn 2 three_a_records)
  /\ records_at "A" "example.org" (w_recs small_pages) = three_a_records
  /\ fst (UpdateDns.get_dns_records "z1" "example.org" "A" small_pages)
     <> Ok (records_at "A" "example.org" (w_recs small_pages)).
Proof.
  split; [reflexivity|]. split; [reflexivity|].
  vm_compute. intros H. discriminate H.
Qed.

(** C2 (amended): the unfiltered listing [get_all_records] asks for every
    page and returns all records of the zone in provider order, whatever
    their number, issuing no mutating call; the filtered lookup
    [get_dns_records] sends one request and returns the provider's first
    page, the first [pageSize] matching records. *)
Theorem listing_pagination (w : World) (fuel : nat) (name ty : string) :
  quiet w ->
  0 < w_page_size w ->
  pages_of (Nat.min 100 (w_page_size w)) (length (w_recs w)) <= S fuel ->
  fst (EnforceStandard.get_all_records (S fuel) (w_zone_id w) w) = Ok (w_recs w)
  /\ mutations (new_calls w (snd (EnforceStandard.get_all_records (S fuel) (w_zone_id w) w))) = []
  /\ fst (UpdateDns.get_dns_records (w_zone_id w) name ty w)
     = Ok (firstn (w_page_size w) (records_at ty name (w_recs w))).
Proof.
  intros Hq Hps Hfuel.
  destruct (get_all_records_loop_complete fuel 1 [] w Hq Hps (le_n 1) eq_refl Hfuel)
    as (w' & Hrun & _ & _ & cs & Hcs & Hmut).
  unfold EnforceStandard.get_all_records. rewrite Hrun. simpl fst. simpl snd.
  rewrite (new_calls_app _ _ _ Hcs).
  rewrite (get_dns_records_first_page _ _ _ Hq).
  auto.
Qed.

Lemma listing_pagination_witness :
  let w := mkWorld "example.org" "z1" eleven_records 11 2 (fun _ _ => true) [] [] [] in
  fst (EnforceStandard.get_all_records 6 "z1" w) = Ok eleven_records
  /\ mutations (new_calls w (snd (EnforceStandard.get_all_records 6 "z1" w))) = []
  /\ fst (UpdateDns.get_dns_records "z1" "example.org" "TXT" w)
     = Ok (firstn 2 (records_at "TXT" "example.org" eleven_records)).
Proof.
  intros w.
  apply (listing_pagination w 5 "example.org" "TXT").
  - constructor.
  - simpl. lia.
  - vm_compute. lia.
Defined.

(* ------------------------------------------------------------------ *)
(** ** Runs that only read, runs that only add *)

Lemma same_config_refl (w : World) : same_config w w.
Proof. repeat split. auto. Qed.

Lemma same_config_trans (w1 w2 w3 : World) :
  same_config w1 w2 -> same_config w2 w3 -> same_config w1 w3.
Proof.
  intros (a & b & c & d & q) (a' & b' & c' & d' & q').
  repeat split; try congruence. auto.
Qed.

Lemma mutations_app (cs ds : list Request) :
  mutations (cs ++ ds) = mutations cs ++ mutations ds.
Proof. apply filter_app. Qed.

Lemma read_only_refl (w : World) : read_only w w.
Proof.
  split; [apply same_config_refl|]. repeat split.
  exists []. now rewrite app_nil_r.
Qed.

Lemma read_only_trans (w1 w2 w3 : World) :
  read_only w1 w2 -> read_only w2 w3 -> read_only w1 w3.
Proof.
  intros (c & r & n & cs & Hcs & Hm) (c' & r' & n' & cs' & Hcs' & Hm').
  split; [eapply same_config_trans; eassumption|].
  repeat split; try congruence.
  exists (cs ++ cs'). split.
  - rewrite Hcs', Hcs, app_assoc. reflexivity.
  - rewrite mutations_app, Hm, Hm'. reflexivity.
Qed.

Lemma additive_refl (w : World) : additive w w.
Proof.
  split; [apply same_config_refl|]. split.
  - exists []. now rewrite app_nil_r.
  - exists []. now rewrite app_nil_r.
Qed.

Lemma additive_trans (w1 w2 w3 : World) :
  additive w1 w2 -> additive w2 w3 -> additive w1 w3.
Proof.
  intros (c & (a & Ha) & cs & Hcs & Hm) (c' & (a' & Ha') & cs' & Hcs' & Hm').
  split; [eapply same_config_trans; eassumption|]. split.
  - exists (a ++ a'). rewrite Ha', Ha, app_assoc. reflexivity.
  - exists (cs ++ cs'). split.
    + rewrite Hcs', Hcs, app_assoc. reflexivity.
    + rewrite mutations_app, forallb_app, Hm, Hm'. reflexivity.
Qed.

Lemma read_only_additive (w w' : World) : read_only w w' -> additive w w'.
Proof.
  intros (c & r & _ & cs & Hcs & Hm).
  split; [exact c|]. split.
  - exists []. now rewrite app_nil_r.
  - exists cs. split; [exact Hcs|]. now rewrite Hm.
Qed.

Section Keeps.

Variable R : World -> World -> Prop.
Hypothesis R_refl : forall w, R w w.
Hypothesis R_trans : forall w1 w2 w3, R w1 w2 -> R w2 w3 -> R w1 w3.

Lemma keeps_ret (A : Type) (a : A) : keeps R (ret a).
Proof. intros w. apply R_refl. Qed.

Lemma keeps_raise (A : Type) (e : Exn) : keeps R (@raise A e).
Proof. intros w. apply R_refl. Qed.

Lemma keeps_bind (A B : Type) (m : M A) (k : A -> M B) :
  keeps R m -> (forall a, keeps R (k a)) -> keeps R (bind m k).
Proof.
  intros Hm Hk w. unfold bind.
  specialize (Hm w).
  destruct (m w) as [[a|e] w1]; simpl in *.
  - eapply R_trans; [exact Hm | apply Hk].
  - exact Hm.
Qed.

End Keeps.

Lemma quiet_tl (w w' : World) :
  w_faults w' = tl (w_faults w) -> quiet w -> quiet w'.
Proof.
  unfold quiet. intros -> H.
  destruct (w_faults w) as [|f t]; simpl; [constructor|]. now inversion H.
Qed.

Lemma serve_same_config (rq : Request) (w : World) :
  same_config w (snd (serve rq w)).
Proof.
  unfold serve.
  destruct (w_faults w) as [|[f|] t] eqn:E;
    try (repeat split; apply quiet_tl; reflexivity);
    destruct rq; simpl;
    repeat match goal with
           | |- context [if ?b then _ else _] => destruct b
           end; repeat split; apply quiet_tl; reflexivity.
Qed.

Lemma serve_calls (rq : Request) (w : World) :
  w_calls (snd (serve rq w)) = w_calls w ++ [rq]
  /\ w_stdout (snd (serve rq w)) = w_stdout w.
Proof.
  unfold serve.
  destruct (w_faults w) as [|[f|] t]; try (split; reflexivity);
    destruct rq; simpl;
    repeat match goal with
           | |- context [if ?b then _ else _] => destruct b
           end; split; reflexivity.
Qed.

Lemma serve_read (rq : Request) (w : World) :
  is_mutating rq = false -> read_only w (snd (serve rq w)).
Proof.
  intros Hrq.
  split; [apply serve_same_config|].
  assert (Hrecs : w_recs (snd (serve rq w)) = w_recs w
                  /\ w_next (snd (serve rq w)) = w_next w).
  { unfold serve.
    destruct (w_faults w) as [|[f|] t]; try (split; reflexivity);
      destruct rq; try discriminate; simpl;
      repeat match goal with
             | |- context [if ?b then _ else _] => destruct b
             end; split; reflexivity. }
  destruct Hrecs as [H1 H2]. repeat split; try assumption.
  exists [rq]. split; [apply serve_calls|].
  unfold mutations. simpl. now rewrite Hrq.
Qed.

Lemma serve_post (zone_id : string) (p : Payload) (w : World) :
  additive w (snd (serve (POST_dns_record zone_id p) w)).
Proof.
  split; [apply serve_same_config|]. split.
  - unfold serve.
    destruct (w_faults w) as [|[f|] t]; simpl;
      repeat match goal with
             | |- context [if ?b then _ else _] => destruct b
             end; simpl;
      solve [ exists []; now rewrite app_nil_r | eexists; reflexivity ].
  - exists [POST_dns_record zone_id p]. split; [apply serve_calls|]. reflexivity.
Qed.

Lemma keeps_print_read_only (l : Line) : keeps read_only (print l).
Proof.
  intros w. simpl. split; [repeat split; auto|]. repeat split.
  exists []. now rewrite app_nil_r.
Qed.

Lemma keeps_request_read (rq : Request) :
  is_mutating rq = false -> keeps read_only (request rq).
Proof.
  intros H w. unfold request.
  pose proof (serve_read rq w H) as S.
  destruct (serve rq w) as [rp w1]. exact S.
Qed.

Lemma keeps_request_post (zone_id : string) (p : Payload) :
  keeps additive (request (POST_dns_record zone_id p)).
Proof.
  intros w. unfold request.
  pose proof (serve_post zone_id p w) as S.
  destruct (serve _ w) as [rp w1]. exact S.
Qed.

Lemma keeps_weaken (A : Type) (m : M A) : keeps read_only m -> keeps additive m.
Proof. intros H w. apply read_only_additive, H. Qed.

Ltac keeps_read_only :=
  repeat first
    [ apply (keeps_ret read_only read_only_refl)
    | apply (keeps_raise read_only read_only_refl)
    | apply keeps_print_read_only
    | apply keeps_request_read; reflexivity
    | apply (keeps_bind read_only read_only_trans); [| intros ?]
    | match goal with
      | |- keeps _ (match ?x with _ => _ end) => destruct x
      end ].

Ltac keeps_additive :=
  repeat first
    [ apply (keeps_ret additive additive_refl)
    | apply (keeps_raise additive additive_refl)
    | apply keeps_request_post
    | apply keeps_weaken; apply keeps_print_read_only
    | apply keeps_weaken; apply keeps_request_read; reflexivity
    | apply (keeps_bind additive additive_trans); [| intros ?]
    | match goal with
      | |- keeps _ (match ?x with _ => _ end) => destruct x
      end ].

(* ------------------------------------------------------------------ *)
(** ** enforce_standard.py: [ensure_record] *)

Section EnsureRecord.

Import EnforceStandard.

Lemma api_post_additive (zone_id : string) (p : Payload) :
  keeps additive (api_post (POST_dns_record zone_id p)).
Proof. unfold api_post. keeps_additive. Qed.

Lemma put_line_read_only (l : Line) (w : World) : read_only w (put_line l w).
Proof. apply (keeps_print_read_only l w). Qed.

Lemma post_or_report_additive (zone_id : string) (p : Payload) :
  keeps additive (post_or_report (POST_dns_record zone_id p)).
Proof.
  intros w. unfold post_or_report.
  pose proof (api_post_additive zone_id p w) as H.
  destruct (api_post _ w) as [[r|[m| | |]] w1]; simpl in *; try exact H;
    (eapply additive_trans; [exact H | apply read_only_additive, put_line_read_only]).
Qed.

Lemma ensure_record_additive (zone_id zone : string) (record_def : RecordDef)
  (all_records : list DnsRecord) (dry_run : bool) :
  keeps additive (ensure_record zone_id zone record_def all_records dry_run).
Proof.
  unfold ensure_record.
  destruct (already_exists zone record_def all_records); [keeps_additive|].
  destruct dry_run; [keeps_additive|].
  apply (keeps_bind additive additive_trans);
    [keeps_additive | intros _; apply post_or_report_additive].
Qed.

Lemma ensure_record_dry_run_read_only (zone_id zone : string) (record_def : RecordDef)
  (all_records : list DnsRecord) :
  keeps read_only (ensure_record zone_id zone record_def all_records true).
Proof.
  unfold ensure_record.
  destruct (already_exists zone record_def all_records); keeps_read_only.
Qed.

Lemma ensure_all_additive (zone_id zone : string) (stds : list RecordDef)
  (all_records : list DnsRecord) (dry_run : bool) :
  forall n, keeps additive (ensure_all zone_id zone stds all_records dry_run n).
Proof.
  induction stds as [|std rest IH]; intros n; simpl.
  - keeps_additive.
  - apply (keeps_bind additive additive_trans).
    + apply ensure_record_additive.
    + intros changed. apply IH.
Qed.

Lemma priority_is_true (r : DnsRecord) (p : Z) :
  priority_is r p = true <-> r_priority r = Some p.
Proof.
  unfold priority_is. destruct (r_priority r) as [q|]; split; intros H;
    try discriminate.
  - apply Z.eqb_eq in H. now subst.
  - injection H as ->. apply Z.eqb_refl.
Qed.

Lemma in_matches_of (zone : string) (record_def : RecordDef)
  (all_records : list DnsRecord) (r : DnsRecord) :
  In r (matches_of zone record_def all_records) <->
  In r all_records /\ r_type r = d_type record_def
  /\ r_name r = rec_name_of zone record_def.
Proof.
  unfold matches_of. rewrite filter_In, andb_true_iff, !String.eqb_eq. tauto.
Qed.

Lemma already_exists_sound (zone : string) (record_def : RecordDef)
  (all_records : list DnsRecord) :
  already_exists zone record_def all_records = true ->
  exists r, In r all_records /\ exact_match zone record_def r.
Proof.
  unfold already_exists, exact_match.
  destruct (mem_string (d_type record_def) ["MX"; "TXT"; "A"]) eqn:Hmulti.
  - destruct (String.eqb (d_type record_def) "MX") eqn:Hmx.
    + match goal with
      | |- match ?l with _ => _ end = true -> _ => destruct l as [|r l'] eqn:E
      end; [discriminate|]. intros _.
      assert (Hin : In r (r :: l')) by now left.
      rewrite <- E in Hin.
      apply filter_In in Hin. destruct Hin as [Hin Hp].
      apply filter_In in Hin. destruct Hin as [Hin Hc].
      apply in_matches_of in Hin. destruct Hin as (Hin & Ht & Hn).
      exists r. repeat split; try assumption.
      * now apply String.eqb_eq.
      * intros _. now apply priority_is_true.
    + match goal with
      | |- match ?l with _ => _ end = true -> _ => destruct l as [|r l'] eqn:E
      end; [discriminate|]. intros _.
      assert (Hin : In r (r :: l')) by now left.
      rewrite <- E in Hin.
      apply filter_In in Hin. destruct Hin as [Hin Hc].
      apply in_matches_of in Hin. destruct Hin as (Hin & Ht & Hn).
      exists r. repeat split; try assumption.
      * now apply String.eqb_eq.
      * intros Hty. rewrite Hty in Hmx. discriminate.
  - destruct (matches_of zone record_def all_records) as [|r l'] eqn:E;
      [discriminate|]. intros Hc.
    assert (Hin : In r (r :: l')) by now left.
    rewrite <- E in Hin.
    apply in_matches_of in Hin. destruct Hin as (Hin & Ht & Hn).
    exists r. repeat split; try assumption.
    + now apply String.eqb_eq.
    + intros Hty. rewrite Hty in Hmulti. discriminate.
Qed.


Lemma ensure_record_satisfied (zone_id zone : string) (record_def : RecordDef)
  (all_records : list DnsRecord) (dry_run : bool) (w : World) :
  already_exists zone record_def all_records = true ->
  ensure_record zone_id zone record_def all_records dry_run w =
  (Ok false, put_line (L_ok (d_type record_def) (d_name record_def)) w).
Proof. intros H. unfold ensure_record. rewrite H. reflexivity. Qed.

Lemma ensure_record_would_create (zone_id zone : string) (record_def : RecordDef)
  (all_records : list DnsRecord) (w : World) :
  already_exists zone record_def all_records = false ->
  ensure_record zone_id zone record_def all_records true w =
  (Ok true,
   put_line (L_dry_run_would_create (d_type record_def) (d_name record_def)
               (d_content record_def)) w).
Proof. intros H. unfold ensure_record. rewrite H. reflexivity. Qed.

Lemma ensure_record_creates (zone_id zone : string) (record_def : RecordDef)
  (all_records : list DnsRecord) (w : World) :
  already_exists zone record_def all_records = false ->
  ensure_record zone_id zone record_def all_records false w =
  post_or_report (POST_dns_record zone_id (payload_of zone record_def))
    (put_line (L_creating (d_type record_def) (d_name record_def)
                 (d_content record_def)) w).
Proof. intros H. unfold ensure_record. rewrite H. reflexivity. Qed.

Lemma post_or_report_calls (rq : Request) (w : World) :
  w_calls (snd (post_or_report rq w)) = w_calls w ++ [rq]
  /\ (fst (post_or_report rq w) = Ok true \/ exists e, fst (post_or_report rq w) = Raise e).
Proof.
  unfold post_or_report, api_post, bind, request.
  pose proof (serve_calls rq w) as [Hc _].
  destruct (serve rq w) as [[|r] w1]; simpl in *.
  - split; [exact Hc | right; eauto].
  - destruct (negb (ok r)); simpl; [split; [exact Hc | right; eauto]|].
    destruct (negb (success r)); simpl; split; try exact Hc; [right | left]; eauto.
Qed.

End EnsureRecord.

(* ------------------------------------------------------------------ *)
(** ** The provider: what a successful answer tells *)

Lemma executed_app (cs ds : list Request) :
  executed (cs ++ ds) = executed cs ++ executed ds.
Proof. apply flat_map_app. Qed.

Lemma bind_ok (A B : Type) (m : M A) (k : A -> M B) (w w1 : World) (a : A) :
  m w = (Ok a, w1) -> bind m k w = k a w1.
Proof. intros H. unfold bind. now rewrite H. Qed.
Arguments bind_ok {A B m} k {w w1 a} _.

Lemma bind_raise (A B : Type) (m : M A) (k : A -> M B) (w w1 : World) (e : Exn) :
  m w = (Raise e, w1) -> bind m k w = (Raise e, w1).
Proof. intros H. unfold bind. now rewrite H. Qed.
Arguments bind_raise {A B m} k {w w1 e} _.

Lemma request_world (rq : Request) (w : World) :
  request rq w = (Ok (fst (serve rq w)), snd (serve rq w)).
Proof. unfold request. now destruct (serve rq w). Qed.

Lemma request_calls (rq : Request) (w : World) :
  w_calls (snd (request rq w)) = w_calls w ++ [rq].
Proof. rewrite request_world. apply serve_calls. Qed.

(** A listing that comes back with [success] was answered by the zone
    itself: it is the requested page of the matching records. *)
Lemma serve_records_success (zid : string) (q : Params) (w : World) (r : Response) :
  fst (serve (GET_dns_records zid q) w) = Http r ->
  success r = true ->
  zid = w_zone_id w
  /\ res_records r = page_slice (page_len w q) (page_no q)
                       (filter (matches_params q) (w_recs w))
  /\ snd (serve (GET_dns_records zid q) w) = log_call (GET_dns_records zid q) w.
Proof.
  unfold serve.
  destruct (w_faults w) as [|[f|] t]; simpl.
  - destruct (String.eqb_spec zid (w_zone_id w)); simpl; intros H Hs.
    + injection H as <-. auto.
    + injection H as <-. discriminate.
  - destruct f; simpl; intros H Hs; [discriminate|].
    injection H as <-. discriminate.
  - destruct (String.eqb_spec zid (w_zone_id w)); simpl; intros H Hs.
    + injection H as <-. auto.
    + injection H as <-. discriminate.
Qed.

Section UpdateDnsFacts.

Import UpdateDns.

Lemma check_world (verb : string) (rp : Reply) (w : World) :
  snd (check verb rp w) = w.
Proof.
  unfold check. destruct rp as [|r]; [reflexivity|].
  destruct (negb (ok r)); [reflexivity|].
  now destruct (negb (success r)).
Qed.

Lemma check_ok (verb : string) (rp : Reply) (w : World) (r : Response) :
  fst (check verb rp w) = Ok r -> rp = Http r /\ success r = true.
Proof.
  unfold check. destruct rp as [|r']; [discriminate|].
  destruct (negb (ok r')); [discriminate|].
  destruct (success r') eqn:E; simpl; [|discriminate].
  intros H. injection H as <-. auto.
Qed.

Lemma api_world (verb : string) (rq : Request) (w : World) :
  snd ((rp <- request rq ;; check verb rp) w) = snd (serve rq w).
Proof.
  unfold bind. rewrite request_world. apply check_world.
Qed.

Lemma api_result (verb : string) (rq : Request) (w : World) :
  fst ((rp <- request rq ;; check verb rp) w)
  = fst (check verb (fst (serve rq w)) w).
Proof.
  unfold bind. rewrite request_world.
  unfold check. destruct (fst (serve rq w)) as [|r]; [reflexivity|].
  destruct (negb (ok r)); [reflexivity|].
  now destruct (negb (success r)).
Qed.

Lemma get_dns_records_read_only (zone_id name ty : string) :
  keeps read_only (get_dns_records zone_id name ty).
Proof.
  unfold get_dns_records, api_get, check. keeps_read_only.
Qed.

Lemma get_dns_records_calls (zone_id name ty : string) (w : World) :
  w_calls (snd (get_dns_records zone_id name ty w))
  = w_calls w ++ [GET_dns_records zone_id (mkParams (Some ty) (Some name) None None)].
Proof.
  unfold get_dns_records. unfold bind at 1.
  pose proof (api_world "GET" (GET_dns_records zone_id (mkParams (Some ty) (Some name) None None)) w) as Hw.
  unfold api_get.
  destruct ((rp <- request _ ;; check "GET" rp) w) as [[r|e] w1]; simpl in *;
    subst w1; apply serve_calls.
Qed.

Lemma get_dns_records_ok (zone_id name ty : string) (w w' : World)
  (l : list DnsRecord) :
  get_dns_records zone_id name ty w = (Ok l, w') ->
  zone_id = w_zone_id w
  /\ l = firstn (w_page_size w) (records_at ty name (w_recs w))
  /\ w' = log_call (GET_dns_records zone_id (mkParams (Some ty) (Some name) None None)) w.
Proof.
  unfold get_dns_records. unfold bind at 1. unfold api_get.
  set (rq := GET_dns_records zone_id (mkParams (Some ty) (Some name) None None)).
  pose proof (api_world "GET" rq w) as Hw.
  pose proof (api_result "GET" rq w) as Hr.
  destruct ((rp <- request rq ;; check "GET" rp) w) as [[r|e] w1]; simpl in *;
    [|discriminate].
  intros H. injection H as <- <-.
  symmetry in Hr. apply check_ok in Hr. destruct Hr as [Hrp Hs].
  destruct (serve_records_success zone_id _ w r Hrp Hs) as (Hz & Hl & Hw').
  subst rq. rewrite Hl, Hw, Hw'. auto.
Qed.

End UpdateDnsFacts.

Section UpdateOrCreate.

Import UpdateDns.

Variable zone_id : string.
Variable payload_template : Payload.

Lemma process_existing_dry_run (existing : list DnsRecord) :
  forall (results : list Detail) (w : World),
    process_existing zone_id payload_template true existing results w
    = (Ok (results ++ map (dry_detail payload_template) existing), w).
Proof.
  induction existing as [|rec rest IH]; intros results w; simpl.
  - now rewrite app_nil_r.
  - unfold dry_detail at 1.
    destruct (unchanged payload_template rec); rewrite IH, <- app_assoc; reflexivity.
Qed.

Lemma intended_dry_details (existing : list DnsRecord) :
  flat_map intended_detail (map (dry_detail payload_template) existing)
  = map (fun rec => Update (r_id rec) payload_template) (to_update payload_template existing).
Proof.
  induction existing as [|rec rest IH]; simpl; [reflexivity|].
  unfold dry_detail at 1.
  destruct (unchanged payload_template rec); simpl; now rewrite IH.
Qed.

(** In apply mode the loop sends one PATCH per record to update, in order,
    and stops at the first one that fails. *)
Lemma process_existing_apply (existing : list DnsRecord) :
  forall (results : list Detail) (w : World),
    exists cs rest,
      w_calls (snd (process_existing zone_id payload_template false existing results w))
      = w_calls w ++ cs
      /\ map (fun rec => Update (r_id rec) payload_template) (to_update payload_template existing)
         = executed cs ++ rest
      /\ (forall ds,
             fst (process_existing zone_id payload_template false existing results w) = Ok ds ->
             rest = []).
Proof.
  induction existing as [|rec rest IH]; intros results w; simpl.
  - exists [], []. rewrite app_nil_r. auto.
  - destruct (unchanged payload_template rec); simpl; [apply IH|].
    unfold bind at 1 2. unfold api_patch.
    set (rq := PATCH_dns_record zone_id (r_id rec) payload_template).
    pose proof (api_world "PATCH" rq w) as Hw.
    pose proof (serve_calls rq w) as [Hc _].
    destruct ((rp <- request rq ;; check "PATCH" rp) w) as [[r|e] w1]; simpl in Hw; subst w1.
    + match goal with
      | |- context [process_existing _ _ _ _ ?rs ?w1] =>
          destruct (IH rs w1) as (cs & rest' & Hcs & Hex & Hok)
      end.
      exists (rq :: cs), rest'. split; [|split].
      * rewrite Hcs, Hc, <- app_assoc. reflexivity.
      * simpl. now rewrite Hex.
      * exact Hok.
    + exists [rq], (map (fun rec => Update (r_id rec) payload_template) (to_update payload_template rest)).
      simpl. split; [exact Hc|]. split; [reflexivity|]. intros ds H. discriminate.
Qed.

Lemma update_or_create_unfold (dry_run : bool) (w : World) :
  update_or_create zone_id payload_template dry_run w =
  match get_dns_records zone_id (p_name payload_template) (p_type payload_template) w with
  | (Raise e, w1) => (Raise e, w1)
  | (Ok [], w1) =>
      if dry_run then (Ok (R_would_create payload_template), w1)
      else
        match api_post (POST_dns_record zone_id payload_template) w1 with
        | (Ok created, w2) => (Ok (R_created (hd_error (res_records created))), w2)
        | (Raise e, w2) => (Raise e, w2)
        end
  | (Ok (rec :: l), w1) =>
      match process_existing zone_id payload_template dry_run (rec :: l) [] w1 with
      | (Ok results, w2) => (Ok (R_processed (length (rec :: l)) results), w2)
      | (Raise e, w2) => (Raise e, w2)
      end
  end.
Proof.
  unfold update_or_create, bind.
  destruct (get_dns_records _ _ _ w) as [[[|rec l]|e] w1]; try reflexivity.
  destruct dry_run; reflexivity.
Qed.

(** Dry run against apply for the A/AAAA and CNAME operations: a failed
    read fails both alike; otherwise apply sends the announced operations
    in order, all of them when it comes to its end. *)
Lemma update_or_create_dry_vs_apply (w : World) :
  let dry := update_or_create zone_id payload_template true w in
  let app := update_or_create zone_id payload_template false w in
  read_only w (snd dry)
  /\ match fst dry with
     | Raise e => app = dry
     | Ok announced =>
         exists rest,
           intended announced = executed (new_calls w (snd app)) ++ rest
           /\ (forall o, fst app = Ok o -> rest = [])
     end.
Proof.
  intros dry app. subst dry app. rewrite !update_or_create_unfold.
  set (name := p_name payload_template). set (ty := p_type payload_template).
  pose proof (get_dns_records_read_only zone_id name ty w) as Hro.
  pose proof (get_dns_records_calls zone_id name ty w) as Hget.
  destruct (get_dns_records zone_id name ty w) as [[l|e] w1]; simpl in Hro, Hget.
  2: { simpl. auto. }
  destruct l as [|rec l].
  - simpl. split; [exact Hro|].
    exists []. unfold api_post.
    set (rq := POST_dns_record zone_id payload_template).
    pose proof (api_world "POST" rq w1) as Hw.
    pose proof (serve_calls rq w1) as [Hc _].
    destruct ((rp <- request rq ;; check "POST" rp) w1) as [[r|e] w2];
      simpl in Hw; subst w2; simpl;
      rewrite (new_calls_app w _ ([GET_dns_records zone_id (mkParams (Some ty) (Some name) None None)] ++ [rq]))
        by (rewrite Hc, Hget, <- app_assoc; reflexivity);
      simpl; auto.
  - remember (rec :: l) as ex eqn:Hex0.
    assert (Hne : ex <> []) by (subst ex; discriminate).
    clear Hex0. destruct ex as [|rec' l']; [contradiction|].
    remember (rec' :: l') as ex.
    rewrite process_existing_dry_run. cbn [fst snd].
    split; [exact Hro|].
    destruct (process_existing_apply ex [] w1) as (cs & rest & Hcs & Hex & Hok).
    exists rest.
    destruct (process_existing zone_id payload_template false ex [] w1)
      as [[ds|e] w2] eqn:Hrun; cbn [fst snd] in *;
      rewrite (new_calls_app w w2 ([GET_dns_records zone_id (mkParams (Some ty) (Some name) None None)] ++ cs))
        by (rewrite Hcs, Hget, <- app_assoc; reflexivity);
      rewrite executed_app; simpl executed at 1; simpl app at 1;
      cbn [intended]; rewrite intended_dry_details; (split; [exact Hex|]).
    + intros _ _. apply (Hok ds). reflexivity.
    + intros o H. discriminate.
Qed.

End UpdateOrCreate.

(* ------------------------------------------------------------------ *)
(** ** Multi-value records are only ever added to *)

Lemma in_firstn (A : Type) (n : nat) (l : list A) (x : A) :
  In x (firstn n l) -> In x l.
Proof.
  intros H. rewrite <- (firstn_skipn n l). apply in_or_app. now left.
Qed.

Lemma in_records_at (ty name : string) (rs : list DnsRecord) (r : DnsRecord) :
  In r (records_at ty name rs) <-> In r rs /\ r_type r = ty /\ r_name r = name.
Proof.
  unfold records_at, matches_params. simpl.
  rewrite filter_In, andb_true_iff, !String.eqb_eq. tauto.
Qed.

Section MxTxt.

Import UpdateDns.




End MxTxt.

Section EnforceStandardRun.

Import EnforceStandard.

Lemma api_get_read_only (rq : Request) :
  is_mutating rq = false -> keeps read_only (api_get rq).
Proof.
  intros H. unfold api_get.
  apply (keeps_bind read_only read_only_trans).
  - now apply keeps_request_read.
  - intros rp. keeps_read_only.
Qed.

Lemma get_zone_id_read_only (domain : string) : keeps read_only (get_zone_id domain).
Proof.
  unfold get_zone_id.
  apply (keeps_bind read_only read_only_trans).
  - now apply api_get_read_only.
  - intros data. keeps_read_only.
Qed.

Lemma get_all_records_loop_read_only (fuel : nat) :
  forall zone_id page acc, keeps read_only (get_all_records_loop fuel zone_id page acc).
Proof.
  induction fuel as [|fuel IH]; intros zone_id page acc; simpl.
  - keeps_read_only.
  - apply (keeps_bind read_only read_only_trans).
    + now apply api_get_read_only.
    + intros data. destruct (Nat.leb (total_pages data) page).
      * keeps_read_only.
      * apply IH.
Qed.

Lemma enforce_standard_additive (fuel : nat) (zone : string) (dry_run : bool) :
  keeps additive (enforce_standard fuel zone dry_run).
Proof.
  unfold enforce_standard.
  do 2 (apply (keeps_bind additive additive_trans);
        [apply keeps_weaken, keeps_print_read_only | intros _]).
  apply (keeps_bind additive additive_trans);
    [apply keeps_weaken, get_zone_id_read_only | intros zone_id].
  apply (keeps_bind additive additive_trans);
    [apply keeps_weaken, get_all_records_loop_read_only | intros all_records].
  apply (keeps_bind additive additive_trans);
    [apply ensure_all_additive | intros n].
  destruct (Nat.eqb n 0); [|destruct dry_run]; keeps_additive.
Qed.

End EnforceStandardRun.




(* ------------------------------------------------------------------ *)
(** ** update_pages_dns.py: [upsert_cname] *)

Section UpsertCname.

Import UpdatePagesDns.

Lemma pages_check_world (verb : string) (rp : Reply) (w : World) :
  snd (check verb rp w) = w.
Proof.
  unfold check. destruct rp as [|r]; [reflexivity|].
  destruct (negb (ok r)); [reflexivity|].
  now destruct (negb (success r)).
Qed.

Lemma pages_api_world (verb : string) (rq : Request) (w : World) :
  snd ((rp <- request rq ;; check verb rp) w) = snd (serve rq w).
Proof.
  unfold bind. rewrite request_world. apply pages_check_world.
Qed.

Lemma pages_api_get_read_only (rq : Request) :
  is_mutating rq = false -> keeps read_only (api_get rq).
Proof.
  intros H. unfold api_get.
  apply (keeps_bind read_only read_only_trans).
  - now apply keeps_request_read.
  - intros rp. keeps_read_only.
Qed.

Lemma pages_get_dns_records_read_only (zone_id : string) (name ty : option string) :
  keeps read_only (get_dns_records zone_id name ty).
Proof.
  unfold get_dns_records.
  apply (keeps_bind read_only read_only_trans).
  - now apply pages_api_get_read_only.
  - intros data. keeps_read_only.
Qed.

Lemma pages_get_dns_records_calls (zone_id : string) (name ty : option string)
  (w : World) :
  w_calls (snd (get_dns_records zone_id name ty w))
  = w_calls w ++ [GET_dns_records zone_id (mkParams ty name None None)].
Proof.
  unfold get_dns_records, api_get, bind. rewrite request_world.
  pose proof (serve_calls (GET_dns_records zone_id (mkParams ty name None None)) w)
    as [Hc _].
  destruct (fst (serve _ w)) as [|r]; simpl; [exact Hc|].
  destruct (negb (ok r)); simpl; [exact Hc|].
  destruct (negb (success r)); simpl; exact Hc.
Qed.

Lemma pages_get_dns_records_ok (zone_id : string) (name ty : option string)
  (w w' : World) (l : list DnsRecord) :
  get_dns_records zone_id name ty w = (Ok l, w') ->
  zone_id = w_zone_id w
  /\ l = firstn (w_page_size w)
           (filter (matches_params (mkParams ty name None None)) (w_recs w))
  /\ w' = log_call (GET_dns_records zone_id (mkParams ty name None None)) w.
Proof.
  unfold get_dns_records, api_get, bind. rewrite request_world.
  set (rq := GET_dns_records zone_id (mkParams ty name None None)).
  destruct (fst (serve rq w)) as [|r] eqn:Hrp; simpl; [discriminate|].
  destruct (negb (ok r)); simpl; [discriminate|].
  destruct (success r) eqn:Hs; simpl; [|discriminate].
  intros H. injection H as <- <-.
  destruct (serve_records_success zone_id _ w r Hrp Hs) as (Hz & Hl & Hw').
  subst rq. rewrite Hl, Hw'. auto.
Qed.

Lemma pages_get_dns_records_quiet (name ty : option string) (w : World) :
  quiet w ->
  get_dns_records (w_zone_id w) name ty w =
  (Ok (firstn (w_page_size w)
         (filter (matches_params (mkParams ty name None None)) (w_recs w))),
   log_call (GET_dns_records (w_zone_id w) (mkParams ty name None None)) w).
Proof.
  intros Hq. unfold get_dns_records, api_get, bind.
  rewrite (request_records_quiet _ _ Hq). reflexivity.
Qed.

(** The test of [upsert_cname] under which nothing is sent. *)
Lemma upsert_cname_unfold (zone_id name target : string) (proxied : bool) (ttl : Z)
  (dry_run : bool) (w : World) :
  upsert_cname zone_id name target proxied ttl dry_run w =
  let payload := mkPayload "CNAME" name target ttl None (Some proxied) None in
  match get_dns_records zone_id (Some name) (Some "CNAME") w with
  | (Raise e, w1) => (Raise e, w1)
  | (Ok (current :: _), w1) =>
      if String.eqb (r_content current) target && proxied_is current proxied
         && (Z.eqb (r_ttl current) ttl || Z.eqb (r_ttl current) 1)
      then (Ok (L_cname_already name target proxied), w1)
      else if dry_run then (Ok (L_cname_would_update name target proxied), w1)
      else
        match api_put (PUT_dns_record zone_id (r_id current) payload) w1 with
        | (Ok updated, w2) => (Ok (L_cname_updated (hd_error (res_records updated))), w2)
        | (Raise e, w2) => (Raise e, w2)
        end
  | (Ok [], w1) =>
      if dry_run then (Ok (L_cname_would_create name target proxied), w1)
      else
        match api_post (POST_dns_record zone_id payload) w1 with
        | (Ok created, w2) => (Ok (L_cname_created (hd_error (res_records created))), w2)
        | (Raise e, w2) => (Raise e, w2)
        end
  end.
Proof.
  unfold upsert_cname, bind.
  destruct (get_dns_records _ _ _ w) as [[[|current l]|e] w1]; try reflexivity.
  - destruct dry_run; reflexivity.
  - destruct (String.eqb (r_content current) target && proxied_is current proxied
              && (Z.eqb (r_ttl current) ttl || Z.eqb (r_ttl current) 1));
      [reflexivity|]. destruct dry_run; reflexivity.
Qed.

Lemma upsert_cname_dry_vs_apply (zone_id name target : string) (proxied : bool)
  (ttl : Z) (w : World) :
  let dry := upsert_cname zone_id name target proxied ttl true w in
  let app := upsert_cname zone_id name target proxied ttl false w in
  read_only w (snd dry)
  /\ match fst dry with
     | Raise e => app = dry
     | Ok line =>
         (line = L_cname_already name target proxied
          /\ executed (new_calls w (snd app)) = [])
         \/ (exists op, executed (new_calls w (snd app)) = [op]
                        /\ announce op = Some line)
     end.
Proof.
  intros dry app. subst dry app. rewrite !upsert_cname_unfold. cbv zeta.
  pose proof (pages_get_dns_records_read_only zone_id (Some name) (Some "CNAME") w) as Hro.
  pose proof (pages_get_dns_records_calls zone_id (Some name) (Some "CNAME") w) as Hget.
  destruct (get_dns_records zone_id (Some name) (Some "CNAME") w) as [[l|e] w1];
    simpl in Hro, Hget.
  2: { simpl. auto. }
  destruct l as [|current l].
  - simpl. split; [exact Hro|]. right.
    set (payload := mkPayload "CNAME" name target ttl None (Some proxied) None).
    exists (Create payload). split; [|reflexivity].
    unfold api_post.
    set (rq := POST_dns_record zone_id payload).
    pose proof (pages_api_world "POST" rq w1) as Hw.
    pose proof (serve_calls rq w1) as [Hc _].
    destruct ((rp <- request rq ;; check "POST" rp) w1) as [[r|e] w2];
      simpl in Hw; subst w2; simpl;
      rewrite (new_calls_app w _ ([GET_dns_records zone_id (mkParams (Some "CNAME") (Some name) None None)] ++ [rq]))
        by (rewrite Hc, Hget, <- app_assoc; reflexivity);
      reflexivity.
  - destruct (String.eqb (r_content current) target && proxied_is current proxied
              && (Z.eqb (r_ttl current) ttl || Z.eqb (r_ttl current) 1)).
    + simpl. split; [exact Hro|]. left. split; [reflexivity|].
      now rewrite (new_calls_app w w1 _ Hget).
    + simpl. split; [exact Hro|]. right.
      set (payload := mkPayload "CNAME" name target ttl None (Some proxied) None).
      exists (Update (r_id current) payload). split; [|reflexivity].
      unfold api_put.
      set (rq := PUT_dns_record zone_id (r_id current) payload).
      pose proof (pages_api_world "PUT" rq w1) as Hw.
      pose proof (serve_calls rq w1) as [Hc _].
      destruct ((rp <- request rq ;; check "PUT" rp) w1) as [[r|e] w2];
        simpl in Hw; subst w2; simpl;
        rewrite (new_calls_app w _ ([GET_dns_records zone_id (mkParams (Some "CNAME") (Some name) None None)] ++ [rq]))
          by (rewrite Hc, Hget, <- app_assoc; reflexivity);
        reflexivity.
Qed.

End UpsertCname.

(** C10: when the first CNAME the provider lists at the name has the
    desired content and proxied flag and its TTL is the desired one or is
    1 ("Auto"),
    [upsert_cname] answers "already points to" and sends no update, in
    either mode and whatever TTL was asked for; the zone stays as it is, so
    the requested TTL is not put in place of the Auto one. *)
Theorem upsert_cname_accepts_auto_ttl (name target : string) (proxied : bool)
  (ttl : Z) (dry_run : bool) (w : World) (current : DnsRecord)
  (others : list DnsRecord) :
  quiet w ->
  0 < w_page_size w ->
  records_at "CNAME" name (w_recs w) = current :: others ->
  r_content current = target ->
  r_proxied current = Some proxied ->
  r_ttl current = ttl \/ r_ttl current = 1%Z ->
  let run := UpdatePagesDns.upsert_cname (w_zone_id w) name target proxied ttl dry_run w in
  fst run = Ok (L_cname_already name target proxied)
  /\ mutations (new_calls w (snd run)) = []
  /\ w_recs (snd run) = w_recs w.
Proof.
  intros Hq Hps Hrecs Hc Hp Ht run. subst run.
  rewrite upsert_cname_unfold. cbv zeta.
  rewrite (pages_get_dns_records_quiet _ _ _ Hq).
  fold (records_at "CNAME" name (w_recs w)). rewrite Hrecs.
  destruct (w_page_size w) as [|n]; [lia|]. cbn [firstn].
  unfold UpdatePagesDns.proxied_is. rewrite Hc, Hp, String.eqb_refl, Bool.eqb_reflx.
  assert (Httl : (Z.eqb (r_ttl current) ttl || Z.eqb (r_ttl current) 1) = true).
  { destruct Ht as [Ht|Ht]; rewrite Ht, Z.eqb_refl; [reflexivity | apply orb_true_r]. }
  rewrite Httl. cbn [andb fst snd].
  split; [reflexivity|]. split; [|reflexivity].
  now rewrite (new_calls_app w _ [GET_dns_records (w_zone_id w)
                                    (mkParams (Some "CNAME") (Some name) None None)]).
Qed.

Lemma upsert_cname_accepts_auto_ttl_witness :
  let run := UpdatePagesDns.upsert_cname "z1" "www.example.org" "ffc.github.io"
               false 300 false www_auto_zone in
  fst run = Ok (L_cname_already "www.example.org" "ffc.github.io" false)
  /\ mutations (new_calls www_auto_zone (snd run)) = []
  /\ w_recs (snd run) = [www_auto].
Proof.
  apply (upsert_cname_accepts_auto_ttl "www.example.org" "ffc.github.io" false 300
           false www_auto_zone www_auto []).
  - constructor.
  - simpl. lia.
  - reflexivity.
  - reflexivity.
  - reflexivity.
  - right. reflexivity.
Defined.

(* ------------------------------------------------------------------ *)
(** ** Dry run *)

Lemma intended_ensure_vs_apply (zone_id zone : string)
  (record_def : EnforceStandard.RecordDef) (all_records : list DnsRecord) (w : World) :
  let dry := EnforceStandard.ensure_record zone_id zone record_def all_records true w in
  let app := EnforceStandard.ensure_record zone_id zone record_def all_records false w in
  read_only w (snd dry)
  /\ intended_ensure zone record_def (new_lines w (snd dry))
     = executed (new_calls w (snd app)).
Proof.
  intros dry app. subst dry app.
  split; [apply ensure_record_dry_run_read_only|].
  destruct (EnforceStandard.already_exists zone record_def all_records) eqn:E.
  - rewrite !(ensure_record_satisfied _ _ _ _ _ _ E). simpl snd.
    rewrite (new_lines_app w _ [L_ok (EnforceStandard.d_type record_def)
                                  (EnforceStandard.d_name record_def)]) by reflexivity.
    now rewrite (new_calls_app w _ []) by (simpl; now rewrite app_nil_r).
  - rewrite (ensure_record_would_create _ _ _ _ _ E),
      (ensure_record_creates _ _ _ _ _ E). simpl snd at 1.
    rewrite (new_lines_app w _ [L_dry_run_would_create
                                  (EnforceStandard.d_type record_def)
                                  (EnforceStandard.d_name record_def)
                                  (EnforceStandard.d_content record_def)])
      by reflexivity.
    destruct (post_or_report_calls
                (POST_dns_record zone_id (EnforceStandard.payload_of zone record_def))
                (put_line (L_creating (EnforceStandard.d_type record_def)
                             (EnforceStandard.d_name record_def)
                             (EnforceStandard.d_content record_def)) w))
      as [Hc _].
    rewrite (new_calls_app w _ _ Hc). unfold intended_ensure. cbn [flat_map].
    now rewrite !String.eqb_refl.
Qed.

(** C4: in dry-run mode the operations of [update_dns.py] (A/AAAA),
    [enforce_standard.py] ([ensure_record]) and [update_pages_dns.py]
    ([upsert_cname]) send no create, update or delete and leave the zone as
    it is; what they announce is what apply mode asks of the provider on
    the same zone: the same operations in the same order (apply stops at
    the first one the provider refuses), and a failed read fails both modes
    alike. *)
Theorem dry_run_announces_what_apply_sends :
  (forall zone_id name new_ip proxied record_type w,
      let dry := UpdateDns.update_or_create_records zone_id name new_ip
                   true proxied record_type w in
      let app := UpdateDns.update_or_create_records zone_id name new_ip
                   false proxied record_type w in
      read_only w (snd dry)
      /\ match fst dry with
         | Raise e => app = dry
         | Ok announced =>
             exists rest,
               intended announced = executed (new_calls w (snd app)) ++ rest
               /\ (forall o, fst app = Ok o -> rest = [])
         end)
  /\ (forall zone_id zone record_def all_records w,
         let dry := EnforceStandard.ensure_record zone_id zone record_def
                      all_records true w in
         let app := EnforceStandard.ensure_record zone_id zone record_def
                      all_records false w in
         read_only w (snd dry)
         /\ intended_ensure zone record_def (new_lines w (snd dry))
            = executed (new_calls w (snd app)))
  /\ (forall zone_id name target proxied ttl w,
         let dry := UpdatePagesDns.upsert_cname zone_id name target proxied ttl true w in
         let app := UpdatePagesDns.upsert_cname zone_id name target proxied ttl false w in
         read_only w (snd dry)
         /\ match fst dry with
            | Raise e => app = dry
            | Ok line =>
                (line = L_cname_already name target proxied
                 /\ executed (new_calls w (snd app)) = [])
                \/ (exists op, executed (new_calls w (snd app)) = [op]
                               /\ announce op = Some line)
            end).
Proof.
  split; [|split].
  - intros zone_id name new_ip proxied record_type w.
    apply update_or_create_dry_vs_apply.
  - apply intended_ensure_vs_apply.
  - apply upsert_cname_dry_vs_apply.
Qed.

(** On the zone with two A records the dry run announces one update, of the
    second record, and apply sends exactly that. *)
Lemma dry_run_announces_what_apply_sends_witness :
  let dry := UpdateDns.update_or_create_records "z1" "example.org" "192.0.2.9"
               true false "A" two_a_records in
  let app := UpdateDns.update_or_create_records "z1" "example.org" "192.0.2.9"
               false false "A" two_a_records in
  read_only two_a_records (snd dry)
  /\ exists announced,
       fst dry = Ok announced
       /\ intended announced
          = [Update "a2" (mkPayload "A" "example.org" "192.0.2.9" 120 None (Some false) None)]
       /\ intended announced = executed (new_calls two_a_records (snd app)).
Proof.
  intros dry app.
  split.
  - exact (proj1 (proj1 dry_run_announces_what_apply_sends
                    "z1" "example.org" "192.0.2.9" false "A" two_a_records)).
  - eexists. split; [reflexivity|]. split; reflexivity.
Defined.

(* ------------------------------------------------------------------ *)
(** ** Apex exclusivity is not checked by the matching step *)

Lemma filter_idem (A : Type) (f : A -> bool) (l : list A) :
  filter f (filter f l) = filter f l.
Proof.
  induction l as [|x l IH]; simpl; [reflexivity|].
  destruct (f x) eqn:E; simpl; [rewrite E, IH|]; auto.
Qed.

Lemma already_exists_matches_only (zone : string)
  (record_def : EnforceStandard.RecordDef) (all_records : list DnsRecord) :
  EnforceStandard.already_exists zone record_def all_records
  = EnforceStandard.already_exists zone record_def
      (EnforceStandard.matches_of zone record_def all_records).
Proof.
  unfold EnforceStandard.already_exists, EnforceStandard.matches_of. cbv zeta.
  now rewrite !filter_idem.
Qed.

(** C6, as stated, fails: with a CNAME at the apex and an A record asked
    for at the apex, [ensure_record] reports no conflict and is not held
    back; it sends the Create, and both records stand side by side. *)
Lemma apex_conflict_not_reported :
  let run := EnforceStandard.ensure_record "z1" "example.org" apex_a_spec
               (w_recs apex_cname_zone) false apex_cname_zone in
  fst run = Ok true
  /\ executed (new_calls apex_cname_zone (snd run))
     = [Create (mkPayload "A" "example.org" "185.199.108.153" 1 None (Some false) None)]
  /\ w_recs (snd run)
     = [old_apex_cname;
        mkRecord "rec1" "A" "example.org" "185.199.108.153" 1 None (Some false) None].
Proof. repeat split; reflexivity. Qed.

(** C6 (amended): the matching step has no conflict outcome.
    [ensure_record] decides from the records of the desired type and name
    alone, so records of another type at the apex change nothing; whenever
    no record of the desired type and name satisfies the entry it announces
    the Create (dry run) or sends it (apply). *)
Theorem ensure_record_ignores_other_types :
  (forall zone_id zone record_def all_records dry_run w,
      EnforceStandard.ensure_record zone_id zone record_def all_records dry_run w
      = EnforceStandard.ensure_record zone_id zone record_def
          (EnforceStandard.matches_of zone record_def all_records) dry_run w)
  /\ (forall zone_id zone record_def all_records w,
         EnforceStandard.already_exists zone record_def
           (EnforceStandard.matches_of zone record_def all_records) = false ->
         fst (EnforceStandard.ensure_record zone_id zone record_def all_records true w)
         = Ok true
         /\ executed (new_calls w
                        (snd (EnforceStandard.ensure_record zone_id zone record_def
                                all_records false w)))
            = [Create (EnforceStandard.payload_of zone record_def)]).
Proof.
  split.
  - intros. unfold EnforceStandard.ensure_record.
    now rewrite <- already_exists_matches_only.
  - intros zone_id zone record_def all_records w H.
    rewrite <- already_exists_matches_only in H.
    split.
    + now rewrite (ensure_record_would_create _ _ _ _ _ H).
    + rewrite (ensure_record_creates _ _ _ _ _ H).
      destruct (post_or_report_calls
                  (POST_dns_record zone_id (EnforceStandard.payload_of zone record_def))
                  (put_line (L_creating (EnforceStandard.d_type record_def)
                               (EnforceStandard.d_name record_def)
                               (EnforceStandard.d_content record_def)) w))
        as [Hc _].
      now rewrite (new_calls_app w _ _ Hc).
Qed.

Lemma ensure_record_ignores_other_types_witness :
  fst (EnforceStandard.ensure_record "z1" "example.org" apex_a_spec
         (w_recs apex_cname_zone) true apex_cname_zone) = Ok true
  /\ executed (new_calls apex_cname_zone
                 (snd (EnforceStandard.ensure_record "z1" "example.org" apex_a_spec
                         (w_recs apex_cname_zone) false apex_cname_zone)))
     = [Create (EnforceStandard.payload_of "example.org" apex_a_spec)].
Proof.
  apply (proj2 ensure_record_ignores_other_types "z1" "example.org" apex_a_spec
           (w_recs apex_cname_zone) apex_cname_zone).
  reflexivity.
Defined.

(* ------------------------------------------------------------------ *)
(** ** Deleting a record that is not there *)




(* ------------------------------------------------------------------ *)
(** ** update_dns.py: errors of a dry run and of an apply run *)

Section DryRunErrors.

Import UpdateDns.

Lemma failed_in_mutation_later (w w1 w' : World) (c : Request) :
  w_calls w1 = w_calls w ++ [c] ->
  failed_in_mutation w1 w' -> failed_in_mutation w w'.
Proof.
  intros H (cs & rq & Hcs & Hm).
  exists (c :: cs), rq. split; [|exact Hm].
  rewrite Hcs, H, <- app_assoc. reflexivity.
Qed.

Lemma api_failed_in_mutation (verb : string) (rq : Request) (w : World) :
  is_mutating rq = true ->
  failed_in_mutation w (snd ((rp <- request rq ;; check verb rp) w)).
Proof.
  intros Hm. rewrite api_world.
  exists [], rq. split; [apply serve_calls | exact Hm].
Qed.

Lemma process_existing_failure (zone_id : string) (payload_template : Payload)
  (existing : list DnsRecord) :
  forall results w e,
    fst (process_existing zone_id payload_template false existing results w) = Raise e ->
    failed_in_mutation w
      (snd (process_existing zone_id payload_template false existing results w)).
Proof.
  induction existing as [|rec rest IH]; intros results w e; simpl.
  - discriminate.
  - destruct (unchanged payload_template rec); simpl; [apply IH|].
    unfold bind at 1 2. unfold api_patch.
    set (rq := PATCH_dns_record zone_id (r_id rec) payload_template).
    pose proof (api_world "PATCH" rq w) as Hw.
    pose proof (api_failed_in_mutation "PATCH" rq w eq_refl) as Hf.
    pose proof (serve_calls rq w) as [Hc _].
    destruct ((rp <- request rq ;; check "PATCH" rp) w) as [[r|e'] w1];
      simpl in Hw, Hf; simpl.
    + intros H. subst w1. eapply failed_in_mutation_later; [exact Hc|].
      eapply IH. exact H.
    + intros _. exact Hf.
Qed.

Lemma update_or_create_failure (zone_id : string) (payload_template : Payload)
  (w : World) (o : Outcome) (e : Exn) :
  fst (update_or_create zone_id payload_template true w) = Ok o ->
  fst (update_or_create zone_id payload_template false w) = Raise e ->
  failed_in_mutation w (snd (update_or_create zone_id payload_template false w)).
Proof.
  rewrite !update_or_create_unfold.
  pose proof (get_dns_records_calls zone_id (p_name payload_template)
                (p_type payload_template) w) as Hget.
  destruct (get_dns_records _ _ _ w) as [[l|e0] w1]; simpl in Hget; [|discriminate].
  destruct l as [|rec l].
  - intros _. unfold api_post.
    pose proof (api_failed_in_mutation "POST"
                  (POST_dns_record zone_id payload_template) w1 eq_refl) as Hf.
    destruct ((rp <- request _ ;; check "POST" rp) w1) as [[r|e'] w2];
      simpl in *; [discriminate|].
    intros _. eapply failed_in_mutation_later; eassumption.
  - intros _.
    pose proof (process_existing_failure zone_id payload_template (rec :: l) [] w1) as Hf.
    destruct (process_existing zone_id payload_template false (rec :: l) [] w1)
      as [[ds|e'] w2]; [discriminate|].
    intros _. simpl. eapply failed_in_mutation_later; [exact Hget|].
    apply (Hf e' eq_refl).
Qed.

Lemma update_or_create_same_error (zone_id : string) (payload_template : Payload)
  (w : World) (e : Exn) :
  fst (update_or_create zone_id payload_template true w) = Raise e ->
  update_or_create zone_id payload_template false w
  = update_or_create zone_id payload_template true w.
Proof.
  rewrite !update_or_create_unfold.
  destruct (get_dns_records _ _ _ w) as [[l|e0] w1]; [|reflexivity].
  destruct l as [|rec l]; [discriminate|].
  rewrite process_existing_dry_run. discriminate.
Qed.

Lemma update_or_create_mx_txt_unfold (zone_id name content : string)
  (dry_run : bool) (record_type : string) (priority : Z) (w : World) :
  update_or_create_mx_txt zone_id name content dry_run record_type priority w =
  match get_dns_records zone_id name record_type w with
  | (Raise e, w1) => (Raise e, w1)
  | (Ok existing_records, w1) =>
      match find_exact record_type content priority existing_records with
      | Some exact_match => (Ok (R_exact (r_id exact_match)), w1)
      | None =>
          if dry_run
          then (Ok (R_would_create
                      (mkPayload record_type name content 1
                         (if String.eqb record_type "MX" then Some priority else None)
                         None None)), w1)
          else
            match api_post
                    (POST_dns_record zone_id
                       (mkPayload record_type name content 1
                          (if String.eqb record_type "MX" then Some priority else None)
                          None None)) w1 with
            | (Ok created, w2) => (Ok (R_created (hd_error (res_records created))), w2)
            | (Raise e, w2) => (Raise e, w2)
            end
      end
  end.
Proof.
  unfold update_or_create_mx_txt, bind.
  destruct (get_dns_records _ _ _ w) as [[l|e] w1]; [|reflexivity].
  destruct (find_exact record_type content priority l); [reflexivity|].
  destruct dry_run; reflexivity.
Qed.

Lemma update_or_create_mx_txt_dry_vs_apply (zone_id name content record_type : string)
  (priority : Z) (w : World) :
  let dry := update_or_create_mx_txt zone_id name content true record_type priority w in
  let app := update_or_create_mx_txt zone_id name content false record_type priority w in
  match fst dry with
  | Raise e => app = dry
  | Ok _ => forall e, fst app = Raise e -> failed_in_mutation w (snd app)
  end.
Proof.
  intros dry app. subst dry app. rewrite !update_or_create_mx_txt_unfold.
  pose proof (get_dns_records_calls zone_id name record_type w) as Hget.
  destruct (get_dns_records _ _ _ w) as [[l|e0] w1]; simpl in Hget; [|reflexivity].
  destruct (find_exact record_type content priority l); simpl; [discriminate|].
  unfold api_post.
  set (p := mkPayload record_type name content 1
              (if String.eqb record_type "MX" then Some priority else None) None None).
  pose proof (api_failed_in_mutation "POST" (POST_dns_record zone_id p) w1 eq_refl) as Hf.
  destruct ((rp <- request _ ;; check "POST" rp) w1) as [[r|e'] w2];
    simpl in *; [discriminate|].
  intros e _. eapply failed_in_mutation_later; eassumption.
Qed.

End DryRunErrors.

Section MainErrors.

Import UpdateDns.

Variable strip : string -> string.
Variable IPv4Address : string -> bool.
Variable IPv6Address : string -> bool.

Lemma errors_agree_map (A B : Type) (f : A -> B) (m_dry m_app : M A) (w : World) :
  errors_agree w (m_dry w) (m_app w) ->
  errors_agree w ((x <- m_dry ;; ret (f x)) w) ((x <- m_app ;; ret (f x)) w).
Proof.
  unfold errors_agree, bind.
  destruct (m_dry w) as [[a|e] w1]; simpl.
  - intros H e. destruct (m_app w) as [[a'|e'] w2]; simpl in *; [discriminate|].
    intros _. apply (H e'). reflexivity.
  - intros ->. reflexivity.
Qed.

Lemma errors_agree_refl (A : Type) (w : World) (run : Result A * World) :
  errors_agree w run run.
Proof.
  unfold errors_agree. destruct run as [[a|e] w1]; simpl; [|reflexivity].
  intros e H. discriminate.
Qed.

Lemma get_zone_id_calls (domain : string) (w : World) :
  w_calls (snd (get_zone_id domain w)) = w_calls w ++ [GET_zones domain].
Proof.
  unfold get_zone_id. unfold bind at 1. unfold api_get.
  pose proof (api_world "GET" (GET_zones domain) w) as Hw.
  destruct ((rp <- request _ ;; check "GET" rp) w) as [[r|e] w1]; simpl in Hw; subst w1.
  - destruct (res_zones r); simpl; apply serve_calls.
  - simpl. apply serve_calls.
Qed.

Lemma errors_agree_after (A B : Type) (m : M A) (k_dry k_app : A -> M B)
  (w : World) (c : Request) :
  w_calls (snd (m w)) = w_calls w ++ [c] ->
  (forall a w1, errors_agree w1 (k_dry a w1) (k_app a w1)) ->
  errors_agree w (bind m k_dry w) (bind m k_app w).
Proof.
  unfold bind. intros Hc Hk.
  destruct (m w) as [[a|e] w1]; simpl in Hc; [|reflexivity].
  specialize (Hk a w1). unfold errors_agree in *.
  destruct (fst (k_dry a w1)); [|exact Hk].
  intros e H. eapply failed_in_mutation_later; [exact Hc|]. eapply Hk. exact H.
Qed.

Lemma update_or_create_errors_agree (zone_id : string) (payload_template : Payload)
  (w : World) :
  errors_agree w (update_or_create zone_id payload_template true w)
    (update_or_create zone_id payload_template false w).
Proof.
  unfold errors_agree.
  destruct (fst (update_or_create zone_id payload_template true w)) as [o|e] eqn:E.
  - intros e. now apply update_or_create_failure with (o := o).
  - now apply update_or_create_same_error with (e := e).
Qed.

Lemma delete_dns_record_errors_agree (zone_id record_id : string) (w : World) :
  errors_agree w (delete_dns_record zone_id record_id true w)
    (delete_dns_record zone_id record_id false w).
Proof.
  unfold errors_agree, delete_dns_record. simpl. intros e.
  pose proof (api_failed_in_mutation "DELETE"
                (DELETE_dns_record zone_id record_id) w eq_refl) as Hf.
  fold (api_delete (DELETE_dns_record zone_id record_id)) in Hf.
  destruct (api_delete (DELETE_dns_record zone_id record_id) w) as [[r|e'] w1] eqn:E.
  - rewrite (bind_ok _ E). discriminate.
  - rewrite (bind_raise _ E). intros _. exact Hf.
Qed.

Lemma main_body_errors_agree (args : Args) (proxied : bool) (w : World) :
  errors_agree w (main_body (with_dry_run true args) proxied w)
    (main_body (with_dry_run false args) proxied w).
Proof.
  unfold main_body. cbn [with_dry_run a_zone a_delete a_search a_type a_dry_run
                           a_record_id a_ip a_target a_content a_priority].
  apply errors_agree_after with (c := GET_zones (a_zone args));
    [apply get_zone_id_calls|].
  intros zone_id w1.
  destruct (a_delete args).
  { apply errors_agree_map, delete_dns_record_errors_agree. }
  destruct (a_search args).
  { apply errors_agree_refl. }
  destruct (a_type args) as [[| | | |]|].
  - apply errors_agree_map, update_or_create_errors_agree.
  - apply errors_agree_map, update_or_create_errors_agree.
  - apply errors_agree_map, update_or_create_errors_agree.
  - apply errors_agree_map, update_or_create_mx_txt_dry_vs_apply.
  - apply errors_agree_map, update_or_create_mx_txt_dry_vs_apply.
  - apply errors_agree_refl.
Qed.

Lemma exit1_errors_agree (A : Type) (m_dry m_app : M A) (w : World) :
  errors_agree w (m_dry w) (m_app w) ->
  errors_agree w (exit1_on_api_error m_dry w) (exit1_on_api_error m_app w).
Proof.
  unfold errors_agree, exit1_on_api_error.
  destruct (m_dry w) as [[a|e] w1]; simpl.
  - intros H e.
    destruct (m_app w) as [[a'|[m| | |]] w2]; simpl in *; try discriminate;
      intros _;
      match goal with
      | |- failed_in_mutation _ _ =>
          first [ exact (H _ eq_refl)
                | destruct (H _ eq_refl) as (cs & rq & Hcs & Hm);
                  exists cs, rq; split; [exact Hcs | exact Hm] ]
      end.
  - intros H. rewrite H. destruct e; reflexivity.
Qed.

Lemma exit2_calls (msg : string) (w : World) :
  w_calls (snd (exit2 msg w)) = w_calls w.
Proof. reflexivity. Qed.

Lemma validate_args_calls (args : Args) (w : World) :
  w_calls (snd (validate_args IPv4Address IPv6Address args w)) = w_calls w.
Proof.
  unfold validate_args, validate_ip.
  repeat match goal with
         | |- context [if ?b then _ else _] => destruct b
         | |- context [match ?x with _ => _ end] => destruct x
         end; reflexivity.
Qed.

(** C8: on the same command line and the same zone, a run in dry-run mode
    and a run in apply mode check the arguments alike and read the zone
    alike: whenever the dry run ends in an error, the apply run ends in the
    same error after the same requests and the same output; and when the
    dry run ends without error, the apply run can only fail in a mutating
    request, the last request it sent. *)
Theorem dry_run_and_apply_fail_alike (env : Env) (args : Args) (w : World) :
  errors_agree w
    (main strip IPv4Address IPv6Address env (with_dry_run true args) w)
    (main strip IPv4Address IPv6Address env (with_dry_run false args) w).
Proof.
  unfold main.
  change (validate_args IPv4Address IPv6Address (with_dry_run true args))
    with (validate_args IPv4Address IPv6Address (with_dry_run false args)).
  cbn [with_dry_run a_no_proxy a_proxied a_token].
  unfold bind at 1 4.
  destruct (validate_args IPv4Address IPv6Address (with_dry_run false args) w)
    as [[[]|e] w1] eqn:Ev; [|apply errors_agree_refl].
  unfold bind at 1 3.
  destruct ((if a_no_proxy args && a_proxied args
             then exit2 "--no-proxy and --proxied are mutually exclusive"
             else ret tt) w1) as [[[]|e] w2] eqn:E2; [|apply errors_agree_refl].
  unfold bind.
  destruct ((if String.eqb (retrieve_token strip env (a_token args)) ""
             then exit2 "Cloudflare API token required" else ret tt) w2)
    as [[[]|e] w3] eqn:E3; [|apply errors_agree_refl].
  assert (Hc : w_calls w3 = w_calls w).
  { pose proof (validate_args_calls (with_dry_run false args) w) as H1.
    rewrite Ev in H1. simpl in H1.
    assert (H2 : w_calls w2 = w_calls w1).
    { destruct (a_no_proxy args && a_proxied args);
        [discriminate E2 | now injection E2 as <-]. }
    assert (H3 : w_calls w3 = w_calls w2).
    { destruct (String.eqb (retrieve_token strip env (a_token args)) "");
        [discriminate E3 | now injection E3 as <-]. }
    congruence. }
  pose proof (exit1_errors_agree _ _ _ w3 (main_body_errors_agree args
      (a_proxied args && negb (a_no_proxy args)) w3)) as H.
  unfold errors_agree in *.
  destruct (fst (exit1_on_api_error (main_body (with_dry_run true args) _) w3));
    [|exact H].
  intros e He. destruct (H e He) as (cs & rq & Hcs & Hm).
  exists cs, rq. split; [now rewrite Hcs, Hc | exact Hm].
Qed.

End MainErrors.

(** An address the validator refuses: both modes end with status 1 before
    any request is sent. *)
Lemma dry_run_and_apply_fail_alike_witness :
  errors_agree apex_cname_zone
    (UpdateDns.main (fun s => s) only_192_0_2_1 (fun _ => true) no_env
       (UpdateDns.with_dry_run true bad_ip) apex_cname_zone)
    (UpdateDns.main (fun s => s) only_192_0_2_1 (fun _ => true) no_env
       (UpdateDns.with_dry_run false bad_ip) apex_cname_zone)
  /\ UpdateDns.main (fun s => s) only_192_0_2_1 (fun _ => true) no_env
       (UpdateDns.with_dry_run true bad_ip) apex_cname_zone
     = (Raise (SystemExit 1), apex_cname_zone).
Proof.
  split.
  - apply (dry_run_and_apply_fail_alike (fun s => s) only_192_0_2_1 (fun _ => true)
             no_env bad_ip apex_cname_zone).
  - reflexivity.
Defined.

(* ------------------------------------------------------------------ *)
(** ** export_zone_dns_summary.py: the batch loop *)

Section BatchExport.

Import ExportZoneDnsSummary.

Variable name0 zid0 : string.

Lemma gentle_ret (A : Type) (P : A -> Prop) (a : A) :
  P a -> gentle name0 zid0 P (ret a).
Proof. intros H w Hw. simpl. auto. Qed.

Lemma gentle_bind (A B : Type) (P : A -> Prop) (Q : B -> Prop)
  (m : M A) (k : A -> M B) :
  gentle name0 zid0 P m ->
  (forall a, P a -> gentle name0 zid0 Q (k a)) ->
  gentle name0 zid0 Q (bind m k).
Proof.
  intros Hm Hk w Hw. unfold bind. specialize (Hm w Hw).
  destruct (m w) as [[a|e] w1].
  - destruct Hm as [Pa Hw1]. apply (Hk a Pa w1 Hw1).
  - exact Hm.
Qed.

Lemma gentle_weaken (A : Type) (P Q : A -> Prop) (m : M A) :
  (forall a, P a -> Q a) -> gentle name0 zid0 P m -> gentle name0 zid0 Q m.
Proof.
  intros H Hm w Hw. specialize (Hm w Hw).
  destruct (m w) as [[a|e] w1]; [|exact Hm].
  destruct Hm as [Pa Hw1]. auto.
Qed.

Lemma mild_log_call (rq : Request) (w : World) : mild w -> mild (log_call rq w).
Proof.
  unfold mild. simpl. intros H.
  destruct (w_faults w) as [|f t]; simpl; [constructor|]. now inversion H.
Qed.

(** A read of a calm world is served by the zone or fails in transport. *)
Lemma serve_read_calm (rq : Request) (w : World) :
  calm name0 zid0 w ->
  is_mutating rq = false ->
  (forall zid q, rq = GET_dns_records zid q -> zid = zid0) ->
  calm name0 zid0 (snd (serve rq w))
  /\ (fst (serve rq w) = Transport_error
      \/ fst (serve rq w) = fst (handle rq (log_call rq w))
         /\ exists r, fst (handle rq (log_call rq w)) = Http r
                      /\ ok r = true /\ success r = true).
Proof.
  intros (Hm & Hn & Hz) Hrq Hzid.
  assert (Hcalm : calm name0 zid0 (log_call rq w)).
  { split; [now apply mild_log_call | split; assumption]. }
  assert (Hh : snd (handle rq (log_call rq w)) = log_call rq w
               /\ exists r, fst (handle rq (log_call rq w)) = Http r
                            /\ ok r = true /\ success r = true).
  { destruct rq; try discriminate; simpl.
    - split; [reflexivity|]. eexists. split; [reflexivity|]. split; reflexivity.
    - split; [reflexivity|]. eexists. split; [reflexivity|]. split; reflexivity.
    - rewrite (Hzid zone_id q eq_refl), Hz, String.eqb_refl. simpl.
      split; [reflexivity|]. eexists. split; [reflexivity|]. split; reflexivity. }
  destruct Hh as [Hw' Hr].
  unfold serve. unfold mild in Hm.
  destruct (w_faults w) as [|[f|] t] eqn:E.
  - rewrite Hw'. split; [exact Hcalm|]. right. split; [reflexivity | exact Hr].
  - inversion Hm as [|x l Hx Hl]; subst. destruct Hx as [Hx|Hx]; [discriminate|].
    injection Hx as ->. simpl. split; [exact Hcalm | now left].
  - rewrite Hw'. split; [exact Hcalm|]. right. split; [reflexivity | exact Hr].
Qed.

Lemma api_get_gentle (rq : Request) :
  is_mutating rq = false ->
  (forall zid q, rq = GET_dns_records zid q -> zid = zid0) ->
  gentle name0 zid0
    (fun r => forall name, rq = GET_zones name ->
                res_zones r = if String.eqb name name0
                              then [mkZone name0 zid0] else [])
    (api_get rq).
Proof.
  intros Hrq Hzid w Hw. unfold api_get, bind. rewrite request_world.
  destruct (serve_read_calm rq w Hw Hrq Hzid) as [Hcalm [Ht|[Hs (r & Hr & Hok & Hsucc)]]].
  - rewrite Ht. simpl. exact Hcalm.
  - rewrite Hs, Hr. rewrite Hok, Hsucc. simpl. split; [|exact Hcalm].
    intros name ->. simpl in Hr. injection Hr as <-. simpl.
    destruct Hw as (_ & -> & ->). reflexivity.
Qed.

Lemma get_zone_id_by_name_gentle (zone_name : string) :
  gentle name0 zid0
    (fun o => (o = Some zid0 /\ zone_name = name0) \/ (o = None /\ zone_name <> name0))
    (get_zone_id_by_name zone_name).
Proof.
  unfold get_zone_id_by_name.
  eapply gentle_bind.
  - apply api_get_gentle; [reflexivity | intros zid q H; discriminate].
  - intros data Hdata. cbv beta in Hdata.
    rewrite (Hdata zone_name eq_refl).
    destruct (String.eqb_spec zone_name name0) as [E|E]; apply gentle_ret; auto.
Qed.

Lemma dns_records_gentle (params : Params) :
  gentle name0 zid0 (fun _ => True) (dns_records zid0 params).
Proof.
  unfold dns_records.
  eapply gentle_bind.
  - apply api_get_gentle; [reflexivity | intros zid q H; now injection H as -> _].
  - intros data _. now apply gentle_ret.
Qed.

Lemma collect_zone_summary_gentle (zone_name : string)
  (zone_id_override : option string) :
  override_ok zid0 zone_id_override ->
  gentle name0 zid0
    (fun row => zone row = zone_name
                /\ (truthy zone_id_override = false -> zone_name <> name0 ->
                    row = empty_row zone_name))
    (collect_zone_summary zone_name zone_id_override).
Proof.
  intros Hov. unfold collect_zone_summary.
  apply gentle_bind
    with (P := fun o => (o = Some zid0 /\ (truthy zone_id_override = true \/ zone_name = name0))
                        \/ (o = None /\ truthy zone_id_override = false
                            /\ zone_name <> name0)).
  - destruct (truthy zone_id_override) eqn:Et.
    + apply gentle_ret. left. split; [now apply Hov | now left].
    + eapply gentle_weaken; [|apply get_zone_id_by_name_gentle].
      intros o [[-> Hn]|[-> Hn]]; [left | right]; auto.
  - intros o [[-> Hres]|(-> & Et & Hn)].
    + destruct (String.eqb zid0 "").
      * apply gentle_ret. split; [reflexivity|].
        intros Et Hn. reflexivity.
      * repeat (eapply gentle_bind; [apply dns_records_gentle | intros ? _]).
        apply gentle_ret. split; [reflexivity|].
        intros Et Hn. destruct Hres as [Hres|Hres]; [congruence | contradiction].
    + apply gentle_ret. split; reflexivity.
Qed.

Lemma main_rows_step (zone_name : string) (rest : list string)
  (zone_id_map : list (string * string)) (rows : list Row) (w : World) :
  calm name0 zid0 w ->
  override_ok zid0 (get zone_id_map zone_name) ->
  main_rows (zone_name :: rest) zone_id_map rows w
  = main_rows rest zone_id_map
      (rows ++ [row_of zone_name
                  (collect_zone_summary zone_name (get zone_id_map zone_name) w)])
      (snd (collect_zone_summary zone_name (get zone_id_map zone_name) w))
  /\ calm name0 zid0 (snd (collect_zone_summary zone_name (get zone_id_map zone_name) w))
  /\ zone (row_of zone_name
             (collect_zone_summary zone_name (get zone_id_map zone_name) w))
     = zone_name
  /\ (truthy (get zone_id_map zone_name) = false -> zone_name <> name0 ->
      row_of zone_name (collect_zone_summary zone_name (get zone_id_map zone_name) w)
      = empty_row zone_name).
Proof.
  intros Hw Hov.
  pose proof (collect_zone_summary_gentle zone_name _ Hov w Hw) as H.
  cbn [main_rows]. unfold row_of.
  destruct (collect_zone_summary zone_name (get zone_id_map zone_name) w)
    as [[row|e] w1]; cbn [fst snd].
  - destruct H as [[Hz He] Hcalm]. auto.
  - destruct e; try contradiction. auto.
Qed.

Lemma main_rows_total (zones : list string) (zone_id_map : list (string * string)) :
  forall (rows : list Row) (w : World),
    calm name0 zid0 w ->
    (forall z, In z zones -> override_ok zid0 (get zone_id_map z)) ->
    exists new w',
      main_rows zones zone_id_map rows w = (Ok (rows ++ new), w')
      /\ map zone new = zones
      /\ (forall z, In z zones -> truthy (get zone_id_map z) = false ->
                    z <> name0 -> In (empty_row z) new).
Proof.
  induction zones as [|z rest IH]; intros rows w Hw Hov.
  - exists [], w. simpl. rewrite app_nil_r. repeat split. intros z [].
  - destruct (main_rows_step z rest zone_id_map rows w Hw (Hov z (or_introl eq_refl)))
      as (Hstep & Hcalm & Hzone & Hempty).
    destruct (IH (rows ++ [row_of z (collect_zone_summary z (get zone_id_map z) w)])
                _ Hcalm (fun z' Hin => Hov z' (or_intror Hin)))
      as (new & w' & Hrun & Hmap & Hnew).
    exists (row_of z (collect_zone_summary z (get zone_id_map z) w) :: new), w'.
    split; [|split].
    + rewrite Hstep, Hrun, <- app_assoc. reflexivity.
    + simpl. now rewrite Hzone, Hmap.
    + intros z' [<-|Hin] Ht Hn.
      * left. now apply Hempty.
      * right. now apply Hnew.
Qed.

End BatchExport.

Lemma replay_app (cs1 cs2 : list Request) :
  forall w, replay w (cs1 ++ cs2) = replay (replay w cs1) cs2.
Proof. induction cs1 as [|c cs1 IH]; intros w; [reflexivity | apply IH]. Qed.

Lemma replies_app (cs1 cs2 : list Request) :
  forall w, replies w (cs1 ++ cs2) = replies w cs1 ++ replies (replay w cs1) cs2.
Proof.
  induction cs1 as [|c cs1 IH]; intros w; [reflexivity|].
  cbn [app replies replay]. now rewrite IH.
Qed.

Lemma replay_calls (cs : list Request) :
  forall w, w_calls (replay w cs) = w_calls w ++ cs.
Proof.
  induction cs as [|c cs IH]; intros w; cbn [replay].
  - now rewrite app_nil_r.
  - rewrite IH. destruct (serve_calls c w) as [-> _]. now rewrite <- app_assoc.
Qed.

Section StopsAtRefusal.

Import ExportZoneDnsSummary.

Lemma stops_then (B : Type) (Q : B -> Prop) (m2 : M B) (w w1 : World)
  (cs1 : list Request) :
  w1 = replay w cs1 ->
  existsb refused (replies w cs1) = false ->
  stops_at_refusal Q m2 ->
  exists cs,
    snd (m2 w1) = replay w cs
    /\ match fst (m2 w1) with
       | Ok a => Q a /\ existsb refused (replies w cs) = false
       | Raise RequestException => existsb refused (replies w cs) = false
       | Raise (SystemExit code) =>
           code = 1%Z
           /\ exists before rp,
                replies w cs = before ++ [rp]
                /\ existsb refused before = false /\ refused rp = true
       | Raise _ => False
       end.
Proof.
  intros Hw1 Hno H2. destruct (H2 w1) as (cs2 & Hw2 & Hres).
  exists (cs1 ++ cs2). rewrite replay_app, replies_app, <- Hw1.
  split; [exact Hw2|].
  destruct (fst (m2 w1)) as [b|[]]; try exact Hres.
  - destruct Hres as [Hq Hno2]. split; [exact Hq|].
    now rewrite existsb_app, Hno, Hno2.
  - now rewrite existsb_app, Hno, Hres.
  - destruct Hres as (Hcode & before & rp & Hrps & Hb & Hrp).
    split; [exact Hcode|].
    exists (replies w cs1 ++ before), rp. rewrite Hrps, app_assoc.
    split; [reflexivity|]. split; [|exact Hrp].
    now rewrite existsb_app, Hno, Hb.
Qed.

Lemma stops_ret (A : Type) (P : A -> Prop) (a : A) :
  P a -> stops_at_refusal P (ret a).
Proof. intros H w. exists []. cbn. auto. Qed.

Lemma stops_bind (A B : Type) (P : A -> Prop) (Q : B -> Prop)
  (m : M A) (k : A -> M B) :
  stops_at_refusal P m ->
  (forall a, P a -> stops_at_refusal Q (k a)) ->
  stops_at_refusal Q (bind m k).
Proof.
  intros Hm Hk w. destruct (Hm w) as (cs1 & Hw1 & Hres). unfold bind.
  destruct (m w) as [[a|e] w1]; cbn [fst snd] in *.
  - destruct Hres as [Pa Hno]. apply (stops_then B Q (k a) w w1 cs1 Hw1 Hno (Hk a Pa)).
  - exists cs1. split; [exact Hw1|]. exact Hres.
Qed.

Lemma api_get_stops (rq : Request) : stops_at_refusal (fun _ => True) (api_get rq).
Proof.
  intros w. exists [rq]. unfold api_get, bind. rewrite request_world.
  cbn [replay replies existsb].
  destruct (fst (serve rq w)) as [|r]; cbn [fst snd raise].
  - auto.
  - unfold refused.
    destruct (ok r) eqn:Eo; [destruct (success r) eqn:Es|];
      cbn [negb orb fst snd ret raise]; auto;
      (split; [reflexivity|]); (split; [reflexivity|]);
      exists [], (Http r); cbn [app existsb]; rewrite Eo; try rewrite Es; auto.
Qed.

Lemma dns_records_stops (zone_id : string) (params : Params) :
  stops_at_refusal (fun _ => True) (dns_records zone_id params).
Proof.
  unfold dns_records.
  eapply stops_bind; [apply api_get_stops | intros data _]. now apply stops_ret.
Qed.

Lemma collect_zone_summary_stops (zone_name : string)
  (zone_id_override : option string) :
  stops_at_refusal (fun row => zone row = zone_name)
    (collect_zone_summary zone_name zone_id_override).
Proof.
  unfold collect_zone_summary.
  apply stops_bind with (P := fun _ => True).
  - destruct (truthy zone_id_override); [now apply stops_ret|].
    unfold get_zone_id_by_name.
    eapply stops_bind; [apply api_get_stops | intros data _].
    destruct (res_zones data); now apply stops_ret.
  - intros [zid|] _; [|now apply stops_ret].
    destruct (String.eqb zid ""); [now apply stops_ret|].
    repeat (eapply stops_bind; [apply dns_records_stops | intros ? _]).
    now apply stops_ret.
Qed.

Lemma main_rows_stops (zones : list string) (zone_id_map : list (string * string)) :
  forall rows,
    stops_at_refusal (fun out => map zone out = map zone rows ++ zones)
      (main_rows zones zone_id_map rows).
Proof.
  induction zones as [|zone_name rest IH]; intros rows.
  - apply stops_ret. now rewrite app_nil_r.
  - intros w. cbn [main_rows].
    destruct (collect_zone_summary_stops zone_name (get zone_id_map zone_name) w)
      as (cs1 & Hw1 & Hres).
    assert (Hnext : forall row, zone row = zone_name ->
              stops_at_refusal
                (fun out => map zone out = map zone rows ++ zone_name :: rest)
                (main_rows rest zone_id_map (rows ++ [row]))).
    { intros row Hrow v. destruct (IH (rows ++ [row]) v) as (cs & Hv & Hout).
      exists cs. split; [exact Hv|].
      destruct (fst (main_rows rest zone_id_map (rows ++ [row]) v)) as [out|e];
        [|exact Hout].
      destruct Hout as [Hmap Hno]. split; [|exact Hno].
      rewrite Hmap, map_app, <- app_assoc. cbn [map app]. now rewrite Hrow. }
    destruct (collect_zone_summary zone_name (get zone_id_map zone_name) w)
      as [[row|e] w1]; cbn [fst snd] in *.
    + destruct Hres as [Hrow Hno].
      apply (stops_then _ _ _ w w1 cs1 Hw1 Hno (Hnext row Hrow)).
    + destruct e; try contradiction.
      * apply (stops_then _ _ _ w w1 cs1 Hw1 Hres (Hnext (empty_row zone_name) eq_refl)).
      * exists cs1. cbn [fst snd]. split; [exact Hw1 | exact Hres].
Qed.

Lemma main_rows_catches (zones : list string) (zone_id_map : list (string * string)) :
  forall rows w, fst (main_rows zones zone_id_map rows w) <> Raise RequestException.
Proof.
  induction zones as [|zone_name rest IH]; intros rows w; cbn [main_rows].
  - discriminate.
  - destruct (collect_zone_summary zone_name (get zone_id_map zone_name) w)
      as [[row|[]] w1]; try apply IH; discriminate.
Qed.

Lemma export_main_unfold (fuel : nat) (zones : list string)
  (zone_id_map : list (string * string)) (w : World) :
  main fuel false zones zone_id_map w
  = match main_rows zones zone_id_map [] w with
    | (Ok rows, w1) => (Ok rows, put_line (L_message "Wrote rows") w1)
    | (Raise e, w1) => (Raise e, w1)
    end.
Proof.
  unfold main, bind, ret, print. cbn [fst snd].
  now destruct (main_rows zones zone_id_map [] w) as [[rows|e] w1].
Qed.

End StopsAtRefusal.

(** C9, as stated, fails: a record read answered with an HTTP error (here
    404, for a stale zone identifier) raises [SystemExit] in [api_get], and
    the batch loop raises it again: the export ends there with status 1 and
    no row at all, the second zone is never looked at. *)
Lemma export_aborts_on_http_error :
  fst (ExportZoneDnsSummary.main 1 false ["gone.example"; "example.org"]
         stale_ids apex_cname_zone)
  = Raise (SystemExit 1)
  /\ new_calls apex_cname_zone
       (snd (ExportZoneDnsSummary.main 1 false ["gone.example"; "example.org"]
               stale_ids apex_cname_zone))
     = [GET_dns_records "stale"
          (mkParams (Some "A") (Some "gone.example") (Some 100) None)].
Proof. split; reflexivity. Qed.

(** C9 (amended): as long as the provider answers every request of the
    export (the zone identifiers given on the command line being right) or
    the request fails in transport, the batch loop never stops early: it
    returns exactly one row per input zone, in input order; a zone the
    provider does not know gets the empty row, and so does a zone for which
    collecting raised a transport exception.  In general, whatever the
    zone and the provider's answers, [main] returns one row per input zone,
    in input order, exactly when no request is answered with an HTTP error
    status or a [success] flag that is false; the first such answer raises
    [SystemExit], which the loop raises again: the run ends there with
    status 1 and without any row, and no further request is sent. *)
Theorem export_one_row_per_zone (zones : list string)
  (zone_id_map : list (string * string)) (w : World) :
  (mild w ->
   (forall z, In z zones ->
              override_ok (w_zone_id w) (ExportZoneDnsSummary.get zone_id_map z)) ->
   (exists rows w',
       ExportZoneDnsSummary.main_rows zones zone_id_map [] w = (Ok rows, w')
       /\ map ExportZoneDnsSummary.zone rows = zones
       /\ (forall z, In z zones ->
                     ExportZoneDnsSummary.truthy (ExportZoneDnsSummary.get zone_id_map z) = false ->
                     z <> w_zone_name w ->
                     In (ExportZoneDnsSummary.empty_row z) rows))
   /\ (forall z rest rows,
          In z zones ->
          ExportZoneDnsSummary.main_rows (z :: rest) zone_id_map rows w
          = ExportZoneDnsSummary.main_rows rest zone_id_map
              (rows ++ [row_of z (ExportZoneDnsSummary.collect_zone_summary z
                                    (ExportZoneDnsSummary.get zone_id_map z) w)])
              (snd (ExportZoneDnsSummary.collect_zone_summary z
                      (ExportZoneDnsSummary.get zone_id_map z) w))))
  /\ (forall fuel,
         let run := ExportZoneDnsSummary.main fuel false zones zone_id_map w in
         let answers := replies w (new_calls w (snd run)) in
         match fst run with
         | Ok rows =>
             map ExportZoneDnsSummary.zone rows = zones
             /\ existsb refused answers = false
         | Raise (SystemExit code) =>
             code = 1%Z
             /\ exists before rp,
                  answers = before ++ [rp]
                  /\ existsb refused before = false /\ refused rp = true
         | Raise _ => False
         end).
Proof.
  split.
  - intros Hm Hov.
    assert (Hw : calm (w_zone_name w) (w_zone_id w) w) by (repeat split; assumption).
    split.
    + destruct (main_rows_total (w_zone_name w) (w_zone_id w) zones zone_id_map [] w Hw Hov)
        as (new & w' & Hrun & Hmap & Hnew).
      exists new, w'. auto.
    + intros z rest rows Hin.
      apply (main_rows_step (w_zone_name w) (w_zone_id w) z rest zone_id_map rows w Hw
               (Hov z Hin)).
  - intros fuel run answers. subst run answers.
    rewrite export_main_unfold.
    destruct (main_rows_stops zones zone_id_map [] w) as (cs & Hw1 & Hres).
    pose proof (main_rows_catches zones zone_id_map [] w) as Hcatch.
    destruct (ExportZoneDnsSummary.main_rows zones zone_id_map [] w) as [[rows|e] w1];
      cbn [fst snd] in *.
    + assert (Hcs : new_calls w (put_line (L_message "Wrote rows") w1) = cs).
      { apply new_calls_app. cbn [w_calls put_line]. rewrite Hw1. apply replay_calls. }
      rewrite Hcs. exact Hres.
    + assert (Hcs : new_calls w w1 = cs).
      { apply new_calls_app. rewrite Hw1. apply replay_calls. }
      rewrite Hcs.
      destruct e; try contradiction; try (now contradiction Hcatch). exact Hres.
Qed.

(** Three zones on a provider that fails the second request in transport:
    the known zone, whose collection is cut short, and the two unknown ones
    all get a row, and the rows are empty. *)
Lemma export_one_row_per_zone_witness :
  exists rows w',
    ExportZoneDnsSummary.main_rows ["example.org"; "a.example"; "b.example"] [] []
      flaky_zone = (Ok rows, w')
    /\ map ExportZoneDnsSummary.zone rows = ["example.org"; "a.example"; "b.example"]
    /\ (forall z, In z ["example.org"; "a.example"; "b.example"] ->
                  ExportZoneDnsSummary.truthy (ExportZoneDnsSummary.get [] z) = false ->
                  z <> w_zone_name flaky_zone ->
                  In (ExportZoneDnsSummary.empty_row z) rows).
Proof.
  apply (proj1 (export_one_row_per_zone ["example.org"; "a.example"; "b.example"] []
                  flaky_zone)).
  - constructor; [now left | constructor; [now right | constructor]].
  - intros z _ H. discriminate H.
Defined.

(* ------------------------------------------------------------------ *)
(** ** enforce_standard.py: a second run *)

Lemma bind_ok_inv (A B : Type) (m : M A) (k : A -> M B) (w w' : World) (b : B) :
  bind m k w = (Ok b, w') ->
  exists a w1, m w = (Ok a, w1) /\ k a w1 = (Ok b, w').
Proof.
  unfold bind. destruct (m w) as [[a|e] w1]; [|discriminate].
  intros H. exists a, w1. auto.
Qed.

Lemma executed_of_reads (cs : list Request) : mutations cs = [] -> executed cs = [].
Proof.
  induction cs as [|c cs IH]; [reflexivity|].
  unfold mutations. simpl. destruct c; simpl; try discriminate; exact IH.
Qed.

Lemma serve_zones_success (name : string) (w : World) (r : Response) :
  fst (serve (GET_zones name) w) = Http r ->
  success r = true ->
  res_zones r = (if String.eqb name (w_zone_name w)
                 then [mkZone (w_zone_name w) (w_zone_id w)] else [])
  /\ snd (serve (GET_zones name) w) = log_call (GET_zones name) w.
Proof.
  unfold serve.
  destruct (w_faults w) as [|[f|] t]; simpl.
  - intros H _. injection H as <-. auto.
  - destruct f; simpl; intros H Hs; [discriminate|].
    injection H as <-. discriminate.
  - intros H _. injection H as <-. auto.
Qed.

Lemma serve_post_success (zid : string) (p : Payload) (w : World) (r : Response) :
  fst (serve (POST_dns_record zid p) w) = Http r ->
  success r = true ->
  w_recs (snd (serve (POST_dns_record zid p) w))
  = w_recs w ++ [record_of_payload (fresh_id w) p].
Proof.
  unfold serve.
  destruct (w_faults w) as [|[f|] t]; simpl.
  - destruct (String.eqb zid (w_zone_id w)); simpl.
    + destruct (w_accept w (w_recs w) (POST_dns_record zid p)); simpl.
      * intros _ _. reflexivity.
      * intros H Hs. injection H as <-. discriminate.
    + intros H Hs. injection H as <-. discriminate.
  - destruct f; simpl; intros H Hs; [discriminate|].
    injection H as <-. discriminate.
  - destruct (String.eqb zid (w_zone_id w)); simpl.
    + destruct (w_accept w (w_recs w) (POST_dns_record zid p)); simpl.
      * intros _ _. reflexivity.
      * intros H Hs. injection H as <-. discriminate.
    + intros H Hs. injection H as <-. discriminate.
Qed.

Section SecondRun.

Import EnforceStandard.

Lemma es_get_zone_id_ok (domain zid : string) (w w1 : World) :
  get_zone_id domain w = (Ok zid, w1) ->
  domain = w_zone_name w /\ zid = w_zone_id w
  /\ w1 = log_call (GET_zones domain) w.
Proof.
  unfold get_zone_id, api_get, bind. rewrite request_world.
  destruct (fst (serve (GET_zones domain) w)) as [|r] eqn:Hrp; simpl; [discriminate|].
  destruct (negb (ok r)); simpl; [discriminate|].
  destruct (success r) eqn:Hs; simpl; [|discriminate].
  destruct (serve_zones_success domain w r Hrp Hs) as [Hz Hw].
  rewrite Hz, Hw.
  destruct (String.eqb_spec domain (w_zone_name w)) as [E|E]; simpl; [|discriminate].
  intros H. injection H as <- <-. auto.
Qed.

Lemma es_get_zone_id_quiet (w : World) (domain : string) :
  quiet w ->
  domain = w_zone_name w ->
  get_zone_id domain w = (Ok (w_zone_id w), log_call (GET_zones domain) w).
Proof.
  intros Hq ->. unfold get_zone_id, api_get, bind, request, serve.
  destruct (w_faults w) as [|[f|] t] eqn:E;
    [| unfold quiet in Hq; rewrite E in Hq; inversion Hq; discriminate |];
    simpl; rewrite String.eqb_refl; reflexivity.
Qed.

Lemma get_all_records_loop_ok (fuel : nat) :
  forall (page : nat) (acc l : list DnsRecord) (w w1 : World),
    quiet w ->
    0 < w_page_size w ->
    1 <= page ->
    acc = firstn ((page - 1) * Nat.min 100 (w_page_size w)) (w_recs w) ->
    get_all_records_loop fuel (w_zone_id w) page acc w = (Ok l, w1) ->
    l = w_recs w.
Proof.
  induction fuel as [|fuel IH]; intros page acc l w w1 Hq Hps Hp Hacc.
  - discriminate.
  - rewrite (get_all_records_loop_step _ _ _ _ Hq). cbv zeta.
    assert (Hlen : 0 < Nat.min 100 (w_page_size w)) by (apply Nat.min_glb_lt; lia).
    set (rq := GET_dns_records (w_zone_id w) (mkParams None None (Some 100) (Some page))).
    pose proof (page_slice_extends DnsRecord (Nat.min 100 (w_page_size w)) page (w_recs w) Hp) as Hext.
    rewrite <- Hacc in Hext.
    remember (Nat.min 100 (w_page_size w)) as len eqn:Elen.
    destruct (Nat.leb (pages_of len (length (w_recs w))) page) eqn:Hlast.
    + apply Nat.leb_le in Hlast. intros H.
      assert (Hl : l = acc ++ page_slice len page (w_recs w)) by congruence.
      rewrite Hl, Hext.
      apply firstn_all2, pages_of_covers; assumption.
    + intros H.
      apply (IH (S page) (acc ++ page_slice len page (w_recs w)) l (log_call rq w) w1);
        try assumption.
      * now apply quiet_log_call.
      * lia.
      * change (w_recs (log_call rq w)) with (w_recs w).
        change (w_page_size (log_call rq w)) with (w_page_size w).
        rewrite <- Elen, Hext. f_equal. simpl. lia.
Qed.

Lemma post_or_report_ok (zid : string) (p : Payload) (w w1 : World) (b : bool) :
  post_or_report (POST_dns_record zid p) w = (Ok b, w1) ->
  w_recs w1 = w_recs w ++ [record_of_payload (fresh_id w) p].
Proof.
  unfold post_or_report, api_post, bind. rewrite request_world.
  destruct (fst (serve (POST_dns_record zid p) w)) as [|r] eqn:Hrp; simpl; [discriminate|].
  destruct (negb (ok r)); simpl; [discriminate|].
  destruct (success r) eqn:Hs; simpl; [|discriminate].
  intros H. injection H as _ <-. simpl.
  now apply serve_post_success with (r := r).
Qed.

Lemma ensure_record_apply_ok (zone_id zone : string) (record_def : RecordDef)
  (all_records : list DnsRecord) (w w1 : World) (b : bool) :
  ensure_record zone_id zone record_def all_records false w = (Ok b, w1) ->
  (already_exists zone record_def all_records = true /\ w_recs w1 = w_recs w)
  \/ (already_exists zone record_def all_records = false
      /\ exists id, w_recs w1
                    = w_recs w ++ [record_of_payload id (payload_of zone record_def)]).
Proof.
  destruct (already_exists zone record_def all_records) eqn:E.
  - rewrite (ensure_record_satisfied _ _ _ _ _ _ E).
    intros H. injection H as _ <-. left. auto.
  - rewrite (ensure_record_creates _ _ _ _ _ E).
    intros H. apply post_or_report_ok in H. right. split; [reflexivity|].
    eexists. exact H.
Qed.

Lemma ensure_all_apply_ok (zone_id zone : string) (all_records : list DnsRecord)
  (stds : list RecordDef) :
  forall (n n' : nat) (w w' : World),
    ensure_all zone_id zone stds all_records false n w = (Ok n', w') ->
    exists created,
      w_recs w' = w_recs w ++ created
      /\ (forall std, In std stds ->
            already_exists zone std all_records = true
            \/ exists id, In (record_of_payload id (payload_of zone std)) created)
      /\ (forall r, In r created ->
            exists std id, In std stds
                           /\ r = record_of_payload id (payload_of zone std)).
Proof.
  induction stds as [|std rest IH]; intros n n' w w' H.
  - simpl in H. injection H as _ <-. exists []. rewrite app_nil_r.
    split; [reflexivity|]. split; [intros std [] | intros r []].
  - cbn [ensure_all] in H. apply bind_ok_inv in H.
    destruct H as (changed & w1 & Hstd & Hrest).
    apply ensure_record_apply_ok in Hstd.
    apply IH in Hrest. destruct Hrest as (created & Hrecs & Hsat & Hfrom).
    destruct Hstd as [[Hs Hw1]|[Hs [id Hw1]]].
    + exists created. split; [now rewrite Hrecs, Hw1|]. split.
      * intros std' [<-|Hin]; [now left | now apply Hsat].
      * intros r Hr. destruct (Hfrom r Hr) as (std' & id & Hin & Hre).
        exists std', id. split; [now right | exact Hre].
    + exists (record_of_payload id (payload_of zone std) :: created).
      split; [rewrite Hrecs, Hw1, <- app_assoc; reflexivity|]. split.
      * intros std' [<-|Hin].
        -- right. exists id. now left.
        -- destruct (Hsat std' Hin) as [H|[id' H]]; [now left|].
           right. exists id'. now right.
      * intros r [<-|Hr].
        -- exists std, id. split; [now left | reflexivity].
        -- destruct (Hfrom r Hr) as (std' & id' & Hin & Hre).
           exists std', id'. split; [now right | exact Hre].
Qed.


Lemma exact_match_of_payload (zone id : string) (record_def : RecordDef) :
  exact_match zone record_def (record_of_payload id (payload_of zone record_def)).
Proof.
  unfold exact_match, record_of_payload, payload_of. simpl.
  repeat split. intros H. now rewrite H.
Qed.




Lemma enforce_standard_unfold (fuel : nat) (zone : string) (dry_run : bool)
  (w : World) :
  enforce_standard fuel zone dry_run w =
  match get_zone_id zone (put_line L_rule (put_line (L_enforce_header zone dry_run) w)) with
  | (Raise e, wa) => (Raise e, wa)
  | (Ok zone_id, wa) =>
      match get_all_records fuel zone_id wa with
      | (Raise e, wb) => (Raise e, wb)
      | (Ok all_records, wb) =>
          match ensure_all zone_id zone (standards zone) all_records dry_run 0 wb with
          | (Raise e, wc) => (Raise e, wc)
          | (Ok changes_needed, wc) =>
              (Ok changes_needed,
               put_line (if Nat.eqb changes_needed 0 then L_all_in_place
                         else if dry_run then L_changes_needed changes_needed
                              else L_changes_applied changes_needed)
                 (put_line L_rule wc))
          end
      end
  end.
Proof.
  unfold enforce_standard, bind, print.
  destruct (get_zone_id zone _) as [[zid|e] wa]; [|reflexivity].
  destruct (get_all_records fuel zid wa) as [[all|e] wb]; [|reflexivity].
  destruct (ensure_all zid zone (standards zone) all dry_run 0 wb) as [[n|e] wc];
    [|reflexivity].
  destruct (Nat.eqb n 0); [reflexivity|]. destruct dry_run; reflexivity.
Qed.

End SecondRun.




(* ------------------------------------------------------------------ *)
(** ** update_pages_dns.py: apex CNAME before apex A/AAAA *)

Lemma yields_plan (dry_run : bool) (w w' : World) (st : list Step) :
  yields dry_run w w' st -> plan dry_run w w' = st.
Proof.
  intros (cs & ls & Hc & Hl & ->). unfold plan.
  now rewrite (new_calls_app _ _ _ Hc), (new_lines_app _ _ _ Hl).
Qed.

Lemma yields_refl (dry_run : bool) (w : World) : yields dry_run w w [].
Proof. exists [], []. rewrite !app_nil_r. now destruct dry_run. Qed.

Lemma yields_trans (dry_run : bool) (w1 w2 w3 : World) (st st' : list Step) :
  yields dry_run w1 w2 st -> yields dry_run w2 w3 st' ->
  yields dry_run w1 w3 (st ++ st').
Proof.
  intros (cs & ls & Hc & Hl & ->) (cs' & ls' & Hc' & Hl' & ->).
  exists (cs ++ cs'), (ls ++ ls'). split; [|split].
  - rewrite Hc', Hc, app_assoc. reflexivity.
  - rewrite Hl', Hl, app_assoc. reflexivity.
  - destruct dry_run; now rewrite flat_map_app.
Qed.

Lemma yields_request (dry_run : bool) (rq : Request) (w : World) :
  yields dry_run w (snd (request rq w)) (if dry_run then [] else steps_of_call rq).
Proof.
  rewrite request_world. simpl. destruct (serve_calls rq w) as [Hc Hl].
  exists [rq], []. rewrite Hc, Hl, app_nil_r. simpl. rewrite app_nil_r. auto.
Qed.

Lemma yields_print (dry_run : bool) (l : Line) (w : World) :
  yields dry_run w (put_line l w) (if dry_run then steps_of_line l else []).
Proof.
  exists [], [l]. simpl. rewrite !app_nil_r. auto.
Qed.

Section Tame.

Variable dry_run : bool.
Variable domain : string.

Lemma tame_ret (A : Type) (a : A) : tame dry_run domain (ret a).
Proof. intros w. exists []. split; [apply yields_refl | constructor]. Qed.

Lemma tame_raise (A : Type) (e : Exn) : tame dry_run domain (@raise A e).
Proof. intros w. exists []. split; [apply yields_refl | constructor]. Qed.

Lemma tame_bind (A B : Type) (m : M A) (k : A -> M B) :
  tame dry_run domain m -> (forall a, tame dry_run domain (k a)) ->
  tame dry_run domain (bind m k).
Proof.
  intros Hm Hk w. unfold bind. destruct (Hm w) as (st & Hy & Hg).
  destruct (m w) as [[a|e] w1]; simpl in *.
  - destruct (Hk a w1) as (st' & Hy' & Hg').
    exists (st ++ st'). split; [eapply yields_trans; eassumption|].
    apply Forall_app. auto.
  - exists st. auto.
Qed.

Lemma tame_print (l : Line) :
  Forall (good domain) (steps_of_line l) -> tame dry_run domain (print l).
Proof.
  intros H w. exists (if dry_run then steps_of_line l else []).
  split; [apply yields_print|]. destruct dry_run; [exact H | constructor].
Qed.

Lemma tame_print_apply (l : Line) : tame false domain (print l).
Proof.
  intros w. exists []. split; [apply (yields_print false) | constructor].
Qed.

Lemma tame_request (rq : Request) :
  Forall (good domain) (steps_of_call rq) -> tame dry_run domain (request rq).
Proof.
  intros H w. exists (if dry_run then [] else steps_of_call rq).
  split; [apply yields_request|]. destruct dry_run; [constructor | exact H].
Qed.

End Tame.

Ltac tame_steps :=
  repeat first
    [ apply tame_ret
    | apply tame_raise
    | apply tame_bind; [| intros ?]
    | apply tame_request; simpl; repeat constructor; auto
    | apply tame_print; simpl; repeat constructor; auto
    | match goal with
      | |- tame _ _ (match ?x with _ => _ end) => destruct x
      end ].

Section ApexOrder.

Import UpdatePagesDns.

Variable domain : string.

Lemma pages_api_get_tame (dry_run : bool) (rq : Request) :
  is_mutating rq = false -> tame dry_run domain (api_get rq).
Proof.
  intros H. unfold api_get. apply tame_bind.
  - apply tame_request. destruct rq; try discriminate; constructor.
  - intros rp. tame_steps.
Qed.

Lemma pages_get_dns_records_tame (dry_run : bool) (zone_id : string)
  (name ty : option string) :
  tame dry_run domain (get_dns_records zone_id name ty).
Proof.
  unfold get_dns_records. apply tame_bind.
  - now apply pages_api_get_tame.
  - intros data. apply tame_ret.
Qed.

Lemma delete_records_tame (dry_run : bool) (zone_id : string) (ids : list string) :
  tame dry_run domain (delete_records zone_id ids).
Proof.
  induction ids as [|id rest IH]; simpl.
  - apply tame_ret.
  - apply tame_bind.
    + apply tame_request. simpl. repeat constructor.
    + intros rp. destruct rp as [|r]; [apply tame_raise|].
      destruct (negb (ok r) || negb (success r)); [apply tame_raise | exact IH].
Qed.

Lemma Forall_good_deletes (ids : list string) :
  Forall (good domain) (map Step_delete ids).
Proof. induction ids; simpl; constructor; simpl; auto. Qed.

Lemma delete_or_report_tame (dry_run : bool) (zone_id what : string)
  (ids : list string) :
  tame dry_run domain (delete_or_report dry_run zone_id what ids).
Proof.
  unfold delete_or_report. destruct ids as [|id rest]; [apply tame_ret|].
  destruct dry_run.
  - apply tame_print. apply Forall_good_deletes.
  - apply tame_bind; [apply delete_records_tame|].
    intros _. apply tame_print. constructor.
Qed.

Lemma pages_api_post_tame (dry_run : bool) (zone_id : string) (p : Payload) :
  p_name p = domain -> p_type p = "A" \/ p_type p = "AAAA" ->
  tame dry_run domain (api_post (POST_dns_record zone_id p)).
Proof.
  intros Hn Hty. unfold api_post. apply tame_bind.
  - apply tame_request. simpl. constructor; [split; assumption | constructor].
  - intros rp. unfold check. tame_steps.
Qed.

Lemma create_each_tame (dry_run : bool) (zone_id ty : string)
  (comment : option string) (ips : list string) :
  ty = "A" \/ ty = "AAAA" ->
  tame dry_run domain (create_each dry_run zone_id domain ty comment ips).
Proof.
  intros Hty. induction ips as [|ip rest IH]; simpl.
  - apply tame_ret.
  - apply tame_bind; [|intros _; exact IH].
    destruct dry_run.
    + apply tame_print. simpl.
      constructor; [split; [reflexivity | exact Hty] | constructor].
    + apply tame_bind.
      * destruct Hty as [-> | ->]; simpl;
          unfold create_a_record, create_aaaa_record;
          (apply tame_bind; [apply pages_api_post_tame; simpl; auto
                            | intros created; apply tame_ret]).
      * intros msg. apply tame_print_apply.
Qed.

Lemma pages_get_dns_records_yields (dry_run : bool) (zone_id : string)
  (name ty : option string) (w : World) :
  yields dry_run w (snd (get_dns_records zone_id name ty w)) [].
Proof.
  pose proof (yields_request dry_run (GET_dns_records zone_id (mkParams ty name None None)) w)
    as H.
  replace (if dry_run then [] else steps_of_call (GET_dns_records zone_id (mkParams ty name None None)))
    with (@nil Step) in H by now destruct dry_run.
  unfold get_dns_records, api_get, bind.
  destruct (request _ w) as [[rp|e] w1]; simpl in *; [|exact H].
  destruct rp as [|r]; simpl; [exact H|].
  destruct (negb (ok r)); simpl; [exact H|].
  destruct (negb (success r)); simpl; exact H.
Qed.

Lemma delete_records_yields (zone_id : string) (ids : list string) :
  forall w, exists pre suf,
    ids = pre ++ suf
    /\ yields false w (snd (delete_records zone_id ids w)) (map Step_delete pre)
    /\ (fst (delete_records zone_id ids w) = Ok tt -> suf = []).
Proof.
  induction ids as [|id rest IH]; intros w.
  - exists [], []. split; [reflexivity|]. split; [apply yields_refl | reflexivity].
  - cbn [delete_records]. unfold bind.
    pose proof (yields_request false (DELETE_dns_record zone_id id) w) as Hy.
    destruct (request (DELETE_dns_record zone_id id) w) as [[rp|e] w1]; simpl in Hy.
    2: { exists [id], rest. split; [reflexivity|]. split; [exact Hy | discriminate]. }
    assert (Hstop : forall e, exists pre suf,
               id :: rest = pre ++ suf
               /\ yields false w (snd (@raise unit e w1)) (map Step_delete pre)
               /\ (fst (@raise unit e w1) = Ok tt -> suf = [])).
    { intros e. exists [id], rest. split; [reflexivity|].
      split; [exact Hy | discriminate]. }
    destruct rp as [|r]; [apply Hstop|].
    destruct (negb (ok r) || negb (success r)); [apply Hstop|].
    destruct (IH w1) as (pre & suf & Hids & Hy' & Hok).
    exists (id :: pre), suf. split; [now rewrite Hids|]. split; [|exact Hok].
    apply (yields_trans false w w1 _ [Step_delete id] (map Step_delete pre) Hy Hy').
Qed.

Lemma delete_or_report_yields (dry_run : bool) (zone_id what : string)
  (ids : list string) (w : World) :
  exists pre suf,
    ids = pre ++ suf
    /\ yields dry_run w (snd (delete_or_report dry_run zone_id what ids w))
         (map Step_delete pre)
    /\ (forall u, fst (delete_or_report dry_run zone_id what ids w) = Ok u -> suf = []).
Proof.
  unfold delete_or_report. destruct ids as [|id rest].
  - exists [], []. split; [reflexivity|]. split; [apply yields_refl | reflexivity].
  - destruct dry_run.
    + exists (id :: rest), []. split; [now rewrite app_nil_r|].
      split; [apply (yields_print true (L_would_delete what (id :: rest))) | reflexivity].
    + destruct (delete_records_yields zone_id (id :: rest) w) as (pre & suf & Hids & Hy & Hok).
      exists pre, suf. split; [exact Hids|]. unfold bind.
      destruct (delete_records zone_id (id :: rest) w) as [[[]|e] w1]; simpl in *.
      * split; [|intros _ _; now apply Hok].
        rewrite <- (app_nil_r (map Step_delete pre)).
        eapply yields_trans; [exact Hy|].
        apply (yields_print false).
      * split; [exact Hy | discriminate].
Qed.

Lemma split_after_deletes (cn : list string) :
  forall (rest before after : list Step) (ty name content : string),
    map Step_delete cn ++ rest = before ++ Step_create ty name content :: after ->
    exists before',
      before = map Step_delete cn ++ before'
      /\ rest = before' ++ Step_create ty name content :: after.
Proof.
  induction cn as [|id cn IH]; intros rest before after ty name content H.
  - exists before. auto.
  - destruct before as [|b before]; simpl in H; [discriminate|].
    injection H as <- H.
    destruct (IH _ _ _ _ _ _ H) as (before' & -> & Hrest).
    exists before'. auto.
Qed.

Lemma predict_app (a b : list Step) (rs : list DnsRecord) :
  predict (a ++ b) rs = predict b (predict a rs).
Proof. apply fold_left_app. Qed.

Lemma predict_deletes (ids : list string) :
  forall rs r, In r (predict (map Step_delete ids) rs) ->
               In r rs /\ ~ In (r_id r) ids.
Proof.
  induction ids as [|id ids IH]; intros rs r H; simpl in *.
  - auto.
  - apply IH in H. destruct H as [Hin Hn].
    unfold remove_by_id in Hin. apply filter_In in Hin. destruct Hin as [Hin Hid].
    split; [exact Hin|]. intros [E|E]; [|contradiction].
    unfold has_id in Hid. rewrite <- E, String.eqb_refl in Hid. discriminate.
Qed.

Lemma predict_good (st : list Step) :
  Forall (good domain) st ->
  forall rs, no_apex_cname domain rs -> no_apex_cname domain (predict st rs).
Proof.
  induction 1 as [|s st Hs Hst IH]; intros rs Hrs; simpl; [exact Hrs|].
  apply IH. destruct s as [id|ty name content]; simpl in *.
  - intros r Hr. unfold remove_by_id in Hr. apply filter_In in Hr. now apply Hrs.
  - intros r Hr. apply in_app_or in Hr. destruct Hr as [Hr|[<-|[]]]; [now apply Hrs|].
    simpl. intros [Ht _]. destruct Hs as [_ [E|E]]; rewrite E in Ht; discriminate.
Qed.

Lemma no_apex_cname_records_at (rs : list DnsRecord) :
  no_apex_cname domain rs -> records_at "CNAME" domain rs = [].
Proof.
  intros H. destruct (records_at "CNAME" domain rs) as [|r l] eqn:E; [reflexivity|].
  assert (Hin : In r (records_at "CNAME" domain rs)) by (rewrite E; now left).
  apply in_records_at in Hin. destruct Hin as (Hin & Ht & Hn).
  destruct (H r Hin). auto.
Qed.

(** The rest of the block once the apex CNAMEs are out of the way. *)
Lemma main_github_tail_tame (args : Args) (zone_id : string) :
  a_domain args = domain ->
  tame (a_dry_run args) domain
    (existing_apex_a <- get_dns_records zone_id (Some (a_domain args)) (Some "A") ;;
     existing_apex_aaaa <- get_dns_records zone_id (Some (a_domain args)) (Some "AAAA") ;;
     delete_or_report (a_dry_run args) zone_id "apex A/AAAA"
       (ids_of (existing_apex_a ++ existing_apex_aaaa)) ;;;
     (if a_set_github_a args
      then create_each (a_dry_run args) zone_id (a_domain args) "A"
             (comment_of "Previous apex A: " (previous_of existing_apex_a)) github_ips
      else ret tt) ;;;
     (if a_set_github_aaaa args
      then create_each (a_dry_run args) zone_id (a_domain args) "AAAA"
             (comment_of "Previous apex AAAA: " (previous_of existing_apex_aaaa))
             github_ipv6
      else ret tt)).
Proof.
  intros Hd. rewrite Hd.
  apply tame_bind; [apply pages_get_dns_records_tame | intros existing_apex_a].
  apply tame_bind; [apply pages_get_dns_records_tame | intros existing_apex_aaaa].
  apply tame_bind; [apply delete_or_report_tame | intros _].
  apply tame_bind; [| intros _].
  - destruct (a_set_github_a args); [apply create_each_tame; now left | apply tame_ret].
  - destruct (a_set_github_aaaa args); [apply create_each_tame; now right | apply tame_ret].
Qed.

(** The shape of every plan of the block: deletes only, or the deletes of
    all apex CNAMEs followed by good steps. *)
Lemma main_github_shape (args : Args) (zone_id : string) (w : World) :
  a_domain args = domain ->
  length (records_at "CNAME" domain (w_recs w)) <= w_page_size w ->
  exists st,
    yields (a_dry_run args) w (snd (main_github args zone_id w)) st
    /\ ((exists pre, st = map Step_delete pre)
        \/ (exists rest,
              st = map Step_delete (ids_of (records_at "CNAME" domain (w_recs w))) ++ rest
              /\ Forall (good domain) rest)).
Proof.
  intros Hd Hcount. unfold main_github.
  destruct (a_set_github_a args || a_set_github_aaaa args).
  2: { exists []. split; [apply yields_refl | left; now exists []]. }
  pose proof (pages_get_dns_records_yields (a_dry_run args) zone_id
                (Some (a_domain args)) (Some "CNAME") w) as Hy1.
  destruct (get_dns_records zone_id (Some (a_domain args)) (Some "CNAME") w)
    as [[l|e] w1] eqn:Hget.
  2: { rewrite (bind_raise _ Hget). exists []. split; [exact Hy1 | left; now exists []]. }
  rewrite (bind_ok _ Hget). simpl in Hy1.
  apply pages_get_dns_records_ok in Hget. destruct Hget as (_ & Hl & _).
  rewrite Hd in Hl. fold (records_at "CNAME" domain (w_recs w)) in Hl.
  rewrite firstn_all2 in Hl by exact Hcount. subst l.
  set (cn := ids_of (records_at "CNAME" domain (w_recs w))).
  destruct (delete_or_report_yields (a_dry_run args) zone_id "apex CNAME" cn w1)
    as (pre & suf & Hids & Hy2 & Hok).
  destruct (delete_or_report (a_dry_run args) zone_id "apex CNAME" cn w1)
    as [[u|e] w2] eqn:Hdel.
  - rewrite (bind_ok _ Hdel). simpl in Hy2.
    rewrite (Hok u eq_refl), app_nil_r in Hids. subst pre.
    destruct (main_github_tail_tame args zone_id Hd w2) as (rest & Hy3 & Hgood).
    exists (map Step_delete cn ++ rest). split.
    + apply (yields_trans _ w w1 _ [] _ Hy1).
      eapply yields_trans; [exact Hy2 | exact Hy3].
    + right. exists rest. auto.
  - rewrite (bind_raise _ Hdel). simpl in Hy2.
    exists (map Step_delete pre). split.
    + apply (yields_trans _ w w1 w2 [] _ Hy1 Hy2).
    + left. now exists pre.
Qed.

End ApexOrder.

(** C3: in the block of [main] that sets the GitHub Pages A/AAAA records at
    the apex, in dry-run and in apply mode alike, every creation the plan
    holds is that of an A or AAAA record at the apex, and it comes after the
    delete of every CNAME the zone has at the apex: the zone predicted at
    that point of the plan has no apex CNAME left.  (The lookup of the apex
    CNAMEs is a single page; the zone is taken to have no more of them than
    a page holds, as a name carries one CNAME at most.) *)
Theorem apex_cname_deleted_before_create (args : UpdatePagesDns.Args)
  (zone_id : string) (w : World) (before after : list Step)
  (ty name content : string) :
  length (records_at "CNAME" (UpdatePagesDns.a_domain args) (w_recs w))
  <= w_page_size w ->
  plan (UpdatePagesDns.a_dry_run args) w
    (snd (UpdatePagesDns.main_github args zone_id w))
  = before ++ Step_create ty name content :: after ->
  (name = UpdatePagesDns.a_domain args /\ (ty = "A" \/ ty = "AAAA"))
  /\ (forall r, In r (records_at "CNAME" (UpdatePagesDns.a_domain args) (w_recs w)) ->
                In (Step_delete (r_id r)) before)
  /\ records_at "CNAME" (UpdatePagesDns.a_domain args) (predict before (w_recs w)) = [].
Proof.
  intros Hcount Hplan.
  destruct (main_github_shape (UpdatePagesDns.a_domain args) args zone_id w eq_refl Hcount)
    as (st & Hy & Hshape).
  rewrite (yields_plan _ _ _ _ Hy) in Hplan.
  destruct Hshape as [[pre ->]|[rest [-> Hgood]]].
  - exfalso. clear Hy. revert before Hplan.
    induction pre as [|id pre IH]; intros before H.
    + destruct before; discriminate.
    + destruct before as [|b before]; simpl in H; [discriminate|].
      injection H as _ H. now apply (IH before).
  - apply split_after_deletes in Hplan. destruct Hplan as (before' & -> & Hrest).
    rewrite Hrest in Hgood. apply Forall_app in Hgood. destruct Hgood as [Hb Hc].
    inversion Hc as [|x l Hcreate _]; subst.
    split; [exact Hcreate|]. split.
    + intros r Hr. apply in_or_app. left.
      apply in_map. unfold UpdatePagesDns.ids_of. now apply in_map.
    + apply no_apex_cname_records_at. rewrite predict_app.
      apply predict_good; [exact Hb|].
      intros r Hr [Ht Hn]. apply predict_deletes in Hr. destruct Hr as [Hr Hid].
      apply Hid. unfold UpdatePagesDns.ids_of. apply in_map.
      apply in_records_at. auto.
Qed.

(** The zone whose apex is a CNAME, [--set-github-a] in apply mode: the
    plan is the delete of the CNAME and then four creations; at the second
    creation the CNAME is already deleted. *)
Lemma apex_cname_deleted_before_create_witness :
  plan false apex_cname_zone
    (snd (UpdatePagesDns.main_github set_github_a "z1" apex_cname_zone))
  = [Step_delete "c1"; Step_create "A" "example.org" "185.199.108.153"]
    ++ Step_create "A" "example.org" "185.199.109.153"
       :: [Step_create "A" "example.org" "185.199.110.153";
           Step_create "A" "example.org" "185.199.111.153"]
  /\ In (Step_delete "c1")
       [Step_delete "c1"; Step_create "A" "example.org" "185.199.108.153"]
  /\ records_at "CNAME" "example.org"
       (predict [Step_delete "c1"; Step_create "A" "example.org" "185.199.108.153"]
          (w_recs apex_cname_zone)) = [].
Proof.
  assert (Hplan : plan false apex_cname_zone
                    (snd (UpdatePagesDns.main_github set_github_a "z1" apex_cname_zone))
                  = [Step_delete "c1"; Step_create "A" "example.org" "185.199.108.153"]
                    ++ Step_create "A" "example.org" "185.199.109.153"
                       :: [Step_create "A" "example.org" "185.199.110.153";
                           Step_create "A" "example.org" "185.199.111.153"])
    by (vm_compute; reflexivity).
  split; [exact Hplan|].
  destruct (apex_cname_deleted_before_create set_github_a "z1" apex_cname_zone
              [Step_delete "c1"; Step_create "A" "example.org" "185.199.108.153"]
              [Step_create "A" "example.org" "185.199.110.153";
               Step_create "A" "example.org" "185.199.111.153"]
              "A" "example.org" "185.199.109.153")
    as (_ & Hdel & Hnone).
  - simpl. lia.
  - exact Hplan.
  - split; [|exact Hnone].
    apply (Hdel old_apex_cname). now left.
Defined.

(** The same command as a dry run announces the same plan and sends
    nothing but the three lookups. *)
Lemma github_plan_dry_run :
  plan true apex_cname_zone
    (snd (UpdatePagesDns.main_github set_github_a_dry "z1" apex_cname_zone))
  = [Step_delete "c1";
     Step_create "A" "example.org" "185.199.108.153";
     Step_create "A" "example.org" "185.199.109.153";
     Step_create "A" "example.org" "185.199.110.153";
     Step_create "A" "example.org" "185.199.111.153"]
  /\ mutations (new_calls apex_cname_zone
                  (snd (UpdatePagesDns.main_github set_github_a_dry "z1" apex_cname_zone)))
     = [].
Proof. split; vm_compute; reflexivity. Qed.

(* ------------------------------------------------------------------ *)
(** ** update_pages_dns.py: deleting records *)

Lemma in_ids (id : string) (ids : list string) :
  existsb (String.eqb id) ids = true <-> In id ids.
Proof.
  rewrite existsb_exists. split.
  - intros (x & Hin & E). apply String.eqb_eq in E. now subst.
  - intros H. exists id. split; [exact H | apply String.eqb_refl].
Qed.

Lemma in_without_ids (ids : list string) (rs : list DnsRecord) (r : DnsRecord) :
  In r (without_ids ids rs) <-> In r rs /\ ~ In (r_id r) ids.
Proof.
  unfold without_ids. rewrite filter_In, negb_true_iff.
  rewrite <- (in_ids (r_id r) ids).
  destruct (existsb (String.eqb (r_id r)) ids); intuition congruence.
Qed.

Lemma without_ids_nil (rs : list DnsRecord) : without_ids [] rs = rs.
Proof.
  unfold without_ids. induction rs as [|r rs IH]; [reflexivity|].
  simpl in *. now rewrite IH.
Qed.

Lemma without_ids_remove (id : string) (done : list string) (rs : list DnsRecord) :
  without_ids done (remove_by_id id rs) = without_ids (id :: done) rs.
Proof.
  unfold without_ids, remove_by_id, has_id.
  induction rs as [|r rs IH]; [reflexivity|]. cbn [filter existsb].
  destruct (String.eqb (r_id r) id); cbn [negb orb filter]; rewrite IH; reflexivity.
Qed.

(** A DELETE either succeeds and removes the records of that identifier,
    or is answered with a failure and removes nothing. *)
Lemma serve_delete_cases (zid id : string) (w : World) :
  (exists r, fst (serve (DELETE_dns_record zid id) w) = Http r
             /\ negb (ok r) || negb (success r) = false
             /\ w_recs (snd (serve (DELETE_dns_record zid id) w))
                = remove_by_id id (w_recs w))
  \/ (match fst (serve (DELETE_dns_record zid id) w) with
      | Transport_error => True
      | Http r => negb (ok r) || negb (success r) = true
      end
      /\ w_recs (snd (serve (DELETE_dns_record zid id) w)) = w_recs w).
Proof.
  unfold serve.
  assert (Hh : forall w0, w_recs w0 = w_recs w ->
            (exists r, fst (handle (DELETE_dns_record zid id) w0) = Http r
                       /\ negb (ok r) || negb (success r) = false
                       /\ w_recs (snd (handle (DELETE_dns_record zid id) w0))
                          = remove_by_id id (w_recs w))
            \/ (match fst (handle (DELETE_dns_record zid id) w0) with
                | Transport_error => True
                | Http r => negb (ok r) || negb (success r) = true
                end
                /\ w_recs (snd (handle (DELETE_dns_record zid id) w0)) = w_recs w)).
  { intros w0 E. cbn [handle].
    destruct (String.eqb zid (w_zone_id w0) && existsb (has_id id) (w_recs w0));
      [|right; split; [reflexivity | exact E]].
    destruct (w_accept w0 (w_recs w0) (DELETE_dns_record zid id)).
    - left. eexists. split; [reflexivity|]. split; [reflexivity|].
      simpl. now rewrite E.
    - right. split; [reflexivity | exact E]. }
  destruct (w_faults w) as [|[f|] t].
  - apply Hh. reflexivity.
  - right. destruct f; simpl; split; auto using orb_true_r.
  - apply Hh. reflexivity.
Qed.

Section DeleteRecords.

Import UpdatePagesDns.

Lemma delete_records_run (zone_id : string) (ids : list string) :
  forall w, exists done rest,
    ids = done ++ rest
    /\ w_recs (snd (delete_records zone_id ids w)) = without_ids done (w_recs w)
    /\ match fst (delete_records zone_id ids w) with
       | Ok _ =>
           rest = []
           /\ w_calls (snd (delete_records zone_id ids w))
              = w_calls w ++ map (DELETE_dns_record zone_id) done
       | Raise _ =>
           exists id rest',
             rest = id :: rest'
             /\ w_calls (snd (delete_records zone_id ids w))
                = w_calls w ++ map (DELETE_dns_record zone_id) (done ++ [id])
       end.
Proof.
  induction ids as [|id ids IH]; intros w.
  - exists [], []. simpl. rewrite app_nil_r, without_ids_nil. auto.
  - cbn [delete_records]. unfold bind. rewrite request_world.
    destruct (serve_calls (DELETE_dns_record zone_id id) w) as [Hc _].
    assert (Hstop : forall e,
              w_recs (snd (serve (DELETE_dns_record zone_id id) w)) = w_recs w ->
              exists done rest,
                id :: ids = done ++ rest
                /\ w_recs (snd (@raise unit e (snd (serve (DELETE_dns_record zone_id id) w))))
                   = without_ids done (w_recs w)
                /\ match fst (@raise unit e (snd (serve (DELETE_dns_record zone_id id) w))) with
                   | Ok _ =>
                       rest = []
                       /\ w_calls (snd (@raise unit e (snd (serve (DELETE_dns_record zone_id id) w))))
                          = w_calls w ++ map (DELETE_dns_record zone_id) done
                   | Raise _ =>
                       exists id' rest',
                         rest = id' :: rest'
                         /\ w_calls (snd (@raise unit e (snd (serve (DELETE_dns_record zone_id id) w))))
                            = w_calls w ++ map (DELETE_dns_record zone_id) (done ++ [id'])
                   end).
    { intros e E. exists [], (id :: ids). simpl.
      split; [reflexivity|]. split.
      - rewrite without_ids_nil. exact E.
      - exists id, ids. split; [reflexivity | exact Hc]. }
    destruct (serve_delete_cases zone_id id w) as [(r & Hrp & Hgood & Hrecs)|[Hbad Hrecs]].
    + rewrite Hrp. cbn [fst snd]. rewrite Hgood.
      destruct (IH (snd (serve (DELETE_dns_record zone_id id) w)))
        as (done & rest & Hids & Hr & Hres).
      exists (id :: done), rest. split; [now rewrite Hids|]. split.
      * rewrite Hr, Hrecs. apply without_ids_remove.
      * destruct (fst (delete_records zone_id ids
                         (snd (serve (DELETE_dns_record zone_id id) w)))).
        -- destruct Hres as [Hrest Hcalls]. split; [exact Hrest|].
           rewrite Hcalls, Hc, <- app_assoc. reflexivity.
        -- destruct Hres as (id' & rest' & Hrest & Hcalls).
           exists id', rest'. split; [exact Hrest|].
           rewrite Hcalls, Hc, <- app_assoc. reflexivity.
    + destruct (fst (serve (DELETE_dns_record zone_id id) w)) as [|r]; cbn [fst snd].
      * apply Hstop, Hrecs.
      * rewrite Hbad. apply Hstop, Hrecs.
Qed.

End DeleteRecords.

(** X1: [delete_records] sends one DELETE per identifier, in the order of
    the list, and stops at the first one that is not answered with
    success.  When it returns, every identifier was sent and the zone is the
    old one without the records of these identifiers; when it raises, the
    failing request is the last one sent, the records deleted before it stay
    deleted and the identifiers after it were not touched. *)
Theorem delete_records_stops_at_first_failure (zone_id : string)
  (ids : list string) (w : World) :
  let run := UpdatePagesDns.delete_records zone_id ids w in
  exists done rest,
    ids = done ++ rest
    /\ w_recs (snd run) = without_ids done (w_recs w)
    /\ (fst run = Ok tt ->
        rest = [] /\ new_calls w (snd run) = map (DELETE_dns_record zone_id) ids)
    /\ (forall e, fst run = Raise e ->
        exists id rest',
          rest = id :: rest'
          /\ new_calls w (snd run) = map (DELETE_dns_record zone_id) (done ++ [id])).
Proof.
  intros run. subst run.
  destruct (delete_records_run zone_id ids w) as (done & rest & Hids & Hrecs & Hres).
  exists done, rest. split; [exact Hids|]. split; [exact Hrecs|].
  destruct (fst (UpdatePagesDns.delete_records zone_id ids w)) as [u|e0].
  - destruct Hres as [Hrest Hcalls]. split; [|discriminate].
    intros _. split; [exact Hrest|].
    subst rest. rewrite app_nil_r in Hids. subst ids.
    now apply new_calls_app.
  - destruct Hres as (id & rest' & Hrest & Hcalls). split; [discriminate|].
    intros e _. exists id, rest'. split; [exact Hrest|].
    now apply new_calls_app.
Qed.

(* ------------------------------------------------------------------ *)
(** ** update_pages_dns.py: the purges *)

Lemma in_skipn (A : Type) (n : nat) (l : list A) (x : A) :
  In x (skipn n l) -> In x l.
Proof.
  intros H. rewrite <- (firstn_skipn n l). apply in_or_app. now right.
Qed.

Lemma in_page_slice (A : Type) (len page : nat) (l : list A) (x : A) :
  In x (page_slice len page l) -> In x l.
Proof.
  unfold page_slice. intros H. apply in_firstn in H. now apply in_skipn in H.
Qed.

Lemma same_id_same_record (rs : list DnsRecord) (r r' : DnsRecord) :
  NoDup (map r_id rs) -> In r rs -> In r' rs -> r_id r = r_id r' -> r = r'.
Proof.
  induction rs as [|a rs IH]; intros Hnd Hr Hr' E; [destruct Hr|].
  simpl in Hnd. inversion Hnd as [|x l Hnot Hnd']; subst.
  destruct Hr as [<-|Hr], Hr' as [<-|Hr'].
  - reflexivity.
  - exfalso. apply Hnot. rewrite E. now apply in_map.
  - exfalso. apply Hnot. rewrite <- E. now apply in_map.
  - now apply IH.
Qed.

Section Purge.

Import UpdatePagesDns.

Lemma delete_or_report_recs (dry_run : bool) (zone_id what : string)
  (ids : list string) (w : World) :
  exists done,
    incl done ids
    /\ w_recs (snd (delete_or_report dry_run zone_id what ids w))
       = without_ids done (w_recs w).
Proof.
  unfold delete_or_report. destruct ids as [|id ids].
  - exists []. split; [apply incl_refl | now rewrite without_ids_nil].
  - destruct dry_run.
    + exists []. split; [intros x []| now rewrite without_ids_nil].
    + destruct (delete_records_run zone_id (id :: ids) w)
        as (done & rest & Hids & Hrecs & _).
      exists done. split.
      * rewrite Hids. now apply incl_appl, incl_refl.
      * unfold bind.
        destruct (delete_records zone_id (id :: ids) w) as [[u|e] w1]; exact Hrecs.
Qed.

(** What a listing that was answered returns: records of the zone that
    match the query; and no listing changes the zone. *)
Lemma pages_api_get_records (zid : string) (q : Params) (w : World) :
  w_recs (snd (api_get (GET_dns_records zid q) w)) = w_recs w
  /\ forall data, fst (api_get (GET_dns_records zid q) w) = Ok data ->
       forall r, In r (res_records data) ->
                 In r (w_recs w) /\ matches_params q r = true.
Proof.
  split.
  - now destruct (pages_api_get_read_only (GET_dns_records zid q) eq_refl w)
      as (_ & H & _).
  - unfold api_get, bind. rewrite request_world.
    destruct (fst (serve (GET_dns_records zid q) w)) as [|resp] eqn:Hrp;
      cbn [fst snd]; [discriminate|].
    destruct (negb (ok resp)); [discriminate|].
    destruct (success resp) eqn:Hs; cbn [negb]; [|discriminate].
    intros data H. injection H as <-.
    destruct (serve_records_success zid q w resp Hrp Hs) as (_ & Hres & _).
    intros r Hr. rewrite Hres in Hr. apply in_page_slice in Hr.
    now apply filter_In in Hr.
Qed.

Lemma purge_round_recs (dry_run : bool) (zone_id what ty : string)
  (keep : list string) (w : World) :
  exists done,
    w_recs (snd (purge_round dry_run zone_id what ty keep w))
    = without_ids done (w_recs w)
    /\ forall id, In id done ->
         exists r', In r' (w_recs w) /\ r_id r' = id
                    /\ r_type r' = ty /\ ~ In (r_name r') keep.
Proof.
  unfold purge_round, bind.
  destruct (pages_api_get_records zone_id (mkParams (Some ty) None None None) w)
    as [Hsame Hdata].
  destruct (api_get (GET_dns_records zone_id (mkParams (Some ty) None None None)) w)
    as [[data|e] w1]; cbn [fst snd] in *.
  - destruct (delete_or_report_recs dry_run zone_id what
                (ids_of (filter (not_kept keep) (res_records data))) w1)
      as (done & Hincl & Hrecs).
    exists done. split; [now rewrite Hrecs, Hsame|].
    intros id Hid. apply Hincl in Hid. unfold ids_of in Hid.
    apply in_map_iff in Hid. destruct Hid as (r' & Hrid & Hr').
    apply filter_In in Hr'. destruct Hr' as [Hr' Hnk].
    destruct (Hdata data eq_refl r' Hr') as [Hin Hm].
    exists r'. split; [exact Hin|]. split; [exact Hrid|]. split.
    + unfold matches_params in Hm. cbn [q_type q_name opt_eqb] in Hm.
      rewrite andb_true_r in Hm. now apply String.eqb_eq in Hm.
    + unfold not_kept in Hnk. apply negb_true_iff in Hnk.
      intros Hk. apply in_ids in Hk. congruence.
  - exists []. split; [now rewrite without_ids_nil|]. intros id [].
Qed.

(** A record outlives a round when no record of the zone that the round may
    delete has its identifier. *)
Lemma outlives_round (done : list string) (ty : string) (keep : list string)
  (rs0 rs : list DnsRecord) (r : DnsRecord) :
  NoDup (map r_id rs0) ->
  In r rs0 ->
  (forall r', In r' rs -> In r' rs0) ->
  In r rs ->
  In (r_name r) keep \/ r_type r <> ty ->
  (forall id, In id done ->
     exists r', In r' rs /\ r_id r' = id /\ r_type r' = ty /\ ~ In (r_name r') keep) ->
  In r (without_ids done rs).
Proof.
  intros Hnd Hr0 Hsub Hr Hkept Hdone.
  apply in_without_ids. split; [exact Hr|].
  intros Hid. destruct (Hdone _ Hid) as (r' & Hr' & E & Hty & Hname).
  assert (r = r') by (apply (same_id_same_record rs0); auto).
  subst r'. destruct Hkept as [Hk|Hk]; contradiction.
Qed.

Lemma main_purge_a_and_cname_unfold (args : Args) (zone_id : string) (w : World) :
  a_purge_a_and_cname args = true ->
  main_purge_a_and_cname args zone_id w
  = (purge_round (a_dry_run args) zone_id "A records" "A" (keep_names (a_domain args)) ;;;
     purge_round (a_dry_run args) zone_id "CNAME records" "CNAME"
       (keep_names (a_domain args))) w.
Proof.
  intros H. unfold main_purge_a_and_cname, purge_round, keep_names. rewrite H.
  unfold bind.
  destruct (api_get (GET_dns_records zone_id (mkParams (Some "A") None None None)) w)
    as [[data|e] w1]; reflexivity.
Qed.

Lemma main_purge_other_cnames_unfold (args : Args) (zone_id : string) (w : World) :
  a_purge_other_cnames args = true ->
  main_purge_other_cnames args zone_id w
  = match get_dns_records zone_id (Some (first_label (a_domain args))) (Some "CNAME") w with
    | (Ok _, w0) =>
        purge_round (a_dry_run args) zone_id "other CNAMEs" "CNAME"
          (keep_cnames (a_domain args)) w0
    | (Raise e, w0) => (Raise e, w0)
    end.
Proof.
  intros H. unfold main_purge_other_cnames. rewrite H. reflexivity.
Qed.

End Purge.

Lemma nodup_cluttered : NoDup (map r_id cluttered).
Proof.
  unfold cluttered, staging_a. cbn [map r_id].
  repeat (constructor; [cbn [In]; intuition discriminate|]). constructor.
Qed.

(** X2: [--purge-a-and-cname] deletes nothing but A and CNAME records at
    names other than the apex, [www] and [staging]: on a zone whose records
    have distinct identifiers, every record at one of these three names and
    every record of another type is still in the zone after the run, in
    dry-run and in apply mode and whatever the provider answers; and the
    run adds or changes no record. *)
Theorem purge_a_and_cname_spares_kept_names (args : UpdatePagesDns.Args)
  (zone_id : string) (w : World) :
  NoDup (map r_id (w_recs w)) ->
  let w' := snd (UpdatePagesDns.main_purge_a_and_cname args zone_id w) in
  (forall r, In r (w_recs w') -> In r (w_recs w))
  /\ (forall r, In r (w_recs w) ->
        In (r_name r) (keep_names (UpdatePagesDns.a_domain args))
        \/ (r_type r <> "A" /\ r_type r <> "CNAME") ->
        In r (w_recs w')).
Proof.
  intros Hnd w'. subst w'.
  destruct (UpdatePagesDns.a_purge_a_and_cname args) eqn:Hflag.
  2: { unfold UpdatePagesDns.main_purge_a_and_cname. rewrite Hflag. simpl. auto. }
  rewrite (main_purge_a_and_cname_unfold args zone_id w Hflag). unfold bind.
  set (keep := keep_names (UpdatePagesDns.a_domain args)).
  destruct (purge_round_recs (UpdatePagesDns.a_dry_run args) zone_id "A records" "A"
              keep w) as (done1 & Hrecs1 & Hdone1).
  destruct (purge_round (UpdatePagesDns.a_dry_run args) zone_id "A records" "A" keep w)
    as [[u|e] w1]; cbn [fst snd] in *.
  - destruct (purge_round_recs (UpdatePagesDns.a_dry_run args) zone_id "CNAME records"
                "CNAME" keep w1) as (done2 & Hrecs2 & Hdone2).
    assert (Hsub : forall r', In r' (w_recs w1) -> In r' (w_recs w)).
    { intros r' Hr'. rewrite Hrecs1 in Hr'. now apply in_without_ids in Hr'. }
    split.
    + intros r Hr. rewrite Hrecs2 in Hr. apply in_without_ids in Hr. now apply Hsub.
    + intros r Hr Hkept. rewrite Hrecs2.
      assert (Hr1 : In r (w_recs w1)).
      { rewrite Hrecs1.
        apply (outlives_round done1 "A" keep (w_recs w) (w_recs w) r); auto.
        tauto. }
      apply (outlives_round done2 "CNAME" keep (w_recs w) (w_recs w1) r); auto.
      tauto.
  - split.
    + intros r Hr. rewrite Hrecs1 in Hr. now apply in_without_ids in Hr.
    + intros r Hr Hkept. rewrite Hrecs1.
      apply (outlives_round done1 "A" keep (w_recs w) (w_recs w) r); auto.
      tauto.
Qed.

Lemma purge_a_and_cname_spares_kept_names_witness :
  In staging_a
     (w_recs (snd (UpdatePagesDns.main_purge_a_and_cname purge_a_and_cname "z1"
                     cluttered_zone)))
  /\ length (w_recs (snd (UpdatePagesDns.main_purge_a_and_cname purge_a_and_cname "z1"
                            cluttered_zone))) = 4.
Proof.
  split; [|vm_compute; reflexivity].
  destruct (purge_a_and_cname_spares_kept_names purge_a_and_cname "z1" cluttered_zone
              nodup_cluttered) as [_ H].
  apply H.
  - simpl. auto.
  - left. simpl. auto.
Defined.

(** X3: [--purge-other-cnames] deletes nothing but CNAME records at names
    other than the apex and [www]: on a zone whose records have distinct
    identifiers, every CNAME at one of these two names and every record of
    another type is still in the zone after the run, in both modes and
    whatever the provider answers; and the run adds or changes no record. *)
Theorem purge_other_cnames_spares_kept_names (args : UpdatePagesDns.Args)
  (zone_id : string) (w : World) :
  NoDup (map r_id (w_recs w)) ->
  let w' := snd (UpdatePagesDns.main_purge_other_cnames args zone_id w) in
  (forall r, In r (w_recs w') -> In r (w_recs w))
  /\ (forall r, In r (w_recs w) ->
        In (r_name r) (keep_cnames (UpdatePagesDns.a_domain args))
        \/ r_type r <> "CNAME" ->
        In r (w_recs w')).
Proof.
  intros Hnd w'. subst w'.
  destruct (UpdatePagesDns.a_purge_other_cnames args) eqn:Hflag.
  2: { unfold UpdatePagesDns.main_purge_other_cnames. rewrite Hflag. simpl. auto. }
  rewrite (main_purge_other_cnames_unfold args zone_id w Hflag).
  pose proof (pages_get_dns_records_read_only zone_id
                (Some (UpdatePagesDns.first_label (UpdatePagesDns.a_domain args)))
                (Some "CNAME") w) as (_ & Hsame & _).
  destruct (UpdatePagesDns.get_dns_records zone_id
              (Some (UpdatePagesDns.first_label (UpdatePagesDns.a_domain args)))
              (Some "CNAME") w) as [[l|e] w0]; cbn [fst snd] in *.
  2: { rewrite Hsame. auto. }
  set (keep := keep_cnames (UpdatePagesDns.a_domain args)).
  destruct (purge_round_recs (UpdatePagesDns.a_dry_run args) zone_id "other CNAMEs"
              "CNAME" keep w0) as (done & Hrecs & Hdone).
  rewrite Hsame in *. rewrite Hrecs. split.
  - intros r Hr. now apply in_without_ids in Hr.
  - intros r Hr Hkept.
    apply (outlives_round done "CNAME" keep (w_recs w) (w_recs w) r); auto.
Qed.

Lemma purge_other_cnames_spares_kept_names_witness :
  In staging_a
     (w_recs (snd (UpdatePagesDns.main_purge_other_cnames purge_other_cnames "z1"
                     cluttered_zone)))
  /\ length (w_recs (snd (UpdatePagesDns.main_purge_other_cnames purge_other_cnames "z1"
                            cluttered_zone))) = 5.
Proof.
  split; [|vm_compute; reflexivity].
  destruct (purge_other_cnames_spares_kept_names purge_other_cnames "z1" cluttered_zone
              nodup_cluttered) as [_ H].
  apply H.
  - simpl. auto.
  - right. discriminate.
Defined.

(* ------------------------------------------------------------------ *)
(** ** Whole runs that only read *)

Section PagesDryRun.

Import UpdatePagesDns.

Lemma pages_get_zone_id_read_only (domain : string) :
  keeps read_only (get_zone_id domain).
Proof.
  unfold get_zone_id. apply (keeps_bind read_only read_only_trans).
  - now apply pages_api_get_read_only.
  - intros data. destruct (res_zones data); keeps_read_only.
Qed.

Lemma upsert_cname_dry_read_only (zone_id name target : string) (proxied : bool)
  (ttl : Z) :
  keeps read_only (upsert_cname zone_id name target proxied ttl true).
Proof. intros w. apply upsert_cname_dry_vs_apply. Qed.

Lemma delete_or_report_dry_read_only (zone_id what : string) (ids : list string) :
  keeps read_only (delete_or_report true zone_id what ids).
Proof. unfold delete_or_report. destruct ids; keeps_read_only. Qed.

Lemma create_each_dry_read_only (zone_id domain ty : string) (comment : option string)
  (ips : list string) :
  keeps read_only (create_each true zone_id domain ty comment ips).
Proof.
  induction ips as [|ip rest IH]; cbn [create_each]; [keeps_read_only|].
  apply (keeps_bind read_only read_only_trans); [keeps_read_only | intros _; exact IH].
Qed.

Lemma print_all_read_only (ls : list Line) : keeps read_only (print_all ls).
Proof.
  induction ls as [|l rest IH]; cbn [print_all]; [keeps_read_only|].
  apply (keeps_bind read_only read_only_trans); [keeps_read_only | intros _; exact IH].
Qed.

Lemma list_zones_loop_read_only (fuel : nat) :
  forall page, keeps read_only (list_zones_loop fuel page).
Proof.
  induction fuel as [|fuel IH]; intros page; cbn [list_zones_loop]; [keeps_read_only|].
  apply (keeps_bind read_only read_only_trans);
    [now apply pages_api_get_read_only | intros data].
  apply (keeps_bind read_only read_only_trans); [apply print_all_read_only | intros _].
  destruct (Nat.leb (total_pages_or_1 data) page); [keeps_read_only | apply IH].
Qed.

Ltac pages_read_only :=
  repeat first
    [ apply (keeps_ret read_only read_only_refl)
    | apply (keeps_raise read_only read_only_refl)
    | apply keeps_print_read_only
    | apply pages_get_dns_records_read_only
    | apply pages_get_zone_id_read_only
    | apply upsert_cname_dry_read_only
    | apply delete_or_report_dry_read_only
    | apply create_each_dry_read_only
    | apply pages_api_get_read_only; reflexivity
    | apply (keeps_bind read_only read_only_trans); [| intros ?]
    | match goal with
      | |- keeps _ (match ?x with _ => _ end) => destruct x
      end ].

Variable strip : string -> string.

(** X4: a dry run of [update_pages_dns.py], and a run with [--list-zones],
    only reads: for every combination of the other flags and whatever the
    provider answers, no mutating request is sent and the zone is left as
    it was. *)
Theorem pages_dry_run_only_reads (fuel : nat) (env_dns_only env_api_token : option string)
  (getpass : string) (args : Args) (w : World) :
  a_dry_run args = true \/ a_list_zones args = true ->
  read_only w (snd (main strip fuel env_dns_only env_api_token getpass args w)).
Proof.
  intros H. revert w. change (keeps read_only
    (main strip fuel env_dns_only env_api_token getpass args)).
  unfold main.
  destruct (String.eqb _ ""); [pages_read_only|].
  destruct (a_list_zones args) eqn:Hlist.
  - apply (keeps_bind read_only read_only_trans);
      [apply keeps_print_read_only | intros _; apply list_zones_loop_read_only].
  - destruct H as [Hdry|H]; [|discriminate].
    unfold main_replace_apex, main_apex_cname, main_www, main_set_apex_a,
      main_clear_apex_aaaa, main_purge_other_cnames, main_purge_a_and_cname,
      main_github.
    rewrite Hdry. pages_read_only.
Qed.

End PagesDryRun.

Lemma pages_dry_run_only_reads_witness :
  read_only apex_cname_zone
    (snd (UpdatePagesDns.main (fun s => s) 1 None None "" set_github_a_dry
            apex_cname_zone)).
Proof.
  apply (pages_dry_run_only_reads (fun s => s) 1 None None "" set_github_a_dry
           apex_cname_zone).
  left. reflexivity.
Defined.

Section UpdateDnsRuns.

Import UpdateDns.

Variable strip : string -> string.
Variable IPv4Address : string -> bool.
Variable IPv6Address : string -> bool.

Lemma ud_api_read_only (verb : string) (rq : Request) :
  is_mutating rq = false -> keeps read_only (rp <- request rq ;; check verb rp).
Proof.
  intros H. apply (keeps_bind read_only read_only_trans);
    [now apply keeps_request_read | intros rp].
  unfold check. destruct rp as [|r]; keeps_read_only.
Qed.

Lemma ud_get_zone_id_read_only (domain : string) : keeps read_only (get_zone_id domain).
Proof.
  unfold get_zone_id, api_get. apply (keeps_bind read_only read_only_trans).
  - now apply ud_api_read_only.
  - intros data. destruct (res_zones data); keeps_read_only.
Qed.

Lemma update_or_create_dry_read_only (zone_id : string) (payload_template : Payload) :
  keeps read_only (update_or_create zone_id payload_template true).
Proof. intros w. apply update_or_create_dry_vs_apply. Qed.

Lemma update_or_create_mx_txt_dry_read_only (zone_id name content record_type : string)
  (priority : Z) :
  keeps read_only (update_or_create_mx_txt zone_id name content true record_type priority).
Proof.
  unfold update_or_create_mx_txt.
  apply (keeps_bind read_only read_only_trans);
    [apply get_dns_records_read_only | intros l].
  destruct (find_exact record_type content priority l); keeps_read_only.
Qed.

Lemma validate_args_read_only (args : Args) :
  keeps read_only (validate_args IPv4Address IPv6Address args).
Proof.
  unfold validate_args, validate_ip, exit2.
  repeat match goal with
         | |- context [if ?b then _ else _] => destruct b
         | |- context [match ?x with _ => _ end] => destruct x
         end; keeps_read_only.
Qed.

Lemma exit1_on_api_error_read_only (A : Type) (m : M A) :
  keeps read_only m -> keeps read_only (exit1_on_api_error m).
Proof.
  intros H w. specialize (H w). unfold exit1_on_api_error.
  destruct (m w) as [[a|[]] w1]; cbn [snd] in *; try exact H;
    (eapply read_only_trans; [exact H | apply put_line_read_only]).
Qed.

Lemma main_body_read_only (args : Args) (proxied : bool) :
  a_dry_run args = true \/ (a_delete args = false /\ a_search args = true) ->
  keeps read_only (main_body args proxied).
Proof.
  intros H. unfold main_body.
  apply (keeps_bind read_only read_only_trans);
    [apply ud_get_zone_id_read_only | intros zone_id].
  destruct (a_delete args) eqn:Hdel.
  { destruct H as [Hdry|[H _]]; [|discriminate].
    unfold delete_dns_record. rewrite Hdry. keeps_read_only. }
  destruct (a_search args) eqn:Hsearch.
  { apply (keeps_bind read_only read_only_trans);
      [apply get_dns_records_read_only | intros _; keeps_read_only]. }
  destruct H as [Hdry|[_ H]]; [|discriminate].
  rewrite Hdry. unfold update_or_create_records, update_or_create_cname.
  destruct (a_type args) as [[]|];
    try (apply (keeps_bind read_only read_only_trans);
         [first [ apply update_or_create_dry_read_only
                | apply update_or_create_mx_txt_dry_read_only ]
         | intros ?]);
    keeps_read_only.
Qed.

(** X5: a dry run of [update_dns.py] only reads, whatever the other
    arguments are, and so does a [--search] that is not combined with
    [--delete]: for every record type and whatever the provider answers,
    no mutating request is sent and the zone is left as it was. *)
Theorem update_dns_dry_run_and_search_only_read (env : Env) (args : Args) (w : World) :
  a_dry_run args = true \/ (a_delete args = false /\ a_search args = true) ->
  read_only w (snd (main strip IPv4Address IPv6Address env args w)).
Proof.
  intros H. revert w.
  change (keeps read_only (main strip IPv4Address IPv6Address env args)).
  unfold main.
  apply (keeps_bind read_only read_only_trans);
    [apply validate_args_read_only | intros _].
  apply (keeps_bind read_only read_only_trans).
  { unfold exit2. destruct (a_no_proxy args && a_proxied args); keeps_read_only. }
  intros _. apply (keeps_bind read_only read_only_trans).
  { unfold exit2. destruct (String.eqb _ ""); keeps_read_only. }
  intros _. apply exit1_on_api_error_read_only. now apply main_body_read_only.
Qed.

Lemma guarded_ret (A : Type) (a : A) : guarded (ret a).
Proof. intros w e H. discriminate. Qed.

Lemma guarded_bind (A B : Type) (m : M A) (k : A -> M B) :
  guarded m -> (forall a, guarded (k a)) -> guarded (bind m k).
Proof.
  intros Hm Hk w e. unfold bind. specialize (Hm w).
  destruct (m w) as [[a|e0] w1]; cbn [fst] in *.
  - apply Hk.
  - intros H. injection H as <-. now apply Hm.
Qed.

Lemma guarded_api (verb : string) (rq : Request) :
  guarded (rp <- request rq ;; check verb rp).
Proof.
  intros w e. unfold bind, request, check.
  destruct (serve rq w) as [[|r] w1]; cbn [fst].
  - intros H. injection H as <-. exact I.
  - destruct (negb (ok r)); [intros H; injection H as <-; exact I|].
    destruct (negb (success r)); [intros H; injection H as <-; exact I|].
    discriminate.
Qed.

Lemma guarded_get_zone_id (domain : string) : guarded (get_zone_id domain).
Proof.
  unfold get_zone_id, api_get. apply guarded_bind; [apply guarded_api|].
  intros data. destruct (res_zones data).
  - intros w e H. injection H as <-. exact I.
  - apply guarded_ret.
Qed.

Lemma guarded_get_dns_records (zone_id name ty : string) :
  guarded (get_dns_records zone_id name ty).
Proof.
  unfold get_dns_records, api_get. apply guarded_bind; [apply guarded_api|].
  intros data. apply guarded_ret.
Qed.

Lemma guarded_process_existing (zone_id : string) (payload_template : Payload)
  (dry_run : bool) (existing : list DnsRecord) :
  forall results,
    guarded (process_existing zone_id payload_template dry_run existing results).
Proof.
  induction existing as [|rec rest IH]; intros results; cbn [process_existing].
  - apply guarded_ret.
  - destruct (unchanged payload_template rec); [apply IH|].
    destruct dry_run; [apply IH|].
    apply guarded_bind; [apply guarded_api | intros updated; apply IH].
Qed.

Lemma guarded_update_or_create (zone_id : string) (payload_template : Payload)
  (dry_run : bool) :
  guarded (update_or_create zone_id payload_template dry_run).
Proof.
  unfold update_or_create. apply guarded_bind; [apply guarded_get_dns_records|].
  intros [|rec l].
  - destruct dry_run; [apply guarded_ret|].
    apply guarded_bind; [apply guarded_api | intros created; apply guarded_ret].
  - apply guarded_bind; [apply guarded_process_existing | intros r; apply guarded_ret].
Qed.

Lemma guarded_update_or_create_mx_txt (zone_id name content : string) (dry_run : bool)
  (record_type : string) (priority : Z) :
  guarded (update_or_create_mx_txt zone_id name content dry_run record_type priority).
Proof.
  unfold update_or_create_mx_txt. apply guarded_bind; [apply guarded_get_dns_records|].
  intros l. destruct (find_exact record_type content priority l); [apply guarded_ret|].
  destruct dry_run; [apply guarded_ret|].
  apply guarded_bind; [apply guarded_api | intros created; apply guarded_ret].
Qed.

Lemma guarded_main_body (args : Args) (proxied : bool) :
  guarded (main_body args proxied).
Proof.
  unfold main_body. apply guarded_bind; [apply guarded_get_zone_id | intros zone_id].
  destruct (a_delete args).
  { apply guarded_bind; [|intros r; apply guarded_ret].
    unfold delete_dns_record. destruct (a_dry_run args); [apply guarded_ret|].
    apply guarded_bind; [apply guarded_api | intros r; apply guarded_ret]. }
  destruct (a_search args).
  { apply guarded_bind; [apply guarded_get_dns_records | intros r; apply guarded_ret]. }
  unfold update_or_create_records, update_or_create_cname.
  destruct (a_type args) as [[]|];
    try (apply guarded_bind;
         [first [ apply guarded_update_or_create
                | apply guarded_update_or_create_mx_txt ]
         | intros r]);
    apply guarded_ret.
Qed.

(** The checks before the first request end the run with status 1 or 2 and
    leave the call log alone. *)
Lemma validate_args_exits (args : Args) (w : World) (e : Exn) :
  fst (validate_args IPv4Address IPv6Address args w) = Raise e ->
  e = SystemExit 1 \/ e = SystemExit 2.
Proof.
  unfold validate_args, validate_ip, exit2, bind, print.
  repeat match goal with
         | |- context [if ?b then _ else _] => destruct b
         | |- context [match ?x with _ => _ end] => destruct x
         end; cbn [fst]; intros H; try discriminate; injection H as <-; auto.
Qed.

Lemma update_dns_main_unfold (env : Env) (args : Args) (w : World) :
  main strip IPv4Address IPv6Address env args w =
  match validate_args IPv4Address IPv6Address args w with
  | (Raise e, w1) => (Raise e, w1)
  | (Ok _, w1) =>
      if a_no_proxy args && a_proxied args
      then (Raise (SystemExit 2),
            put_line (L_stderr "--no-proxy and --proxied are mutually exclusive") w1)
      else if String.eqb (retrieve_token strip env (a_token args)) ""
      then (Raise (SystemExit 2), put_line (L_stderr "Cloudflare API token required") w1)
      else exit1_on_api_error
             (main_body args (a_proxied args && negb (a_no_proxy args))) w1
  end.
Proof.
  unfold main, bind.
  destruct (validate_args IPv4Address IPv6Address args w) as [[[]|e] w1]; [|reflexivity].
  destruct (a_no_proxy args && a_proxied args); [reflexivity|]. cbn [ret].
  destruct (String.eqb (retrieve_token strip env (a_token args)) ""); reflexivity.
Qed.

(** X6: [main] of [update_dns.py] lets no exception of an API call escape:
    it returns, or it ends the process with status 1 or 2.  Status 2 is a
    usage error found before the first request: nothing was sent and the
    zone is as it was. *)
Theorem update_dns_exit_status (env : Env) (args : Args) (w : World) :
  let run := main strip IPv4Address IPv6Address env args w in
  match fst run with
  | Ok _ => True
  | Raise (SystemExit code) =>
      (code = 1 \/ code = 2)%Z
      /\ (code = 2%Z -> w_calls (snd run) = w_calls w /\ w_recs (snd run) = w_recs w)
  | Raise _ => False
  end.
Proof.
  intros run. subst run. rewrite update_dns_main_unfold.
  pose proof (validate_args_exits args w) as Hv.
  pose proof (validate_args_calls IPv4Address IPv6Address args w) as Hvc.
  pose proof (validate_args_read_only args w) as (_ & Hvr & _).
  destruct (validate_args IPv4Address IPv6Address args w) as [[[]|e] w1];
    cbn [fst snd] in *.
  2: { destruct (Hv e eq_refl) as [->| ->]; (split; [auto | intros H; now try discriminate H]). }
  destruct (a_no_proxy args && a_proxied args); cbn [fst snd].
  { split; [now right | intros _; auto]. }
  destruct (String.eqb (retrieve_token strip env (a_token args)) ""); cbn [fst snd].
  { split; [now right | intros _; auto]. }
  pose proof (guarded_main_body args (a_proxied args && negb (a_no_proxy args)) w1) as Hg.
  unfold exit1_on_api_error.
  destruct (main_body args (a_proxied args && negb (a_no_proxy args)) w1)
    as [[o|e] w2]; cbn [fst snd] in *; [exact I|].
  specialize (Hg e eq_refl).
  destruct e; cbn [fst snd]; try contradiction;
    (split; [now left | intros H; discriminate]).
Qed.

End UpdateDnsRuns.

Lemma update_dns_dry_run_and_search_only_read_witness :
  read_only one_a_record
    (snd (UpdateDns.main (fun s => s) only_192_0_2_1 (fun _ => false) no_env
            search_apex_a one_a_record)).
Proof.
  apply (update_dns_dry_run_and_search_only_read (fun s => s) only_192_0_2_1
           (fun _ => false) no_env search_apex_a one_a_record).
  right. split; reflexivity.
Defined.

(* ------------------------------------------------------------------ *)
(** ** update_dns.py: an apply run settles the name *)

Lemma serve_patch_success (zid id : string) (p : Payload) (w : World) (r : Response) :
  fst (serve (PATCH_dns_record zid id p) w) = Http r ->
  success r = true ->
  w_recs (snd (serve (PATCH_dns_record zid id p) w))
  = update_by_id id (patch_record p) (w_recs w).
Proof.
  unfold serve.
  assert (Hh : forall w0, w_recs w0 = w_recs w ->
            fst (handle (PATCH_dns_record zid id p) w0) = Http r ->
            success r = true ->
            w_recs (snd (handle (PATCH_dns_record zid id p) w0))
            = update_by_id id (patch_record p) (w_recs w)).
  { intros w0 E. cbn [handle].
    destruct (String.eqb zid (w_zone_id w0) && existsb (has_id id) (w_recs w0)).
    - destruct (w_accept w0 (w_recs w0) (PATCH_dns_record zid id p)); cbn [fst snd].
      + intros _ _. simpl. now rewrite E.
      + intros H Hs. injection H as <-. discriminate.
    - intros H Hs. injection H as <-. discriminate. }
  destruct (w_faults w) as [|[f|] t].
  - now apply Hh.
  - destruct f; simpl; intros H Hs; [discriminate|]. injection H as <-. discriminate.
  - now apply Hh.
Qed.

Lemma keeps_request_same_config (rq : Request) : keeps same_config (request rq).
Proof. intros w. rewrite request_world. apply serve_same_config. Qed.

Lemma keeps_same_config_of_read_only (A : Type) (m : M A) :
  keeps read_only m -> keeps same_config m.
Proof. intros H w. apply H. Qed.

Ltac keeps_same_config :=
  repeat first
    [ apply (keeps_ret same_config same_config_refl)
    | apply (keeps_raise same_config same_config_refl)
    | apply keeps_request_same_config
    | apply keeps_same_config_of_read_only; apply keeps_print_read_only
    | apply (keeps_bind same_config same_config_trans); [| intros ?]
    | match goal with
      | |- keeps _ (match ?x with _ => _ end) => destruct x
      end ].

Lemma find_app (A : Type) (f : A -> bool) (l l' : list A) :
  find f (l ++ l') = match find f l with Some x => Some x | None => find f l' end.
Proof.
  induction l as [|a l IH]; [reflexivity|]. simpl. destruct (f a); auto.
Qed.

Section Settles.

Import UpdateDns.

Variable zone_id : string.
Variable payload_template : Payload.
Variable proxied : bool.
Hypothesis payload_proxied : p_proxied payload_template = Some proxied.

Let ty := p_type payload_template.
Let name := p_name payload_template.

Lemma unchanged_iff (r : DnsRecord) :
  unchanged payload_template r = true
  <-> r_content r = p_content payload_template /\ r_proxied r = Some proxied.
Proof.
  unfold unchanged, proxied_is. rewrite payload_proxied, !negb_involutive, andb_true_iff.
  rewrite String.eqb_eq.
  destruct (r_proxied r) as [c|]; [|intuition discriminate].
  split.
  - intros [Hc Hp]. apply Bool.eqb_prop in Hp. now subst.
  - intros [Hc Hp]. injection Hp as ->. split; [exact Hc | apply Bool.eqb_reflx].
Qed.

Lemma unchanged_patch (r : DnsRecord) :
  unchanged payload_template (patch_record payload_template r) = true.
Proof.
  apply unchanged_iff. unfold patch_record. cbn [r_content r_proxied].
  now rewrite payload_proxied.
Qed.

Lemma unchanged_created (id : string) :
  unchanged payload_template (record_of_payload id payload_template) = true.
Proof. apply unchanged_iff. unfold record_of_payload. simpl. auto. Qed.

Lemma api_patch_ok (id : string) (w w1 : World) (r : Response) :
  api_patch (PATCH_dns_record zone_id id payload_template) w = (Ok r, w1) ->
  w_recs w1 = update_by_id id (patch_record payload_template) (w_recs w).
Proof.
  unfold api_patch, bind. rewrite request_world. intros H.
  pose proof (f_equal fst H) as Hf. pose proof (f_equal snd H) as Hs.
  rewrite check_world in Hs. cbn [fst snd] in *. subst w1.
  apply check_ok in Hf. destruct Hf as [Hrp Hsucc].
  now apply serve_patch_success with (r := r).
Qed.

Lemma api_post_ok (w w1 : World) (r : Response) :
  api_post (POST_dns_record zone_id payload_template) w = (Ok r, w1) ->
  w_recs w1 = w_recs w ++ [record_of_payload (fresh_id w) payload_template].
Proof.
  unfold api_post, bind. rewrite request_world. intros H.
  pose proof (f_equal fst H) as Hf. pose proof (f_equal snd H) as Hs.
  rewrite check_world in Hs. cbn [fst snd] in *. subst w1.
  apply check_ok in Hf. destruct Hf as [Hrp Hsucc].
  now apply serve_post_success with (r := r).
Qed.

(** The records an apply run still has to look at: every record at the
    name is as wanted or awaits its turn in [existing]. *)
Lemma process_existing_settles (existing : list DnsRecord) :
  forall (results ds : list Detail) (w w' : World),
    process_existing zone_id payload_template false existing results w = (Ok ds, w') ->
    (forall r, In r (records_at ty name (w_recs w)) ->
       unchanged payload_template r = true \/ In r existing) ->
    forall r, In r (records_at ty name (w_recs w')) -> unchanged payload_template r = true.
Proof.
  induction existing as [|rec rest IH]; intros results ds w w' Hrun Hinv.
  - cbn [process_existing] in Hrun. injection Hrun as _ <-.
    intros r Hr. destruct (Hinv r Hr) as [H|[]]. exact H.
  - cbn [process_existing] in Hrun.
    destruct (unchanged payload_template rec) eqn:Hu.
    + apply (IH _ _ _ _ Hrun). intros r Hr.
      destruct (Hinv r Hr) as [H|[<-|H]]; auto.
    + apply bind_ok_inv in Hrun. destruct Hrun as (updated & w1 & Hpatch & Hrest).
      apply api_patch_ok in Hpatch.
      apply (IH _ _ _ _ Hrest). intros r Hr.
      apply in_records_at in Hr. destruct Hr as (Hr & Hty & Hname).
      rewrite Hpatch in Hr. unfold update_by_id in Hr.
      apply in_map_iff in Hr. destruct Hr as (r0 & Hr0 & Hin0).
      destruct (has_id (r_id rec) r0) eqn:Hid.
      * left. subst r. apply unchanged_patch.
      * subst r0.
        destruct (Hinv r) as [H|[<-|H]]; auto.
        -- apply in_records_at. auto.
        -- unfold has_id in Hid. rewrite String.eqb_refl in Hid. discriminate.
Qed.

(** A record at the name stays at the name through a PATCH. *)
Lemma process_existing_occupied (existing : list DnsRecord) :
  forall (results ds : list Detail) (w w' : World),
    process_existing zone_id payload_template false existing results w = (Ok ds, w') ->
    records_at ty name (w_recs w) <> [] ->
    records_at ty name (w_recs w') <> [].
Proof.
  induction existing as [|rec rest IH]; intros results ds w w' Hrun Hocc.
  - cbn [process_existing] in Hrun. now injection Hrun as _ <-.
  - cbn [process_existing] in Hrun.
    destruct (unchanged payload_template rec) eqn:Hu.
    + apply (IH _ _ _ _ Hrun Hocc).
    + apply bind_ok_inv in Hrun. destruct Hrun as (updated & w1 & Hpatch & Hrest).
      apply api_patch_ok in Hpatch.
      apply (IH _ _ _ _ Hrest).
      destruct (records_at ty name (w_recs w)) as [|r0 l] eqn:E; [contradiction|].
      assert (Hr0 : In r0 (records_at ty name (w_recs w))) by (rewrite E; now left).
      apply in_records_at in Hr0. destruct Hr0 as (Hr0 & Hty & Hname).
      intros Hnil.
      assert (Hin : In (if has_id (r_id rec) r0 then patch_record payload_template r0 else r0)
                       (records_at ty name (w_recs w1))).
      { apply in_records_at. split.
        - rewrite Hpatch. unfold update_by_id.
          apply (in_map (fun r => if has_id (r_id rec) r
                                  then patch_record payload_template r else r)).
          exact Hr0.
        - destruct (has_id (r_id rec) r0); auto. }
      rewrite Hnil in Hin. destruct Hin.
Qed.

Lemma process_existing_nothing_to_do (dry_run : bool) (existing : list DnsRecord) :
  (forall r, In r existing -> unchanged payload_template r = true) ->
  forall (results : list Detail) (w : World),
    process_existing zone_id payload_template dry_run existing results w
    = (Ok (results ++ map (fun rec => D_unchanged (r_id rec) (r_content rec) (r_proxied rec))
                         existing), w).
Proof.
  induction existing as [|rec rest IH]; intros Hall results w.
  - cbn [process_existing map]. now rewrite app_nil_r.
  - cbn [process_existing]. rewrite (Hall rec (or_introl eq_refl)).
    rewrite IH by (intros r Hr; apply Hall; now right).
    cbn [map]. now rewrite <- app_assoc.
Qed.

Lemma update_or_create_same_config (dry_run : bool) :
  keeps same_config (update_or_create zone_id payload_template dry_run).
Proof.
  unfold update_or_create.
  apply (keeps_bind same_config same_config_trans).
  { apply keeps_same_config_of_read_only, get_dns_records_read_only. }
  intros existing.
  assert (Hp : forall l results,
             keeps same_config (process_existing zone_id payload_template dry_run l results)).
  { induction l as [|rec rest IH]; intros results; cbn [process_existing].
    - keeps_same_config.
    - destruct (unchanged payload_template rec); [apply IH|].
      destruct dry_run; [apply IH|].
      apply (keeps_bind same_config same_config_trans); [|intros u; apply IH].
      unfold api_patch, check. keeps_same_config. }
  destruct existing as [|rec l].
  - destruct dry_run; [keeps_same_config|].
    unfold api_post, check. keeps_same_config.
  - apply (keeps_bind same_config same_config_trans); [apply Hp | intros r].
    keeps_same_config.
Qed.

Lemma update_or_create_settles (w : World) :
  0 < w_page_size w ->
  length (records_at ty name (w_recs w)) <= w_page_size w ->
  settles ty name (p_content payload_template) proxied
    (update_or_create zone_id payload_template) w.
Proof.
  intros Hps Hfit o Hok.
  destruct (update_or_create zone_id payload_template false w) as [res w'] eqn:Hrun.
  cbn [fst snd] in *. subst res.
  pose proof (update_or_create_same_config false w) as Hcfg.
  rewrite Hrun in Hcfg. cbn [snd] in Hcfg.
  destruct Hcfg as (_ & Hzid' & Hps' & _ & _).
  assert (Hfirst : zone_id = w_zone_id w
                   /\ (forall r, In r (records_at ty name (w_recs w')) ->
                         unchanged payload_template r = true)
                   /\ records_at ty name (w_recs w') <> []).
  { rewrite update_or_create_unfold in Hrun.
    destruct (get_dns_records zone_id (p_name payload_template) (p_type payload_template) w)
      as [[l|e] w1] eqn:Hget; [|discriminate].
    apply get_dns_records_ok in Hget. destruct Hget as (Hzid & Hl & Hw1).
    fold ty name in Hl. rewrite firstn_all2 in Hl by exact Hfit.
    split; [exact Hzid|].
    destruct l as [|rec l].
    - destruct (api_post (POST_dns_record zone_id payload_template) w1)
        as [[created|e] w2] eqn:Hpost; [|discriminate].
      injection Hrun as _ <-. apply api_post_ok in Hpost.
      rewrite Hw1 in Hpost. cbn [w_recs log_call] in Hpost.
      assert (Hat : records_at ty name (w_recs w2)
                    = [record_of_payload (fresh_id (log_call
                         (GET_dns_records zone_id
                            (mkParams (Some (p_type payload_template))
                               (Some (p_name payload_template)) None None)) w))
                         payload_template]).
      { rewrite Hpost. unfold records_at. rewrite filter_app.
        fold (records_at ty name (w_recs w)). rewrite <- Hl. cbn [app filter].
        unfold matches_params. cbn [q_type q_name opt_eqb record_of_payload r_type r_name].
        unfold ty, name. now rewrite !String.eqb_refl. }
      rewrite Hat. split; [|discriminate].
      intros r [<-|[]]. apply unchanged_created.
    - destruct (process_existing zone_id payload_template false (rec :: l) [] w1)
        as [[results|e] w2] eqn:Hproc; [|discriminate].
      injection Hrun as _ <-. split.
      + apply (process_existing_settles _ _ _ _ _ Hproc).
        intros r Hr. right. rewrite Hl. rewrite Hw1 in Hr. exact Hr.
      + apply (process_existing_occupied _ _ _ _ _ Hproc).
        rewrite Hw1. cbn [w_recs log_call]. rewrite <- Hl. discriminate. }
  destruct Hfirst as (Hzid & Hall & Hocc).
  split; [|split; [exact Hocc|]].
  - intros r Hr. now apply unchanged_iff, Hall.
  - intros Hq dry_run.
    assert (Hzid2 : zone_id = w_zone_id w') by congruence.
    pose proof (get_dns_records_first_page w' (p_name payload_template)
                  (p_type payload_template) Hq) as Hget2.
    rewrite <- Hzid2 in Hget2. fold ty name in Hget2.
    destruct (firstn (w_page_size w') (records_at ty name (w_recs w'))) as [|rec l] eqn:El.
    { exfalso. destruct (records_at ty name (w_recs w')) as [|r0 l0]; [now apply Hocc|].
      rewrite Hps' in El. destruct (w_page_size w); [lia | discriminate]. }
    assert (Hrun2 : update_or_create zone_id payload_template dry_run w'
                    = (Ok (R_processed (length (rec :: l))
                             (map (fun rec => D_unchanged (r_id rec) (r_content rec)
                                                (r_proxied rec)) (rec :: l))),
                       log_call (GET_dns_records zone_id
                                   (mkParams (Some ty) (Some name) None None)) w')).
    { rewrite update_or_create_unfold. fold ty name. rewrite Hget2.
      rewrite process_existing_nothing_to_do; [reflexivity|].
      intros r Hr. apply Hall. rewrite <- El in Hr. now apply in_firstn in Hr. }
    rewrite Hrun2. cbn [fst snd]. split; [|split].
    + rewrite (new_calls_app w' _ [GET_dns_records zone_id
                 (mkParams (Some ty) (Some name) None None)]); reflexivity.
    + reflexivity.
    + eexists _, _. split; [reflexivity|].
      generalize (rec :: l). intros l0.
      induction l0 as [|a t IHt]; simpl; auto.
Qed.

End Settles.

(** X7: the A/AAAA and the CNAME operation of [update_dns.py] converge.
    When the records of the type at the name fit in the page the lookup
    reads and an apply run ends without error, every record of that type at
    that name has the wanted content and proxied flag afterwards (existing
    ones were updated in place, or one was created when there was none);
    a further run in either mode that meets no failure then files every
    record as unchanged and sends no mutating request. *)
Theorem update_or_create_settles_the_name (zone_id name content : string)
  (proxied : bool) (w : World) :
  0 < w_page_size w ->
  (forall record_type,
      length (records_at record_type name (w_recs w)) <= w_page_size w ->
      settles record_type name content proxied
        (fun dry_run => UpdateDns.update_or_create_records zone_id name content
                          dry_run proxied record_type) w)
  /\ (length (records_at "CNAME" name (w_recs w)) <= w_page_size w ->
      settles "CNAME" name content proxied
        (fun dry_run => UpdateDns.update_or_create_cname zone_id name content
                          dry_run proxied) w).
Proof.
  intros Hps. split.
  - intros record_type Hfit.
    exact (update_or_create_settles zone_id
             (mkPayload record_type name content 120 None (Some proxied) None)
             proxied eq_refl w Hps Hfit).
  - intros Hfit.
    exact (update_or_create_settles zone_id
             (mkPayload "CNAME" name content 120 None (Some proxied) None)
             proxied eq_refl w Hps Hfit).
Qed.

Lemma update_or_create_settles_the_name_witness :
  let run := UpdateDns.update_or_create_records "z1" "example.org" "192.0.2.9"
               false false "A" two_a_records in
  map r_content (w_recs (snd run)) = ["192.0.2.9"; "192.0.2.9"]
  /\ forall dry_run,
       mutations (new_calls (snd run)
                    (snd (UpdateDns.update_or_create_records "z1" "example.org"
                            "192.0.2.9" dry_run false "A" (snd run)))) = [].
Proof.
  intros run. split; [vm_compute; reflexivity|].
  destruct (update_or_create_settles_the_name "z1" "example.org" "192.0.2.9" false
              two_a_records) as [H _].
  - simpl. lia.
  - destruct (H "A") with (o := UpdateDns.R_processed 2
                [UpdateDns.D_unchanged "a1" "192.0.2.9" (Some false);
                 UpdateDns.D_updated "a2" (Some "192.0.2.9") "192.0.2.2"
                   (Some false) (Some false)])
      as (_ & _ & Hagain).
    + vm_compute. lia.
    + vm_compute. reflexivity.
    + intros dry_run. apply Hagain. vm_compute. constructor.
Defined.

Section MxTxtAgain.

Import UpdateDns.

Lemma firstn_head (A : Type) (n : nat) (l t : list A) (a : A) :
  firstn n l = a :: t -> exists t', l = a :: t'.
Proof.
  destruct n, l as [|b l']; simpl; try discriminate.
  intros H. injection H as -> _. now exists l'.
Qed.

Lemma update_or_create_mx_txt_same_config (zone_id name content : string)
  (dry_run : bool) (record_type : string) (priority : Z) :
  keeps same_config
    (update_or_create_mx_txt zone_id name content dry_run record_type priority).
Proof.
  unfold update_or_create_mx_txt.
  apply (keeps_bind same_config same_config_trans).
  { apply keeps_same_config_of_read_only, get_dns_records_read_only. }
  intros l. destruct (find_exact record_type content priority l); [keeps_same_config|].
  destruct dry_run; [keeps_same_config|].
  unfold api_post, check. keeps_same_config.
Qed.

(** X8: the MX/TXT operation of [update_dns.py] is idempotent when the
    records of the type at the name leave room in the page the lookup
    reads: after an apply run that ended without error, a further run in
    either mode that meets no failure finds the exact match, sends no
    mutating request and leaves the zone as it is. *)
Theorem update_or_create_mx_txt_is_idempotent (zone_id name content record_type : string)
  (priority : Z) (w : World) (o : Outcome) :
  length (records_at record_type name (w_recs w)) < w_page_size w ->
  fst (update_or_create_mx_txt zone_id name content false record_type priority w) = Ok o ->
  let w' := snd (update_or_create_mx_txt zone_id name content false record_type priority w) in
  quiet w' ->
  forall dry_run,
    let again := update_or_create_mx_txt zone_id name content dry_run record_type
                   priority w' in
    (exists id, fst again = Ok (R_exact id))
    /\ mutations (new_calls w' (snd again)) = []
    /\ w_recs (snd again) = w_recs w'.
Proof.
  intros Hfit Hok w' Hq dry_run again. subst again.
  pose proof (update_or_create_mx_txt_same_config zone_id name content false
                record_type priority w) as (_ & Hzid' & Hps' & _ & _).
  fold w' in Hzid', Hps'.
  assert (Hex : zone_id = w_zone_id w
                /\ exists m, find_exact record_type content priority
                               (records_at record_type name (w_recs w')) = Some m).
  { subst w'. rewrite update_or_create_mx_txt_unfold in *.
    destruct (get_dns_records zone_id name record_type w) as [[l|e] w1] eqn:Hget;
      [|discriminate].
    apply get_dns_records_ok in Hget. destruct Hget as (Hzid & Hl & Hw1).
    rewrite firstn_all2 in Hl by lia. split; [exact Hzid|].
    destruct (find_exact record_type content priority l) as [m|] eqn:Hfind.
    - cbn [snd]. exists m. rewrite Hw1. cbn [w_recs log_call]. now rewrite <- Hl.
    - set (p := mkPayload record_type name content 1
                  (if String.eqb record_type "MX" then Some priority else None)
                  None None) in *.
      destruct (api_post (POST_dns_record zone_id p) w1) as [[created|e] w2] eqn:Hpost;
        [|discriminate].
      cbn [snd]. apply api_post_ok in Hpost. rewrite Hpost, Hw1. cbn [w_recs log_call].
      unfold records_at. rewrite filter_app. fold (records_at record_type name (w_recs w)).
      rewrite <- Hl. cbn [filter]. unfold matches_params at 1.
      cbn [q_type q_name opt_eqb record_of_payload r_type r_name p p_type p_name].
      rewrite !String.eqb_refl. cbn [andb].
      unfold find_exact in *. rewrite find_app, Hfind. cbn [find].
      cbn [r_content record_of_payload p p_content]. rewrite String.eqb_refl.
      cbn [andb].
      destruct (String.eqb record_type "MX"); cbn [negb orb];
        [unfold priority_is, record_of_payload, p; cbn [r_priority p_priority];
         rewrite Z.eqb_refl|];
        eexists; reflexivity. }
  destruct Hex as (Hzid & m & Hm).
  assert (Hzid2 : zone_id = w_zone_id w') by congruence.
  assert (Hfit' : length (records_at record_type name (w_recs w')) <= w_page_size w').
  { subst w'. rewrite update_or_create_mx_txt_unfold in *.
    destruct (get_dns_records zone_id name record_type w) as [[l|e] w1] eqn:Hget;
      [|discriminate].
    apply get_dns_records_ok in Hget. destruct Hget as (_ & Hl & Hw1).
    destruct (find_exact record_type content priority l) as [m'|].
    - cbn [snd]. rewrite Hw1. cbn [w_recs log_call w_page_size]. lia.
    - destruct (api_post _ w1) as [[created|e] w2] eqn:Hpost; [|discriminate].
      cbn [snd] in *. apply api_post_ok in Hpost. rewrite Hpost, Hps', Hw1.
      cbn [w_recs log_call]. unfold records_at. rewrite filter_app, length_app.
      fold (records_at record_type name (w_recs w)).
      pose proof (filter_length_le
                    (matches_params (mkParams (Some record_type) (Some name) None None))
                    [record_of_payload (fresh_id (log_call
                       (GET_dns_records zone_id
                          (mkParams (Some record_type) (Some name) None None)) w))
                       (mkPayload record_type name content 1
                          (if String.eqb record_type "MX" then Some priority else None)
                          None None)]) as Hle.
      cbn [length] in Hle. lia. }
  rewrite update_or_create_mx_txt_unfold.
  pose proof (get_dns_records_first_page w' name record_type Hq) as Hget2.
  rewrite <- Hzid2 in Hget2. rewrite Hget2.
  rewrite firstn_all2 by exact Hfit'. rewrite Hm. cbn [fst snd].
  split; [now exists (r_id m)|]. split; [|reflexivity].
  rewrite (new_calls_app w' _ [GET_dns_records zone_id
             (mkParams (Some record_type) (Some name) None None)]); reflexivity.
Qed.

End MxTxtAgain.

Lemma update_or_create_mx_txt_is_idempotent_witness :
  let w' := snd (UpdateDns.update_or_create_mx_txt "z1" "example.org" "v=spf1 -all"
                   false "TXT" 10 one_a_record) in
  fst (UpdateDns.update_or_create_mx_txt "z1" "example.org" "v=spf1 -all"
         false "TXT" 10 w') = Ok (UpdateDns.R_exact "rec1")
  /\ mutations (new_calls w' (snd (UpdateDns.update_or_create_mx_txt "z1" "example.org"
                                     "v=spf1 -all" false "TXT" 10 w'))) = []
  /\ w_recs (snd (UpdateDns.update_or_create_mx_txt "z1" "example.org" "v=spf1 -all"
                    false "TXT" 10 w')) = w_recs w'.
Proof.
  intros w'. split; [vm_compute; reflexivity|].
  apply (update_or_create_mx_txt_is_idempotent "z1" "example.org" "v=spf1 -all" "TXT" 10
           one_a_record
           (UpdateDns.R_created
              (Some (mkRecord "rec1" "TXT" "example.org" "v=spf1 -all" 1 None None None)))).
  - vm_compute. lia.
  - vm_compute. reflexivity.
  - vm_compute. constructor.
Defined.

(* ------------------------------------------------------------------ *)
(** ** update_pages_dns.py: [upsert_cname] twice *)

Lemma serve_put_success (zid id : string) (p : Payload) (w : World) (r : Response) :
  fst (serve (PUT_dns_record zid id p) w) = Http r ->
  success r = true ->
  w_recs (snd (serve (PUT_dns_record zid id p) w))
  = update_by_id id (fun _ => record_of_payload id p) (w_recs w).
Proof.
  unfold serve.
  assert (Hh : forall w0, w_recs w0 = w_recs w ->
            fst (handle (PUT_dns_record zid id p) w0) = Http r ->
            success r = true ->
            w_recs (snd (handle (PUT_dns_record zid id p) w0))
            = update_by_id id (fun _ => record_of_payload id p) (w_recs w)).
  { intros w0 E. cbn [handle].
    destruct (String.eqb zid (w_zone_id w0) && existsb (has_id id) (w_recs w0)).
    - destruct (w_accept w0 (w_recs w0) (PUT_dns_record zid id p)); cbn [fst snd].
      + intros _ _. simpl. now rewrite E.
      + intros H Hs. injection H as <-. discriminate.
    - intros H Hs. injection H as <-. discriminate. }
  destruct (w_faults w) as [|[f|] t].
  - now apply Hh.
  - destruct f; simpl; intros H Hs; [discriminate|]. injection H as <-. discriminate.
  - now apply Hh.
Qed.

(** Replacing the first record at a name by one at the same name leaves a
    replaced record first. *)
Lemma records_at_replaced (ty name : string) (new : DnsRecord) (rs : list DnsRecord)
  (current : DnsRecord) (others : list DnsRecord) :
  r_type new = ty -> r_name new = name ->
  records_at ty name rs = current :: others ->
  exists others',
    records_at ty name (update_by_id (r_id current) (fun _ => new) rs) = new :: others'.
Proof.
  intros Hty Hname. unfold records_at, update_by_id.
  assert (Hnew : matches_params (mkParams (Some ty) (Some name) None None) new = true).
  { unfold matches_params. cbn [q_type q_name opt_eqb].
    now rewrite Hty, Hname, !String.eqb_refl. }
  induction rs as [|r rs IH]; cbn [filter map]; [discriminate|].
  destruct (has_id (r_id current) r) eqn:Hid.
  - intros _. rewrite Hnew. eexists. reflexivity.
  - destruct (matches_params (mkParams (Some ty) (Some name) None None) r).
    + intros H. injection H as -> _.
      unfold has_id in Hid. rewrite String.eqb_refl in Hid. discriminate.
    + exact IH.
Qed.

Section UpsertTwice.

Import UpdatePagesDns.

Lemma pages_check_ok (verb : string) (rp : Reply) (w : World) (r : Response) :
  fst (check verb rp w) = Ok r -> rp = Http r /\ success r = true.
Proof.
  unfold check. destruct rp as [|r0]; cbn [fst]; [discriminate|].
  destruct (negb (ok r0)); cbn [fst]; [discriminate|].
  destruct (success r0) eqn:Hs; cbn [negb fst]; [|discriminate].
  intros H. injection H as <-. auto.
Qed.

Lemma pages_api_post_ok (zone_id : string) (p : Payload) (w w1 : World) (r : Response) :
  api_post (POST_dns_record zone_id p) w = (Ok r, w1) ->
  w_recs w1 = w_recs w ++ [record_of_payload (fresh_id w) p]
  /\ same_config w w1.
Proof.
  unfold api_post, bind. rewrite request_world. intros H.
  pose proof (f_equal fst H) as Hf. pose proof (f_equal snd H) as Hs.
  rewrite pages_check_world in Hs. cbn [fst snd] in *. subst w1.
  apply pages_check_ok in Hf. destruct Hf as [Hrp Hsucc].
  split; [now apply serve_post_success with (r := r) | apply serve_same_config].
Qed.

Lemma pages_api_put_ok (zone_id id : string) (p : Payload) (w w1 : World) (r : Response) :
  api_put (PUT_dns_record zone_id id p) w = (Ok r, w1) ->
  w_recs w1 = update_by_id id (fun _ => record_of_payload id p) (w_recs w)
  /\ same_config w w1.
Proof.
  unfold api_put, bind. rewrite request_world. intros H.
  pose proof (f_equal fst H) as Hf. pose proof (f_equal snd H) as Hs.
  rewrite pages_check_world in Hs. cbn [fst snd] in *. subst w1.
  apply pages_check_ok in Hf. destruct Hf as [Hrp Hsucc].
  split; [now apply serve_put_success with (r := r) | apply serve_same_config].
Qed.

(** The test of [upsert_cname] that leaves the record alone. *)
Lemma upsert_cname_satisfied (name target : string) (proxied : bool) (ttl : Z)
  (dry_run : bool) (w : World) (current : DnsRecord) (others : list DnsRecord) :
  quiet w ->
  0 < w_page_size w ->
  records_at "CNAME" name (w_recs w) = current :: others ->
  String.eqb (r_content current) target && proxied_is current proxied
  && (Z.eqb (r_ttl current) ttl || Z.eqb (r_ttl current) 1) = true ->
  upsert_cname (w_zone_id w) name target proxied ttl dry_run w
  = (Ok (L_cname_already name target proxied),
     log_call (GET_dns_records (w_zone_id w)
                 (mkParams (Some "CNAME") (Some name) None None)) w).
Proof.
  intros Hq Hps Hrecs Htest.
  rewrite upsert_cname_unfold. cbv zeta.
  rewrite (pages_get_dns_records_quiet _ _ _ Hq).
  fold (records_at "CNAME" name (w_recs w)). rewrite Hrecs.
  destruct (w_page_size w) as [|n]; [lia|]. cbn [firstn].
  now rewrite Htest.
Qed.

(** After an apply run that ended without error, the first CNAME the
    provider lists at the name passes that test. *)
Lemma upsert_cname_leaves_satisfied (zone_id name target : string) (proxied : bool)
  (ttl : Z) (w w' : World) (line : Line) :
  0 < w_page_size w ->
  upsert_cname zone_id name target proxied ttl false w = (Ok line, w') ->
  zone_id = w_zone_id w' /\ 0 < w_page_size w'
  /\ exists current others,
       records_at "CNAME" name (w_recs w') = current :: others
       /\ String.eqb (r_content current) target && proxied_is current proxied
          && (Z.eqb (r_ttl current) ttl || Z.eqb (r_ttl current) 1) = true.
Proof.
  intros Hps. rewrite upsert_cname_unfold. cbv zeta.
  set (payload := mkPayload "CNAME" name target ttl None (Some proxied) None).
  destruct (get_dns_records zone_id (Some name) (Some "CNAME") w) as [[l|e] w1] eqn:Hget;
    [|discriminate].
  apply pages_get_dns_records_ok in Hget. destruct Hget as (Hzid & Hl & Hw1).
  fold (records_at "CNAME" name (w_recs w)) in Hl.
  assert (Hnew : forall id,
             String.eqb (r_content (record_of_payload id payload)) target
             && proxied_is (record_of_payload id payload) proxied
             && (Z.eqb (r_ttl (record_of_payload id payload)) ttl
                 || Z.eqb (r_ttl (record_of_payload id payload)) 1) = true).
  { intros id. unfold proxied_is, record_of_payload, payload.
    cbn [r_content r_proxied r_ttl p_content p_proxied p_ttl].
    now rewrite String.eqb_refl, Bool.eqb_reflx, Z.eqb_refl. }
  destruct l as [|current l].
  - destruct (api_post (POST_dns_record zone_id payload) w1) as [[created|e] w2] eqn:Hpost;
      [|discriminate].
    intros H. injection H as _ <-.
    apply pages_api_post_ok in Hpost. destruct Hpost as [Hrecs (_ & Hz & Hp & _)].
    rewrite Hw1 in Hrecs, Hz, Hp. cbn [w_recs w_zone_id w_page_size log_call] in *.
    split; [congruence|]. split; [lia|].
    assert (Hnone : records_at "CNAME" name (w_recs w) = []).
    { destruct (records_at "CNAME" name (w_recs w)) as [|r0 l0]; [reflexivity|].
      destruct (w_page_size w); [lia | discriminate]. }
    eexists _, []. split; [|apply Hnew].
    rewrite Hrecs. unfold records_at. rewrite filter_app.
    fold (records_at "CNAME" name (w_recs w)). rewrite Hnone. cbn [app filter].
    unfold matches_params, record_of_payload, payload.
    cbn [q_type q_name opt_eqb r_type r_name p_type p_name].
    rewrite !String.eqb_refl. reflexivity.
  - symmetry in Hl. destruct (firstn_head _ _ _ _ _ Hl) as (others & Hat).
    destruct (String.eqb (r_content current) target && proxied_is current proxied
              && (Z.eqb (r_ttl current) ttl || Z.eqb (r_ttl current) 1)) eqn:Htest.
    + intros H. injection H as _ <-. rewrite Hw1.
      cbn [w_recs w_zone_id w_page_size log_call].
      split; [exact Hzid|]. split; [exact Hps|]. now exists current, others.
    + destruct (api_put (PUT_dns_record zone_id (r_id current) payload) w1)
        as [[updated|e] w2] eqn:Hput; [|discriminate].
      intros H. injection H as _ <-.
      apply pages_api_put_ok in Hput. destruct Hput as [Hrecs (_ & Hz & Hp & _)].
      rewrite Hw1 in Hrecs, Hz, Hp. cbn [w_recs w_zone_id w_page_size log_call] in *.
      split; [congruence|]. split; [lia|].
      destruct (records_at_replaced "CNAME" name
                  (record_of_payload (r_id current) payload) (w_recs w) current others
                  eq_refl eq_refl Hat) as (others' & Hat').
      exists (record_of_payload (r_id current) payload), others'.
      split; [now rewrite Hrecs | apply Hnew].
Qed.

(** X9: [upsert_cname] is idempotent: after an apply call that ended without
    error (the record was created, replaced or already right), a further
    call with the same arguments, in either mode and meeting no failure,
    answers "already points to", sends no mutating request and leaves the
    zone as it is. *)
Theorem upsert_cname_is_idempotent (zone_id name target : string) (proxied : bool)
  (ttl : Z) (w : World) (line : Line) :
  0 < w_page_size w ->
  fst (upsert_cname zone_id name target proxied ttl false w) = Ok line ->
  let w' := snd (upsert_cname zone_id name target proxied ttl false w) in
  quiet w' ->
  forall dry_run,
    let again := upsert_cname zone_id name target proxied ttl dry_run w' in
    fst again = Ok (L_cname_already name target proxied)
    /\ mutations (new_calls w' (snd again)) = []
    /\ w_recs (snd again) = w_recs w'.
Proof.
  intros Hps Hok w' Hq dry_run again. subst again.
  destruct (upsert_cname zone_id name target proxied ttl false w) as [res w2] eqn:Hrun.
  cbn [fst snd] in *. subst res w'.
  destruct (upsert_cname_leaves_satisfied _ _ _ _ _ _ _ _ Hps Hrun)
    as (Hzid & Hps' & current & others & Hat & Htest).
  rewrite Hzid.
  rewrite (upsert_cname_satisfied name target proxied ttl dry_run w2 current others
             Hq Hps' Hat Htest).
  cbn [fst snd]. split; [reflexivity|]. split; [|reflexivity].
  now rewrite (new_calls_app w2 _ [GET_dns_records (w_zone_id w2)
                                     (mkParams (Some "CNAME") (Some name) None None)]).
Qed.

End UpsertTwice.

Lemma upsert_cname_is_idempotent_witness :
  let w' := snd (UpdatePagesDns.upsert_cname "z1" "www.example.org" "ffc.github.io"
                   false 300 false www_elsewhere_zone) in
  map r_content (w_recs w') = ["ffc.github.io"]
  /\ forall dry_run,
       fst (UpdatePagesDns.upsert_cname "z1" "www.example.org" "ffc.github.io"
              false 300 dry_run w')
       = Ok (L_cname_already "www.example.org" "ffc.github.io" false).
Proof.
  intros w'. split; [vm_compute; reflexivity|].
  intros dry_run.
  apply (upsert_cname_is_idempotent "z1" "www.example.org" "ffc.github.io" false 300
           www_elsewhere_zone
           (L_cname_updated
              (Some (mkRecord "c3" "CNAME" "www.example.org" "ffc.github.io" 300 None
                       (Some false) None)))).
  - simpl. lia.
  - vm_compute. reflexivity.
  - vm_compute. constructor.
Defined.

(* ------------------------------------------------------------------ *)
(** ** enforce_standard.py: the number of changes *)

Section ChangeCount.

Import EnforceStandard.

Lemma ensure_all_dry_count (zone_id zone : string) (all_records : list DnsRecord)
  (stds : list RecordDef) :
  forall (n : nat) (w : World),
    exists w',
      ensure_all zone_id zone stds all_records true n w
      = (Ok (n + length (filter (fun std => negb (already_exists zone std all_records))
                           stds)), w')
      /\ w_calls w' = w_calls w /\ w_recs w' = w_recs w.
Proof.
  induction stds as [|std rest IH]; intros n w.
  - exists w. cbn [ensure_all filter length]. rewrite Nat.add_0_r. auto.
  - cbn [ensure_all filter].
    destruct (already_exists zone std all_records) eqn:E; cbn [negb].
    + rewrite (bind_ok _ (ensure_record_satisfied zone_id zone std all_records true w E)).
      destruct (IH n (put_line (L_ok (d_type std) (d_name std)) w)) as (w' & Hrun & Hc & Hr).
      exists w'. auto.
    + rewrite (bind_ok _ (ensure_record_would_create zone_id zone std all_records w E)).
      destruct (IH (S n) (put_line (L_dry_run_would_create (d_type std) (d_name std)
                                      (d_content std)) w)) as (w' & Hrun & Hc & Hr).
      exists w'. cbn [length]. rewrite Nat.add_succ_r. auto.
Qed.

Lemma post_or_report_ok_calls (zid : string) (p : Payload) (w w1 : World) (b : bool) :
  post_or_report (POST_dns_record zid p) w = (Ok b, w1) ->
  b = true /\ w_calls w1 = w_calls w ++ [POST_dns_record zid p].
Proof.
  intros H. destruct (post_or_report_calls (POST_dns_record zid p) w) as [Hc Hres].
  rewrite H in Hc, Hres. cbn [fst snd] in *. split; [|exact Hc].
  destruct Hres as [Hres|[e Hres]]; [now injection Hres | discriminate].
Qed.

Lemma ensure_all_apply_count (zone_id zone : string) (all_records : list DnsRecord)
  (stds : list RecordDef) :
  forall (n n' : nat) (w w' : World),
    ensure_all zone_id zone stds all_records false n w = (Ok n', w') ->
    let todo := filter (fun std => negb (already_exists zone std all_records)) stds in
    n' = n + length todo
    /\ w_calls w' = w_calls w
                    ++ map (fun std => POST_dns_record zone_id (payload_of zone std)) todo
    /\ length (w_recs w') = length (w_recs w) + length todo.
Proof.
  induction stds as [|std rest IH]; intros n n' w w' H.
  - cbn [ensure_all] in H. injection H as <- <-. cbn [filter map length].
    rewrite app_nil_r. auto.
  - cbn [ensure_all] in H. apply bind_ok_inv in H.
    destruct H as (changed & w1 & Hstd & Hrest).
    apply IH in Hrest. cbv zeta in Hrest. destruct Hrest as (Hn & Hc & Hl).
    cbn [filter].
    destruct (already_exists zone std all_records) eqn:E; cbn [negb].
    + rewrite (ensure_record_satisfied _ _ _ _ _ _ E) in Hstd.
      injection Hstd as <- <-. cbn [w_calls w_recs put_line] in *. auto.
    + rewrite (ensure_record_creates _ _ _ _ _ E) in Hstd.
      pose proof (post_or_report_ok _ _ _ _ _ Hstd) as Hrecs.
      apply post_or_report_ok_calls in Hstd. destruct Hstd as [-> Hcalls].
      cbn [w_calls w_recs put_line] in *. cbn [map length]. split; [lia|]. split.
      * rewrite Hc, Hcalls, <- app_assoc. reflexivity.
      * rewrite Hl, Hrecs, length_app. cbn [length]. lia.
Qed.

Lemma executed_posts (zone_id zone : string) (todo : list RecordDef) :
  executed (map (fun std => POST_dns_record zone_id (payload_of zone std)) todo)
  = map (fun std => Create (payload_of zone std)) todo.
Proof.
  induction todo as [|std rest IH]; [reflexivity|].
  cbn [map]. unfold executed in *. cbn [flat_map op_of_call app]. now rewrite IH.
Qed.

Lemma enforce_standard_dry_read_only (fuel : nat) (zone : string) :
  keeps read_only (enforce_standard fuel zone true).
Proof.
  unfold enforce_standard.
  apply (keeps_bind read_only read_only_trans); [apply keeps_print_read_only | intros _].
  apply (keeps_bind read_only read_only_trans); [apply keeps_print_read_only | intros _].
  apply (keeps_bind read_only read_only_trans); [apply get_zone_id_read_only | intros zid].
  apply (keeps_bind read_only read_only_trans).
  { apply get_all_records_loop_read_only. }
  intros all.
  apply (keeps_bind read_only read_only_trans).
  { generalize 0. induction (standards zone) as [|std rest IH]; intros n; cbn [ensure_all].
    - keeps_read_only.
    - apply (keeps_bind read_only read_only_trans);
        [apply ensure_record_dry_run_read_only | intros c; apply IH]. }
  intros n. keeps_read_only.
Qed.

Lemma enforce_standard_count (fuel : nat) (zone : string) (w : World) :
  quiet w ->
  0 < w_page_size w ->
  zone = w_zone_name w ->
  pages_of (Nat.min 100 (w_page_size w)) (length (w_recs w)) <= S fuel ->
  let todo := filter (fun std => negb (already_exists zone std (w_recs w)))
                     (standards zone) in
  let dry := enforce_standard (S fuel) zone true w in
  let app := enforce_standard (S fuel) zone false w in
  fst dry = Ok (length todo)
  /\ read_only w (snd dry)
  /\ (forall n, fst app = Ok n ->
        n = length todo
        /\ executed (new_calls w (snd app))
           = map (fun std => Create (payload_of zone std)) todo
        /\ length (w_recs (snd app)) = length (w_recs w) + length todo).
Proof.
  intros Hq Hps Hzone Hfuel todo dry app. subst dry app.
  assert (Hlist : forall dry_run,
            let w0 := put_line L_rule (put_line (L_enforce_header zone dry_run) w) in
            exists wb cs,
              get_zone_id zone w0 = (Ok (w_zone_id w), log_call (GET_zones zone) w0)
              /\ get_all_records (S fuel) (w_zone_id w) (log_call (GET_zones zone) w0)
                 = (Ok (w_recs w), wb)
              /\ w_recs wb = w_recs w
              /\ w_calls wb = w_calls w ++ GET_zones zone :: cs
              /\ mutations cs = []).
  { intros dry_run w0.
    assert (Hq0 : quiet w0) by exact Hq.
    set (wa := log_call (GET_zones zone) w0).
    destruct (get_all_records_loop_complete fuel 1 [] wa (quiet_log_call _ _ Hq0))
      as (wb & Hrun & Hrb & _ & cs & Hcs & Hmut); try exact Hps; try lia; try reflexivity.
    { exact Hfuel. }
    exists wb, cs. split; [|split; [exact Hrun | split; [exact Hrb | split]]].
    - apply (es_get_zone_id_quiet w0 zone Hq0 Hzone).
    - rewrite Hcs. cbn [wa w0 w_calls log_call put_line]. now rewrite <- app_assoc.
    - exact Hmut. }
  split; [|split].
  - rewrite enforce_standard_unfold.
    destruct (Hlist true) as (wb & cs & Hz & Hall & _). rewrite Hz, Hall.
    destruct (ensure_all_dry_count (w_zone_id w) zone (w_recs w) (standards zone) 0 wb)
      as (wc & Hens & _). rewrite Hens. reflexivity.
  - apply enforce_standard_dry_read_only.
  - intros n. rewrite enforce_standard_unfold.
    destruct (Hlist false) as (wb & cs & Hz & Hall & Hrb & Hcb & Hmut). rewrite Hz, Hall.
    destruct (ensure_all (w_zone_id w) zone (standards zone) (w_recs w) false 0 wb)
      as [[m|e] wc] eqn:Hens; [|discriminate].
    cbn [fst snd]. intros H. injection H as <-.
    apply ensure_all_apply_count in Hens. cbv zeta in Hens.
    destruct Hens as (Hm & Hc & Hl).
    fold todo in Hm, Hc, Hl. split; [exact Hm|]. split.
    + rewrite (new_calls_app w _
                 ((GET_zones zone :: cs)
                  ++ map (fun std => POST_dns_record (w_zone_id w) (payload_of zone std))
                       todo)).
      * rewrite executed_app, executed_posts.
        rewrite (executed_of_reads (GET_zones zone :: cs)); [reflexivity|].
        unfold mutations. cbn [filter is_mutating]. exact Hmut.
      * cbn [w_calls put_line]. rewrite Hc, Hcb, <- app_assoc. reflexivity.
    + cbn [w_recs put_line]. now rewrite Hl, Hrb.
Qed.

Lemma exists_in_filter (A : Type) (f : A -> bool) (l : list A) :
  match filter f l with [] => false | _ :: _ => true end = existsb f l.
Proof.
  induction l as [|a l IH]; [reflexivity|]. cbn [filter existsb].
  destruct (f a); [reflexivity | exact IH].
Qed.

Lemma existsb_pointwise (A : Type) (f g : A -> bool) (l : list A) :
  (forall x, f x = g x) -> existsb f l = existsb g l.
Proof.
  intros H. induction l as [|a l IH]; [reflexivity|]. cbn [existsb].
  now rewrite H, IH.
Qed.

Lemma existsb_filter (A : Type) (f g : A -> bool) (l : list A) :
  existsb f (filter g l) = existsb (fun x => g x && f x) l.
Proof.
  induction l as [|a l IH]; [reflexivity|]. cbn [filter existsb].
  destruct (g a); cbn [existsb andb]; now rewrite IH.
Qed.

Lemma is_exact_match_spec (zone : string) (std : RecordDef) (r : DnsRecord) :
  is_exact_match zone std r = true <-> exact_match zone std r.
Proof.
  unfold is_exact_match, exact_match.
  rewrite !andb_true_iff, !String.eqb_eq, orb_true_iff, negb_true_iff.
  split.
  - intros [[[Ht Hn] Hc] Hp]. repeat split; try assumption.
    intros Hmx. destruct Hp as [Hp|Hp].
    + apply String.eqb_neq in Hp. contradiction.
    + destruct (r_priority r) as [q|]; [|discriminate].
      apply Z.eqb_eq in Hp. now subst.
  - intros (Ht & Hn & Hc & Hp). repeat split; try assumption.
    destruct (String.eqb_spec (d_type std) "MX") as [Hmx|Hmx]; [right | now left].
    rewrite (Hp Hmx). apply Z.eqb_refl.
Qed.

(** For the multi-value types the test of [ensure_record] is the search
    for an exact match. *)
Lemma already_exists_multi (zone : string) (std : RecordDef) (rs : list DnsRecord) :
  mem_string (d_type std) ["MX"; "TXT"; "A"] = true ->
  already_exists zone std rs = existsb (is_exact_match zone std) rs.
Proof.
  intros Hmulti. unfold already_exists, matches_of. rewrite Hmulti. cbv zeta.
  destruct (String.eqb (d_type std) "MX") eqn:Hmx.
  - rewrite exists_in_filter, !existsb_filter.
    apply existsb_pointwise. intros r. unfold is_exact_match, priority_is.
    rewrite Hmx. cbn [negb orb]. now rewrite !andb_assoc.
  - rewrite exists_in_filter, existsb_filter.
    apply existsb_pointwise. intros r. unfold is_exact_match.
    rewrite Hmx. cbn [negb orb]. now rewrite andb_true_r.
Qed.

Lemma www_matches (zone : string) (rs : list DnsRecord) :
  matches_of zone (www_entry zone) rs = records_at "CNAME" ("www." ++ zone) rs.
Proof.
  unfold matches_of, records_at. apply filter_ext. intros r.
  unfold matches_params. cbn [q_type q_name opt_eqb www_entry d_type].
  reflexivity.
Qed.

Lemma www_exact (zone : string) (rs : list DnsRecord) :
  existsb (is_exact_match zone (www_entry zone)) rs
  = existsb (fun r => String.eqb (r_content r) zone)
      (records_at "CNAME" ("www." ++ zone) rs).
Proof.
  rewrite <- www_matches. unfold matches_of. rewrite existsb_filter.
  apply existsb_pointwise. intros r. unfold is_exact_match.
  cbn [www_entry d_type d_content String.eqb Ascii.eqb Bool.eqb negb orb].
  now rewrite andb_true_r.
Qed.

(** For the [www] entry the test looks at the first CNAME at [www] only. *)
Lemma already_exists_www (zone : string) (rs : list DnsRecord) :
  negb (already_exists zone (www_entry zone) rs)
  = negb (existsb (is_exact_match zone (www_entry zone)) rs) || www_shadowed zone rs.
Proof.
  rewrite www_exact. unfold already_exists, www_shadowed. rewrite www_matches.
  cbn [www_entry d_type d_content mem_string existsb String.eqb Ascii.eqb Bool.eqb orb].
  destruct (records_at "CNAME" ("www." ++ zone) rs) as [|first others]; [reflexivity|].
  cbn [existsb]. destruct (String.eqb (r_content first) zone); cbn [negb orb andb].
  - reflexivity.
  - now destruct (existsb (fun r => String.eqb (r_content r) zone) others).
Qed.

Lemma shadowed_is_met (zone : string) (rs : list DnsRecord) :
  www_shadowed zone rs = true ->
  existsb (is_exact_match zone (www_entry zone)) rs = true.
Proof.
  rewrite www_exact. unfold www_shadowed.
  destruct (records_at "CNAME" ("www." ++ zone) rs) as [|first others]; [discriminate|].
  intros H. apply andb_true_iff in H. destruct H as [_ H].
  cbn [existsb]. rewrite H. apply orb_true_r.
Qed.

(** The entries [enforce_standard] acts on: the unmet ones and, on a zone
    where it is shadowed, the [www] entry. *)
Lemma todo_split (zone : string) (rs : list DnsRecord) :
  filter (fun std => negb (already_exists zone std rs)) (standards zone)
  = unmet zone rs ++ (if www_shadowed zone rs then [www_entry zone] else []).
Proof.
  unfold unmet.
  change (standards zone) with (firstn 7 (standards zone) ++ [www_entry zone]).
  rewrite !filter_app, <- app_assoc. f_equal.
  - apply filter_ext_in. intros std Hin.
    rewrite already_exists_multi; [reflexivity|].
    cbn in Hin. repeat (destruct Hin as [<-|Hin]; [reflexivity|]). destruct Hin.
  - cbn [filter]. rewrite already_exists_www.
    destruct (www_shadowed zone rs) eqn:Es.
    + rewrite (shadowed_is_met zone rs Es). reflexivity.
    + rewrite orb_false_r.
      now destruct (negb (existsb (is_exact_match zone (www_entry zone)) rs)).
Qed.

(** X10: the number [enforce_standard] reports is the number of entries of
    the standard set that no record of the zone matches exactly (type,
    name, content and, for MX, priority), plus one on a zone where a CNAME
    at [www] points to the zone but another CNAME at [www] is listed before
    it: the [www] entry is then counted, and created, once more.  A dry run
    returns this number without sending a mutating request; an apply run
    that ends without error returns the same number, after sending exactly
    one create per counted entry, in the order of the set, and the zone has
    that many records more. *)
Theorem enforce_standard_reports_the_unmet (fuel : nat) (zone : string) (w : World) :
  quiet w ->
  0 < w_page_size w ->
  zone = w_zone_name w ->
  pages_of (Nat.min 100 (w_page_size w)) (length (w_recs w)) <= S fuel ->
  let todo := unmet zone (w_recs w)
              ++ (if www_shadowed zone (w_recs w) then [www_entry zone] else []) in
  let dry := enforce_standard (S fuel) zone true w in
  let app := enforce_standard (S fuel) zone false w in
  fst dry = Ok (length todo)
  /\ read_only w (snd dry)
  /\ (forall n, fst app = Ok n ->
        n = length todo
        /\ executed (new_calls w (snd app))
           = map (fun std => Create (payload_of zone std)) todo
        /\ length (w_recs (snd app)) = length (w_recs w) + length todo).
Proof.
  intros Hq Hps Hzone Hfuel todo dry app. subst todo dry app.
  pose proof (enforce_standard_count fuel zone w Hq Hps Hzone Hfuel) as H.
  cbv zeta in H. rewrite todo_split in H. exact H.
Qed.

End ChangeCount.

(** The zone with a [www] CNAME that points elsewhere, after a first apply
    run: every entry has its exact match, the [www] entry is shadowed, and
    a further run reports one change. *)
Lemma enforce_standard_reports_the_unmet_witness :
  unmet "example.org"
    (w_recs (snd (EnforceStandard.enforce_standard 2 "example.org" false
                    www_elsewhere_zone))) = []
  /\ www_shadowed "example.org"
       (w_recs (snd (EnforceStandard.enforce_standard 2 "example.org" false
                       www_elsewhere_zone))) = true
  /\ fst (EnforceStandard.enforce_standard 1 "example.org" true
            (snd (EnforceStandard.enforce_standard 2 "example.org" false
                    www_elsewhere_zone))) = Ok 1
  /\ read_only
       (snd (EnforceStandard.enforce_standard 2 "example.org" false www_elsewhere_zone))
       (snd (EnforceStandard.enforce_standard 1 "example.org" true
               (snd (EnforceStandard.enforce_standard 2 "example.org" false
                       www_elsewhere_zone)))).
Proof.
  split; [vm_compute; reflexivity|]. split; [vm_compute; reflexivity|].
  destruct (enforce_standard_reports_the_unmet 0 "example.org"
              (snd (EnforceStandard.enforce_standard 2 "example.org" false
                      www_elsewhere_zone)))
    as (Hdry & Hro & _).
  - vm_compute. constructor.
  - vm_compute. lia.
  - vm_compute. reflexivity.
  - vm_compute. lia.
  - split; [|exact Hro]. rewrite Hdry. vm_compute. reflexivity.
Defined.

(* ------------------------------------------------------------------ *)
(** ** audit_compliance.py after enforce_standard.py *)

Lemma prefix_refl (s : string) : String.prefix s s = true.
Proof.
  induction s as [|c s IH]; [reflexivity|]. cbn [String.prefix].
  destruct (Ascii.ascii_dec c c); [exact IH | contradiction].
Qed.

Section EnforceThenAudit.

(** After an apply run that ended without error, every entry of the
    standard set has an exact match in the zone. *)
Lemma enforce_standard_apply_ok (fuel : nat) (zone : string) (w w1 : World) (n : nat) :
  quiet w ->
  0 < w_page_size w ->
  EnforceStandard.enforce_standard fuel zone false w = (Ok n, w1) ->
  quiet w1 /\ w_zone_name w1 = zone /\ w_page_size w1 = w_page_size w
  /\ forall std, In std (EnforceStandard.standards zone) ->
       exists r, In r (w_recs w1) /\ exact_match zone std r.
Proof.
  intros Hq Hps Hfirst.
  rewrite enforce_standard_unfold in Hfirst.
  set (w0 := put_line L_rule (put_line (L_enforce_header zone false) w)) in Hfirst.
  destruct (EnforceStandard.get_zone_id zone w0) as [[zid|e] wa] eqn:Hzid;
    [|discriminate].
  apply es_get_zone_id_ok in Hzid. destruct Hzid as (Hzone & Hzid & Hwa).
  assert (Hqa : quiet wa) by (rewrite Hwa; now apply quiet_log_call).
  assert (Hza : zid = w_zone_id wa) by (rewrite Hwa; exact Hzid).
  destruct (EnforceStandard.get_all_records fuel zid wa) as [[all|e] wb] eqn:Hall;
    [|discriminate].
  pose proof (get_all_records_loop_read_only fuel zid 1 [] wa) as Hro.
  unfold EnforceStandard.get_all_records in Hall. rewrite Hall in Hro. simpl in Hro.
  destruct Hro as ((Hnb & Hzb & Hpb & _ & Hqb) & Hrb & _).
  rewrite Hza in Hall.
  apply get_all_records_loop_ok in Hall;
    [| exact Hqa | rewrite Hwa; exact Hps | lia | reflexivity].
  destruct (EnforceStandard.ensure_all zid zone (EnforceStandard.standards zone)
              all false 0 wb) as [[m|e] wc] eqn:Hens; [|discriminate].
  pose proof (ensure_all_additive zid zone (EnforceStandard.standards zone)
                all false 0 wb) as Hadd.
  rewrite Hens in Hadd. simpl in Hadd.
  destruct Hadd as ((Hnc & Hzc & Hpc & _ & Hqc) & _ & _).
  apply ensure_all_apply_ok in Hens. destruct Hens as (created & Hrc & Hsat & _).
  injection Hfirst as _ Hw1.
  assert (Hrecs : w_recs w1 = all ++ created).
  { rewrite <- Hw1. simpl. rewrite Hrc, Hrb, Hall. reflexivity. }
  split; [rewrite <- Hw1; apply Hqc, Hqb, Hqa|].
  split; [rewrite <- Hw1; simpl; rewrite Hnc, Hnb, Hwa; simpl; now symmetry|].
  split; [rewrite <- Hw1; simpl; rewrite Hpc, Hpb, Hwa; reflexivity|].
  intros std Hin. rewrite Hrecs.
  destruct (Hsat std Hin) as [H|[id H]].
  - apply already_exists_sound in H. destruct H as (r & Hr & Hex).
    exists r. split; [apply in_or_app; now left | exact Hex].
  - eexists. split; [apply in_or_app; right; exact H | apply exact_match_of_payload].
Qed.

Import AuditCompliance.

Lemma check_mx_passes (records : list DnsRecord) (i : nat) (w : World) :
  (exists r, In r records /\ r_type r = "MX"
             /\ r_content r = "freeforcharity-org.mail.protection.outlook.com") ->
  exists w1, check_mx records i w = (Ok i, w1) /\ read_only w w1.
Proof.
  intros (r & Hr & Hty & Hc). unfold check_mx, bind, print. cbv zeta.
  destruct (filter _ records) as [|m l] eqn:E.
  - exfalso. assert (Hin : In r []); [|destruct Hin].
    rewrite <- E. apply filter_In. split; [exact Hr|]. now rewrite Hty, Hc.
  - eexists. split; [reflexivity|].
    eapply read_only_trans; apply put_line_read_only.
Qed.

Lemma check_spf_passes (records : list DnsRecord) (i : nat) (w : World) :
  (exists r, In r records /\ r_type r = "TXT"
             /\ r_content r = "v=spf1 include:spf.protection.outlook.com -all") ->
  exists w1, check_spf records i w = (Ok i, w1) /\ read_only w w1.
Proof.
  intros (r & Hr & Hty & Hc). unfold check_spf, bind, print. cbv zeta.
  destruct (filter _ records) as [|m l] eqn:E.
  - exfalso. assert (Hin : In r []); [|destruct Hin].
    rewrite <- E. apply filter_In. split; [exact Hr|]. now rewrite Hty, Hc.
  - eexists. split; [reflexivity|].
    eapply read_only_trans; apply put_line_read_only.
Qed.

Lemma check_dmarc_passes (zone : string) (records : list DnsRecord) (i : nat)
  (w : World) :
  (exists r, In r records /\ r_type r = "TXT" /\ r_name r = ("_dmarc." ++ zone)%string) ->
  exists w1, check_dmarc zone records i w = (Ok i, w1) /\ read_only w w1.
Proof.
  intros (r & Hr & Hty & Hn). unfold check_dmarc, bind, print. cbv zeta.
  destruct (filter _ records) as [|m l] eqn:E.
  - exfalso. assert (Hin : In r []); [|destruct Hin].
    rewrite <- E. apply filter_In. split; [exact Hr|].
    rewrite Hty, Hn, prefix_refl. reflexivity.
  - eexists. split; [reflexivity|].
    eapply read_only_trans; apply put_line_read_only.
Qed.

Lemma check_www_passes (zone : string) (records : list DnsRecord) (i : nat)
  (w : World) :
  (exists r, In r records /\ r_type r = "CNAME" /\ r_name r = ("www." ++ zone)%string) ->
  exists w1, check_www zone records i w = (Ok i, w1) /\ read_only w w1.
Proof.
  intros (r & Hr & Hty & Hn). unfold check_www, bind, print. cbv zeta.
  destruct (filter _ records) as [|m l] eqn:E.
  - exfalso. assert (Hin : In r []); [|destruct Hin].
    rewrite <- E. apply filter_In. split; [exact Hr|].
    rewrite Hty, Hn, !String.eqb_refl. reflexivity.
  - eexists. split; [reflexivity|].
    eapply read_only_trans; apply put_line_read_only.
Qed.

Lemma filter_none (A : Type) (f : A -> bool) (l : list A) :
  (forall x, In x l -> f x = false) -> filter f l = [].
Proof.
  induction l as [|a l IH]; intros H; [reflexivity|]. cbn [filter].
  rewrite (H a (or_introl eq_refl)). apply IH. intros x Hx. apply H. now right.
Qed.

Lemma nodup_gh_ips : NoDup gh_ips.
Proof.
  unfold gh_ips. repeat (constructor; [cbn [In]; intuition discriminate|]). constructor.
Qed.

Lemma check_github_a_passes (zone : string) (records : list DnsRecord) (i : nat)
  (w : World) :
  (forall ip, In ip gh_ips ->
     exists r, In r records /\ r_type r = "A" /\ r_name r = zone /\ r_content r = ip) ->
  exists w1, check_github_a zone records i w = (Ok i, w1) /\ read_only w w1.
Proof.
  intros Hall. unfold check_github_a. cbv zeta.
  set (apex := filter (fun r => String.eqb (r_type r) "A" && String.eqb (r_name r) zone)
                      records).
  assert (Hips : forall ip, In ip gh_ips -> In ip (map r_content apex)).
  { intros ip Hip. destruct (Hall ip Hip) as (r & Hr & Hty & Hn & Hc).
    apply in_map_iff. exists r. split; [exact Hc|].
    apply filter_In. split; [exact Hr|]. now rewrite Hty, Hn, !String.eqb_refl. }
  assert (Hmissing : filter (fun ip => negb (existsb (String.eqb ip) (map r_content apex)))
                            gh_ips = []).
  { apply filter_none. intros ip Hip. apply negb_false_iff, in_ids, Hips, Hip. }
  assert (Hfour : Nat.leb 4 (length apex) = true).
  { apply Nat.leb_le. rewrite <- (length_map r_content apex).
    change 4 with (length gh_ips).
    apply NoDup_incl_length; [apply nodup_gh_ips | exact Hips]. }
  rewrite Hmissing, Hfour. unfold bind, print. cbn [andb].
  eexists. split; [reflexivity|].
  eapply read_only_trans; apply put_line_read_only.
Qed.

Lemma audit_get_all_records_is (fuel : nat) (zone_id : string) :
  AuditCompliance.get_all_records fuel zone_id
  = EnforceStandard.get_all_records fuel zone_id.
Proof. reflexivity. Qed.

(** X11: a zone on which [enforce_standard] was applied without error
    passes the audit: when the provider injects no failure, [audit_zone] run
    on the resulting zone finds all five checks satisfied and returns 0,
    sending only GET requests. *)
Theorem audit_passes_after_enforce (fuel1 fuel2 : nat) (zone : string) (w : World)
  (n : nat) :
  quiet w ->
  0 < w_page_size w ->
  fst (EnforceStandard.enforce_standard fuel1 zone false w) = Ok n ->
  let w' := snd (EnforceStandard.enforce_standard fuel1 zone false w) in
  pages_of (Nat.min 100 (w_page_size w)) (length (w_recs w')) <= S fuel2 ->
  let audit := audit_zone (S fuel2) zone w' in
  fst audit = Ok 0%Z /\ read_only w' (snd audit).
Proof.
  intros Hq Hps Hok w' Hfuel audit. subst audit.
  destruct (EnforceStandard.enforce_standard fuel1 zone false w) as [res w1] eqn:Hrun.
  cbn [fst snd] in *. subst res w'.
  destruct (enforce_standard_apply_ok _ _ _ _ _ Hq Hps Hrun) as (Hq1 & Hn1 & Hp1 & Hstd).
  assert (Hpresent : forall ty name content priority proxied,
             In (EnforceStandard.mkDef ty name content priority proxied)
                (EnforceStandard.standards zone) ->
             exists r, In r (w_recs w1) /\ r_type r = ty
                       /\ r_name r = EnforceStandard.rec_name_of zone
                                       (EnforceStandard.mkDef ty name content priority proxied)
                       /\ r_content r = content).
  { intros ty name content priority proxied Hin.
    destruct (Hstd _ Hin) as (r & Hr & Ht & Hname & Hc & _).
    exists r. auto. }
  unfold audit_zone.
  set (v0 := put_line rule
               (put_line (L_message ("Running Compliance Audit for Zone: " ++ zone)) w1)).
  assert (Hqv : quiet v0) by exact Hq1.
  set (va := log_call (GET_zones zone) v0).
  destruct (get_all_records_loop_complete fuel2 1 [] va (quiet_log_call _ _ Hqv))
    as (vb & Hlist & Hrvb & _ & cs & Hcs & Hmut).
  { change (w_page_size va) with (w_page_size w1). now rewrite Hp1. }
  { lia. }
  { reflexivity. }
  { change (w_page_size va) with (w_page_size w1).
    change (w_recs va) with (w_recs w1). rewrite Hp1. lia. }
  change (w_recs va) with (w_recs w1) in *.
  assert (Hz : get_zone_id zone v0 = (Ok (w_zone_id w1), va)).
  { apply (es_get_zone_id_quiet v0 zone Hqv). now symmetry. }
  assert (Hro_b : read_only w1 vb).
  { apply read_only_trans with (w2 := v0).
    { eapply read_only_trans; apply put_line_read_only. }
    apply read_only_trans with (w2 := va).
    - pose proof (get_zone_id_read_only zone v0) as H.
      change (EnforceStandard.get_zone_id zone v0) with (get_zone_id zone v0) in H.
      rewrite Hz in H. exact H.
    - pose proof (get_all_records_loop_read_only (S fuel2) (w_zone_id va) 1 [] va) as H.
      rewrite Hlist in H. exact H. }
  destruct (check_mx_passes (w_recs w1) 0 vb) as (v1 & H1 & R1).
  { destruct (Hpresent "MX" "@" "freeforcharity-org.mail.protection.outlook.com"
                (Some 0%Z) None) as (r & Hr & Ht & _ & Hc); [simpl; auto|].
    exists r. auto. }
  destruct (check_spf_passes (w_recs w1) 0 v1) as (v2 & H2 & R2).
  { destruct (Hpresent "TXT" "@" "v=spf1 include:spf.protection.outlook.com -all"
                None None) as (r & Hr & Ht & _ & Hc); [simpl; auto|].
    exists r. auto. }
  destruct (check_dmarc_passes zone (w_recs w1) 0 v2) as (v3 & H3 & R3).
  { destruct (Hpresent "TXT" "_dmarc"
                "v=DMARC1; p=none; rua=mailto:dmarc-rua@freeforcharity.org" None None)
      as (r & Hr & Ht & Hname & _); [simpl; auto|].
    exists r. auto. }
  destruct (check_github_a_passes zone (w_recs w1) 0 v3) as (v4 & H4 & R4).
  { intros ip Hip. unfold gh_ips in Hip. cbn [In] in Hip.
    destruct Hip as [<-|[<-|[<-|[<-|[]]]]].
    - destruct (Hpresent "A" "@" "185.199.108.153" None (Some false))
        as (r & Hr & Ht & Hname & Hc); [simpl; auto 10|]. exists r. auto.
    - destruct (Hpresent "A" "@" "185.199.109.153" None (Some false))
        as (r & Hr & Ht & Hname & Hc); [simpl; auto 10|]. exists r. auto.
    - destruct (Hpresent "A" "@" "185.199.110.153" None (Some false))
        as (r & Hr & Ht & Hname & Hc); [simpl; auto 10|]. exists r. auto.
    - destruct (Hpresent "A" "@" "185.199.111.153" None (Some false))
        as (r & Hr & Ht & Hname & Hc); [simpl; auto 10|]. exists r. auto. }
  destruct (check_www_passes zone (w_recs w1) 0 v4) as (v5 & H5 & R5).
  { destruct (Hpresent "CNAME" "www" zone None (Some false))
      as (r & Hr & Ht & Hname & _); [simpl; auto 10|].
    exists r. auto. }
  assert (Hall : audit_zone (S fuel2) zone w1
                 = (Ok 0%Z, put_line (L_message "All compliance checks passed!")
                              (put_line rule v5))).
  { unfold audit_zone. unfold bind at 1. unfold print at 1. cbn iota.
    unfold bind at 1. unfold print at 1. cbn iota. fold v0.
    rewrite (bind_ok _ Hz).
    rewrite audit_get_all_records_is. unfold EnforceStandard.get_all_records.
    change (w_zone_id w1) with (w_zone_id va).
    rewrite (bind_ok _ Hlist).
    rewrite (bind_ok _ H1), (bind_ok _ H2), (bind_ok _ H3), (bind_ok _ H4), (bind_ok _ H5).
    reflexivity. }
  unfold audit_zone in Hall. rewrite Hall. cbn [fst snd]. split; [reflexivity|].
  eapply read_only_trans; [exact Hro_b|].
  eapply read_only_trans; [exact R1|].
  eapply read_only_trans; [exact R2|].
  eapply read_only_trans; [exact R3|].
  eapply read_only_trans; [exact R4|].
  eapply read_only_trans; [exact R5|].
  eapply read_only_trans; apply put_line_read_only.
Qed.

End EnforceThenAudit.

Lemma audit_passes_after_enforce_witness :
  let w' := snd (EnforceStandard.enforce_standard 2 "example.org" false
                   www_elsewhere_zone) in
  length (w_recs w') = 9
  /\ fst (AuditCompliance.audit_zone 2 "example.org" w') = Ok 0%Z.
Proof.
  intros w'. split; [vm_compute; reflexivity|].
  apply (audit_passes_after_enforce 2 1 "example.org" www_elsewhere_zone 8).
  - constructor.
  - simpl. lia.
  - vm_compute. reflexivity.
  - vm_compute. lia.
Defined.

(* ------------------------------------------------------------------ *)
(** ** export_zone_dns_summary.py: the zones to export *)

Lemma in_first_appearances (l : list string) (z : string) :
  In z (first_appearances l) <-> In z l.
Proof.
  induction l as [|a l IH]; [reflexivity|]. cbn [first_appearances In].
  rewrite filter_In, IH, negb_true_iff.
  destruct (String.eqb_spec z a) as [->|Hne]; intuition congruence.
Qed.

Lemma nodup_first_appearances (l : list string) : NoDup (first_appearances l).
Proof.
  induction l as [|a l IH]; cbn [first_appearances]; constructor.
  - rewrite filter_In, String.eqb_refl. intros [_ H]. discriminate.
  - now apply NoDup_filter.
Qed.

Lemma filter_filter (A : Type) (f g : A -> bool) (l : list A) :
  filter f (filter g l) = filter (fun x => g x && f x) l.
Proof.
  induction l as [|a l IH]; [reflexivity|]. cbn [filter].
  destruct (g a); cbn [filter andb]; rewrite IH; reflexivity.
Qed.

Section LoadZonesFacts.

Import ExportZoneDnsSummary.

Lemma deduplicate_spec (zones : list string) :
  forall seen unique,
    deduplicate zones seen unique
    = unique ++ filter (fun y => negb (existsb (String.eqb y) seen))
                       (first_appearances zones).
Proof.
  induction zones as [|z rest IH]; intros seen unique.
  - cbn [deduplicate first_appearances filter]. now rewrite app_nil_r.
  - cbn [deduplicate first_appearances filter].
    destruct (existsb (String.eqb z) seen) eqn:Hseen; cbn [negb].
    + rewrite IH. f_equal. rewrite filter_filter. apply filter_ext. intros y.
      destruct (String.eqb_spec y z) as [->|Hne]; cbn [negb andb]; [|reflexivity].
      now rewrite Hseen.
    + rewrite IH, <- app_assoc. cbn [app]. do 2 f_equal.
      rewrite filter_filter. apply filter_ext. intros y. cbn [existsb].
      rewrite negb_orb. reflexivity.
Qed.

Variable strip : string -> string.

(** X12: [load_zones] returns every zone name given by [--zones] and in the
    zones file exactly once, in order of first appearance, stripped and
    never empty; with no name at all it ends the run with [SystemExit], and
    with [--all-zones] it returns the empty list without reading
    either. *)
Theorem load_zones_gives_each_zone_once (all_zones : bool) (zones_arg : option string)
  (zones_file : option (list string)) :
  let given :=
    (if truthy zones_arg
     then stripped strip (split ","%char (match zones_arg with Some s => s | None => "" end))
     else [])
    ++ match zones_file with Some lines => stripped strip lines | None => [] end in
  match load_zones strip all_zones zones_arg zones_file with
  | Ok zones =>
      if all_zones then zones = []
      else zones = first_appearances given
           /\ NoDup zones
           /\ (forall z, In z zones <-> In z given)
           /\ zones <> [] /\ ~ In "" zones
  | Raise e => all_zones = false /\ given = [] /\ e = SystemExit 1
  end.
Proof.
  intros given. unfold load_zones. fold given.
  destruct all_zones; [reflexivity|].
  destruct given as [|z rest] eqn:Hgiven; [auto|].
  rewrite deduplicate_spec. cbn [app].
  rewrite (filter_ext _ (fun _ => true)) by reflexivity.
  assert (Hall : forall l : list string, filter (fun _ => true) l = l).
  { induction l as [|a l IH]; [reflexivity|]. cbn [filter]. now rewrite IH. }
  rewrite Hall. split; [reflexivity|]. split; [apply nodup_first_appearances|].
  split; [intros y; apply in_first_appearances|]. split; [discriminate|].
  rewrite in_first_appearances, <- Hgiven. subst given. rewrite in_app_iff.
  assert (Hs : forall pieces, ~ In "" (stripped strip pieces)).
  { intros pieces H. unfold stripped in H. apply filter_In in H.
    destruct H as [_ H]. discriminate. }
  intros [H|H].
  - destruct (truthy zones_arg); [now apply Hs in H | destruct H].
  - destruct zones_file; [now apply Hs in H | destruct H].
Qed.

End LoadZonesFacts.

(* ------------------------------------------------------------------ *)
(** ** export_zone_dns_summary.py only reads *)

Section ExportOnlyReads.

Import ExportZoneDnsSummary.

Lemma export_api_get_read_only (rq : Request) :
  is_mutating rq = false -> keeps read_only (api_get rq).
Proof.
  intros H. unfold api_get.
  apply (keeps_bind read_only read_only_trans);
    [now apply keeps_request_read | intros rp].
  destruct rp as [|r]; keeps_read_only.
Qed.

Lemma dns_records_read_only (zone_id : string) (params : Params) :
  keeps read_only (dns_records zone_id params).
Proof.
  unfold dns_records.
  apply (keeps_bind read_only read_only_trans);
    [now apply export_api_get_read_only | intros data; keeps_read_only].
Qed.

Lemma collect_zone_summary_read_only (zone_name : string)
  (zone_id_override : option string) :
  keeps read_only (collect_zone_summary zone_name zone_id_override).
Proof.
  unfold collect_zone_summary.
  apply (keeps_bind read_only read_only_trans).
  { destruct (truthy zone_id_override); [keeps_read_only|].
    unfold get_zone_id_by_name.
    apply (keeps_bind read_only read_only_trans);
      [now apply export_api_get_read_only | intros data].
    destruct (res_zones data); keeps_read_only. }
  intros [zid|]; [|keeps_read_only].
  destruct (String.eqb zid ""); [keeps_read_only|].
  repeat (apply (keeps_bind read_only read_only_trans);
          [apply dns_records_read_only | intros ?]).
  keeps_read_only.
Qed.

Lemma main_rows_read_only (zones : list string) (zone_id_map : list (string * string)) :
  forall rows, keeps read_only (main_rows zones zone_id_map rows).
Proof.
  induction zones as [|zone_name rest IH]; intros rows w; cbn [main_rows].
  - apply read_only_refl.
  - pose proof (collect_zone_summary_read_only zone_name (get zone_id_map zone_name) w)
      as Hc.
    destruct (collect_zone_summary zone_name (get zone_id_map zone_name) w)
      as [[row|e] w1]; cbn [snd] in Hc.
    + eapply read_only_trans; [exact Hc | apply IH].
    + destruct e; cbn [snd]; try exact Hc;
        (eapply read_only_trans; [exact Hc | apply IH]).
Qed.

Lemma list_all_zones_loop_read_only (fuel : nat) :
  forall page zones, keeps read_only (list_all_zones_loop fuel page zones).
Proof.
  induction fuel as [|fuel IH]; intros page zones; cbn [list_all_zones_loop];
    [keeps_read_only|].
  apply (keeps_bind read_only read_only_trans);
    [now apply export_api_get_read_only | intros data].
  destruct (Nat.leb (total_pages_or_1 data) page); [keeps_read_only | apply IH].
Qed.

(** X13: the export only reads: whatever zones and identifiers it is given,
    with or without [--all-zones], and whatever the provider answers, [main]
    sends only GET requests and leaves every zone as it was. *)
Theorem export_only_reads (fuel : nat) (all_zones : bool) (zones : list string)
  (zone_id_map : list (string * string)) (w : World) :
  read_only w (snd (main fuel all_zones zones zone_id_map w)).
Proof.
  revert w. change (keeps read_only (main fuel all_zones zones zone_id_map)).
  unfold main.
  apply (keeps_bind read_only read_only_trans).
  { destruct all_zones; [|keeps_read_only].
    apply (keeps_bind read_only read_only_trans);
      [apply list_all_zones_loop_read_only | intros allzones; keeps_read_only]. }
  intros zz.
  apply (keeps_bind read_only read_only_trans);
    [apply main_rows_read_only | intros rows; keeps_read_only].
Qed.

Lemma only_listings_refl (zid : string) (w : World) : only_listings zid w w.
Proof. exists []. cbn [map]. now rewrite app_nil_r. Qed.

Lemma only_listings_trans (zid : string) (w1 w2 w3 : World) :
  only_listings zid w1 w2 -> only_listings zid w2 w3 -> only_listings zid w1 w3.
Proof.
  intros (qs & H) (qs' & H'). exists (qs ++ qs').
  now rewrite H', H, map_app, app_assoc.
Qed.

Lemma dns_records_only_listings (zid : string) (q : Params) :
  keeps (only_listings zid) (dns_records zid q).
Proof.
  intros w. exists [q]. unfold dns_records, api_get, bind. rewrite request_world.
  destruct (serve_calls (GET_dns_records zid q) w) as [Hc _].
  destruct (fst (serve (GET_dns_records zid q) w)) as [|r]; cbn [snd]; [exact Hc|].
  destruct (negb (ok r)); [exact Hc|]. destruct (negb (success r)); exact Hc.
Qed.

(** X14: an identifier given for a zone is used as it is: with a non-empty
    override [collect_zone_summary] never looks the zone up by name, and
    every request it sends is a listing of the records of that
    identifier. *)
Theorem collect_zone_summary_trusts_the_override (zone_name zid : string) (w : World) :
  truthy (Some zid) = true ->
  only_listings zid w (snd (collect_zone_summary zone_name (Some zid) w)).
Proof.
  intros Ht. unfold collect_zone_summary. rewrite Ht.
  unfold bind at 1. unfold ret at 1. cbn iota beta.
  unfold truthy in Ht. apply negb_true_iff in Ht. rewrite Ht.
  revert w.
  match goal with
  | |- forall w, only_listings zid w (snd (?m w)) =>
      change (keeps (only_listings zid) m)
  end.
  repeat (apply (keeps_bind (only_listings zid) (only_listings_trans zid));
          [apply dns_records_only_listings | intros ?]).
  apply (keeps_ret (only_listings zid) (only_listings_refl zid)).
Qed.

End ExportOnlyReads.

Lemma collect_zone_summary_trusts_the_override_witness :
  only_listings "stale" one_a_record
    (snd (ExportZoneDnsSummary.collect_zone_summary "gone.example" (Some "stale")
            one_a_record)).
Proof.
  apply (collect_zone_summary_trusts_the_override "gone.example" "stale" one_a_record).
  reflexivity.
Defined.

(* ------------------------------------------------------------------ *)
(** ** update_pages_dns.py: what an apply run leaves at the apex *)

Lemma without_ids_of_selected (P : DnsRecord -> bool) (rs sel : list DnsRecord) :
  NoDup (map r_id rs) ->
  (forall r, In r sel <-> In r rs /\ P r = true) ->
  without_ids (map r_id sel) rs = filter (fun r => negb (P r)) rs.
Proof.
  intros Hnd Hsel. unfold without_ids. apply filter_ext_in. intros r Hr. f_equal.
  destruct (P r) eqn:HP.
  - apply in_ids. apply in_map. apply Hsel. auto.
  - destruct (existsb (String.eqb (r_id r)) (map r_id sel)) eqn:E; [|reflexivity].
    apply in_ids, in_map_iff in E. destruct E as (r' & Hid & Hr').
    apply Hsel in Hr'. destruct Hr' as [Hr' HP'].
    assert (r = r') by (apply (same_id_same_record rs); auto).
    congruence.
Qed.

Lemma nodup_ids_filter (f : DnsRecord -> bool) (rs : list DnsRecord) :
  NoDup (map r_id rs) -> NoDup (map r_id (filter f rs)).
Proof.
  induction rs as [|r rs IH]; intros H; [constructor|].
  cbn [map] in H. inversion H as [|x l Hnot Hnd]; subst.
  cbn [filter]. destruct (f r); [|now apply IH].
  cbn [map]. constructor; [|now apply IH].
  intros Hin. apply Hnot. apply in_map_iff in Hin. destruct Hin as (r' & E & Hr').
  apply in_map_iff. exists r'. split; [exact E|]. now apply filter_In in Hr'.
Qed.

Lemma records_at_filter (ty name : string) (f : DnsRecord -> bool) (rs : list DnsRecord) :
  records_at ty name (filter f rs) = filter f (records_at ty name rs).
Proof.
  unfold records_at. rewrite !filter_filter. apply filter_ext. intros r.
  apply andb_comm.
Qed.

Lemma records_at_apex_address (ty domain : string) (rs : list DnsRecord) :
  ty = "A" \/ ty = "AAAA" \/ ty = "CNAME" ->
  records_at ty domain (filter (fun r => negb (apex_address domain r)) rs) = [].
Proof.
  intros Hty. rewrite records_at_filter. apply filter_none. intros r Hr.
  apply in_records_at in Hr. destruct Hr as (_ & Ht & Hn).
  unfold apex_address. rewrite Ht, Hn, String.eqb_refl.
  destruct Hty as [->|[->| ->]]; reflexivity.
Qed.

Section ApexAfter.

Import UpdatePagesDns.

Lemma delete_records_same_config (zone_id : string) (ids : list string) :
  keeps same_config (delete_records zone_id ids).
Proof.
  induction ids as [|id rest IH]; cbn [delete_records]; [keeps_same_config|].
  apply (keeps_bind same_config same_config_trans);
    [apply keeps_request_same_config | intros rp].
  destruct rp as [|r]; [keeps_same_config|].
  destruct (negb (ok r) || negb (success r)); [keeps_same_config | exact IH].
Qed.

Lemma delete_or_report_apply_ok (zone_id what : string) (ids : list string)
  (w w' : World) (u : unit) :
  delete_or_report false zone_id what ids w = (Ok u, w') ->
  w_recs w' = without_ids ids (w_recs w) /\ w_page_size w' = w_page_size w.
Proof.
  unfold delete_or_report. destruct ids as [|id ids].
  - intros H. injection H as _ <-. now rewrite without_ids_nil.
  - intros H. apply bind_ok_inv in H. destruct H as ([] & w1 & Hdel & Hpr).
    injection Hpr as _ <-. cbn [w_recs w_page_size put_line].
    destruct (delete_records_run zone_id (id :: ids) w) as (done & rest & Hids & Hrecs & Hres).
    pose proof (delete_records_same_config zone_id (id :: ids) w) as (_ & _ & Hps & _).
    rewrite Hdel in Hrecs, Hres, Hps. cbn [fst snd] in *.
    destruct Hres as [-> _]. rewrite app_nil_r in Hids. subst done. auto.
Qed.

Lemma create_record_ok (zone_id domain ty ip : string) (comment : option string)
  (w w' : World) (msg : Line) :
  (if String.eqb ty "A" then create_a_record zone_id domain ip 300 false comment
   else create_aaaa_record zone_id domain ip 300 false comment) w = (Ok msg, w') ->
  w_page_size w' = w_page_size w
  /\ exists id,
       w_recs w' = w_recs w
                   ++ [mkRecord id (if String.eqb ty "A" then "A" else "AAAA") domain ip
                         300 None (Some false) comment].
Proof.
  unfold create_a_record, create_aaaa_record.
  destruct (String.eqb ty "A"); intros H;
    apply bind_ok_inv in H; destruct H as (created & w1 & Hpost & Hret);
    injection Hret as _ <-; apply pages_api_post_ok in Hpost;
    destruct Hpost as [Hrecs (_ & _ & Hps & _)];
    (split; [exact Hps | eexists; exact Hrecs]).
Qed.

Lemma create_each_apply_ok (zone_id domain ty : string) (comment : option string)
  (ips : list string) :
  forall (w w' : World) (u : unit),
    create_each false zone_id domain ty comment ips w = (Ok u, w') ->
    w_page_size w' = w_page_size w
    /\ exists created,
         w_recs w' = w_recs w ++ created
         /\ map (fun r => (r_type r, r_content r)) created
            = map (pair (if String.eqb ty "A" then "A" else "AAAA")) ips
         /\ Forall (fun r => r_name r = domain /\ r_ttl r = 300%Z
                             /\ r_proxied r = Some false /\ r_comment r = comment)
                   created.
Proof.
  induction ips as [|ip rest IH]; intros w w' u H.
  - cbn [create_each] in H. injection H as _ <-. split; [reflexivity|].
    exists []. rewrite app_nil_r. repeat split. constructor.
  - cbn [create_each] in H. apply bind_ok_inv in H.
    destruct H as ([] & w1 & Hone & Hrest).
    apply bind_ok_inv in Hone. destruct Hone as (msg & w0 & Hcr & Hpr).
    injection Hpr as <-. apply create_record_ok in Hcr. destruct Hcr as (Hps & id & Hrecs).
    apply IH in Hrest. destruct Hrest as (Hps' & created & Hrecs' & Hmap & Hall).
    cbn [w_recs w_page_size put_line] in *. split; [congruence|].
    eexists (_ :: created). split; [rewrite Hrecs', Hrecs, <- app_assoc; reflexivity|].
    split; [cbn [map r_type r_content]; now rewrite Hmap|].
    constructor; [cbn; auto | exact Hall].
Qed.

Lemma listing_ok (zone_id domain ty : string) (w w' : World) (l : list DnsRecord) :
  length (records_at ty domain (w_recs w)) <= w_page_size w ->
  get_dns_records zone_id (Some domain) (Some ty) w = (Ok l, w') ->
  l = records_at ty domain (w_recs w)
  /\ w_recs w' = w_recs w /\ w_page_size w' = w_page_size w.
Proof.
  intros Hfit H. apply pages_get_dns_records_ok in H. destruct H as (_ & Hl & ->).
  fold (records_at ty domain (w_recs w)) in Hl. rewrite firstn_all2 in Hl by exact Hfit.
  auto.
Qed.

Lemma apex_selected (domain : string) (rs : list DnsRecord) (r : DnsRecord) :
  In r (records_at "CNAME" domain rs ++ records_at "A" domain rs
        ++ records_at "AAAA" domain rs)
  <-> In r rs /\ apex_address domain r = true.
Proof.
  rewrite !in_app_iff, !in_records_at. unfold apex_address.
  rewrite andb_true_iff, !orb_true_iff, !String.eqb_eq. tauto.
Qed.

(** X15: what [--set-apex-a] leaves behind.  On a zone whose records have
    distinct identifiers and whose apex records fit in the page a lookup
    reads, an apply run that ends without error has removed every A, AAAA
    and CNAME record of the apex, kept every other record as it was and in
    order, and added one A record at the apex with the requested address,
    TTL 300 and proxying off. *)
Theorem set_apex_a_replaces_the_apex (args : Args) (zone_id : string) (w : World) :
  truthy (a_set_apex_a args) = true ->
  a_dry_run args = false ->
  NoDup (map r_id (w_recs w)) ->
  (forall ty, length (records_at ty (a_domain args) (w_recs w)) <= w_page_size w) ->
  fst (main_set_apex_a args zone_id w) = Ok tt ->
  exists id,
    w_recs (snd (main_set_apex_a args zone_id w))
    = filter (fun r => negb (apex_address (a_domain args) r)) (w_recs w)
      ++ [mkRecord id "A" (a_domain args) (text (a_set_apex_a args)) 300 None
            (Some false) None].
Proof.
  intros Hflag Hdry Hnd Hfit Hok.
  destruct (main_set_apex_a args zone_id w) as [res w'] eqn:Hrun.
  cbn [fst snd] in *. subst res.
  unfold main_set_apex_a in Hrun. rewrite Hflag, Hdry in Hrun. cbv iota in Hrun.
  apply bind_ok_inv in Hrun. destruct Hrun as (cn & w1 & Hcn & Hrun).
  apply listing_ok in Hcn; [|apply Hfit]. destruct Hcn as (Hcn & Hr1 & Hp1).
  apply bind_ok_inv in Hrun. destruct Hrun as (a & w2 & Ha & Hrun).
  apply listing_ok in Ha; [|rewrite Hr1, Hp1; apply Hfit]. destruct Ha as (Ha & Hr2 & Hp2).
  apply bind_ok_inv in Hrun. destruct Hrun as (aaaa & w3 & Haaaa & Hrun).
  apply listing_ok in Haaaa; [|rewrite Hr2, Hp2, Hr1, Hp1; apply Hfit].
  destruct Haaaa as (Haaaa & Hr3 & Hp3).
  apply bind_ok_inv in Hrun. destruct Hrun as ([] & w4 & Hdel & Hrun).
  apply delete_or_report_apply_ok in Hdel. destruct Hdel as [Hr4 Hp4].
  apply bind_ok_inv in Hrun. destruct Hrun as (msg & w5 & Hcr & Hpr).
  injection Hpr as <-.
  apply (create_record_ok zone_id (a_domain args) "A") in Hcr.
  destruct Hcr as (_ & id & Hr5).
  exists id. cbn [w_recs put_line]. rewrite Hr5, Hr4. f_equal.
  unfold ids_of. rewrite <- !map_app.
  rewrite Hr3, Hr2, Hr1. subst cn a aaaa. rewrite Hr2, Hr1.
  apply without_ids_of_selected; [exact Hnd|].
  apply apex_selected.
Qed.

(** X16: what [--set-github-a] and [--set-github-aaaa] leave behind.  On a
    zone whose records have distinct identifiers and whose apex records fit
    in the page a lookup reads, an apply run that ends without error has
    removed every A, AAAA and CNAME record of the apex (also the AAAA
    records when only [--set-github-a] is given, and conversely), kept
    every other record as it was and in order, and added at the apex the
    four GitHub A records, the four GitHub AAAA records or both, as
    requested, in the order of the lists, with TTL 300 and proxying off. *)
Theorem github_records_replace_the_apex (args : Args) (zone_id : string) (w : World) :
  a_set_github_a args || a_set_github_aaaa args = true ->
  a_dry_run args = false ->
  NoDup (map r_id (w_recs w)) ->
  (forall ty, length (records_at ty (a_domain args) (w_recs w)) <= w_page_size w) ->
  fst (main_github args zone_id w) = Ok tt ->
  exists created,
    w_recs (snd (main_github args zone_id w))
    = filter (fun r => negb (apex_address (a_domain args) r)) (w_recs w) ++ created
    /\ map (fun r => (r_type r, r_content r)) created
       = (if a_set_github_a args then map (pair "A") github_ips else [])
         ++ (if a_set_github_aaaa args then map (pair "AAAA") github_ipv6 else [])
    /\ Forall (fun r => r_name r = a_domain args /\ r_ttl r = 300%Z
                        /\ r_proxied r = Some false) created.
Proof.
  intros Hflag Hdry Hnd Hfit Hok.
  destruct (main_github args zone_id w) as [res w'] eqn:Hrun.
  cbn [fst snd] in *. subst res.
  unfold main_github in Hrun. rewrite Hflag, Hdry in Hrun. cbv iota in Hrun.
  set (d := a_domain args) in *.
  apply bind_ok_inv in Hrun. destruct Hrun as (cn & w1 & Hcn & Hrun).
  apply listing_ok in Hcn; [|apply Hfit]. destruct Hcn as (Hcn & Hr1 & Hp1).
  apply bind_ok_inv in Hrun. destruct Hrun as ([] & w2 & Hdel1 & Hrun).
  apply delete_or_report_apply_ok in Hdel1. destruct Hdel1 as [Hr2 Hp2].
  set (P1 := fun r => String.eqb (r_name r) d && String.eqb (r_type r) "CNAME").
  assert (Hrecs2 : w_recs w2 = filter (fun r => negb (P1 r)) (w_recs w)).
  { rewrite Hr2, Hr1, Hcn. apply without_ids_of_selected; [exact Hnd|].
    intros r. rewrite in_records_at. unfold P1.
    rewrite andb_true_iff, !String.eqb_eq. tauto. }
  assert (Hfit2 : forall ty, length (records_at ty d (w_recs w2)) <= w_page_size w2).
  { intros ty. rewrite Hrecs2, records_at_filter, Hp2, Hp1.
    eapply Nat.le_trans; [apply filter_length_le | apply Hfit]. }
  apply bind_ok_inv in Hrun. destruct Hrun as (a & w3 & Ha & Hrun).
  apply listing_ok in Ha; [|apply Hfit2]. destruct Ha as (Ha & Hr3 & Hp3).
  apply bind_ok_inv in Hrun. destruct Hrun as (aaaa & w4 & Haaaa & Hrun).
  apply listing_ok in Haaaa; [|rewrite Hr3, Hp3; apply Hfit2].
  destruct Haaaa as (Haaaa & Hr4 & Hp4).
  apply bind_ok_inv in Hrun. destruct Hrun as ([] & w5 & Hdel2 & Hrun).
  apply delete_or_report_apply_ok in Hdel2. destruct Hdel2 as [Hr5 Hp5].
  set (P2 := fun r => String.eqb (r_name r) d
                      && (String.eqb (r_type r) "A" || String.eqb (r_type r) "AAAA")).
  assert (Hrecs5 : w_recs w5
                   = filter (fun r => negb (apex_address d r)) (w_recs w)).
  { rewrite Hr5, Hr4, Hr3. unfold ids_of.
    rewrite (without_ids_of_selected P2).
    - rewrite Hrecs2, filter_filter. apply filter_ext. intros r.
      unfold P1, P2, apex_address.
      destruct (String.eqb (r_name r) d), (String.eqb (r_type r) "A"),
        (String.eqb (r_type r) "AAAA"), (String.eqb (r_type r) "CNAME"); reflexivity.
    - rewrite Hrecs2. now apply nodup_ids_filter.
    - intros r. rewrite Ha, Haaaa, Hr3, in_app_iff, !in_records_at. unfold P2.
      rewrite andb_true_iff, orb_true_iff, !String.eqb_eq. tauto. }
  apply bind_ok_inv in Hrun. destruct Hrun as ([] & w6 & HA & HAAAA).
  assert (H6 : exists created,
             w_recs w6 = w_recs w5 ++ created
             /\ map (fun r => (r_type r, r_content r)) created
                = (if a_set_github_a args then map (pair "A") github_ips else [])
             /\ Forall (fun r => r_name r = d /\ r_ttl r = 300%Z
                                 /\ r_proxied r = Some false) created).
  { destruct (a_set_github_a args).
    - apply create_each_apply_ok in HA.
      destruct HA as (_ & created & Hrecs & Hmap & Hall).
      exists created. split; [exact Hrecs|]. split; [exact Hmap|].
      eapply Forall_impl; [|exact Hall]. cbn beta. tauto.
    - injection HA as <-. exists []. rewrite app_nil_r. repeat split. constructor. }
  destruct H6 as (c1 & Hrecs6 & Hmap1 & Hall1).
  assert (H7 : exists created,
             w_recs w' = w_recs w6 ++ created
             /\ map (fun r => (r_type r, r_content r)) created
                = (if a_set_github_aaaa args then map (pair "AAAA") github_ipv6 else [])
             /\ Forall (fun r => r_name r = d /\ r_ttl r = 300%Z
                                 /\ r_proxied r = Some false) created).
  { destruct (a_set_github_aaaa args).
    - apply create_each_apply_ok in HAAAA.
      destruct HAAAA as (_ & created & Hrecs & Hmap & Hall).
      exists created. split; [exact Hrecs|]. split; [exact Hmap|].
      eapply Forall_impl; [|exact Hall]. cbn beta. tauto.
    - injection HAAAA as <-. exists []. rewrite app_nil_r. repeat split. constructor. }
  destruct H7 as (c2 & Hrecs7 & Hmap2 & Hall2).
  exists (c1 ++ c2). split; [|split].
  - rewrite Hrecs7, Hrecs6, Hrecs5, <- app_assoc. reflexivity.
  - rewrite map_app, Hmap1, Hmap2. reflexivity.
  - apply Forall_app. auto.
Qed.

End ApexAfter.

Lemma set_apex_a_replaces_the_apex_witness :
  w_recs (snd (UpdatePagesDns.main_set_apex_a set_apex_a "z1" apex_cname_zone))
  = [mkRecord "rec1" "A" "example.org" "192.0.2.10" 300 None (Some false) None]
  /\ exists id,
       w_recs (snd (UpdatePagesDns.main_set_apex_a set_apex_a "z1" apex_cname_zone))
       = filter (fun r => negb (apex_address "example.org" r)) (w_recs apex_cname_zone)
         ++ [mkRecord id "A" "example.org" "192.0.2.10" 300 None (Some false) None].
Proof.
  split; [vm_compute; reflexivity|].
  apply (set_apex_a_replaces_the_apex set_apex_a "z1" apex_cname_zone).
  - reflexivity.
  - reflexivity.
  - simpl. repeat constructor. intros [].
  - intros ty. unfold records_at, apex_cname_zone, old_apex_cname.
    cbn [w_recs w_page_size filter].
    destruct (matches_params _ _); cbn [length]; lia.
  - vm_compute. reflexivity.
Defined.

Lemma github_records_replace_the_apex_witness :
  map (fun r => (r_type r, r_content r))
      (w_recs (snd (UpdatePagesDns.main_github set_github_a "z1" apex_cname_zone)))
  = map (pair "A") UpdatePagesDns.github_ips
  /\ exists created,
       w_recs (snd (UpdatePagesDns.main_github set_github_a "z1" apex_cname_zone))
       = filter (fun r => negb (apex_address "example.org" r)) (w_recs apex_cname_zone)
         ++ created.
Proof.
  split; [vm_compute; reflexivity|].
  destruct (github_records_replace_the_apex set_github_a "z1" apex_cname_zone)
    as (created & Hrecs & _).
  - reflexivity.
  - reflexivity.
  - simpl. repeat constructor. intros [].
  - intros ty. unfold records_at, apex_cname_zone, old_apex_cname.
    cbn [w_recs w_page_size filter].
    destruct (matches_params _ _); cbn [length]; lia.
  - vm_compute. reflexivity.
  - exists created. exact Hrecs.
Defined.

(* ------------------------------------------------------------------ *)
(** ** What a run never sends *)

Section Sends.

Variable P : Request -> Prop.

Lemma sends_refl (w : World) : sends P w w.
Proof. exists []. rewrite app_nil_r. split; [reflexivity | constructor]. Qed.

Lemma sends_trans (w1 w2 w3 : World) : sends P w1 w2 -> sends P w2 w3 -> sends P w1 w3.
Proof.
  intros (cs & H & Hall) (cs' & H' & Hall'). exists (cs ++ cs').
  split; [now rewrite H', H, app_assoc | now apply Forall_app].
Qed.

Lemma keeps_sends_request (rq : Request) : P rq -> keeps (sends P) (request rq).
Proof.
  intros H w. exists [rq]. split; [apply request_calls | now constructor].
Qed.

Lemma keeps_sends_print (l : Line) : keeps (sends P) (print l).
Proof. intros w. exists []. cbn. rewrite app_nil_r. split; [reflexivity | constructor]. Qed.

End Sends.

Ltac sends_steps side :=
  repeat first
    [ apply keeps_ret; apply sends_refl
    | apply keeps_raise; apply sends_refl
    | apply keeps_sends_print
    | apply keeps_sends_request; solve [side]
    | apply keeps_bind; [apply sends_trans | | intros ?]
    | match goal with
      | |- keeps _ (match ?x with _ => _ end) => destruct x
      end ].

Lemma length_append (s1 s2 : string) :
  String.length (s1 ++ s2) = String.length s1 + String.length s2.
Proof. induction s1 as [|c s1 IH]; simpl; congruence. Qed.

Lemma www_is_not_the_apex (domain : string) : UpdatePagesDns.www domain <> domain.
Proof.
  unfold UpdatePagesDns.www. intros H. apply (f_equal String.length) in H.
  rewrite length_append in H. simpl in H. lia.
Qed.

Section NoApexCname.

Import UpdatePagesDns.

Variable domain : string.

Ltac harmless :=
  first [ exact I
        | cbn; intros [H _]; discriminate H
        | cbn; intros [_ H]; exact (www_is_not_the_apex domain H) ].

Lemma pages_api_get_harmless (rq : Request) :
  is_mutating rq = false -> keeps (sends (no_cname_at domain)) (api_get rq).
Proof.
  intros H. unfold api_get.
  apply keeps_bind; [apply sends_trans | | intros rp].
  - apply keeps_sends_request. destruct rq; try discriminate; exact I.
  - sends_steps harmless.
Qed.

Lemma pages_get_dns_records_harmless (zone_id : string) (name ty : option string) :
  keeps (sends (no_cname_at domain)) (get_dns_records zone_id name ty).
Proof.
  unfold get_dns_records.
  apply keeps_bind; [apply sends_trans | now apply pages_api_get_harmless | intros data].
  sends_steps harmless.
Qed.

Lemma delete_records_harmless (zone_id : string) (ids : list string) :
  keeps (sends (no_cname_at domain)) (delete_records zone_id ids).
Proof.
  induction ids as [|id rest IH]; cbn [delete_records]; [sends_steps harmless|].
  apply keeps_bind; [apply sends_trans | apply keeps_sends_request; exact I | intros rp].
  destruct rp as [|r]; [sends_steps harmless|].
  destruct (negb (ok r) || negb (success r)); [sends_steps harmless | exact IH].
Qed.

Lemma delete_or_report_harmless (dry_run : bool) (zone_id what : string)
  (ids : list string) :
  keeps (sends (no_cname_at domain)) (delete_or_report dry_run zone_id what ids).
Proof.
  unfold delete_or_report. destruct ids as [|id rest]; [sends_steps harmless|].
  destruct dry_run; [sends_steps harmless|].
  apply keeps_bind; [apply sends_trans | apply delete_records_harmless | intros _].
  sends_steps harmless.
Qed.

Lemma upsert_www_harmless (zone_id target : string) (proxied : bool) (ttl : Z)
  (dry_run : bool) :
  keeps (sends (no_cname_at domain))
    (upsert_cname zone_id (www domain) target proxied ttl dry_run).
Proof.
  unfold upsert_cname.
  apply keeps_bind; [apply sends_trans | apply pages_get_dns_records_harmless | intros l].
  unfold api_put, api_post, check. sends_steps harmless.
Qed.

Lemma create_each_harmless (dry_run : bool) (zone_id ty : string)
  (comment : option string) (ips : list string) :
  keeps (sends (no_cname_at domain)) (create_each dry_run zone_id domain ty comment ips).
Proof.
  induction ips as [|ip rest IH]; cbn [create_each]; [sends_steps harmless|].
  apply keeps_bind; [apply sends_trans | | intros _; exact IH].
  unfold create_a_record, create_aaaa_record, api_post, check.
  sends_steps harmless.
Qed.

Lemma list_zones_loop_harmless (fuel : nat) :
  forall page, keeps (sends (no_cname_at domain)) (list_zones_loop fuel page).
Proof.
  induction fuel as [|fuel IH]; intros page; cbn [list_zones_loop];
    [sends_steps harmless|].
  apply keeps_bind; [apply sends_trans | now apply pages_api_get_harmless | intros data].
  apply keeps_bind; [apply sends_trans | | intros _].
  - induction (map _ (res_zones data)) as [|l ls IHl]; cbn [print_all];
      [sends_steps harmless|].
    apply keeps_bind; [apply sends_trans | apply keeps_sends_print | intros _; exact IHl].
  - destruct (Nat.leb (total_pages_or_1 data) page); [sends_steps harmless | apply IH].
Qed.

Variable strip : string -> string.

(** X17: with [--set-github-a] or [--set-github-aaaa] on the command line,
    a run of [update_pages_dns.py] never writes a CNAME record at the apex:
    whatever the other flags (also [--set-apex-cname] and [--pages-host]),
    in both modes and whatever the provider answers, no request it sends
    creates or replaces a CNAME at the name of the zone. *)
Theorem github_flags_never_write_an_apex_cname (fuel : nat)
  (env_dns_only env_api_token : option string) (getpass : string) (args : Args)
  (w : World) :
  a_domain args = domain ->
  a_set_github_a args || a_set_github_aaaa args = true ->
  sends (no_cname_at domain) w
    (snd (main strip fuel env_dns_only env_api_token getpass args w)).
Proof.
  intros Hd Hflag. revert w.
  change (keeps (sends (no_cname_at domain))
            (main strip fuel env_dns_only env_api_token getpass args)).
  unfold main. destruct (String.eqb _ ""); [sends_steps harmless|].
  destruct (a_list_zones args).
  { apply keeps_bind; [apply sends_trans | apply keeps_sends_print | intros _].
    apply list_zones_loop_harmless. }
  unfold main_replace_apex, main_apex_cname, main_www, main_set_apex_a,
    main_clear_apex_aaaa, main_purge_other_cnames, main_purge_a_and_cname, main_github.
  rewrite Hflag, Hd, andb_false_r. cbn [negb].
  unfold create_a_record, api_post, check.
  repeat first
    [ apply pages_get_dns_records_harmless
    | apply delete_or_report_harmless
    | apply upsert_www_harmless
    | apply create_each_harmless
    | apply pages_api_get_harmless; reflexivity
    | apply keeps_ret; apply sends_refl
    | apply keeps_raise; apply sends_refl
    | apply keeps_sends_print
    | apply keeps_sends_request; solve [harmless]
    | apply keeps_bind; [apply sends_trans | | intros ?]
    | match goal with
      | |- keeps _ (match ?x with _ => _ end) => destruct x
      end ].
Qed.

End NoApexCname.

Lemma github_flags_never_write_an_apex_cname_witness :
  sends (no_cname_at "example.org") apex_cname_zone
    (snd (UpdatePagesDns.main (fun s => s) 1 None None "" everything_at_once
            apex_cname_zone))
  /\ length (mutations (new_calls apex_cname_zone
                (snd (UpdatePagesDns.main (fun s => s) 1 None None "" everything_at_once
                        apex_cname_zone)))) = 10.
Proof.
  split; [|vm_compute; reflexivity].
  apply (github_flags_never_write_an_apex_cname "example.org" (fun s => s) 1 None None ""
           everything_at_once apex_cname_zone); reflexivity.
Defined.

Section ValidAddresses.

Import UpdateDns.

Variable strip : string -> string.
Variable IPv4Address : string -> bool.
Variable IPv6Address : string -> bool.

Let valid := writes_valid_address IPv4Address IPv6Address.

Lemma ud_api_sends (verb : string) (rq : Request) :
  valid rq -> keeps (sends valid) (rp <- request rq ;; check verb rp).
Proof.
  intros H. apply keeps_bind; [apply sends_trans | now apply keeps_sends_request | intros rp].
  unfold check. sends_steps fail.
Qed.

Lemma update_or_create_sends (zone_id : string) (payload_template : Payload)
  (dry_run : bool) :
  (p_type payload_template = "A" -> IPv4Address (p_content payload_template) = true) ->
  (p_type payload_template = "AAAA" -> IPv6Address (p_content payload_template) = true) ->
  keeps (sends valid) (update_or_create zone_id payload_template dry_run).
Proof.
  intros H4 H6. unfold update_or_create.
  apply keeps_bind; [apply sends_trans | | intros existing].
  { unfold get_dns_records, api_get.
    apply keeps_bind; [apply sends_trans | now apply ud_api_sends | intros data].
    sends_steps fail. }
  assert (Hp : forall l results,
             keeps (sends valid)
               (process_existing zone_id payload_template dry_run l results)).
  { induction l as [|rec rest IH]; intros results; cbn [process_existing].
    - sends_steps fail.
    - destruct (unchanged payload_template rec); [apply IH|].
      destruct dry_run; [apply IH|].
      apply keeps_bind; [apply sends_trans | | intros u; apply IH].
      apply ud_api_sends. split; assumption. }
  destruct existing as [|rec l].
  - destruct dry_run; [sends_steps fail|].
    apply keeps_bind; [apply sends_trans | | intros c; sends_steps fail].
    apply ud_api_sends. split; assumption.
  - apply keeps_bind; [apply sends_trans | apply Hp | intros r; sends_steps fail].
Qed.

Lemma update_or_create_mx_txt_sends (zone_id name content : string) (dry_run : bool)
  (record_type : string) (priority : Z) :
  record_type <> "A" -> record_type <> "AAAA" ->
  keeps (sends valid)
    (update_or_create_mx_txt zone_id name content dry_run record_type priority).
Proof.
  intros HA HAAAA. unfold update_or_create_mx_txt.
  apply keeps_bind; [apply sends_trans | | intros existing].
  { unfold get_dns_records, api_get.
    apply keeps_bind; [apply sends_trans | now apply ud_api_sends | intros data].
    sends_steps fail. }
  destruct (find_exact record_type content priority existing); [sends_steps fail|].
  destruct dry_run; [sends_steps fail|].
  apply keeps_bind; [apply sends_trans | | intros c; sends_steps fail].
  apply ud_api_sends. split; cbn [p_type]; intros H; contradiction.
Qed.

(** What the argument checks establish for an update or create. *)
Lemma validate_args_address (args : Args) (w w1 : World) :
  validate_args IPv4Address IPv6Address args w = (Ok tt, w1) ->
  a_delete args = false -> a_search args = false ->
  match a_type args with
  | Some A => IPv4Address (text (a_ip args)) = true
  | Some AAAA => IPv6Address (text (a_ip args)) = true
  | _ => True
  end.
Proof.
  unfold validate_args, validate_ip, exit2, bind, print. intros H Hd Hs.
  rewrite Hd, Hs in H.
  destruct (a_type args) as [[]|]; try exact I;
    cbn [is_ip_type is_cname is_mx_txt andb] in H;
    repeat match type of H with
           | context [if ?b then _ else _] => destruct b eqn:?
           end; try discriminate H; reflexivity.
Qed.

Lemma main_body_sends (args : Args) (proxied : bool) :
  (a_delete args = false -> a_search args = false ->
   match a_type args with
   | Some A => IPv4Address (text (a_ip args)) = true
   | Some AAAA => IPv6Address (text (a_ip args)) = true
   | _ => True
   end) ->
  keeps (sends valid) (main_body args proxied).
Proof.
  intros Hv. unfold main_body.
  apply keeps_bind; [apply sends_trans | | intros zone_id].
  { unfold get_zone_id, api_get.
    apply keeps_bind; [apply sends_trans | now apply ud_api_sends | intros data].
    sends_steps fail. }
  destruct (a_delete args).
  { apply keeps_bind; [apply sends_trans | | intros r; sends_steps fail].
    unfold delete_dns_record. destruct (a_dry_run args); [sends_steps fail|].
    apply keeps_bind; [apply sends_trans | now apply ud_api_sends | intros r].
    sends_steps fail. }
  destruct (a_search args).
  { apply keeps_bind; [apply sends_trans | | intros r; sends_steps fail].
    unfold get_dns_records, api_get.
    apply keeps_bind; [apply sends_trans | now apply ud_api_sends | intros data].
    sends_steps fail. }
  specialize (Hv eq_refl eq_refl).
  unfold update_or_create_records, update_or_create_cname.
  destruct (a_type args) as [[]|];
    try (apply keeps_bind; [apply sends_trans | | intros r]);
    try solve [sends_steps fail];
    try (apply update_or_create_sends; cbn [p_type p_content type_name];
         solve [auto | intros; discriminate]);
    apply update_or_create_mx_txt_sends; discriminate.
Qed.

(** X18: [update_dns.py] never writes an address it did not validate: in
    every run, whatever the arguments and whatever the provider answers,
    each request that creates or updates an A record carries an address the
    IPv4 parser accepts, and each one for an AAAA record an address the IPv6
    parser accepts. *)
Theorem update_dns_writes_only_validated_addresses (env : Env) (args : Args)
  (w : World) :
  sends (writes_valid_address IPv4Address IPv6Address) w
    (snd (main strip IPv4Address IPv6Address env args w)).
Proof.
  rewrite update_dns_main_unfold.
  pose proof (validate_args_calls IPv4Address IPv6Address args w) as Hc.
  pose proof (validate_args_address args w) as Hv.
  destruct (validate_args IPv4Address IPv6Address args w) as [[[]|e] w1];
    cbn [snd] in *.
  2: { exists []. rewrite app_nil_r. split; [exact Hc | constructor]. }
  assert (Hw1 : sends valid w w1).
  { exists []. rewrite app_nil_r. split; [exact Hc | constructor]. }
  destruct (a_no_proxy args && a_proxied args); [exact Hw1|].
  destruct (String.eqb _ ""); [exact Hw1|].
  apply (sends_trans _ _ _ _ Hw1).
  pose proof (main_body_sends args (a_proxied args && negb (a_no_proxy args))
                (Hv w1 eq_refl) w1) as Hb.
  unfold exit1_on_api_error.
  destruct (main_body args (a_proxied args && negb (a_no_proxy args)) w1)
    as [[o|[]] w2]; exact Hb.
Qed.

End ValidAddresses.

Section ApexRemovals.

Import UpdatePagesDns.

(** X19: what [--replace-apex] and [--clear-apex-aaaa] remove.  On a zone
    whose records have distinct identifiers and whose apex records fit in
    the page a lookup reads, an apply run of the block that ends without
    error has removed exactly the A and AAAA records of the apex (for
    [--clear-apex-aaaa]: exactly the AAAA records of the apex); every other
    record is kept as it was and in order, and nothing is added. *)
Theorem apex_removals_remove_exactly (args : Args) (zone_id : string) (w : World) :
  a_dry_run args = false ->
  NoDup (map r_id (w_recs w)) ->
  (forall ty, length (records_at ty (a_domain args) (w_recs w)) <= w_page_size w) ->
  (a_replace_apex args = true ->
   fst (main_replace_apex args zone_id w) = Ok tt ->
   w_recs (snd (main_replace_apex args zone_id w))
   = filter (fun r => negb (String.eqb (r_name r) (a_domain args)
                            && (String.eqb (r_type r) "A"
                                || String.eqb (r_type r) "AAAA")))
            (w_recs w))
  /\ (a_clear_apex_aaaa args = true ->
      fst (main_clear_apex_aaaa args zone_id w) = Ok tt ->
      w_recs (snd (main_clear_apex_aaaa args zone_id w))
      = filter (fun r => negb (String.eqb (r_name r) (a_domain args)
                               && String.eqb (r_type r) "AAAA"))
               (w_recs w)).
Proof.
  intros Hdry Hnd Hfit. split; intros Hflag Hok.
  - destruct (main_replace_apex args zone_id w) as [res w'] eqn:Hrun.
    cbn [fst snd] in *. subst res.
    unfold main_replace_apex in Hrun. rewrite Hflag, Hdry in Hrun.
    apply bind_ok_inv in Hrun. destruct Hrun as (a & w1 & Ha & Hrun).
    apply listing_ok in Ha; [|apply Hfit]. destruct Ha as (Ha & Hr1 & Hp1).
    apply bind_ok_inv in Hrun. destruct Hrun as (aaaa & w2 & Haaaa & Hdel).
    apply listing_ok in Haaaa; [|rewrite Hr1, Hp1; apply Hfit].
    destruct Haaaa as (Haaaa & Hr2 & Hp2).
    apply delete_or_report_apply_ok in Hdel. destruct Hdel as [Hr3 _].
    rewrite Hr3, Hr2, Hr1. unfold ids_of.
    apply (without_ids_of_selected
             (fun r => String.eqb (r_name r) (a_domain args)
                       && (String.eqb (r_type r) "A" || String.eqb (r_type r) "AAAA")));
      [exact Hnd|].
    intros r. rewrite Ha, Haaaa, Hr1, in_app_iff, !in_records_at.
    rewrite andb_true_iff, orb_true_iff, !String.eqb_eq. tauto.
  - destruct (main_clear_apex_aaaa args zone_id w) as [res w'] eqn:Hrun.
    cbn [fst snd] in *. subst res.
    unfold main_clear_apex_aaaa in Hrun. rewrite Hflag, Hdry in Hrun.
    apply bind_ok_inv in Hrun. destruct Hrun as (aaaa & w1 & Haaaa & Hdel).
    apply listing_ok in Haaaa; [|apply Hfit]. destruct Haaaa as (Haaaa & Hr1 & Hp1).
    apply delete_or_report_apply_ok in Hdel. destruct Hdel as [Hr2 _].
    rewrite Hr2, Hr1. unfold ids_of.
    apply (without_ids_of_selected
             (fun r => String.eqb (r_name r) (a_domain args)
                       && String.eqb (r_type r) "AAAA"));
      [exact Hnd|].
    intros r. rewrite Haaaa, in_records_at.
    rewrite andb_true_iff, !String.eqb_eq. tauto.
Qed.

End ApexRemovals.

Lemma apex_removals_remove_exactly_witness :
  w_recs (snd (UpdatePagesDns.main_replace_apex replace_apex "z1" dual_stack_zone))
  = [www_a]
  /\ length (w_recs (snd (UpdatePagesDns.main_clear_apex_aaaa clear_apex_aaaa "z1"
                            dual_stack_zone))) = 2.
Proof.
  split; [|vm_compute; reflexivity].
  destruct (apex_removals_remove_exactly replace_apex "z1" dual_stack_zone) as [H _].
  - reflexivity.
  - unfold dual_stack_zone, dual_stack, www_a. cbn [w_recs map r_id].
    repeat (constructor; [cbn [In]; intuition discriminate|]). constructor.
  - intros ty. eapply Nat.le_trans; [apply filter_length_le|].
    cbn. lia.
  - rewrite H; [vm_compute; reflexivity | reflexivity | vm_compute; reflexivity].
Defined.

(* ------------------------------------------------------------------ *)
(** ** export_zone_dns_summary.py: the counts of a row *)

Section RowCounts.

Import ExportZoneDnsSummary.

Lemma dns_records_quiet (zid : string) (q : Params) (w : World) :
  quiet w ->
  zid = w_zone_id w ->
  dns_records zid q w
  = (Ok (page_slice (page_len w q) (page_no q) (filter (matches_params q) (w_recs w))),
     log_call (GET_dns_records zid q) w).
Proof.
  intros Hq ->. unfold dns_records, api_get, bind.
  rewrite (request_records_quiet q w Hq). reflexivity.
Qed.

Lemma get_zone_id_by_name_quiet (w : World) :
  quiet w ->
  get_zone_id_by_name (w_zone_name w) w
  = (Ok (Some (w_zone_id w)), log_call (GET_zones (w_zone_name w)) w).
Proof.
  intros Hq. unfold get_zone_id_by_name, api_get, bind, request, serve.
  destruct (w_faults w) as [|[f|] t] eqn:E;
    [| unfold quiet in Hq; rewrite E in Hq; inversion Hq; discriminate |];
    simpl; rewrite String.eqb_refl; reflexivity.
Qed.

Lemma filter_out_length (records : list DnsRecord) (names : list string) :
  length (filter_out records names) <= length records.
Proof. apply filter_length_le. Qed.

Lemma first_hundred_length (w : World) (ty : string) :
  length (first_hundred w ty) <= 100.
Proof.
  unfold first_hundred. rewrite length_firstn.
  eapply Nat.le_trans; [apply Nat.le_min_l | apply Nat.le_min_l].
Qed.

(** X20: the three counts of a summary row are taken from one page.  When
    the provider injects no failure, [collect_zone_summary] returns a row
    whose counts of other A, AAAA and CNAME records are the numbers of
    records, among the first 100 of the type that the provider lists, at
    names other than the apex (and, for CNAME, other than [www]); so no
    count exceeds 100, however many records the zone holds. *)
Theorem collect_zone_summary_counts_one_page (zone_name : string) (w : World) :
  quiet w ->
  zone_name = w_zone_name w ->
  w_zone_id w <> "" ->
  exists row,
    fst (collect_zone_summary zone_name None w) = Ok row
    /\ other_a_count row = length (filter_out (first_hundred w "A") [zone_name])
    /\ other_aaaa_count row = length (filter_out (first_hundred w "AAAA") [zone_name])
    /\ other_cname_count row
       = length (filter_out (first_hundred w "CNAME")
                   [zone_name; ("www." ++ zone_name)%string])
    /\ other_a_count row <= 100 /\ other_aaaa_count row <= 100
    /\ other_cname_count row <= 100.
Proof.
  intros Hq -> Hid. apply String.eqb_neq in Hid.
  unfold collect_zone_summary. cbn [truthy].
  rewrite (bind_ok _ (get_zone_id_by_name_quiet w Hq)). cbv beta iota. rewrite Hid.
  repeat match goal with
         | |- context [bind (dns_records ?z ?q) _ ?v] =>
             rewrite (bind_ok _ (dns_records_quiet z q v
                                   ltac:(repeat apply quiet_log_call; exact Hq) eq_refl));
             cbv beta
         end.
  eexists. split; [reflexivity|]. cbn [other_a_count other_aaaa_count other_cname_count].
  assert (Hpage : forall ty v,
             w_recs v = w_recs w -> w_page_size v = w_page_size w ->
             page_slice (page_len v (mkParams (Some ty) None (Some 100) None))
               (page_no (mkParams (Some ty) None (Some 100) None))
               (filter (matches_params (mkParams (Some ty) None (Some 100) None)) (w_recs v))
             = first_hundred w ty).
  { intros ty v Hr Hp. unfold page_slice, page_len, page_no, first_hundred.
    cbn [q_per_page q_page]. rewrite Hr, Hp. reflexivity. }
  rewrite !Hpage by reflexivity.
  repeat split;
    try (eapply Nat.le_trans; [apply filter_out_length | apply first_hundred_length]).
Qed.

End RowCounts.

Lemma collect_zone_summary_counts_one_page_witness :
  exists row,
    fst (ExportZoneDnsSummary.collect_zone_summary "example.org" None cluttered_zone)
    = Ok row
    /\ ExportZoneDnsSummary.other_a_count row = 2
    /\ ExportZoneDnsSummary.other_cname_count row = 1.
Proof.
  destruct (collect_zone_summary_counts_one_page "example.org" cluttered_zone)
    as (row & Hrow & Ha & _ & Hc & _).
  - constructor.
  - reflexivity.
  - discriminate.
  - exists row. split; [exact Hrow|]. split.
    + rewrite Ha. vm_compute. reflexivity.
    + rewrite Hc. vm_compute. reflexivity.
Defined.

(* ------------------------------------------------------------------ *)
(** ** export_zone_a_records.py *)

Lemma serve_quiet (rq : Request) (w : World) :
  quiet w -> serve rq w = handle rq (log_call rq w).
Proof.
  intros Hq. unfold serve.
  destruct (w_faults w) as [|[f|] t] eqn:E; try reflexivity.
  unfold quiet in Hq. rewrite E in Hq. inversion Hq. discriminate.
Qed.

Section FirstARecord.

Import ExportZoneARecords.

Lemma a_records_api_get_read_only (rq : Request) :
  is_mutating rq = false -> keeps read_only (api_get rq).
Proof.
  intros H. unfold api_get.
  apply (keeps_bind read_only read_only_trans);
    [now apply keeps_request_read | intros rp].
  destruct rp as [|r]; keeps_read_only.
Qed.

Lemma a_records_main_read_only (fuel : nat) : keeps read_only (main fuel).
Proof.
  unfold main.
  apply (keeps_bind read_only read_only_trans).
  { unfold list_all_zones. generalize 1, (@nil ZoneInfo).
    induction fuel as [|fuel IH]; intros page zones; cbn [list_all_zones_loop];
      [keeps_read_only|].
    apply (keeps_bind read_only read_only_trans);
      [now apply a_records_api_get_read_only | intros data].
    destruct (Nat.leb (total_pages_or_1 data) page); [keeps_read_only | apply IH]. }
  intros zones.
  apply (keeps_bind read_only read_only_trans).
  { generalize (@nil Row). induction zones as [|z rest IH]; intros rows; cbn [main_rows];
      [keeps_read_only|].
    apply (keeps_bind read_only read_only_trans); [|intros rec; apply IH].
    unfold first_a_record.
    apply (keeps_bind read_only read_only_trans);
      [now apply a_records_api_get_read_only | intros data; keeps_read_only]. }
  intros rows.
  apply (keeps_bind read_only read_only_trans); [apply keeps_print_read_only | intros _].
  apply (keeps_bind read_only read_only_trans); [|intros _; keeps_read_only].
  induction (firstn 10 rows) as [|r rest IH]; cbn [print_rows]; [keeps_read_only|].
  apply (keeps_bind read_only read_only_trans);
    [apply keeps_print_read_only | intros _; exact IH].
Qed.

(** X21: the row [export_zone_a_records.py] writes for a zone names the
    first A record in the order of the provider, whatever its name: when no
    failure is injected, [main] returns one row for the zone, with the name
    and the content of the first of all its A records, or with two empty
    cells when the zone has none; and it sends only GET requests. *)
Theorem export_a_records_takes_the_first (fuel : nat) (w : World) :
  quiet w ->
  0 < w_page_size w ->
  fst (main (S fuel) w)
  = Ok [match filter (fun r => String.eqb (r_type r) "A") (w_recs w) with
        | r :: _ => mkRow (w_zone_name w) (w_zone_id w) (r_name r) (r_content r)
        | [] => mkRow (w_zone_name w) (w_zone_id w) "" ""
        end]
  /\ read_only w (snd (main (S fuel) w)).
Proof.
  intros Hq Hps. split; [|apply a_records_main_read_only].
  unfold main, list_all_zones. cbn [list_all_zones_loop].
  assert (Hzones : api_get (GET_zone_list 50 1) w
                   = (Ok (mkResponse 200 true [mkZone (w_zone_name w) (w_zone_id w)] []
                            (Some 1)),
                      log_call (GET_zone_list 50 1) w)).
  { unfold api_get, bind, request. rewrite (serve_quiet _ _ Hq). reflexivity. }
  rewrite (bind_ok _ (bind_ok _ Hzones)). cbv beta.
  cbn [res_zones app total_pages_or_1 res_total_pages Nat.leb ret].
  set (w0 := log_call (GET_zone_list 50 1) w).
  cbn [main_rows z_id z_name].
  set (q := mkParams (Some "A") None (Some 1) (Some 1)).
  assert (Hfirst : first_a_record (w_zone_id w) w0
                   = (Ok (hd_error (filter (matches_params q) (w_recs w))),
                      log_call (GET_dns_records (w_zone_id w) q) w0)).
  { unfold first_a_record, api_get, bind.
    change (w_zone_id w) with (w_zone_id w0). fold q.
    rewrite (request_records_quiet q w0 (quiet_log_call _ _ Hq)).
    cbn [ok status_code success negb Z.ltb Z.compare Pos.compare Pos.compare_cont
         res_records ret].
    unfold page_slice, page_len, page_no. cbn [q q_per_page q_page w0 w_page_size log_call
                                                w_recs Nat.sub Nat.mul skipn].
    destruct (w_page_size w) as [|n]; [lia|].
    replace (Nat.min 1 (S n)) with 1 by lia.
    destruct (filter (matches_params q) (w_recs w)); reflexivity. }
  rewrite (bind_ok _ (bind_ok _ Hfirst)). cbv beta. cbn [app].
  assert (Hfilter : filter (matches_params q) (w_recs w)
                    = filter (fun r => String.eqb (r_type r) "A") (w_recs w)).
  { apply filter_ext. intros r. unfold matches_params. cbn [q q_type q_name opt_eqb].
    apply andb_true_r. }
  rewrite Hfilter.
  destruct (filter (fun r => String.eqb (r_type r) "A") (w_recs w)); reflexivity.
Qed.

End FirstARecord.

Lemma export_a_records_takes_the_first_witness :
  fst (ExportZoneARecords.main 1 staging_first)
  = Ok [ExportZoneARecords.mkRow "example.org" "z1" "staging.example.org" "192.0.2.7"].
Proof.
  destruct (export_a_records_takes_the_first 0 staging_first) as [H _].
  - constructor.
  - simpl. lia.
  - exact H.
Defined.

(* ------------------------------------------------------------------ *)
(** ** enforce_standard.py and audit_compliance.py: [main] *)

Lemma guarded_print (l : Line) : guarded (print l).
Proof. intros w e H. discriminate. Qed.

Lemma guarded_request (rq : Request) : guarded (request rq).
Proof. intros w e. unfold request. destruct (serve rq w). discriminate. Qed.

Ltac guarded_steps :=
  repeat first
    [ apply guarded_ret
    | apply guarded_print
    | apply guarded_request
    | apply guarded_bind; [| intros ?]
    | match goal with
      | |- guarded (match ?x with _ => _ end) => destruct x
      | |- guarded (let _ := _ in _) => cbv zeta
      | |- guarded (raise _) =>
          let H := fresh in intros ? ? H; cbn in H; injection H as <-; exact I
      end ].

Lemma guarded_from_any (w : World) (A : Type) (m : M A) :
  guarded m -> guarded_from w m.
Proof. intros H w1 e _. apply H. Qed.

Lemma guarded_from_bind (w : World) (A B : Type) (m : M A) (k : A -> M B) :
  keeps read_only m ->
  guarded_from w m ->
  (forall a, guarded_from w (k a)) ->
  guarded_from w (bind m k).
Proof.
  intros Hro Hm Hk w1 e Hw1. unfold bind.
  specialize (Hro w1). specialize (Hm w1).
  destruct (m w1) as [[a|e0] w2]; cbn [fst snd] in *.
  - apply Hk. now apply read_only_trans with w1.
  - intros H. injection H as <-. now apply Hm.
Qed.

Lemma guarded_from_bind_last (w : World) (A B : Type) (m : M A) (k : A -> M B) :
  guarded_from w m ->
  (forall a, guarded (k a)) ->
  guarded_from w (bind m k).
Proof.
  intros Hm Hk w1 e Hw1. unfold bind. specialize (Hm w1).
  destruct (m w1) as [[a|e0] w2]; cbn [fst snd] in *.
  - apply Hk.
  - intros H. injection H as <-. now apply Hm.
Qed.

Lemma filter_all (A : Type) (f : A -> bool) (l : list A) :
  (forall x, f x = true) -> filter f l = l.
Proof.
  intros H. induction l as [|a l IH]; [reflexivity|]. cbn [filter].
  now rewrite H, IH.
Qed.

(** The page count that a successful listing reports. *)
Lemma serve_records_pages (zid : string) (q : Params) (w : World) (r : Response) :
  fst (serve (GET_dns_records zid q) w) = Http r ->
  success r = true ->
  res_total_pages r
  = Some (pages_of (page_len w q) (length (filter (matches_params q) (w_recs w)))).
Proof.
  unfold serve.
  destruct (w_faults w) as [|[f|] t]; simpl.
  - destruct (String.eqb_spec zid (w_zone_id w)); simpl; intros H Hs.
    + injection H as <-. reflexivity.
    + injection H as <-. discriminate.
  - destruct f; simpl; intros H Hs; [discriminate|].
    injection H as <-. discriminate.
  - destruct (String.eqb_spec zid (w_zone_id w)); simpl; intros H Hs.
    + injection H as <-. reflexivity.
    + injection H as <-. discriminate.
Qed.

Section EnforceMain.

Import EnforceStandard.

Variable strip : string -> string.

(** Whatever the provider answers, the loop of [get_all_records] stops
    within the pages of the zone. *)
Lemma get_all_records_loop_stops (fuel : nat) :
  forall zone_id page acc w e,
    pages_of (Nat.min 100 (w_page_size w)) (length (w_recs w)) <= page + fuel ->
    fst (get_all_records_loop (S fuel) zone_id page acc w) = Raise e ->
    api_failure e.
Proof.
  induction fuel as [|fuel IH]; intros zone_id page acc w e Hfuel;
    cbn [get_all_records_loop];
    set (rq := GET_dns_records zone_id (mkParams None None (Some 100) (Some page)));
    unfold api_get, bind; rewrite request_world;
    destruct (fst (serve rq w)) as [|r] eqn:Hrp; cbn [raise fst snd];
    try (intros H; injection H as <-; exact I);
    (destruct (negb (ok r)); cbn [raise fst snd];
     [intros H; injection H as <-; exact I|]);
    (destruct (success r) eqn:Hs; cbn [negb raise ret fst snd];
     [|intros H; injection H as <-; exact I]);
    pose proof (serve_records_pages zone_id _ w r Hrp Hs) as Hpages;
    destruct (serve_records_success zone_id _ w r Hrp Hs) as (_ & _ & Hw);
    fold rq in Hw; rewrite Hw;
    rewrite (filter_all _ (matches_params (mkParams None None (Some 100) (Some page))))
      in Hpages by reflexivity;
    cbn [page_len q_per_page] in Hpages;
    unfold total_pages; rewrite Hpages;
    destruct (Nat.leb (pages_of (Nat.min 100 (w_page_size w)) (length (w_recs w))) page)
      eqn:Hlast; try discriminate;
    apply Nat.leb_gt in Hlast.
  - lia.
  - apply IH. cbn [w_page_size w_recs log_call]. lia.
Qed.

Lemma get_all_records_guarded_from (fuel : nat) (zone_id : string) (w : World) :
  pages_to_read w <= fuel ->
  guarded_from w (get_all_records fuel zone_id).
Proof.
  unfold pages_to_read. intros Hfuel w1 e (Hc & Hr & _).
  destruct Hc as (_ & _ & Hps & _).
  destruct fuel as [|fuel]; [lia|].
  unfold get_all_records. apply get_all_records_loop_stops.
  rewrite Hps, Hr. lia.
Qed.

Lemma es_api_get_guarded (rq : Request) : guarded (api_get rq).
Proof. unfold api_get. guarded_steps. Qed.

Lemma ensure_all_guarded (zone_id zone : string) (all_records : list DnsRecord)
  (dry_run : bool) (stds : list RecordDef) :
  forall n, guarded (ensure_all zone_id zone stds all_records dry_run n).
Proof.
  induction stds as [|std rest IH]; intros n; cbn [ensure_all].
  - apply guarded_ret.
  - apply guarded_bind; [|intros c; apply IH].
    unfold ensure_record. destruct (already_exists zone std all_records); [guarded_steps|].
    destruct dry_run; [guarded_steps|].
    apply guarded_bind; [apply guarded_print | intros _].
    intros w e. unfold post_or_report.
    assert (Hp : guarded (api_post (POST_dns_record zone_id (payload_of zone std)))).
    { unfold api_post. guarded_steps. }
    specialize (Hp w).
    destruct (api_post (POST_dns_record zone_id (payload_of zone std)) w) as [[r|e0] w1];
      cbn [fst] in *; [discriminate|].
    specialize (Hp e0 eq_refl).
    destruct e0; try contradiction; cbn [fst]; intros H; injection H as <-; exact I.
Qed.

Lemma enforce_standard_guarded_from (fuel : nat) (zone : string) (dry_run : bool)
  (w : World) :
  pages_to_read w <= fuel ->
  guarded_from w (enforce_standard fuel zone dry_run).
Proof.
  intros Hfuel. unfold enforce_standard.
  do 2 (apply guarded_from_bind;
        [apply keeps_print_read_only | apply guarded_from_any, guarded_print | intros _]).
  apply guarded_from_bind;
    [apply get_zone_id_read_only
    | apply guarded_from_any; unfold get_zone_id; apply guarded_bind;
      [apply es_api_get_guarded | intros ?; guarded_steps]
    | intros zone_id].
  apply guarded_from_bind_last; [now apply get_all_records_guarded_from | intros all].
  apply guarded_bind; [apply ensure_all_guarded | intros n]. guarded_steps.
Qed.

Lemma enforce_main_unfold (fuel : nat) (env_dns_only : option string) (zone : string)
  (token : option string) (dry_run : bool) (w : World) :
  main strip fuel env_dns_only zone token dry_run w =
  if truthy token || truthy env_dns_only then
    match enforce_standard fuel zone dry_run w with
    | (Ok _, w1) => (Ok tt, w1)
    | (Raise (CloudflareError _), w1) =>
        (Raise (SystemExit 1), put_line (L_stderr "Cloudflare API error") w1)
    | (Raise RequestException, w1) =>
        (Raise (SystemExit 1), put_line (L_stderr "Network error") w1)
    | (Raise e, w1) => (Raise e, w1)
    end
  else
    (Raise (SystemExit 2),
     put_line (L_stderr "Set CLOUDFLARE_API_KEY_DNS_ONLY environment variable or use --token argument")
       (put_line (L_stderr "Error: Cloudflare API token required") w)).
Proof.
  unfold main, retrieve_token, bind.
  destruct (truthy token); [reflexivity|].
  destruct (truthy env_dns_only); reflexivity.
Qed.

(** X22: [main] of [enforce_standard.py] only ever adds records, and in
    dry-run mode it only reads.  When neither [--token] nor the environment
    gives a token it ends the process with status 2 before any request.
    Otherwise no exception of an API call escapes it: it returns, or it
    ends the process with status 1 after a Cloudflare or transport error.
    (In the embedding the outcome is reached as soon as the bound on the
    number of pages is at least the number of pages of the zone.) *)
Theorem enforce_main_is_additive_and_exits_cleanly (fuel : nat)
  (env_dns_only : option string) (zone : string) (token : option string)
  (dry_run : bool) (w : World) :
  let run := main strip fuel env_dns_only zone token dry_run w in
  additive w (snd run)
  /\ (dry_run = true -> read_only w (snd run))
  /\ (truthy token || truthy env_dns_only = false ->
      fst run = Raise (SystemExit 2) /\ w_calls (snd run) = w_calls w)
  /\ (pages_to_read w <= fuel ->
      match fst run with
      | Ok _ => truthy token || truthy env_dns_only = true
      | Raise (SystemExit code) =>
          (code = 1%Z /\ truthy token || truthy env_dns_only = true)
          \/ (code = 2%Z /\ truthy token || truthy env_dns_only = false)
      | Raise _ => False
      end).
Proof.
  intros run. subst run. rewrite enforce_main_unfold.
  destruct (truthy token || truthy env_dns_only).
  2: { cbn [fst snd]. split; [|split; [|split]].
       - apply read_only_additive.
         eapply read_only_trans; apply put_line_read_only.
       - intros _. eapply read_only_trans; apply put_line_read_only.
       - intros _. split; reflexivity.
       - intros _. right. split; reflexivity. }
  pose proof (enforce_standard_additive fuel zone dry_run w) as Hadd.
  pose proof (enforce_standard_dry_read_only fuel zone w) as Hro.
  pose proof (fun H => enforce_standard_guarded_from fuel zone dry_run w H w) as Hg.
  assert (Hro' : dry_run = true -> read_only w (snd (enforce_standard fuel zone dry_run w))).
  { intros ->. exact Hro. }
  clear Hro.
  destruct (enforce_standard fuel zone dry_run w) as [[n|e] w1]; cbn [fst snd] in *.
  - split; [exact Hadd|]. split; [exact Hro'|]. split; [discriminate | reflexivity].
  - assert (Hadd1 : forall l, additive w (put_line l w1)).
    { intros l. eapply additive_trans;
        [exact Hadd | apply read_only_additive, put_line_read_only]. }
    assert (Hro1 : forall l, dry_run = true -> read_only w (put_line l w1)).
    { intros l Hd. eapply read_only_trans; [exact (Hro' Hd) | apply put_line_read_only]. }
    destruct e; cbn [fst snd];
      (split; [first [apply Hadd1 | exact Hadd]|]);
      (split; [first [apply Hro1 | exact Hro']|]);
      (split; [discriminate|]); intros Hfuel;
      try (left; split; reflexivity);
      exfalso; exact (Hg Hfuel _ (read_only_refl w) eq_refl).
Qed.

End EnforceMain.

(** A dry run on the zone with a [www] CNAME that points elsewhere, with a
    token on the command line: [main] returns. *)
Lemma enforce_main_is_additive_and_exits_cleanly_witness :
  pages_to_read www_elsewhere_zone <= 1
  /\ match fst (EnforceStandard.main (fun s => s) 1 None "example.org" (Some "token")
                  true www_elsewhere_zone) with
     | Ok _ => EnforceStandard.truthy (Some "token") || EnforceStandard.truthy None = true
     | Raise (SystemExit code) =>
         (code = 1%Z
          /\ EnforceStandard.truthy (Some "token") || EnforceStandard.truthy None = true)
         \/ (code = 2%Z
             /\ EnforceStandard.truthy (Some "token") || EnforceStandard.truthy None = false)
     | Raise _ => False
     end.
Proof.
  assert (H : pages_to_read www_elsewhere_zone <= 1) by (vm_compute; lia).
  split; [exact H|].
  exact (proj2 (proj2 (proj2
           (enforce_main_is_additive_and_exits_cleanly (fun s => s) 1 None "example.org"
              (Some "token") true www_elsewhere_zone))) H).
Defined.

Section AuditMain.

Import AuditCompliance.

Variable strip : string -> string.

Lemma audit_api_get_read_only (rq : Request) :
  is_mutating rq = false -> keeps read_only (api_get rq).
Proof.
  intros H. unfold api_get.
  apply (keeps_bind read_only read_only_trans);
    [now apply keeps_request_read | intros rp].
  destruct rp as [|r]; keeps_read_only.
Qed.

Lemma audit_get_all_records_loop_read_only (fuel : nat) :
  forall zone_id page acc,
    keeps read_only (get_all_records_loop fuel zone_id page acc).
Proof.
  induction fuel as [|fuel IH]; intros zone_id page acc; cbn [get_all_records_loop].
  - keeps_read_only.
  - apply (keeps_bind read_only read_only_trans);
      [now apply audit_api_get_read_only | intros data].
    destruct (Nat.leb (total_pages data) page); [keeps_read_only | apply IH].
Qed.

Lemma audit_zone_read_only (fuel : nat) (zone : string) :
  keeps read_only (audit_zone fuel zone).
Proof.
  unfold audit_zone, check_mx, check_spf, check_dmarc, check_github_a, check_www,
    get_zone_id, get_all_records.
  repeat first
    [ apply (keeps_ret read_only read_only_refl)
    | apply (keeps_raise read_only read_only_refl)
    | apply keeps_print_read_only
    | apply audit_get_all_records_loop_read_only
    | apply audit_api_get_read_only; reflexivity
    | apply (keeps_bind read_only read_only_trans); [| intros ?]
    | match goal with
      | |- keeps _ (match ?x with _ => _ end) => destruct x
      | |- keeps _ (let _ := _ in _) => cbv zeta
      end ].
Qed.

Lemma audit_get_zone_id_read_only (zone : string) : keeps read_only (get_zone_id zone).
Proof.
  unfold get_zone_id.
  apply (keeps_bind read_only read_only_trans);
    [now apply audit_api_get_read_only | intros data].
  destruct (res_zones data); keeps_read_only.
Qed.

Lemma audit_zone_guarded_from (fuel : nat) (zone : string) (w : World) :
  pages_to_read w <= fuel ->
  guarded_from w (audit_zone fuel zone).
Proof.
  intros Hfuel. unfold audit_zone.
  do 2 (apply guarded_from_bind;
        [apply keeps_print_read_only | apply guarded_from_any, guarded_print | intros _]).
  apply guarded_from_bind;
    [apply audit_get_zone_id_read_only
    | apply guarded_from_any; unfold get_zone_id, api_get; guarded_steps
    | intros zone_id].
  apply guarded_from_bind_last.
  { exact (get_all_records_guarded_from fuel zone_id w Hfuel). }
  intros records.
  unfold check_mx, check_spf, check_dmarc, check_github_a, check_www.
  guarded_steps.
Qed.

Lemma audit_zone_code (fuel : nat) (zone : string) (w : World) (code : Z) :
  fst (audit_zone fuel zone w) = Ok code -> code = 0%Z \/ code = 1%Z.
Proof.
  unfold audit_zone.
  repeat lazymatch goal with
         | |- fst (bind ?m ?k ?v) = Ok _ -> _ =>
             let H := fresh "H" in
             destruct (m v) as [[? | ?] ?] eqn:H;
             [ rewrite (bind_ok k H); cbv beta
             | rewrite (bind_raise k H); discriminate ]
         end.
  destruct (Nat.eqb _ 0); unfold bind, print, ret; cbn [fst];
    intros Hc; injection Hc as <-; auto.
Qed.

Lemma audit_main_unfold (fuel : nat) (env_dns_only : option string) (zone : string)
  (token : option string) (w : World) :
  main strip fuel env_dns_only zone token w =
  if truthy token || truthy env_dns_only then
    match audit_zone fuel zone w with
    | (Ok exit_code, w1) => (Raise (SystemExit exit_code), w1)
    | (Raise (CloudflareError _), w1) =>
        (Raise (SystemExit 1), put_line (L_stderr "Cloudflare API error") w1)
    | (Raise RequestException, w1) =>
        (Raise (SystemExit 1), put_line (L_stderr "Network error") w1)
    | (Raise e, w1) => (Raise e, w1)
    end
  else
    (Raise (SystemExit 2),
     put_line (L_stderr "Set CLOUDFLARE_API_KEY_DNS_ONLY environment variable or use --token argument")
       (put_line (L_stderr "Error: Cloudflare API token required") w)).
Proof.
  unfold main, retrieve_token, bind.
  destruct (truthy token); [reflexivity|].
  destruct (truthy env_dns_only); reflexivity.
Qed.

(** X23: [main] of [audit_compliance.py] only reads, and it always ends the
    process with a status that tells the outcome: 2 exactly when neither
    [--token] nor the environment gives a token, and then before any
    request; 0 exactly when a token is given and [audit_zone] ran to its
    end and found no issue; 1 otherwise, that is when it found issues or an
    API call failed.  (In the embedding the status is reached as soon as
    the bound on the number of pages is at least the number of pages of the
    zone.) *)
Theorem audit_main_status_tells_the_outcome (fuel : nat)
  (env_dns_only : option string) (zone : string) (token : option string) (w : World) :
  let run := main strip fuel env_dns_only zone token w in
  read_only w (snd run)
  /\ (truthy token || truthy env_dns_only = false ->
      fst run = Raise (SystemExit 2) /\ w_calls (snd run) = w_calls w)
  /\ (pages_to_read w <= fuel ->
      exists code,
        fst run = Raise (SystemExit code)
        /\ (code = 0 \/ code = 1 \/ code = 2)%Z
        /\ (code = 2%Z <-> truthy token || truthy env_dns_only = false)
        /\ (code = 0%Z <-> truthy token || truthy env_dns_only = true
                           /\ fst (audit_zone fuel zone w) = Ok 0%Z)).
Proof.
  intros run. subst run. rewrite audit_main_unfold.
  destruct (truthy token || truthy env_dns_only).
  2: { cbn [fst snd]. split; [|split].
       - eapply read_only_trans; apply put_line_read_only.
       - intros _. split; reflexivity.
       - intros _. exists 2%Z. split; [reflexivity|]. split; [auto|].
         split; [tauto|]. split; [discriminate | intros [H _]; discriminate]. }
  pose proof (audit_zone_read_only fuel zone w) as Hro.
  pose proof (fun H => audit_zone_guarded_from fuel zone w H w) as Hg.
  pose proof (audit_zone_code fuel zone w) as Hcode.
  destruct (audit_zone fuel zone w) as [[c|e] w1]; cbn [fst snd] in *.
  - split; [exact Hro|]. split; [discriminate|]. intros _. exists c.
    split; [reflexivity|].
    destruct (Hcode c eq_refl) as [->| ->].
    + split; [auto|]. split; [split; discriminate|]. tauto.
    + split; [auto|]. split; [split; discriminate|].
      split; [discriminate | intros [_ H]; discriminate].
  - assert (Hro1 : forall l, read_only w (put_line l w1)).
    { intros l. eapply read_only_trans; [exact Hro | apply put_line_read_only]. }
    destruct e; cbn [fst snd];
      (split; [first [apply Hro1 | exact Hro]|]);
      (split; [discriminate|]); intros Hfuel;
      try (exists 1%Z; split; [reflexivity|]; split; [auto|];
           split; [split; discriminate|];
           split; [discriminate | intros [_ H]; discriminate]);
      exfalso; exact (Hg Hfuel _ (read_only_refl w) eq_refl).
Qed.

End AuditMain.

(** The audit of the empty zone, with a token in the environment: all
    checks fail and the process ends with status 1. *)
Lemma audit_main_status_tells_the_outcome_witness :
  pages_to_read empty_zone <= 1
  /\ exists code,
       fst (AuditCompliance.main (fun s => s) 1 (Some "token") "example.org" None
              empty_zone) = Raise (SystemExit code)
       /\ (code = 0 \/ code = 1 \/ code = 2)%Z
       /\ (code = 2%Z
           <-> AuditCompliance.truthy None || AuditCompliance.truthy (Some "token") = false)
       /\ (code = 0%Z
           <-> AuditCompliance.truthy None || AuditCompliance.truthy (Some "token") = true
               /\ fst (AuditCompliance.audit_zone 1 "example.org" empty_zone) = Ok 0%Z).
Proof.
  assert (H : pages_to_read empty_zone <= 1) by (vm_compute; lia).
  split; [exact H|].
  exact (proj2 (proj2
           (audit_main_status_tells_the_outcome (fun s => s) 1 (Some "token")
              "example.org" None empty_zone)) H).
Defined.

(* ------------------------------------------------------------------ *)
(** ** admin_dns_agent.py *)

Lemma bind_run (A B : Type) (m : M A) (k : A -> M B) (w : World) :
  bind m k w = match m w with
               | (Ok a, w1) => k a w1
               | (Raise e, w1) => (Raise e, w1)
               end.
Proof. reflexivity. Qed.

Lemma stdout_put_line (l : Line) (v w : World) (ls : list Line) :
  w_stdout v = w_stdout w ++ ls -> w_stdout (put_line l v) = w_stdout w ++ (ls ++ [l]).
Proof. intros H. cbn [put_line w_stdout]. rewrite H. now rewrite app_assoc. Qed.

Lemma dollar_prefix (s : string) : String.prefix "$ " ("$ " ++ s) = true.
Proof. cbn. now destruct s. Qed.

Lemma commands_of_lines (w w' : World) (ls : list Line) :
  w_stdout w' = w_stdout w ++ ls -> commands (new_lines w w') = commands ls.
Proof. intros H. now rewrite (new_lines_app w w' ls H). Qed.

Section AdminAgent.

Import AdminDnsAgent.

Variable strip : string -> string.
Variable gh : string.
Variable call : list string -> Z.

Lemma get_cf_token_cases (read_all api_token : option string) (w : World) :
  get_cf_token strip read_all api_token w
  = if truthy read_all || truthy api_token
    then (Ok (strip (text (if truthy read_all then read_all else api_token))), w)
    else (Raise (SystemExit 1), w).
Proof.
  unfold get_cf_token.
  destruct (truthy read_all) eqn:E1; cbn [orb]; [now rewrite E1|].
  now destruct (truthy api_token).
Qed.

Lemma zone_exists_unfold (domain : string) (w : World) :
  zone_exists domain w =
  match serve (GET_zones domain) w with
  | (Transport_error, w1) => (Raise RequestException, w1)
  | (Http r, w1) =>
      if ok r && success r then
        (Ok (negb (Nat.eqb (length (res_zones r)) 0)), w1)
      else (Ok false, put_line (L_message "Cloudflare GET /zones failed") w1)
  end.
Proof.
  unfold zone_exists, cf_get, bind, request.
  destruct (serve (GET_zones domain) w) as [[|r] w1]; [reflexivity|].
  destruct (ok r); [|reflexivity].
  destruct (success r); [|reflexivity].
  cbn [negb andb ret]. now destruct (res_zones r).
Qed.

(** X24: [main] of [admin_dns_agent.py].  When neither environment
    variable gives a token it ends the process with status 1 at once:
    nothing is sent, printed or run.  With a token it sends one request,
    the zone lookup, and changes nothing at the provider itself.  When the
    lookup gets an HTTP reply it runs exactly one [gh workflow run]
    command: the DNS update when the lookup succeeded and found the zone,
    the zone add otherwise, so also when the lookup was refused or reported
    an error; the value of [--apply] is passed on, and the run ends with
    status 1 exactly when the command returns a non-zero status.  When the
    request itself fails, the exception escapes and no command is run. *)
Theorem admin_agent_dispatches_one_workflow (read_all api_token : option string)
  (domain pages_host : string) (apply : bool) (w : World) :
  let run := main strip gh call read_all api_token domain pages_host apply w in
  let apply_str := if apply then "true" else "false" in
  (truthy read_all || truthy api_token = false ->
   run = (Raise (SystemExit 1), w))
  /\ (truthy read_all || truthy api_token = true ->
      read_only w (snd run)
      /\ w_calls (snd run) = w_calls w ++ [GET_zones domain]
      /\ match fst (serve (GET_zones domain) w) with
         | Transport_error =>
             fst run = Raise RequestException
             /\ commands (new_lines w (snd run)) = []
         | Http r =>
             let cmd :=
               if ok r && success r && negb (Nat.eqb (length (res_zones r)) 0) then
                 [gh; "workflow"; "run"; "cloudflare-dns.yml";
                  "-F"; ("domain=" ++ domain)%string;
                  "-F"; ("pages_host=" ++ pages_host)%string;
                  "-F"; "mode=github-pages-a-aaaa";
                  "-F"; ("apply=" ++ apply_str)%string]
               else
                 [gh; "workflow"; "run"; "cloudflare-zone-add.yml";
                  "-F"; ("domain=" ++ domain)%string;
                  "-F"; ("apply=" ++ apply_str)%string] in
             commands (new_lines w (snd run))
             = [("$ " ++ String.concat " " cmd)%string]
             /\ fst run = if Z.eqb (call cmd) 0 then Ok tt else Raise (SystemExit 1)
         end).
Proof.
  intros run apply_str. subst run.
  unfold main. rewrite (bind_run _ _ (get_cf_token strip read_all api_token)).
  rewrite get_cf_token_cases.
  destruct (truthy read_all || truthy api_token); (split; [|intros Htoken]);
    try discriminate; try (intros _; reflexivity).
  cbv iota beta.
  rewrite (bind_run _ _ (zone_exists domain)). rewrite zone_exists_unfold.
  destruct (serve_calls (GET_zones domain) w) as [Hcalls Hout].
  pose proof (serve_read (GET_zones domain) w eq_refl) as Hro.
  destruct (serve (GET_zones domain) w) as [rp w1]; cbn [fst snd] in *.
  assert (Hnil : w_stdout w1 = w_stdout w ++ []) by now rewrite app_nil_r.
  destruct rp as [|r].
  - cbn [fst snd]. rewrite (commands_of_lines w w1 [] Hnil). auto.
  - cbv zeta.
    destruct (ok r && success r); cbn [andb].
    + destruct (res_zones r) as [|z zs]; cbn [length Nat.eqb negb];
        unfold run, bind, print, ret, raise;
        destruct (call _ =? 0)%Z; cbn [negb fst snd];
          (split; [repeat (eapply read_only_trans; [|apply put_line_read_only]); exact Hro|]);
          (split; [exact Hcalls|]);
          (split; [|reflexivity]);
          (erewrite commands_of_lines
             by (repeat apply stdout_put_line; exact Hnil));
          cbn [app]; unfold commands; cbn [flat_map]; rewrite dollar_prefix;
          reflexivity.
    + unfold run, bind, print, ret, raise;
        destruct (call _ =? 0)%Z; cbn [negb fst snd];
          (split; [repeat (eapply read_only_trans; [|apply put_line_read_only]); exact Hro|]);
          (split; [exact Hcalls|]);
          (split; [|reflexivity]);
          (erewrite commands_of_lines
             by (repeat apply stdout_put_line; exact Hnil));
          cbn [app]; unfold commands; cbn [flat_map]; rewrite dollar_prefix;
          reflexivity.
Qed.

End AdminAgent.
